(** * ste-pcm_bluetooth.c: the ALSA/Bluetooth PCM plugin, embedded in Rocq

    The development follows [bluez/audio/ste-pcm_bluetooth.c].  Every C
    function that a property below talks about is written as a Rocq function
    over explicit state (the [bluetooth_data] session) and an explicit
    environment (the answers of the control socket, the data socket, the
    allocator and the clock).  Integers are [Z] with the wrap-around of the
    C type written out; the target is the 32-bit ARM Android build of the
    file (it includes [utils/threads.h] and has Bionic branches), so [int],
    [unsigned int], [long], [unsigned long], [ssize_t] and [size_t] are all
    32 bits wide. *)

From Stdlib Require Import ZArith List Lia Bool.
From Stdlib Require String Ascii.
Import ListNotations.
Import String.StringSyntax.
Local Open Scope Z_scope.

(** ** C integer types *)

Definition uint8_t (x : Z) : Z := x mod 2 ^ 8.
Definition uint16_t (x : Z) : Z := x mod 2 ^ 16.
(** [unsigned int], [unsigned long], [snd_pcm_uframes_t], [size_t], [uint32_t]. *)
Definition uint32_t (x : Z) : Z := x mod 2 ^ 32.
(** [int], [long], [snd_pcm_sframes_t], [ssize_t]. *)
Definition int32_t (x : Z) : Z := (x + 2 ^ 31) mod 2 ^ 32 - 2 ^ 31.

(** Bionic's [htons] and [htonl] on the little-endian target: the result,
    stored in memory, is the argument in big-endian byte order.  The two
    functions below give those bytes, most significant first. *)
Definition htons_bytes (x : Z) : list Z :=
  [Z.shiftr (uint16_t x) 8; Z.land (uint16_t x) 255].
Definition htonl_bytes (x : Z) : list Z :=
  [Z.shiftr (uint32_t x) 24; Z.land (Z.shiftr (uint32_t x) 16) 255;
   Z.land (Z.shiftr (uint32_t x) 8) 255; Z.land (uint32_t x) 255].

(** [MIN] and [MAX] as the macros of the file define them. *)
Definition MIN (x y : Z) : Z := if x <? y then x else y.
Definition MAX (x y : Z) : Z := if x >? y then x else y.

Definition MAX_BITPOOL : Z := 64.
Definition MIN_BITPOOL : Z := 2.
Definition MIN_PERIOD_TIME : Z := 1.
Definition ADJUST_RATE_FACTOR : Z := 50.
Definition UINT_MAX : Z := 2 ^ 32 - 1.
Definition UINT_SECS_MAX : Z := UINT_MAX / 1000000 - 1.

(** ** errno.h (Linux) *)

Definition EINTR : Z := 4.
Definition EIO : Z := 5.
Definition EAGAIN : Z := 11.
Definition ENOMEM : Z := 12.
Definition EINVAL : Z := 22.
Definition ENOSPC : Z := 28.
Definition EPIPE : Z := 32.

(** ** poll.h (Linux) *)

Definition POLLIN : Z := 1.
Definition POLLOUT : Z := 4.
Definition POLLERR : Z := 8.
Definition POLLHUP : Z := 16.
Definition POLLNVAL : Z := 32.

(** ** ipc.h

    [ipc.h] is not part of the translated file.  Its constants are taken as
    parameters: a value of [ipc_h] gives each of them.  [bluez_ipc] below
    holds the values of the header as BlueZ 4 ships it and is used to run the
    model on concrete inputs. *)

Class ipc_h : Type := {
  BT_REQUEST : Z;
  BT_RESPONSE : Z;
  BT_INDICATION : Z;
  BT_ERROR : Z;
  BT_GET_CAPABILITIES : Z;
  BT_OPEN : Z;
  BT_SET_CONFIGURATION : Z;
  BT_NEW_STREAM : Z;
  BT_START_STREAM : Z;
  BT_DELAY_REPORT : Z;
  BT_CAPABILITIES_TRANSPORT_A2DP : Z;
  BT_CAPABILITIES_TRANSPORT_SCO : Z;
  BT_A2DP_SEID_RANGE : Z;
  BT_WRITE_LOCK : Z;
  BT_READ_LOCK : Z;
  BT_SBC_SAMPLING_FREQ_16000 : Z;
  BT_SBC_SAMPLING_FREQ_32000 : Z;
  BT_SBC_SAMPLING_FREQ_44100 : Z;
  BT_SBC_SAMPLING_FREQ_48000 : Z;
  BT_A2DP_CHANNEL_MODE_MONO : Z;
  BT_A2DP_CHANNEL_MODE_DUAL_CHANNEL : Z;
  BT_A2DP_CHANNEL_MODE_STEREO : Z;
  BT_A2DP_CHANNEL_MODE_JOINT_STEREO : Z;
  BT_A2DP_BLOCK_LENGTH_4 : Z;
  BT_A2DP_BLOCK_LENGTH_8 : Z;
  BT_A2DP_BLOCK_LENGTH_12 : Z;
  BT_A2DP_BLOCK_LENGTH_16 : Z;
  BT_A2DP_SUBBANDS_4 : Z;
  BT_A2DP_SUBBANDS_8 : Z;
  BT_A2DP_ALLOCATION_SNR : Z;
  BT_A2DP_ALLOCATION_LOUDNESS : Z;
  (** [sizeof(bt_audio_msg_header_t)] and [sizeof(bt_audio_error_t)] *)
  sizeof_bt_audio_msg_header_t : Z;
  sizeof_bt_audio_error_t : Z;
  (** [bt_audio_strtype] and [bt_audio_strname] return a string or NULL;
      only whether the result is non-NULL is used. *)
  bt_audio_strtype : Z -> bool;
  bt_audio_strname : Z -> bool
}.

Definition bluez_ipc : ipc_h := {|
  BT_REQUEST := 0;
  BT_RESPONSE := 1;
  BT_INDICATION := 2;
  BT_ERROR := 3;
  BT_GET_CAPABILITIES := 0;
  BT_OPEN := 1;
  BT_SET_CONFIGURATION := 2;
  BT_NEW_STREAM := 3;
  BT_START_STREAM := 4;
  BT_DELAY_REPORT := 8;
  BT_CAPABILITIES_TRANSPORT_A2DP := 0;
  BT_CAPABILITIES_TRANSPORT_SCO := 1;
  BT_A2DP_SEID_RANGE := 63;
  BT_WRITE_LOCK := 2;
  BT_READ_LOCK := 1;
  BT_SBC_SAMPLING_FREQ_16000 := 8;
  BT_SBC_SAMPLING_FREQ_32000 := 4;
  BT_SBC_SAMPLING_FREQ_44100 := 2;
  BT_SBC_SAMPLING_FREQ_48000 := 1;
  BT_A2DP_CHANNEL_MODE_MONO := 8;
  BT_A2DP_CHANNEL_MODE_DUAL_CHANNEL := 4;
  BT_A2DP_CHANNEL_MODE_STEREO := 2;
  BT_A2DP_CHANNEL_MODE_JOINT_STEREO := 1;
  BT_A2DP_BLOCK_LENGTH_4 := 8;
  BT_A2DP_BLOCK_LENGTH_8 := 4;
  BT_A2DP_BLOCK_LENGTH_12 := 2;
  BT_A2DP_BLOCK_LENGTH_16 := 1;
  BT_A2DP_SUBBANDS_4 := 2;
  BT_A2DP_SUBBANDS_8 := 1;
  BT_A2DP_ALLOCATION_SNR := 2;
  BT_A2DP_ALLOCATION_LOUDNESS := 1;
  sizeof_bt_audio_msg_header_t := 4;
  sizeof_bt_audio_error_t := 5;
  bt_audio_strtype := fun t => (0 <=? t) && (t <=? 3);
  bt_audio_strname := fun n => (0 <=? n) && (n <=? 8)
|}.

(** ** Data model *)

(** [sbc_capabilities_t]: the fields the file reads and writes.
    All are [uint8_t]. *)
Record sbc_capabilities_t : Type := {
  cap_seid : Z;
  cap_transport : Z;
  cap_channel_mode : Z;
  cap_frequency : Z;
  cap_allocation_method : Z;
  cap_subbands : Z;
  cap_block_length : Z;
  cap_min_bitpool : Z;
  cap_max_bitpool : Z
}.

Definition set_cap_transport (v : Z) (c : sbc_capabilities_t) :=
  {| cap_seid := cap_seid c; cap_transport := v;
     cap_channel_mode := cap_channel_mode c; cap_frequency := cap_frequency c;
     cap_allocation_method := cap_allocation_method c;
     cap_subbands := cap_subbands c; cap_block_length := cap_block_length c;
     cap_min_bitpool := cap_min_bitpool c; cap_max_bitpool := cap_max_bitpool c |}.
Definition set_cap_channel_mode (v : Z) (c : sbc_capabilities_t) :=
  {| cap_seid := cap_seid c; cap_transport := cap_transport c;
     cap_channel_mode := v; cap_frequency := cap_frequency c;
     cap_allocation_method := cap_allocation_method c;
     cap_subbands := cap_subbands c; cap_block_length := cap_block_length c;
     cap_min_bitpool := cap_min_bitpool c; cap_max_bitpool := cap_max_bitpool c |}.
Definition set_cap_frequency (v : Z) (c : sbc_capabilities_t) :=
  {| cap_seid := cap_seid c; cap_transport := cap_transport c;
     cap_channel_mode := cap_channel_mode c; cap_frequency := v;
     cap_allocation_method := cap_allocation_method c;
     cap_subbands := cap_subbands c; cap_block_length := cap_block_length c;
     cap_min_bitpool := cap_min_bitpool c; cap_max_bitpool := cap_max_bitpool c |}.
Definition set_cap_allocation_method (v : Z) (c : sbc_capabilities_t) :=
  {| cap_seid := cap_seid c; cap_transport := cap_transport c;
     cap_channel_mode := cap_channel_mode c; cap_frequency := cap_frequency c;
     cap_allocation_method := v;
     cap_subbands := cap_subbands c; cap_block_length := cap_block_length c;
     cap_min_bitpool := cap_min_bitpool c; cap_max_bitpool := cap_max_bitpool c |}.
Definition set_cap_subbands (v : Z) (c : sbc_capabilities_t) :=
  {| cap_seid := cap_seid c; cap_transport := cap_transport c;
     cap_channel_mode := cap_channel_mode c; cap_frequency := cap_frequency c;
     cap_allocation_method := cap_allocation_method c;
     cap_subbands := v; cap_block_length := cap_block_length c;
     cap_min_bitpool := cap_min_bitpool c; cap_max_bitpool := cap_max_bitpool c |}.
Definition set_cap_block_length (v : Z) (c : sbc_capabilities_t) :=
  {| cap_seid := cap_seid c; cap_transport := cap_transport c;
     cap_channel_mode := cap_channel_mode c; cap_frequency := cap_frequency c;
     cap_allocation_method := cap_allocation_method c;
     cap_subbands := cap_subbands c; cap_block_length := v;
     cap_min_bitpool := cap_min_bitpool c; cap_max_bitpool := cap_max_bitpool c |}.
Definition set_cap_bitpool (lo hi : Z) (c : sbc_capabilities_t) :=
  {| cap_seid := cap_seid c; cap_transport := cap_transport c;
     cap_channel_mode := cap_channel_mode c; cap_frequency := cap_frequency c;
     cap_allocation_method := cap_allocation_method c;
     cap_subbands := cap_subbands c; cap_block_length := cap_block_length c;
     cap_min_bitpool := lo; cap_max_bitpool := hi |}.

(** [struct bluetooth_alsa_config]: the ALSA resource file parameters.
    [device] is the 18-byte address string, kept as its bytes. *)
Record bluetooth_alsa_config : Type := {
  cfg_device : list Z;
  cfg_has_device : bool;
  cfg_transport : Z;
  cfg_has_transport : bool;
  cfg_rate : Z;
  cfg_has_rate : bool;
  cfg_channel_mode : Z;
  cfg_has_channel_mode : bool;
  cfg_allocation_method : Z;
  cfg_has_allocation_method : bool;
  cfg_subbands : Z;
  cfg_has_subbands : bool;
  cfg_block_length : Z;
  cfg_has_block_length : bool;
  cfg_bitpool : Z;
  cfg_has_bitpool : bool;
  cfg_autoconnect : bool
}.

Inductive stream_state : Type :=
| STREAM_CLOSED
| STREAM_OPENED
| STREAM_CONFIGURED
| STREAM_STARTED.

Definition stream_state_eqb (a b : stream_state) : bool :=
  match a, b with
  | STREAM_CLOSED, STREAM_CLOSED
  | STREAM_OPENED, STREAM_OPENED
  | STREAM_CONFIGURED, STREAM_CONFIGURED
  | STREAM_STARTED, STREAM_STARTED => true
  | _, _ => false
  end.

(** What the file reads from [snd_pcm_hw_params_t] through
    [snd_pcm_hw_params_get_rate] and [snd_pcm_hw_params_get_channels]. *)
Record snd_pcm_hw_params_t : Type := {
  hw_rate : Z;
  hw_channels : Z
}.

(** ** sbc.h

    The SBC codec is a separate library.  Its constants and functions are
    parameters: [sbc_init], [sbc_reinit], [sbc_get_codesize] and
    [sbc_encode] are whatever the codec does.  [sbc_encode sbc input
    input_len output_len] returns the function's result (bytes of input
    consumed, or a negative errno), the bytes it stored at [output], the
    value it stored in [*written], and the codec state after the call. *)

Record sbc_t : Type := {
  sbc_frequency : Z;
  sbc_mode : Z;
  sbc_allocation : Z;
  sbc_subbands : Z;
  sbc_blocks : Z;
  sbc_bitpool : Z;
  sbc_priv : list Z          (* private codec memory, opaque to the plugin *)
}.

Class sbc_h : Type := {
  SBC_FREQ_16000 : Z;
  SBC_FREQ_32000 : Z;
  SBC_FREQ_44100 : Z;
  SBC_FREQ_48000 : Z;
  SBC_MODE_MONO : Z;
  SBC_MODE_DUAL_CHANNEL : Z;
  SBC_MODE_STEREO : Z;
  SBC_MODE_JOINT_STEREO : Z;
  SBC_AM_LOUDNESS : Z;
  SBC_AM_SNR : Z;
  SBC_SB_4 : Z;
  SBC_SB_8 : Z;
  SBC_BLK_4 : Z;
  SBC_BLK_8 : Z;
  SBC_BLK_12 : Z;
  SBC_BLK_16 : Z;
  sbc_init : sbc_t -> sbc_t;
  sbc_reinit : sbc_t -> sbc_t;
  sbc_get_codesize : sbc_t -> Z;
  sbc_encode : sbc_t -> list Z -> Z -> Z -> Z * list Z * Z * sbc_t
}.

Definition set_sbc_frequency (v : Z) (s : sbc_t) :=
  {| sbc_frequency := v; sbc_mode := sbc_mode s;
     sbc_allocation := sbc_allocation s; sbc_subbands := sbc_subbands s;
     sbc_blocks := sbc_blocks s; sbc_bitpool := sbc_bitpool s;
     sbc_priv := sbc_priv s |}.
Definition set_sbc_mode (v : Z) (s : sbc_t) :=
  {| sbc_frequency := sbc_frequency s; sbc_mode := v;
     sbc_allocation := sbc_allocation s; sbc_subbands := sbc_subbands s;
     sbc_blocks := sbc_blocks s; sbc_bitpool := sbc_bitpool s;
     sbc_priv := sbc_priv s |}.
Definition set_sbc_allocation (v : Z) (s : sbc_t) :=
  {| sbc_frequency := sbc_frequency s; sbc_mode := sbc_mode s;
     sbc_allocation := v; sbc_subbands := sbc_subbands s;
     sbc_blocks := sbc_blocks s; sbc_bitpool := sbc_bitpool s;
     sbc_priv := sbc_priv s |}.
Definition set_sbc_subbands (v : Z) (s : sbc_t) :=
  {| sbc_frequency := sbc_frequency s; sbc_mode := sbc_mode s;
     sbc_allocation := sbc_allocation s; sbc_subbands := v;
     sbc_blocks := sbc_blocks s; sbc_bitpool := sbc_bitpool s;
     sbc_priv := sbc_priv s |}.
Definition set_sbc_blocks (v : Z) (s : sbc_t) :=
  {| sbc_frequency := sbc_frequency s; sbc_mode := sbc_mode s;
     sbc_allocation := sbc_allocation s; sbc_subbands := sbc_subbands s;
     sbc_blocks := v; sbc_bitpool := sbc_bitpool s;
     sbc_priv := sbc_priv s |}.
Definition set_sbc_bitpool (v : Z) (s : sbc_t) :=
  {| sbc_frequency := sbc_frequency s; sbc_mode := sbc_mode s;
     sbc_allocation := sbc_allocation s; sbc_subbands := sbc_subbands s;
     sbc_blocks := sbc_blocks s; sbc_bitpool := v;
     sbc_priv := sbc_priv s |}.

(** ** rtp.h

    Modelled from the spec: [rtp.h], which declares [struct rtp_header] and
    [struct rtp_payload], is not part of the translated file.  The
    specification gives the fixed header as protocol version, payload type,
    a 16-bit big-endian sequence number, a 32-bit big-endian timestamp and a
    source identifier, followed by a sub-header with the count of codec
    frames: the 12-byte RTP header and the one-byte payload header of SBC,
    in which the frame count is a bit-field that starts at the least
    significant bit.  The width of that bit-field is not given; it is the
    parameter [frame_count_bits], and [bluez_rtp] holds the 4 bits of the
    header as BlueZ ships it. *)

Definition sizeof_rtp_header : Z := 12.
Definition sizeof_rtp_payload : Z := 1.
(** The fill of the wire buffer when it holds the headers only. *)
Definition header_size : Z := sizeof_rtp_header + sizeof_rtp_payload.

Class rtp_h : Type := {
  frame_count_bits : Z
}.

Definition bluez_rtp : rtp_h := {| frame_count_bits := 4 |}.

(** ** Memory

    A buffer is the list of its bytes; a pointer into it is an offset.
    [memcpy dst off src] stores [src] at [dst + off]; [memread buf off n]
    reads [n] bytes at [buf + off]; [memset0 dst n] is [memset(dst, 0, n)].
    C gives no meaning to an access past the end of the object.  The
    functions below are total all the same: such a store makes the list
    longer and such a load reads zeros, so that a buffer longer than its
    allocation tells that the run has stored past its end, where the
    program overflows the heap block.  The theorems about transfers are
    stated for sessions whose buffers are allocated and large enough
    ([in_bounds] below) and show that both buffers keep their lengths: on
    those runs no access is outside a buffer. *)

Definition memcpy (dst : list Z) (off : Z) (src : list Z) : list Z :=
  let o := Z.to_nat off in
  firstn o dst ++ repeat 0 (o - length dst)%nat ++ src
    ++ skipn (o + length src)%nat dst.

Definition memread (buf : list Z) (off n : Z) : list Z :=
  firstn (Z.to_nat n) (skipn (Z.to_nat off) buf ++ repeat 0 (Z.to_nat n)).

Definition memset0 (dst : list Z) (n : Z) : list Z :=
  memcpy dst 0 (repeat 0 (Z.to_nat n)).

(** [realloc(p, n)]: [ok] says whether the allocator succeeds.  On success
    the block has [n] bytes and keeps the old contents up to the smaller of
    the two sizes; on failure the result is NULL. *)
Definition realloc (ok : bool) (p : option (list Z)) (n : Z) : option (list Z) :=
  if ok then
    Some (memread (match p with Some b => b | None => [] end) 0 n)
  else None.

(** ** The session *)

Inductive snd_pcm_stream_t : Type :=
| SND_PCM_STREAM_PLAYBACK
| SND_PCM_STREAM_CAPTURE.

Inductive snd_pcm_state_t : Type :=
| SND_PCM_STATE_OPEN
| SND_PCM_STATE_SETUP
| SND_PCM_STATE_PREPARED
| SND_PCM_STATE_RUNNING
| SND_PCM_STATE_XRUN
| SND_PCM_STATE_DRAINING
| SND_PCM_STATE_PAUSED
| SND_PCM_STATE_SUSPENDED
| SND_PCM_STATE_DISCONNECTED.

(** [snd_pcm_ioplug_t]: the fields of the ALSA handle that the file uses.
    [appl_ptr], [hw_ptr], [period_size] and [buffer_size] are
    [snd_pcm_uframes_t]. *)
Record snd_pcm_ioplug_t : Type := {
  io_stream : snd_pcm_stream_t;
  io_state : snd_pcm_state_t;
  io_appl_ptr : Z;
  io_hw_ptr : Z;
  io_rate : Z;
  io_period_size : Z;
  io_buffer_size : Z;
  io_nonblock : bool
}.

Definition set_io_state (v : snd_pcm_state_t) (io : snd_pcm_ioplug_t) :=
  {| io_stream := io_stream io; io_state := v; io_appl_ptr := io_appl_ptr io;
     io_hw_ptr := io_hw_ptr io; io_rate := io_rate io;
     io_period_size := io_period_size io; io_buffer_size := io_buffer_size io;
     io_nonblock := io_nonblock io |}.

(** [struct bluetooth_a2dp] *)
Record bluetooth_a2dp : Type := {
  sbc_capabilities : sbc_capabilities_t;
  sbc : sbc_t;                      (* Codec data *)
  sbc_initialized : bool;
  codesize : Z;                     (* SBC codesize, unsigned int *)
  samples : Z;                      (* Number of encoded samples, int *)
  a2dp_buffer : option (list Z);    (* Codec transfer buffer *)
  a2dp_count : Z;                   (* Codec transfer buffer counter, unsigned int *)
  nsamples : Z;                     (* Cumulative number of codec samples, int *)
  seq_num : Z;                      (* Cumulative packet sequence, uint16_t *)
  frame_count : Z                   (* Current frames in buffer, int *)
}.

(** [struct bluetooth_data]; the watcher fields, which no function below
    touches, are left out.  [hw_thread] is [true] when a clock thread
    exists. *)
Record bluetooth_data : Type := {
  io : snd_pcm_ioplug_t;
  alsa_config : bluetooth_alsa_config;
  hw_ptr : Z;                       (* volatile snd_pcm_sframes_t *)
  transport : Z;
  link_mtu : Z;                     (* unsigned int *)
  stream_fd : Z;
  server_fd : Z;
  buffer : option (list Z);         (* Encoded transfer buffer *)
  count : Z;                        (* Transfer buffer counter, unsigned int *)
  a2dp : bluetooth_a2dp;
  hw_thread : bool;
  stopped : Z;
  reset : Z;
  a2dp_stream_state : stream_state;
  sink_delay : Z
}.

(** Field updates, one per field: [set_f v r] is [r] after [r.f = v]. *)

Definition set_sbc_capabilities (v : sbc_capabilities_t) (r : bluetooth_a2dp) : bluetooth_a2dp :=
  {| sbc_capabilities := v; sbc := sbc r;
     sbc_initialized := sbc_initialized r; codesize := codesize r;
     samples := samples r; a2dp_buffer := a2dp_buffer r;
     a2dp_count := a2dp_count r; nsamples := nsamples r;
     seq_num := seq_num r; frame_count := frame_count r |}.
Definition set_sbc (v : sbc_t) (r : bluetooth_a2dp) : bluetooth_a2dp :=
  {| sbc_capabilities := sbc_capabilities r; sbc := v;
     sbc_initialized := sbc_initialized r; codesize := codesize r;
     samples := samples r; a2dp_buffer := a2dp_buffer r;
     a2dp_count := a2dp_count r; nsamples := nsamples r;
     seq_num := seq_num r; frame_count := frame_count r |}.
Definition set_sbc_initialized (v : bool) (r : bluetooth_a2dp) : bluetooth_a2dp :=
  {| sbc_capabilities := sbc_capabilities r; sbc := sbc r;
     sbc_initialized := v; codesize := codesize r; samples := samples r;
     a2dp_buffer := a2dp_buffer r; a2dp_count := a2dp_count r;
     nsamples := nsamples r; seq_num := seq_num r;
     frame_count := frame_count r |}.
Definition set_codesize (v : Z) (r : bluetooth_a2dp) : bluetooth_a2dp :=
  {| sbc_capabilities := sbc_capabilities r; sbc := sbc r;
     sbc_initialized := sbc_initialized r; codesize := v;
     samples := samples r; a2dp_buffer := a2dp_buffer r;
     a2dp_count := a2dp_count r; nsamples := nsamples r;
     seq_num := seq_num r; frame_count := frame_count r |}.
Definition set_samples (v : Z) (r : bluetooth_a2dp) : bluetooth_a2dp :=
  {| sbc_capabilities := sbc_capabilities r; sbc := sbc r;
     sbc_initialized := sbc_initialized r; codesize := codesize r;
     samples := v; a2dp_buffer := a2dp_buffer r; a2dp_count := a2dp_count r;
     nsamples := nsamples r; seq_num := seq_num r;
     frame_count := frame_count r |}.
Definition set_a2dp_buffer (v : option (list Z)) (r : bluetooth_a2dp) : bluetooth_a2dp :=
  {| sbc_capabilities := sbc_capabilities r; sbc := sbc r;
     sbc_initialized := sbc_initialized r; codesize := codesize r;
     samples := samples r; a2dp_buffer := v; a2dp_count := a2dp_count r;
     nsamples := nsamples r; seq_num := seq_num r;
     frame_count := frame_count r |}.
Definition set_a2dp_count (v : Z) (r : bluetooth_a2dp) : bluetooth_a2dp :=
  {| sbc_capabilities := sbc_capabilities r; sbc := sbc r;
     sbc_initialized := sbc_initialized r; codesize := codesize r;
     samples := samples r; a2dp_buffer := a2dp_buffer r; a2dp_count := v;
     nsamples := nsamples r; seq_num := seq_num r;
     frame_count := frame_count r |}.
Definition set_nsamples (v : Z) (r : bluetooth_a2dp) : bluetooth_a2dp :=
  {| sbc_capabilities := sbc_capabilities r; sbc := sbc r;
     sbc_initialized := sbc_initialized r; codesize := codesize r;
     samples := samples r; a2dp_buffer := a2dp_buffer r;
     a2dp_count := a2dp_count r; nsamples := v; seq_num := seq_num r;
     frame_count := frame_count r |}.
Definition set_seq_num (v : Z) (r : bluetooth_a2dp) : bluetooth_a2dp :=
  {| sbc_capabilities := sbc_capabilities r; sbc := sbc r;
     sbc_initialized := sbc_initialized r; codesize := codesize r;
     samples := samples r; a2dp_buffer := a2dp_buffer r;
     a2dp_count := a2dp_count r; nsamples := nsamples r; seq_num := v;
     frame_count := frame_count r |}.
Definition set_frame_count (v : Z) (r : bluetooth_a2dp) : bluetooth_a2dp :=
  {| sbc_capabilities := sbc_capabilities r; sbc := sbc r;
     sbc_initialized := sbc_initialized r; codesize := codesize r;
     samples := samples r; a2dp_buffer := a2dp_buffer r;
     a2dp_count := a2dp_count r; nsamples := nsamples r;
     seq_num := seq_num r; frame_count := v |}.

Definition set_io (v : snd_pcm_ioplug_t) (r : bluetooth_data) : bluetooth_data :=
  {| io := v; alsa_config := alsa_config r; hw_ptr := hw_ptr r;
     transport := transport r; link_mtu := link_mtu r;
     stream_fd := stream_fd r; server_fd := server_fd r; buffer := buffer r;
     count := count r; a2dp := a2dp r; hw_thread := hw_thread r;
     stopped := stopped r; reset := reset r;
     a2dp_stream_state := a2dp_stream_state r; sink_delay := sink_delay r |}.
Definition set_alsa_config (v : bluetooth_alsa_config) (r : bluetooth_data) : bluetooth_data :=
  {| io := io r; alsa_config := v; hw_ptr := hw_ptr r;
     transport := transport r; link_mtu := link_mtu r;
     stream_fd := stream_fd r; server_fd := server_fd r; buffer := buffer r;
     count := count r; a2dp := a2dp r; hw_thread := hw_thread r;
     stopped := stopped r; reset := reset r;
     a2dp_stream_state := a2dp_stream_state r; sink_delay := sink_delay r |}.
Definition set_hw_ptr (v : Z) (r : bluetooth_data) : bluetooth_data :=
  {| io := io r; alsa_config := alsa_config r; hw_ptr := v;
     transport := transport r; link_mtu := link_mtu r;
     stream_fd := stream_fd r; server_fd := server_fd r; buffer := buffer r;
     count := count r; a2dp := a2dp r; hw_thread := hw_thread r;
     stopped := stopped r; reset := reset r;
     a2dp_stream_state := a2dp_stream_state r; sink_delay := sink_delay r |}.
Definition set_transport (v : Z) (r : bluetooth_data) : bluetooth_data :=
  {| io := io r; alsa_config := alsa_config r; hw_ptr := hw_ptr r;
     transport := v; link_mtu := link_mtu r; stream_fd := stream_fd r;
     server_fd := server_fd r; buffer := buffer r; count := count r;
     a2dp := a2dp r; hw_thread := hw_thread r; stopped := stopped r;
     reset := reset r; a2dp_stream_state := a2dp_stream_state r;
     sink_delay := sink_delay r |}.
Definition set_link_mtu (v : Z) (r : bluetooth_data) : bluetooth_data :=
  {| io := io r; alsa_config := alsa_config r; hw_ptr := hw_ptr r;
     transport := transport r; link_mtu := v; stream_fd := stream_fd r;
     server_fd := server_fd r; buffer := buffer r; count := count r;
     a2dp := a2dp r; hw_thread := hw_thread r; stopped := stopped r;
     reset := reset r; a2dp_stream_state := a2dp_stream_state r;
     sink_delay := sink_delay r |}.
Definition set_stream_fd (v : Z) (r : bluetooth_data) : bluetooth_data :=
  {| io := io r; alsa_config := alsa_config r; hw_ptr := hw_ptr r;
     transport := transport r; link_mtu := link_mtu r; stream_fd := v;
     server_fd := server_fd r; buffer := buffer r; count := count r;
     a2dp := a2dp r; hw_thread := hw_thread r; stopped := stopped r;
     reset := reset r; a2dp_stream_state := a2dp_stream_state r;
     sink_delay := sink_delay r |}.
Definition set_server_fd (v : Z) (r : bluetooth_data) : bluetooth_data :=
  {| io := io r; alsa_config := alsa_config r; hw_ptr := hw_ptr r;
     transport := transport r; link_mtu := link_mtu r;
     stream_fd := stream_fd r; server_fd := v; buffer := buffer r;
     count := count r; a2dp := a2dp r; hw_thread := hw_thread r;
     stopped := stopped r; reset := reset r;
     a2dp_stream_state := a2dp_stream_state r; sink_delay := sink_delay r |}.
Definition set_buffer (v : option (list Z)) (r : bluetooth_data) : bluetooth_data :=
  {| io := io r; alsa_config := alsa_config r; hw_ptr := hw_ptr r;
     transport := transport r; link_mtu := link_mtu r;
     stream_fd := stream_fd r; server_fd := server_fd r; buffer := v;
     count := count r; a2dp := a2dp r; hw_thread := hw_thread r;
     stopped := stopped r; reset := reset r;
     a2dp_stream_state := a2dp_stream_state r; sink_delay := sink_delay r |}.
Definition set_count (v : Z) (r : bluetooth_data) : bluetooth_data :=
  {| io := io r; alsa_config := alsa_config r; hw_ptr := hw_ptr r;
     transport := transport r; link_mtu := link_mtu r;
     stream_fd := stream_fd r; server_fd := server_fd r; buffer := buffer r;
     count := v; a2dp := a2dp r; hw_thread := hw_thread r;
     stopped := stopped r; reset := reset r;
     a2dp_stream_state := a2dp_stream_state r; sink_delay := sink_delay r |}.
Definition set_a2dp (v : bluetooth_a2dp) (r : bluetooth_data) : bluetooth_data :=
  {| io := io r; alsa_config := alsa_config r; hw_ptr := hw_ptr r;
     transport := transport r; link_mtu := link_mtu r;
     stream_fd := stream_fd r; server_fd := server_fd r; buffer := buffer r;
     count := count r; a2dp := v; hw_thread := hw_thread r;
     stopped := stopped r; reset := reset r;
     a2dp_stream_state := a2dp_stream_state r; sink_delay := sink_delay r |}.
Definition set_hw_thread (v : bool) (r : bluetooth_data) : bluetooth_data :=
  {| io := io r; alsa_config := alsa_config r; hw_ptr := hw_ptr r;
     transport := transport r; link_mtu := link_mtu r;
     stream_fd := stream_fd r; server_fd := server_fd r; buffer := buffer r;
     count := count r; a2dp := a2dp r; hw_thread := v; stopped := stopped r;
     reset := reset r; a2dp_stream_state := a2dp_stream_state r;
     sink_delay := sink_delay r |}.
Definition set_stopped (v : Z) (r : bluetooth_data) : bluetooth_data :=
  {| io := io r; alsa_config := alsa_config r; hw_ptr := hw_ptr r;
     transport := transport r; link_mtu := link_mtu r;
     stream_fd := stream_fd r; server_fd := server_fd r; buffer := buffer r;
     count := count r; a2dp := a2dp r; hw_thread := hw_thread r;
     stopped := v; reset := reset r;
     a2dp_stream_state := a2dp_stream_state r; sink_delay := sink_delay r |}.
Definition set_reset (v : Z) (r : bluetooth_data) : bluetooth_data :=
  {| io := io r; alsa_config := alsa_config r; hw_ptr := hw_ptr r;
     transport := transport r; link_mtu := link_mtu r;
     stream_fd := stream_fd r; server_fd := server_fd r; buffer := buffer r;
     count := count r; a2dp := a2dp r; hw_thread := hw_thread r;
     stopped := stopped r; reset := v;
     a2dp_stream_state := a2dp_stream_state r; sink_delay := sink_delay r |}.
Definition set_a2dp_stream_state (v : stream_state) (r : bluetooth_data) : bluetooth_data :=
  {| io := io r; alsa_config := alsa_config r; hw_ptr := hw_ptr r;
     transport := transport r; link_mtu := link_mtu r;
     stream_fd := stream_fd r; server_fd := server_fd r; buffer := buffer r;
     count := count r; a2dp := a2dp r; hw_thread := hw_thread r;
     stopped := stopped r; reset := reset r; a2dp_stream_state := v;
     sink_delay := sink_delay r |}.
Definition set_sink_delay (v : Z) (r : bluetooth_data) : bluetooth_data :=
  {| io := io r; alsa_config := alsa_config r; hw_ptr := hw_ptr r;
     transport := transport r; link_mtu := link_mtu r;
     stream_fd := stream_fd r; server_fd := server_fd r; buffer := buffer r;
     count := count r; a2dp := a2dp r; hw_thread := hw_thread r;
     stopped := stopped r; reset := reset r;
     a2dp_stream_state := a2dp_stream_state r; sink_delay := v |}.

(** ** The environment

    What the plugin does to the outside world is recorded as a list of
    [event]s, in order; what the outside world answers is an argument of the
    function that asks.  A system call's answer is its return value together
    with the [errno] it leaves. *)

Record syscall : Type := {
  sys_ret : Z;
  sys_errno : Z
}.

(** A message built in [buf] and handed to [audioservice_send]. *)
Inductive ipc_body : Type :=
| bt_open_req (destination : list Z) (seid lock : Z)
| bt_set_configuration_req (codec : sbc_capabilities_t)
| bt_start_stream_req.

Record ipc_msg : Type := {
  h_type : Z;
  h_name : Z;
  h_body : ipc_body
}.

(** What one [recv] on the control socket delivers: the return value and
    [errno] of the call, the header of the message, and the payload fields
    the callers read from it. *)
Record ipc_packet : Type := {
  pk_recv : syscall;
  pk_type : Z;
  pk_name : Z;
  pk_posix_errno : Z;       (* bt_audio_error_t, uint8_t *)
  pk_link_mtu : Z;          (* bt_set_configuration_rsp, uint16_t *)
  pk_delay : Z              (* bt_delay_report_ind, uint16_t *)
}.

(** One packet handed to [send] on the data socket: the length argument,
    the bytes at the buffer, and the value [send] returned. *)
Record packet : Type := {
  pkt_len : Z;
  pkt_bytes : list Z;
  pkt_ret : Z
}.

Inductive event : Type :=
| CtlSend (m : ipc_msg)            (* send() on the control socket *)
| CtlRecv (expected_name : Z)      (* recv() on the control socket *)
| Realloc (size : Z) (ok : bool)   (* realloc() of a session buffer *)
| Encode (input : list Z)          (* sbc_encode() on one block *)
| DataSend (p : packet)            (* send() on the data socket *)
| Notify.                          (* write() of one byte to pipefd[1] *)

(** The bytes at a pointer.  A NULL pointer stands as a block of no byte:
    every access through it is past the end in the sense above, where the
    program faults.  A buffer of at least one byte is not NULL. *)
Definition NULL_bytes (p : option (list Z)) : list Z :=
  match p with Some b => b | None => [] end.

Definition land_nonzero (a b : Z) : bool := negb (Z.land a b =? 0).

Record timespec : Type := {
  tv_sec : Z;
  tv_nsec : Z
}.

Definition priv_timespecsub (a b : timespec) : timespec :=
  let s := tv_sec a - tv_sec b in
  let n := tv_nsec a - tv_nsec b in
  if n <? 0 then {| tv_sec := s - 1; tv_nsec := n + 1000000000 |}
  else {| tv_sec := s; tv_nsec := n |}.

(** The receiver's view of the 13 header bytes. *)
Definition rtp_sequence_number (hdr : list Z) : Z :=
  nth 2 hdr 0 * 256 + nth 3 hdr 0.
Definition rtp_timestamp (hdr : list Z) : Z :=
  ((nth 4 hdr 0 * 256 + nth 5 hdr 0) * 256 + nth 6 hdr 0) * 256 + nth 7 hdr 0.
Definition rtp_frame_count {R : rtp_h} (hdr : list Z) : Z :=
  Z.land (nth 12 hdr 0) (Z.ones frame_count_bits).

Section Plugin.

Context {K : ipc_h} {C : sbc_h} {R : rtp_h}.

(** ** Start, stop, pointer *)

(** [pthread_create_ret] is the value [pthread_create] returns when the
    thread has to be created. *)
Definition bluetooth_playback_start (pthread_create_ret : Z)
    (data : bluetooth_data) : Z * bluetooth_data :=
  let data := set_stopped 0 data in
  if hw_thread data then (0, data)
  else
    let err := pthread_create_ret in
    (- err, if err =? 0 then set_hw_thread true data else data).

Definition bluetooth_playback_stop (data : bluetooth_data)
    : Z * bluetooth_data :=
  (0, set_stopped 1 data).

Definition bluetooth_pointer (data : bluetooth_data) : Z :=
  hw_ptr data.

(** ** The control channel *)

Definition audioservice_send (s : syscall) : Z :=
  if sys_ret s >? 0 then 0 else - sys_errno s.

Definition audioservice_recv (pk : ipc_packet) : Z :=
  let ret := sys_ret (pk_recv pk) in
  if ret <? 0 then - sys_errno (pk_recv pk)
  else if ret <? sizeof_bt_audio_msg_header_t then - EINVAL
  else if pk_type pk =? BT_ERROR then
    if ret <? sizeof_bt_audio_error_t then - EINVAL
    else - pk_posix_errno pk
  else if bt_audio_strtype (pk_type pk) && bt_audio_strname (pk_name pk)
  then 0
  else - EINVAL.

Definition audioservice_expect (pk : ipc_packet) (expected_name : Z) : Z :=
  let err := audioservice_recv pk in
  if negb (err =? 0) then err
  else if negb (pk_name pk =? expected_name) then - EINVAL
  else err.

(** ** The audio clock: one turn of the loop of [playback_hw_thread]

    [prev_periods] and [start] are the locals that live across turns.
    [period_time] is a [double], and [periods = 1.0 * dtime / period_time]
    is computed in floating point and truncated: the function
    [periods_of], an argument, stands for that computation. *)

Record hw_locals : Type := {
  prev_periods : Z;                (* unsigned int *)
  start : timespec
}.

(** What one turn reads from outside: the clock at the three calls of
    [clock_gettime] (lines 276, 280, 320), and [data->hw_cancel] at its
    k-th read of the turn. *)
Record hw_clock : Type := {
  clk_reset : timespec;
  clk_cur : timespec;
  clk_rebase : timespec;
  clk_cancel : nat -> bool
}.

(** The per-turn answers of [poll] and of the two [recv] calls of
    [update_delay]. *)
Record hw_poll : Type := {
  poll_ret : syscall;
  poll_revents0 : Z;
  poll_revents1 : Z;
  peek_ret : Z;
  peek_name : Z;
  delay_ret : Z;
  delay_value : Z
}.

Inductive hw_turn : Type :=
| Running (l : hw_locals) (data : bluetooth_data) (tr : list event)
| Exited (data : bluetooth_data) (tr : list event).

(** The [for] loop that writes one byte per elapsed period, with the
    Bionic cancellation points before and after each [write].  [k] counts
    the reads of [hw_cancel]; the result says whether the thread exited. *)
Fixpoint notify_loop (cancel : nat -> bool) (k : nat) (frags : nat)
    (tr : list event) : bool * nat * list event :=
  match frags with
  | O => (false, k, tr)
  | S n =>
    if cancel k then (true, k, tr)
    else
      let tr := tr ++ [Notify] in
      if cancel (S k) then (true, S k, tr)
      else notify_loop cancel (S (S k)) n tr
  end.

Definition update_delay (p : hw_poll) (data : bluetooth_data)
    : bluetooth_data :=
  if (peek_ret p <=? 0) || negb (peek_name p =? BT_DELAY_REPORT) then data
  else if delay_ret p <? 0 then data
  else set_sink_delay (delay_value p) data.

(** Lines 270-322: the pointer update. *)
Definition hw_thread_advance (periods_of : Z -> Z) (clk : hw_clock)
    (l : hw_locals) (data : bluetooth_data) : bool * nat * hw_locals * bluetooth_data * list event :=
  if negb (stopped data =? 0) then (false, O, l, data, [])
  else
    let '(l, data) :=
      if negb (reset data =? 0)
      then ({| prev_periods := 0; start := clk_reset clk |}, set_reset 0 data)
      else (l, data) in
    let delta := priv_timespecsub (clk_cur clk) (start l) in
    let dtime := uint32_t (tv_sec delta * 1000000 + Z.quot (tv_nsec delta) 1000) in
    let periods := uint32_t (periods_of dtime) in
    if periods >? prev_periods l then
      let frags := int32_t (periods - prev_periods l) in
      let h := int32_t (hw_ptr data + uint32_t (frags * io_period_size (io data))) in
      let h := int32_t (uint32_t h mod io_buffer_size (io data)) in
      let data := set_hw_ptr h data in
      let '(exited, k, tr) := notify_loop (clk_cancel clk) O (Z.to_nat frags) [] in
      if exited then (true, k, l, data, tr)
      else
        let l :=
          if uint32_t (tv_sec delta) <? UINT_SECS_MAX
          then {| prev_periods := periods; start := start l |}
          else {| prev_periods := 0; start := clk_rebase clk |} in
        (false, k, l, data, tr)
    else (false, O, l, data, []).

(** Lines 324-350: the sleep in [poll], the delay report, the exit test. *)
Definition playback_hw_thread_turn (periods_of : Z -> Z) (clk : hw_clock)
    (p : hw_poll) (l : hw_locals) (data : bluetooth_data) : hw_turn :=
  let '(exited, k, l, data, tr) := hw_thread_advance periods_of clk l data in
  if exited then Exited data tr
  else
    let ret := sys_ret (poll_ret p) in
    let leave (data : bluetooth_data) := Exited (set_hw_thread false data) tr in
    let go_on (data : bluetooth_data) :=
      if clk_cancel clk k then Exited data tr else Running l data tr in
    if ret <? 0 then
      if negb (sys_errno (poll_ret p) =? EINTR) then leave data
      else go_on data
    else if ret >? 0 then
      let revents := if negb (poll_revents0 p =? 0)
                     then poll_revents0 p else poll_revents1 p in
      if land_nonzero revents (Z.lor POLLERR (Z.lor POLLHUP POLLNVAL))
      then leave data
      else if land_nonzero (poll_revents0 p) POLLIN
           then go_on (update_delay p data)
           else go_on data
    else go_on data.

(** ** [bluetooth_prepare] *)

Record prepare_env : Type := {
  pe_start_send : syscall;          (* send of BT_START_STREAM *)
  pe_start_rsp : ipc_packet;        (* the answer expected as BT_START_STREAM *)
  pe_new_stream : ipc_packet;       (* the answer expected as BT_NEW_STREAM *)
  pe_data_fd : syscall;             (* bt_audio_service_get_data_fd *)
  pe_setsockopt1 : syscall;
  pe_setsockopt2 : syscall;
  pe_pipe_write : Z                 (* write(data->pipefd[1], &c, 1) *)
}.

Definition bt_start_stream_msg : ipc_msg :=
  {| h_type := BT_REQUEST; h_name := BT_START_STREAM;
     h_body := bt_start_stream_req |}.

(** From label [done]: wake up any client polling at us. *)
Definition prepare_done (E : prepare_env) (data : bluetooth_data)
    (tr : list event) : Z * bluetooth_data * list event :=
  let err := pe_pipe_write E in
  if err <? 0 then (err, data, tr ++ [Notify]) else (0, data, tr ++ [Notify]).

(** The result is [None] when [io->period_size] is zero: the division that
    computes [period_count] is then undefined. *)
Definition bluetooth_prepare (E : prepare_env) (data : bluetooth_data)
    : option (Z * bluetooth_data * list event) :=
  if io_period_size (io data) =? 0 then None
  else Some (
    let period_count := uint32_t (io_buffer_size (io data) / io_period_size (io data)) in
    let data := set_reset 0 data in
    let data := if hw_thread data then set_hw_thread false data else data in
    let data :=
      match io_stream (io data) with
      | SND_PCM_STREAM_PLAYBACK => set_hw_ptr 0 data
      | SND_PCM_STREAM_CAPTURE => set_hw_ptr (int32_t (io_period_size (io data))) data
      end in
    if stream_state_eqb (a2dp_stream_state data) STREAM_STARTED
    then prepare_done E data []
    else
      let tr := [CtlSend bt_start_stream_msg] in
      let err := audioservice_send (pe_start_send E) in
      if err <? 0 then (err, data, tr)
      else
        let tr := tr ++ [CtlRecv BT_START_STREAM] in
        let err := audioservice_expect (pe_start_rsp E) BT_START_STREAM in
        if err <? 0 then
          (err,
           if err =? - EAGAIN then set_a2dp_stream_state STREAM_CLOSED data
           else data,
           tr)
        else
          let tr := tr ++ [CtlRecv BT_NEW_STREAM] in
          let err := audioservice_expect (pe_new_stream E) BT_NEW_STREAM in
          if err <? 0 then (err, data, tr)
          else
            let data := set_stream_fd (sys_ret (pe_data_fd E)) data in
            if stream_fd data <? 0 then (- sys_errno (pe_data_fd E), data, tr)
            else
              let started :=
                prepare_done E (set_a2dp_stream_state STREAM_STARTED data) tr in
              if transport data =? BT_CAPABILITIES_TRANSPORT_A2DP then
                if sys_ret (pe_setsockopt1 E) <? 0
                then (- sys_errno (pe_setsockopt1 E), data, tr)
                else started
              else if sys_ret (pe_setsockopt1 E) =? 0 then (0, data, tr)
              else if sys_ret (pe_setsockopt2 E) =? 0 then (0, data, tr)
              else started).

(** ** Hardware parameters *)

Record hw_params_env : Type := {
  he_open_send : syscall;           (* send of BT_OPEN *)
  he_open_rsp : ipc_packet;         (* the answer expected as BT_OPEN *)
  he_conf_send : syscall;           (* send of BT_SET_CONFIGURATION *)
  he_conf_rsp : ipc_packet;         (* the answer expected as BT_SET_CONFIGURATION *)
  he_realloc_data : bool;           (* realloc(data->buffer, link_mtu) succeeds *)
  he_realloc_a2dp : bool;           (* realloc(a2dp->buffer, link_mtu) succeeds *)
  he_delay_ind : ipc_packet         (* the answer expected as BT_DELAY_REPORT *)
}.

Definition stream_lock (data : bluetooth_data) : Z :=
  match io_stream (io data) with
  | SND_PCM_STREAM_PLAYBACK => BT_WRITE_LOCK
  | SND_PCM_STREAM_CAPTURE => BT_READ_LOCK
  end.

(** The two [realloc] calls and the test that follows them, shared by
    both [hw_params] functions (lines 768-776 and 1148-1156). *)
Definition resize_buffers (E : hw_params_env) (data : bluetooth_data)
    : bool * bluetooth_data * list event :=
  let data := set_buffer (realloc (he_realloc_data E) (buffer data) (link_mtu data)) data in
  let data :=
    set_a2dp (set_a2dp_buffer
                (realloc (he_realloc_a2dp E) (a2dp_buffer (a2dp data)) (link_mtu data))
                (a2dp data)) data in
  let tr := [Realloc (link_mtu data) (he_realloc_data E);
             Realloc (link_mtu data) (he_realloc_a2dp E)] in
  match buffer data, a2dp_buffer (a2dp data) with
  | Some _, Some _ => (true, data, tr)
  | _, _ =>
    (false,
     set_a2dp (set_a2dp_buffer None (a2dp data)) (set_buffer None data),
     tr)
  end.

Definition bluetooth_hsp_hw_params (E : hw_params_env)
    (params : snd_pcm_hw_params_t) (data : bluetooth_data)
    : Z * bluetooth_data * list event :=
  let open_req :=
    {| h_type := BT_REQUEST; h_name := BT_OPEN;
       h_body := bt_open_req (cfg_device (alsa_config data))
                   (BT_A2DP_SEID_RANGE + 1) (stream_lock data) |} in
  let tr := [CtlSend open_req] in
  let err := audioservice_send (he_open_send E) in
  if err <? 0 then (err, data, tr)
  else
    let tr := tr ++ [CtlRecv BT_OPEN] in
    let err := audioservice_expect (he_open_rsp E) BT_OPEN in
    if err <? 0 then (err, data, tr)
    else
      let req :=
        {| h_type := BT_REQUEST; h_name := BT_SET_CONFIGURATION;
           h_body := bt_set_configuration_req
                       (set_cap_transport BT_CAPABILITIES_TRANSPORT_SCO
                          {| cap_seid := BT_A2DP_SEID_RANGE + 1; cap_transport := 0;
                             cap_channel_mode := 0; cap_frequency := 0;
                             cap_allocation_method := 0; cap_subbands := 0;
                             cap_block_length := 0; cap_min_bitpool := 0;
                             cap_max_bitpool := 0 |}) |} in
      let tr := tr ++ [CtlSend req] in
      let err := audioservice_send (he_conf_send E) in
      if err <? 0 then (err, data, tr)
      else
        let tr := tr ++ [CtlRecv BT_SET_CONFIGURATION] in
        let err := audioservice_expect (he_conf_rsp E) BT_SET_CONFIGURATION in
        if err <? 0 then (err, data, tr)
        else
          let data := set_transport BT_CAPABILITIES_TRANSPORT_SCO data in
          let data := set_link_mtu (uint16_t (pk_link_mtu (he_conf_rsp E))) data in
          let '(ok, data, tr') := resize_buffers E data in
          let tr := tr ++ tr' in
          if negb ok then (- ENOMEM, data, tr)
          else
            let tr := tr ++ [CtlRecv BT_DELAY_REPORT] in
            let err := audioservice_expect (he_delay_ind E) BT_DELAY_REPORT in
            if err <? 0 then (err, data, tr)
            else (0, set_sink_delay (pk_delay (he_delay_ind E)) data, tr).

Definition default_bitpool (freq mode : Z) : Z :=
  if (freq =? BT_SBC_SAMPLING_FREQ_16000) || (freq =? BT_SBC_SAMPLING_FREQ_32000)
  then 53
  else if freq =? BT_SBC_SAMPLING_FREQ_44100 then
    if (mode =? BT_A2DP_CHANNEL_MODE_MONO)
       || (mode =? BT_A2DP_CHANNEL_MODE_DUAL_CHANNEL) then 31
    else if (mode =? BT_A2DP_CHANNEL_MODE_STEREO)
            || (mode =? BT_A2DP_CHANNEL_MODE_JOINT_STEREO) then 53
    else 53
  else if freq =? BT_SBC_SAMPLING_FREQ_48000 then
    if (mode =? BT_A2DP_CHANNEL_MODE_MONO)
       || (mode =? BT_A2DP_CHANNEL_MODE_DUAL_CHANNEL) then 29
    else if (mode =? BT_A2DP_CHANNEL_MODE_STEREO)
            || (mode =? BT_A2DP_CHANNEL_MODE_JOINT_STEREO) then 51
    else 51
  else 53.

(** The result is the return value and the value left in [*out_rate];
    [None] when the function does not store one. *)
Definition bluetooth_convert_rate_to_a2dp (rate : Z) : Z * option Z :=
  if rate =? 48000 then (0, Some BT_SBC_SAMPLING_FREQ_48000)
  else if rate =? 44100 then (0, Some BT_SBC_SAMPLING_FREQ_44100)
  else if rate =? 32000 then (0, Some BT_SBC_SAMPLING_FREQ_32000)
  else if rate =? 16000 then (0, Some BT_SBC_SAMPLING_FREQ_16000)
  else (-1, None).

(** [bluetooth_a2dp_init] rewrites [data->a2dp.sbc_capabilities] in place;
    the result is the return value and the capabilities as they are left. *)
Definition bluetooth_a2dp_init (cfg : bluetooth_alsa_config)
    (params : snd_pcm_hw_params_t) (cap : sbc_capabilities_t)
    : Z * sbc_capabilities_t :=
  let rate := hw_rate params in
  let channels := hw_channels params in
  match bluetooth_convert_rate_to_a2dp rate with
  | (_, None) => (-1, cap)
  | (_, Some f) =>
    let cap := set_cap_frequency f cap in
    let cap :=
      if cfg_has_channel_mode cfg then set_cap_channel_mode (cfg_channel_mode cfg) cap
      else if channels =? 2 then
        if land_nonzero (cap_channel_mode cap) BT_A2DP_CHANNEL_MODE_JOINT_STEREO
        then set_cap_channel_mode BT_A2DP_CHANNEL_MODE_JOINT_STEREO cap
        else if land_nonzero (cap_channel_mode cap) BT_A2DP_CHANNEL_MODE_STEREO
        then set_cap_channel_mode BT_A2DP_CHANNEL_MODE_STEREO cap
        else if land_nonzero (cap_channel_mode cap) BT_A2DP_CHANNEL_MODE_DUAL_CHANNEL
        then set_cap_channel_mode BT_A2DP_CHANNEL_MODE_DUAL_CHANNEL cap
        else cap
      else
        if land_nonzero (cap_channel_mode cap) BT_A2DP_CHANNEL_MODE_MONO
        then set_cap_channel_mode BT_A2DP_CHANNEL_MODE_MONO cap
        else cap in
    if cap_channel_mode cap =? 0 then (-1, cap)
    else
      let block :=
        if cfg_has_block_length cfg then Some (cfg_block_length cfg)
        else if land_nonzero (cap_block_length cap) BT_A2DP_BLOCK_LENGTH_16
        then Some BT_A2DP_BLOCK_LENGTH_16
        else if land_nonzero (cap_block_length cap) BT_A2DP_BLOCK_LENGTH_12
        then Some BT_A2DP_BLOCK_LENGTH_12
        else if land_nonzero (cap_block_length cap) BT_A2DP_BLOCK_LENGTH_8
        then Some BT_A2DP_BLOCK_LENGTH_8
        else if land_nonzero (cap_block_length cap) BT_A2DP_BLOCK_LENGTH_4
        then Some BT_A2DP_BLOCK_LENGTH_4
        else None in
      match block with
      | None => (-1, cap)
      | Some b =>
        let cap := set_cap_block_length b cap in
        let cap :=
          if cfg_has_subbands cfg then set_cap_subbands (cfg_subbands cfg) cap
          else cap in
        let subbands :=
          if land_nonzero (cap_subbands cap) BT_A2DP_SUBBANDS_8
          then Some BT_A2DP_SUBBANDS_8
          else if land_nonzero (cap_subbands cap) BT_A2DP_SUBBANDS_4
          then Some BT_A2DP_SUBBANDS_4
          else None in
        match subbands with
        | None => (-1, cap)
        | Some s =>
          let cap := set_cap_subbands s cap in
          let cap :=
            if cfg_has_allocation_method cfg
            then set_cap_allocation_method (cfg_allocation_method cfg) cap
            else cap in
          let cap :=
            if land_nonzero (cap_allocation_method cap) BT_A2DP_ALLOCATION_LOUDNESS
            then set_cap_allocation_method BT_A2DP_ALLOCATION_LOUDNESS cap
            else if land_nonzero (cap_allocation_method cap) BT_A2DP_ALLOCATION_SNR
            then set_cap_allocation_method BT_A2DP_ALLOCATION_SNR cap
            else cap in
          let '(min_bitpool, max_bitpool) :=
            if cfg_has_bitpool cfg then (cfg_bitpool cfg, cfg_bitpool cfg)
            else (MAX MIN_BITPOOL (cap_min_bitpool cap),
                  MIN (default_bitpool (cap_frequency cap) (cap_channel_mode cap))
                      (cap_max_bitpool cap)) in
          (0, set_cap_bitpool min_bitpool max_bitpool cap)
        end
      end
  end.

Definition bluetooth_a2dp_setup (a2dp : bluetooth_a2dp) : bluetooth_a2dp :=
  let active_capabilities := sbc_capabilities a2dp in
  let s := if sbc_initialized a2dp then sbc_reinit (sbc a2dp)
           else sbc_init (sbc a2dp) in
  let s := if land_nonzero (cap_frequency active_capabilities) BT_SBC_SAMPLING_FREQ_16000
           then set_sbc_frequency SBC_FREQ_16000 s else s in
  let s := if land_nonzero (cap_frequency active_capabilities) BT_SBC_SAMPLING_FREQ_32000
           then set_sbc_frequency SBC_FREQ_32000 s else s in
  let s := if land_nonzero (cap_frequency active_capabilities) BT_SBC_SAMPLING_FREQ_44100
           then set_sbc_frequency SBC_FREQ_44100 s else s in
  let s := if land_nonzero (cap_frequency active_capabilities) BT_SBC_SAMPLING_FREQ_48000
           then set_sbc_frequency SBC_FREQ_48000 s else s in
  let s := if land_nonzero (cap_channel_mode active_capabilities) BT_A2DP_CHANNEL_MODE_MONO
           then set_sbc_mode SBC_MODE_MONO s else s in
  let s := if land_nonzero (cap_channel_mode active_capabilities) BT_A2DP_CHANNEL_MODE_DUAL_CHANNEL
           then set_sbc_mode SBC_MODE_DUAL_CHANNEL s else s in
  let s := if land_nonzero (cap_channel_mode active_capabilities) BT_A2DP_CHANNEL_MODE_STEREO
           then set_sbc_mode SBC_MODE_STEREO s else s in
  let s := if land_nonzero (cap_channel_mode active_capabilities) BT_A2DP_CHANNEL_MODE_JOINT_STEREO
           then set_sbc_mode SBC_MODE_JOINT_STEREO s else s in
  let s := set_sbc_allocation
             (if cap_allocation_method active_capabilities =? BT_A2DP_ALLOCATION_SNR
              then SBC_AM_SNR else SBC_AM_LOUDNESS) s in
  let s := if cap_subbands active_capabilities =? BT_A2DP_SUBBANDS_4
           then set_sbc_subbands SBC_SB_4 s
           else if cap_subbands active_capabilities =? BT_A2DP_SUBBANDS_8
           then set_sbc_subbands SBC_SB_8 s else s in
  let s := if cap_block_length active_capabilities =? BT_A2DP_BLOCK_LENGTH_4
           then set_sbc_blocks SBC_BLK_4 s
           else if cap_block_length active_capabilities =? BT_A2DP_BLOCK_LENGTH_8
           then set_sbc_blocks SBC_BLK_8 s
           else if cap_block_length active_capabilities =? BT_A2DP_BLOCK_LENGTH_12
           then set_sbc_blocks SBC_BLK_12 s
           else if cap_block_length active_capabilities =? BT_A2DP_BLOCK_LENGTH_16
           then set_sbc_blocks SBC_BLK_16 s else s in
  let s := set_sbc_bitpool (cap_max_bitpool active_capabilities) s in
  let a2dp := set_sbc_initialized true (set_sbc s a2dp) in
  let a2dp := set_codesize (uint32_t (sbc_get_codesize s)) a2dp in
  set_a2dp_count (sizeof_rtp_header + sizeof_rtp_payload) a2dp.

Definition stream_open (E : hw_params_env) (data : bluetooth_data)
    : Z * list event :=
  let open_req :=
    {| h_type := BT_REQUEST; h_name := BT_OPEN;
       h_body := bt_open_req (cfg_device (alsa_config data))
                   (cap_seid (sbc_capabilities (a2dp data))) (stream_lock data) |} in
  let tr := [CtlSend open_req] in
  let err := audioservice_send (he_open_send E) in
  if err <? 0 then (err, tr)
  else (audioservice_expect (he_open_rsp E) BT_OPEN, tr ++ [CtlRecv BT_OPEN]).

Definition bluetooth_configuration_cmp (data : bluetooth_data)
    (params : snd_pcm_hw_params_t) : Z :=
  let cfg := alsa_config data in
  let cap := sbc_capabilities (a2dp data) in
  let rate := hw_rate params in
  match bluetooth_convert_rate_to_a2dp rate with
  | (_, None) => -1
  | (_, Some a2dp_rate) =>
    if negb (cap_frequency cap =? a2dp_rate) then -1
    else if cfg_has_bitpool cfg
            && (negb (cap_max_bitpool cap =? cfg_bitpool cfg)
                || negb (cap_min_bitpool cap =? cfg_bitpool cfg)) then -1
    else if cfg_has_subbands cfg
            && negb (land_nonzero (cfg_subbands cfg) (cap_subbands cap)) then -1
    else if cfg_has_allocation_method cfg
            && negb (land_nonzero (cfg_allocation_method cfg)
                       (cap_allocation_method cap)) then -1
    else if cfg_has_block_length cfg
            && negb (land_nonzero (cfg_block_length cfg) (cap_block_length cap))
    then -1
    else if cfg_has_channel_mode cfg
            && negb (land_nonzero (cfg_channel_mode cfg) (cap_channel_mode cap))
    then -1
    else 0
  end.

(** The request in the words of the specification: the requested
    parameters are the stored negotiated ones, field by field.  A request
    names a rate and a number of channels, and the resource file may force the bitpool,
    the subbands, the allocation method, the block length and the channel
    mode.  A channel mode that is not forced is asked for through the
    number of channels: two channels go with joint stereo, stereo and dual
    channel, any other number with mono. *)
Definition identical_request (data : bluetooth_data)
    (params : snd_pcm_hw_params_t) : Prop :=
  let cfg := alsa_config data in
  let cap := sbc_capabilities (a2dp data) in
  (exists f, bluetooth_convert_rate_to_a2dp (hw_rate params) = (0, Some f)
             /\ cap_frequency cap = f)
  /\ (cfg_has_bitpool cfg = true ->
      cap_min_bitpool cap = cfg_bitpool cfg
      /\ cap_max_bitpool cap = cfg_bitpool cfg)
  /\ (cfg_has_subbands cfg = true -> cap_subbands cap = cfg_subbands cfg)
  /\ (cfg_has_allocation_method cfg = true ->
      cap_allocation_method cap = cfg_allocation_method cfg)
  /\ (cfg_has_block_length cfg = true ->
      cap_block_length cap = cfg_block_length cfg)
  /\ (if cfg_has_channel_mode cfg
      then cap_channel_mode cap = cfg_channel_mode cfg
      else if hw_channels params =? 2
           then In (cap_channel_mode cap)
                  [BT_A2DP_CHANNEL_MODE_JOINT_STEREO;
                   BT_A2DP_CHANNEL_MODE_STEREO;
                   BT_A2DP_CHANNEL_MODE_DUAL_CHANNEL]
           else cap_channel_mode cap = BT_A2DP_CHANNEL_MODE_MONO).



Definition bt_set_configuration_msg (data : bluetooth_data) : ipc_msg :=
  {| h_type := BT_REQUEST; h_name := BT_SET_CONFIGURATION;
     h_body := bt_set_configuration_req
                 (set_cap_transport BT_CAPABILITIES_TRANSPORT_A2DP
                    (sbc_capabilities (a2dp data))) |}.

(** From label [configure] to the end of [bluetooth_a2dp_hw_params]. *)
Definition a2dp_configure (E : hw_params_env) (data : bluetooth_data)
    (tr : list event) : Z * bluetooth_data * list event :=
  let tr := tr ++ [CtlSend (bt_set_configuration_msg data)] in
  let err := audioservice_send (he_conf_send E) in
  if err <? 0 then (err, data, tr)
  else
    let tr := tr ++ [CtlRecv BT_SET_CONFIGURATION] in
    let err := audioservice_expect (he_conf_rsp E) BT_SET_CONFIGURATION in
    if err <? 0 then (err, data, tr)
    else
      let data := set_transport BT_CAPABILITIES_TRANSPORT_A2DP data in
      let data := set_link_mtu (uint16_t (pk_link_mtu (he_conf_rsp E))) data in
      let '(ok, data, tr') := resize_buffers E data in
      let tr := tr ++ tr' in
      if negb ok then (- ENOMEM, data, tr)
      else
        let tr := tr ++ [CtlRecv BT_DELAY_REPORT] in
        let err := audioservice_expect (he_delay_ind E) BT_DELAY_REPORT in
        if err <? 0 then (err, data, tr)
        else
          let data := set_sink_delay (pk_delay (he_delay_ind E)) data in
          let data := set_a2dp (bluetooth_a2dp_setup (a2dp data)) data in
          (0, set_a2dp_stream_state STREAM_CONFIGURED data, tr).

Definition bluetooth_a2dp_hw_params (E : hw_params_env)
    (params : snd_pcm_hw_params_t) (data : bluetooth_data)
    : Z * bluetooth_data * list event :=
  if negb (stream_state_eqb (a2dp_stream_state data) STREAM_CLOSED) then
    (* Check if new configuration is needed. *)
    if negb (bluetooth_configuration_cmp data params =? 0)
    then a2dp_configure E data []
    else (0, data, [])
  else
    let '(err, tr) := stream_open E data in
    if err <? 0 then (err, data, tr)
    else
      let data := set_a2dp_stream_state STREAM_OPENED data in
      let '(err, cap) :=
        bluetooth_a2dp_init (alsa_config data) params
          (sbc_capabilities (a2dp data)) in
      let data := set_a2dp (set_sbc_capabilities cap (a2dp data)) data in
      if err <? 0 then (err, data, tr)
      else a2dp_configure E data tr.

(** ** Transfer: the data socket *)

(** [snd_pcm_channel_area_t]: the application's memory and where the
    samples lie in it ([first] and [step] are in bits). *)
Record snd_pcm_channel_area_t : Type := {
  ar_addr : list Z;
  ar_first : Z;
  ar_step : Z
}.

(** Byte offset of [buff] in [areas->addr]. *)
Definition area_offset (areas : snd_pcm_channel_area_t) (offset : Z) : Z :=
  uint32_t (ar_first areas + uint32_t (ar_step areas * offset)) / 8.

(** What the data socket answers to one [avdtp_write]: [poll] with its
    [revents], and [send]. *)
Record tx_outcome : Type := {
  tx_poll : syscall;
  tx_revents : Z;
  tx_send : syscall
}.

(** [snd] is the answer of [send] should the buffer become full.  A
    division by a [frame_size] of zero is undefined in C; the model gives 0
    there. *)
Definition bluetooth_hsp_write (snd : syscall)
    (areas : snd_pcm_channel_area_t) (offset size : Z)
    (data : bluetooth_data) : Z * bluetooth_data * list event :=
  if io_hw_ptr (io data) >? io_appl_ptr (io data) then
    let '(ret, data) := bluetooth_playback_stop data in
    (if ret =? 0 then - EPIPE else ret, data, [])
  else
    let frame_size := int32_t (ar_step areas / 8) in
    let frames_to_read :=
      if uint32_t (count data + uint32_t (size * frame_size)) <=? link_mtu data
      then size
      else uint32_t (link_mtu data - count data) / uint32_t frame_size in
    let n := uint32_t (frame_size * frames_to_read) in
    let buff := memread (ar_addr areas) (area_offset areas offset) n in
    let data :=
      set_buffer (Some (memcpy (NULL_bytes (buffer data)) (count data) buff)) data in
    let data := set_count (uint32_t (count data + uint32_t (frames_to_read * frame_size))) data in
    if negb (count data =? link_mtu data) then (int32_t frames_to_read, data, [])
    else
      let rsend := sys_ret snd in
      let tr :=
        [DataSend {| pkt_len := link_mtu data;
                     pkt_bytes := memread (NULL_bytes (buffer data)) 0 (link_mtu data);
                     pkt_ret := rsend |}] in
      if rsend >? 0 then (int32_t frames_to_read, set_count 0 data, tr)
      else if rsend <? 0 then
        (if sys_errno snd =? EPIPE then - EIO else - sys_errno snd, data, tr)
      else (- EIO, data, tr).

(** Capture over A2DP transfers nothing. *)
Definition bluetooth_a2dp_read (areas : snd_pcm_channel_area_t)
    (offset size : Z) (data : bluetooth_data) : Z :=
  0.

(** The 13 bytes that [avdtp_write] leaves at the start of the wire
    buffer: [memset] to zero, then version 2, payload type 1, the sequence
    number through [htons], the sample count through [htonl], the source
    identifier 1, and the frame count in its bit-field. *)
Definition rtp_header_bytes (a : bluetooth_a2dp) : list Z :=
  [128; 1] ++ htons_bytes (seq_num a) ++ htonl_bytes (nsamples a)
    ++ htonl_bytes 1
    ++ [uint8_t (Z.land (frame_count a) (Z.ones frame_count_bits))].

Definition avdtp_write (tx : tx_outcome) (data : bluetooth_data)
    : Z * bluetooth_data * list event :=
  let a := a2dp data in
  let buf := memcpy (NULL_bytes (a2dp_buffer a)) 0 (rtp_header_bytes a) in
  let a := set_a2dp_buffer (Some buf) a in
  (* Check for overrun before sending *)
  let '(ret, tr) :=
    if land_nonzero (tx_revents tx) POLLOUT then
      let r := sys_ret (tx_send tx) in
      (if r <? 0 then - sys_errno (tx_send tx) else r,
       [DataSend {| pkt_len := a2dp_count a;
                    pkt_bytes := memread buf 0 (a2dp_count a);
                    pkt_ret := r |}])
    else if sys_ret (tx_poll tx) <? 0 then (- sys_errno (tx_poll tx), [])
    else (0, []) in
  (* Reset buffer of data to send *)
  let a := set_a2dp_count (sizeof_rtp_header + sizeof_rtp_payload) a in
  let a := set_frame_count 0 a in
  let a := set_samples 0 a in
  let a := set_seq_num (uint16_t (seq_num a + 1)) a in
  (ret, set_a2dp a data, tr).

(** What one [bluetooth_a2dp_write] reads from outside: the answers of
    ALSA to the autostart questions, of [pthread_create] should the stream be
    started, and of the data socket at the k-th [avdtp_write] of the call. *)
Record write_env : Type := {
  we_sw_params_current : Z;
  we_get_start_threshold : Z;
  we_threshold : Z;
  we_pthread_create : Z;
  we_tx : nat -> tx_outcome
}.

(** [snd_pcm_start] on an ioplug in state PREPARED: ALSA calls the
    [start] callback and, when that returns no error, moves to RUNNING. *)
Definition snd_pcm_start (E : write_env) (data : bluetooth_data)
    : Z * bluetooth_data :=
  let '(err, data) := bluetooth_playback_start (we_pthread_create E) data in
  if err <? 0 then (err, data)
  else (0, set_io (set_io_state SND_PCM_STATE_RUNNING (io data)) data).

(** The running state of one transfer: the session, the position of
    [buff] in the application's memory, [bytes_left], the number of
    [avdtp_write] calls so far, and the events so far. *)
Record wr_state : Type := {
  w_data : bluetooth_data;
  w_buff : Z;
  w_bytes_left : Z;
  w_k : nat;
  w_tr : list event
}.

(** One [sbc_encode] and the bookkeeping that follows it (lines
    1500-1521 and 1536-1562): the encoder reads [input], writes at
    [a2dp->buffer + a2dp->count]; on success the counters advance and the
    packet is sent when no further frame fits.  The boolean is [false] when
    the encoder failed ([encoded <= 0]). *)
Definition encode_block (E : write_env) (frame_size : Z) (input : list Z)
    (data : bluetooth_data) (k : nat) (tr : list event)
    : bool * bluetooth_data * nat * list event :=
  let a := a2dp data in
  let '(encoded, out, written, s) :=
    sbc_encode (sbc a) input (codesize a) (uint32_t (link_mtu data - a2dp_count a)) in
  let tr := tr ++ [Encode input] in
  let a := set_sbc s a in
  let a := set_a2dp_buffer
             (Some (memcpy (NULL_bytes (a2dp_buffer a)) (a2dp_count a) out)) a in
  if encoded <=? 0 then (false, set_a2dp a data, k, tr)
  else
    (* Increment a2dp buffers *)
    let a := set_a2dp_count (uint32_t (a2dp_count a + written)) a in
    let a := set_frame_count (int32_t (frame_count a + 1)) a in
    let a := set_samples (int32_t (samples a + Z.quot encoded frame_size)) a in
    let a := set_nsamples (int32_t (nsamples a + Z.quot encoded frame_size)) a in
    let data := set_a2dp a data in
    (* No space left for another frame then send *)
    if uint32_t (a2dp_count a + written) >=? link_mtu data then
      let '(_, data, tr') := avdtp_write (we_tx E k) data in
      (true, data, S k, tr ++ tr')
    else (true, data, k, tr).

(** The [while (bytes_left >= a2dp->codesize)] loop.  [fuel] bounds the
    number of turns; [None] means the bound was reached with the loop
    condition still true.  The boolean is [false] for [goto done]. *)
Fixpoint write_loop (fuel : nat) (E : write_env)
    (areas : snd_pcm_channel_area_t) (frame_size : Z) (st : wr_state)
    : option (bool * wr_state) :=
  let data := w_data st in
  if w_bytes_left st >=? codesize (a2dp data) then
    match fuel with
    | O => None
    | S fuel =>
      let input := memread (ar_addr areas) (w_buff st) (codesize (a2dp data)) in
      let '(ok, data', k, tr) :=
        encode_block E frame_size input data (w_k st) (w_tr st) in
      if negb ok then
        Some (false, {| w_data := data'; w_buff := w_buff st;
                        w_bytes_left := w_bytes_left st; w_k := k; w_tr := tr |})
      else
        write_loop fuel E areas frame_size
          {| w_data := data';
             w_buff := w_buff st + codesize (a2dp data);
             w_bytes_left := uint32_t (w_bytes_left st - codesize (a2dp data));
             w_k := k; w_tr := tr |}
    end
  else Some (true, st).

(** Label [out]: copy the extra to the carry buffer for the next write. *)
Definition write_out (areas : snd_pcm_channel_area_t) (st : wr_state)
    : wr_state :=
  let data := w_data st in
  if w_bytes_left st >? 0 then
    let src := memread (ar_addr areas) (w_buff st) (w_bytes_left st) in
    let data :=
      set_buffer (Some (memcpy (NULL_bytes (buffer data)) (count data) src)) data in
    let data := set_count (uint32_t (count data + w_bytes_left st)) data in
    {| w_data := data; w_buff := w_buff st; w_bytes_left := 0;
       w_k := w_k st; w_tr := w_tr st |}
  else st.

(** Label [done]: the number of frames taken. *)
Definition write_done (size frame_size : Z) (st : wr_state)
    : Z * bluetooth_data * list event :=
  (int32_t (size - w_bytes_left st / uint32_t frame_size), w_data st, w_tr st).

(** Lines 1489-1530: the left-over data of the last write.  The result
    says where control goes next: [inl] is [goto out] or [goto done] at
    once (the boolean is [false] for [done]), [inr] is the loop. *)
Definition write_leftover (E : write_env) (areas : snd_pcm_channel_area_t)
    (frame_size : Z) (st : wr_state) : (bool * wr_state) + wr_state :=
  let data := w_data st in
  if count data >? 0 then
    let additional_bytes_needed := uint32_t (codesize (a2dp data) - count data) in
    if additional_bytes_needed >? w_bytes_left st then inl (true, st)
    else
      let src := memread (ar_addr areas) (w_buff st) additional_bytes_needed in
      let data :=
        set_buffer (Some (memcpy (NULL_bytes (buffer data)) (count data) src)) data in
      let input := memread (NULL_bytes (buffer data)) 0 (codesize (a2dp data)) in
      let '(ok, data, k, tr) :=
        encode_block E frame_size input data (w_k st) (w_tr st) in
      if negb ok then
        inl (false, {| w_data := data; w_buff := w_buff st;
                       w_bytes_left := w_bytes_left st; w_k := k; w_tr := tr |})
      else
        inr {| w_data := set_count 0 data;
               w_buff := w_buff st + additional_bytes_needed;
               w_bytes_left := uint32_t (w_bytes_left st - additional_bytes_needed);
               w_k := k; w_tr := tr |}
  else inr st.

(** Lines 1470-1487: check if we should autostart.  The result is what
    [snd_pcm_start] returned, or 0 when it was not called. *)
Definition autostart (E : write_env) (data : bluetooth_data)
    : Z * bluetooth_data :=
  match io_state (io data) with
  | SND_PCM_STATE_PREPARED =>
    if (we_sw_params_current E =? 0) && (we_get_start_threshold E =? 0)
       && (io_appl_ptr (io data) >=? we_threshold E)
    then snd_pcm_start E data
    else (0, data)
  | _ => (0, data)
  end.

(** [bluetooth_a2dp_write] with the loop bound [fuel].  The result is
    [None] when the loop bound is reached, and when [frame_size] is zero on
    a path that divides by it. *)
Definition a2dp_write_fuel (fuel : nat) (E : write_env)
    (areas : snd_pcm_channel_area_t) (offset size : Z)
    (data : bluetooth_data) : option (Z * bluetooth_data * list event) :=
  (* Calutate starting pointers *)
  let frame_size := int32_t (ar_step areas / 8) in
  let bytes_left := uint32_t (size * frame_size) in
  let buff := area_offset areas offset in
  (* Check for underrun *)
  if io_hw_ptr (io data) >? io_appl_ptr (io data) then
    let '(ret, data) := bluetooth_playback_stop data in
    let ret := if ret =? 0 then - EPIPE else ret in
    Some (ret, set_reset 1 data, [])
  else
    let '(ret, data) := autostart E data in
    if negb (ret =? 0) then Some (ret, data, [])
    else if frame_size =? 0 then None
    else
      let st := {| w_data := data; w_buff := buff; w_bytes_left := bytes_left;
                   w_k := O; w_tr := [] |} in
      match write_leftover E areas frame_size st with
      | inl (true, st) => Some (write_done size frame_size (write_out areas st))
      | inl (false, st) => Some (write_done size frame_size st)
      | inr st =>
        match write_loop fuel E areas frame_size st with
        | None => None
        | Some (true, st) => Some (write_done size frame_size (write_out areas st))
        | Some (false, st) => Some (write_done size frame_size st)
        end
      end.

(** One turn of the loop consumes [codesize] bytes, so [bytes_left] turns
    are enough whenever [codesize] is not zero. *)
Definition bluetooth_a2dp_write (E : write_env)
    (areas : snd_pcm_channel_area_t) (offset size : Z)
    (data : bluetooth_data) : option (Z * bluetooth_data * list event) :=
  a2dp_write_fuel
    (Z.to_nat (uint32_t (size * int32_t (ar_step areas / 8)))) E areas
    offset size data.

(** A sequence of transfers.  Between two calls ALSA moves its own
    pointers and state: each call comes with the [snd_pcm_ioplug_t] it
    finds. *)
Record write_call : Type := {
  wc_env : write_env;
  wc_io : snd_pcm_ioplug_t;
  wc_areas : snd_pcm_channel_area_t;
  wc_offset : Z;
  wc_size : Z
}.

Fixpoint a2dp_writes (calls : list write_call) (data : bluetooth_data)
    : option (list Z * bluetooth_data * list event) :=
  match calls with
  | [] => Some ([], data, [])
  | c :: calls =>
    match bluetooth_a2dp_write (wc_env c) (wc_areas c) (wc_offset c)
            (wc_size c) (set_io (wc_io c) data) with
    | None => None
    | Some (ret, data, tr) =>
      match a2dp_writes calls data with
      | None => None
      | Some (rets, data, tr') => Some (ret :: rets, data, tr ++ tr')
      end
    end
  end.

End Plugin.

(** The outcomes allowed to a configuration operation whose trace is
    [tr]: when one of the two [realloc] calls failed, the result is
    [-ENOMEM] and both buffers are NULL; when the calls were made at all,
    the buffers are both NULL or both of the size of the transfer unit. *)
Definition buffers_consistent (ret : Z) (data' : bluetooth_data)
    (tr : list event) : Prop :=
  ((exists n, In (Realloc n false) tr) ->
   ret = - ENOMEM /\ buffer data' = None /\ a2dp_buffer (a2dp data') = None)
  /\ ((exists n ok, In (Realloc n ok) tr) ->
      (buffer data' = None /\ a2dp_buffer (a2dp data') = None)
      \/ (exists b1 b2,
            buffer data' = Some b1 /\ a2dp_buffer (a2dp data') = Some b2
            /\ Z.of_nat (length b1) = link_mtu data'
            /\ Z.of_nat (length b2) = link_mtu data')).

(** ** The time of the audio clock *)

(** An instant as [clock_gettime] gives it: the nanoseconds are below one
    second. *)
Definition normalised (t : timespec) : Prop :=
  0 <= tv_nsec t < 1000000000.

(** The time from [b] to [a], in whole microseconds. *)
Definition usec_between (b a : timespec) : Z :=
  ((tv_sec a - tv_sec b) * 1000000000 + (tv_nsec a - tv_nsec b)) / 1000.

(** ** Properties of the transfer path *)

(** The contract of [sbc_encode] that the plugin relies on: a successful
    call stores no more than the [output_len] bytes it was given. *)
Definition encoder_respects_output_len {C : sbc_h} : Prop :=
  forall s input input_len output_len,
    let '(encoded, _, written, _) := sbc_encode s input input_len output_len in
    0 < encoded -> 0 <= written <= output_len.

(** The fill of the wire buffer lies between the header size and the
    transfer unit. *)
Definition wire_fill_ok (data : bluetooth_data) : Prop :=
  header_size <= a2dp_count (a2dp data) <= link_mtu data
  /\ link_mtu data < 2 ^ 32.

(** Every packet handed to [send] in [tr] has at least the headers and at
    most [mtu] bytes. *)
Definition packets_within (mtu : Z) (tr : list event) : Prop :=
  forall p, In (DataSend p) tr -> header_size <= pkt_len p <= mtu.

(** The carry: the PCM bytes kept in [data->buffer] for the next write. *)
Definition carry (data : bluetooth_data) : list Z :=
  memread (NULL_bytes (buffer data)) 0 (count data).

(** The PCM bytes that one transfer call is given. *)
Definition pcm_of_call (c : write_call) : list Z :=
  memread (ar_addr (wc_areas c)) (area_offset (wc_areas c) (wc_offset c))
    (uint32_t (wc_size c * int32_t (ar_step (wc_areas c) / 8))).

(** A call that gets past the underrun test and the autostart, with a
    frame size that is not zero. *)
Definition call_proceeds (c : write_call) : Prop :=
  io_hw_ptr (wc_io c) <= io_appl_ptr (wc_io c)
  /\ we_pthread_create (wc_env c) = 0
  /\ int32_t (ar_step (wc_areas c) / 8) <> 0.

(** What stays as it is across the functions of the encode path. *)
Definition same_frame (data data' : bluetooth_data) : Prop :=
  link_mtu data' = link_mtu data
  /\ codesize (a2dp data') = codesize (a2dp data)
  /\ count data' = count data
  /\ buffer data' = buffer data.

(** The invariant of a transfer in progress: the wire fill is within the
    transfer unit, transfer unit and block size are those of [d0], the
    packets sent so far fit, and [bytes_left] is an [unsigned int]. *)
Definition transfer_inv (d0 : bluetooth_data) (st : wr_state) : Prop :=
  wire_fill_ok (w_data st)
  /\ link_mtu (w_data st) = link_mtu d0
  /\ codesize (a2dp (w_data st)) = codesize (a2dp d0)
  /\ packets_within (link_mtu d0) (w_tr st)
  /\ 0 <= w_bytes_left st < 2 ^ 32.

(** The other half of the contract of [sbc_encode]: it stores no more than
    [output_len] bytes. *)
Definition encoder_stores_within_output_len {C : sbc_h} : Prop :=
  forall s input input_len output_len,
    0 <= output_len ->
    let '(_, out, _, _) := sbc_encode s input input_len output_len in
    Z.of_nat (length out) <= output_len.

(** The session's buffers are allocated, [data->buffer] with [lb] bytes,
    enough for one block, and [a2dp->buffer] with [la] bytes, enough for one
    transfer unit; the carry is shorter than a block and the wire fill is
    within the transfer unit. *)
Definition in_bounds (lb la : nat) (data : bluetooth_data) : Prop :=
  length (NULL_bytes (buffer data)) = lb
  /\ length (NULL_bytes (a2dp_buffer (a2dp data))) = la
  /\ codesize (a2dp data) <= Z.of_nat lb
  /\ link_mtu data <= Z.of_nat la
  /\ 0 <= count data < codesize (a2dp data)
  /\ codesize (a2dp data) < 2 ^ 32
  /\ wire_fill_ok data.

(** ** Concrete inputs

    The values below are used to run the functions above: a stand-in for
    the codec, which has the block and frame sizes of SBC but stores zeros
    instead of a bit-exact frame, and sample sessions. *)

Definition frame_length (s : sbc_t) : Z :=
  let subbands := if sbc_subbands s =? 0 then 4 else 8 in
  let blocks := 4 + sbc_blocks s * 4 in
  let channels := if sbc_mode s =? 0 then 1 else 2 in
  let joint := if sbc_mode s =? 3 then subbands else 0 in
  4 + (4 * subbands * channels) / 8
  + (if channels =? 1 then (blocks * channels * sbc_bitpool s + 7) / 8
     else (joint + blocks * sbc_bitpool s + 7) / 8).

Definition stand_in_codesize (s : sbc_t) : Z :=
  let subbands := if sbc_subbands s =? 0 then 4 else 8 in
  let blocks := 4 + sbc_blocks s * 4 in
  let channels := if sbc_mode s =? 0 then 1 else 2 in
  subbands * blocks * channels * 2.

Definition stand_in_encode (s : sbc_t) (input : list Z) (input_len output_len : Z)
    : Z * list Z * Z * sbc_t :=
  if input_len <? stand_in_codesize s then (0, [], 0, s)
  else if (output_len <? frame_length s) || (frame_length s <? 0)
  then (- ENOSPC, [], 0, s)
  else (stand_in_codesize s, repeat 0 (Z.to_nat (frame_length s)),
        frame_length s, s).

Definition stand_in_sbc : sbc_h := {|
  SBC_FREQ_16000 := 0;
  SBC_FREQ_32000 := 1;
  SBC_FREQ_44100 := 2;
  SBC_FREQ_48000 := 3;
  SBC_MODE_MONO := 0;
  SBC_MODE_DUAL_CHANNEL := 1;
  SBC_MODE_STEREO := 2;
  SBC_MODE_JOINT_STEREO := 3;
  SBC_AM_LOUDNESS := 0;
  SBC_AM_SNR := 1;
  SBC_SB_4 := 0;
  SBC_SB_8 := 1;
  SBC_BLK_4 := 0;
  SBC_BLK_8 := 1;
  SBC_BLK_12 := 2;
  SBC_BLK_16 := 3;
  sbc_init := fun _ =>
    {| sbc_frequency := 2; sbc_mode := 2; sbc_allocation := 0;
       sbc_subbands := 1; sbc_blocks := 3; sbc_bitpool := 32; sbc_priv := [] |};
  sbc_reinit := fun _ =>
    {| sbc_frequency := 2; sbc_mode := 2; sbc_allocation := 0;
       sbc_subbands := 1; sbc_blocks := 3; sbc_bitpool := 32; sbc_priv := [] |};
  sbc_get_codesize := stand_in_codesize;
  sbc_encode := stand_in_encode
|}.

(** A remote sink that supports everything, with bitpool range [lo..hi]. *)
Definition remote_sink (lo hi : Z) : sbc_capabilities_t :=
  {| cap_seid := 1; cap_transport := 0; cap_channel_mode := 15;
     cap_frequency := 15; cap_allocation_method := 3; cap_subbands := 3;
     cap_block_length := 15; cap_min_bitpool := lo; cap_max_bitpool := hi |}.

(** A resource file that names the device and overrides nothing. *)
Definition plain_config : bluetooth_alsa_config :=
  {| cfg_device := [48; 48; 58; 49; 49; 58; 50; 50; 58; 51; 51; 58; 52; 52;
                    58; 53; 53; 0];
     cfg_has_device := true;
     cfg_transport := 0; cfg_has_transport := false;
     cfg_rate := 0; cfg_has_rate := false;
     cfg_channel_mode := 0; cfg_has_channel_mode := false;
     cfg_allocation_method := 0; cfg_has_allocation_method := false;
     cfg_subbands := 0; cfg_has_subbands := false;
     cfg_block_length := 0; cfg_has_block_length := false;
     cfg_bitpool := 0; cfg_has_bitpool := false;
     cfg_autoconnect := true |}.

Definition stereo_44100 : snd_pcm_hw_params_t :=
  {| hw_rate := 44100; hw_channels := 2 |}.

Definition mono_16000 : snd_pcm_hw_params_t :=
  {| hw_rate := 16000; hw_channels := 1 |}.

(** The ALSA handle of a stream with 3 periods of 1024 frames, application
    pointer [appl] and hardware pointer [hw]. *)
Definition sample_io (dir : snd_pcm_stream_t) (st : snd_pcm_state_t)
    (appl hw : Z) : snd_pcm_ioplug_t :=
  {| io_stream := dir; io_state := st; io_appl_ptr := appl; io_hw_ptr := hw;
     io_rate := 44100; io_period_size := 1024; io_buffer_size := 3072;
     io_nonblock := false |}.

Definition fresh_sbc : sbc_t :=
  {| sbc_frequency := 0; sbc_mode := 0; sbc_allocation := 0;
     sbc_subbands := 0; sbc_blocks := 0; sbc_bitpool := 0; sbc_priv := [] |}.

(** The session as [bluetooth_init] leaves it (all fields zero, no
    descriptor for the stream, state Closed) once the capabilities of the
    remote sink are stored. *)
Definition fresh_session (io0 : snd_pcm_ioplug_t) (cap : sbc_capabilities_t)
    : bluetooth_data :=
  {| io := io0; alsa_config := plain_config; hw_ptr := 0; transport := 0;
     link_mtu := 0; stream_fd := -1; server_fd := 3; buffer := None;
     count := 0;
     a2dp := {| sbc_capabilities := cap; sbc := fresh_sbc;
                sbc_initialized := false; codesize := 0; samples := 0;
                a2dp_buffer := None; a2dp_count := 0; nsamples := 0;
                seq_num := 0; frame_count := 0 |};
     hw_thread := false; stopped := 0; reset := 0;
     a2dp_stream_state := STREAM_CLOSED; sink_delay := 0 |}.

Definition ok_syscall (n : Z) : syscall := {| sys_ret := n; sys_errno := 0 |}.

(** A well-formed answer of the audio service with the given name. *)
Definition answer (name link_mtu delay : Z) : ipc_packet :=
  {| pk_recv := ok_syscall 8; pk_type := 1; pk_name := name;
     pk_posix_errno := 0; pk_link_mtu := link_mtu; pk_delay := delay |}.

(** An error answer of the audio service carrying [posix_errno]. *)
Definition error_answer (name posix_errno : Z) : ipc_packet :=
  {| pk_recv := ok_syscall 5; pk_type := 3; pk_name := name;
     pk_posix_errno := posix_errno; pk_link_mtu := 0; pk_delay := 0 |}.

(** The audio service accepts the configuration and reports [link_mtu];
    both allocations succeed unless stated otherwise. *)
Definition accepting (link_mtu : Z) (ok1 ok2 : bool) : hw_params_env :=
  {| he_open_send := ok_syscall 24; he_open_rsp := answer 1 0 0;
     he_conf_send := ok_syscall 24; he_conf_rsp := answer 2 link_mtu 0;
     he_realloc_data := ok1; he_realloc_a2dp := ok2;
     he_delay_ind := answer 8 0 150 |}.

(** A data socket that is always writable and takes every packet whole. *)
Definition writable (len : Z) : tx_outcome :=
  {| tx_poll := ok_syscall 1; tx_revents := POLLOUT; tx_send := ok_syscall len |}.

(** A data socket whose buffer is full. *)
Definition congested : tx_outcome :=
  {| tx_poll := ok_syscall 0; tx_revents := 0; tx_send := ok_syscall 0 |}.

Definition running_env (tx : tx_outcome) : write_env :=
  {| we_sw_params_current := 0; we_get_start_threshold := 0;
     we_threshold := 1; we_pthread_create := 0; we_tx := fun _ => tx |}.

(** [n] bytes of interleaved 16-bit samples, of [channels] channels. *)
Definition pcm_area (channels : Z) (n : nat) : snd_pcm_channel_area_t :=
  {| ar_addr := map (fun i => Z.of_nat i mod 256) (seq 0 n); ar_first := 0;
     ar_step := 16 * channels |}.

(** The session after [bluetooth_a2dp_hw_params] has negotiated 44100 Hz
    stereo with a sink that advertises bitpools 2..53 and the audio service
    has reported the transfer unit [mtu]. *)
Definition configured_session (mtu : Z) : bluetooth_data :=
  snd (fst (@bluetooth_a2dp_hw_params bluez_ipc stand_in_sbc
              (accepting mtu true true) stereo_44100
              (fresh_session
                 (sample_io SND_PCM_STREAM_PLAYBACK SND_PCM_STATE_RUNNING 0 0)
                 (remote_sink 2 53)))).

(** A transfer of [frames] stereo frames (4 bytes each) on a running
    stream without underrun. *)
Definition stereo_write (frames : nat) : write_call :=
  {| wc_env := running_env (writable 1);
     wc_io := sample_io SND_PCM_STREAM_PLAYBACK SND_PCM_STATE_RUNNING 4096 0;
     wc_areas := pcm_area 2 (4 * frames);
     wc_offset := 0;
     wc_size := Z.of_nat frames |}.


(** A request for one channel at 44100 Hz. *)
Definition mono_44100 : snd_pcm_hw_params_t :=
  {| hw_rate := 44100; hw_channels := 1 |}.

(** The same negotiation when the resource file forces bitpool 2: SBC
    frames of 17 bytes. *)
Definition low_bitpool_session (mtu : Z) : bluetooth_data :=
  let data0 :=
    fresh_session
      (sample_io SND_PCM_STREAM_PLAYBACK SND_PCM_STATE_RUNNING 0 0)
      (remote_sink 2 53) in
  let cfg :=
    {| cfg_device := cfg_device plain_config; cfg_has_device := true;
       cfg_transport := 0; cfg_has_transport := false;
       cfg_rate := 0; cfg_has_rate := false;
       cfg_channel_mode := 0; cfg_has_channel_mode := false;
       cfg_allocation_method := 0; cfg_has_allocation_method := false;
       cfg_subbands := 0; cfg_has_subbands := false;
       cfg_block_length := 0; cfg_has_block_length := false;
       cfg_bitpool := 2; cfg_has_bitpool := true;
       cfg_autoconnect := true |} in
  snd (fst (@bluetooth_a2dp_hw_params bluez_ipc stand_in_sbc
              (accepting mtu true true) stereo_44100
              (set_alsa_config cfg data0))).
(** * The rest of the plugin

    The functions of [ste-pcm_bluetooth.c] that the sections above do not
    reach: capture over SCO, the playback delay, the poll callbacks, the
    hardware constraints, the resource-file parser, the capability parser
    and the list of sessions kept across a close. *)

(** [short] *)
Definition int16_t (x : Z) : Z := (x + 2 ^ 15) mod 2 ^ 16 - 2 ^ 15.

(** ** [bluetooth_hsp_read] *)

(** What one [recv] on the data socket delivers: the return value and
    [errno] of the call, and the bytes it stores when it returns a positive
    count. *)
Record rx_outcome : Type := {
  rx_recv : syscall;
  rx_bytes : list Z
}.

Definition set_ar_addr (v : list Z) (a : snd_pcm_channel_area_t)
    : snd_pcm_channel_area_t :=
  {| ar_addr := v; ar_first := ar_first a; ar_step := ar_step a |}.

(** From label [proceed] (lines 1302-1316).  The result is [None] where
    the C code divides by zero: [frame_size] in the second branch of the
    test, [link_mtu] in [data->count %= data->link_mtu]. *)
Definition hsp_read_proceed (areas : snd_pcm_channel_area_t)
    (offset size : Z) (data : bluetooth_data)
    : option (Z * bluetooth_data * snd_pcm_channel_area_t) :=
  let frame_size := uint32_t (ar_step areas / 8) in
  let buff := area_offset areas offset in
  let fits :=
    uint32_t (count data + uint32_t (size * frame_size)) <=? link_mtu data in
  if negb fits && (frame_size =? 0) then None
  else if link_mtu data =? 0 then None
  else
    let frames_to_write :=
      if fits then size
      else uint32_t (link_mtu data - count data) / frame_size in
    let n := uint32_t (frame_size * frames_to_write) in
    let areas :=
      set_ar_addr
        (memcpy (ar_addr areas) buff
           (memread (NULL_bytes (buffer data)) (count data) n)) areas in
    let data := set_count (uint32_t (count data + n)) data in
    let data := set_count (count data mod link_mtu data) data in
    (* Return written frames count *)
    Some (int32_t frames_to_write, data, areas).

(** The result is the return value, the session and the application's
    memory after the call.  [ret] is a [snd_pcm_uframes_t] returned as a
    [snd_pcm_sframes_t], so an error code goes through [unsigned long] and
    back. *)
Definition bluetooth_hsp_read (rx : rx_outcome)
    (areas : snd_pcm_channel_area_t) (offset size : Z)
    (data : bluetooth_data)
    : option (Z * bluetooth_data * snd_pcm_channel_area_t) :=
  let frame_size := uint32_t (ar_step areas / 8) in
  if count data >? 0 then hsp_read_proceed areas offset size data
  else
    let nrecv := int32_t (sys_ret (rx_recv rx)) in
    let data :=
      if nrecv >? 0
      then set_buffer
             (Some (memcpy (NULL_bytes (buffer data)) 0
                      (memread (rx_bytes rx) 0 nrecv))) data
      else data in
    if nrecv <? 0 then
      Some (int32_t (uint32_t (if sys_errno (rx_recv rx) =? EPIPE then - EIO
                               else - sys_errno (rx_recv rx))),
            data, areas)
    else if negb (uint32_t nrecv =? link_mtu data) then
      Some (int32_t (uint32_t (- EIO)), data, areas)
    else if (frame_size =? 0) || (io_buffer_size (io data) =? 0) then None
    else
      (* Increment hardware transmition pointer *)
      let data :=
        set_hw_ptr
          (int32_t (uint32_t (hw_ptr data + link_mtu data / frame_size)
                    mod io_buffer_size (io data))) data in
      hsp_read_proceed areas offset size data.

(** ** [bluetooth_playback_delay] *)

(** [snd_pcm_hwsync] is ALSA's: [hwsync] stands for what it does to the
    handle (it brings [io->hw_ptr] up to date through the [pointer]
    callback).  Both callback tables that have a [delay] entry have
    [bluetooth_playback_stop] as [stop].  The result is the return value,
    the value left in [*delayp] and the session. *)
Definition bluetooth_playback_delay
    (hwsync : snd_pcm_ioplug_t -> snd_pcm_ioplug_t) (data : bluetooth_data)
    : Z * Z * bluetooth_data :=
  let data := set_io (hwsync (io data)) data in
  let delayp := int32_t (uint32_t (io_appl_ptr (io data) - io_hw_ptr (io data))) in
  (* Add sink delay, it resolution is 0.1ms and convert it to number of
     PCM frames using stream rate *)
  let delayp :=
    int32_t (uint32_t (delayp
                       + uint32_t (sink_delay data * io_rate (io data)) / 10000)) in
  match io_state (io data) with
  | SND_PCM_STATE_RUNNING =>
    if delayp <? 0 then
      let '(_, data) := bluetooth_playback_stop data in
      (0, 0, set_io (set_io_state SND_PCM_STATE_XRUN (io data)) data)
    else (0, delayp, data)
  | _ => (0, delayp, data)
  end.

(** ** The poll callbacks *)

(** [struct pollfd]; [events] and [revents] are [short]. *)
Record pollfd : Type := {
  pfd_fd : Z;
  pfd_events : Z;
  pfd_revents : Z
}.

(** Capture: one descriptor, the data socket. *)
Definition bluetooth_poll_descriptors (data : bluetooth_data)
    (pfd : list pollfd) (space : Z) : Z * list pollfd :=
  if space <? 1 then (0, pfd)
  else
    (1, {| pfd_fd := stream_fd data; pfd_events := POLLIN; pfd_revents := 0 |}
        :: tl pfd).

Definition bluetooth_poll_revents (pfds0 : pollfd) : Z * Z :=
  (0, uint16_t (pfd_revents pfds0)).

Definition bluetooth_playback_poll_descriptors_count : Z := 2.

(** Playback: the read end of the pipe that the clock thread writes to,
    and the data socket for errors only.  [pipefd0] is [data->pipefd[0]]. *)
Definition bluetooth_playback_poll_descriptors (pipefd0 : Z)
    (data : bluetooth_data) (pfd : list pollfd) (space : Z)
    : Z * list pollfd :=
  if space <? 2 then (0, pfd)
  else
    (2, {| pfd_fd := pipefd0; pfd_events := POLLIN; pfd_revents := 0 |}
        :: {| pfd_fd := stream_fd data;
              pfd_events := Z.lor POLLERR (Z.lor POLLHUP POLLNVAL);
              pfd_revents := 0 |}
        :: tl (tl pfd)).

(** The result is the return value, the handle, [pfds[1]] as it is left,
    [revents[0]] and [revents[1]], and whether one byte was read from the
    pipe. *)
Definition bluetooth_playback_poll_revents (io : snd_pcm_ioplug_t)
    (pfds0 pfds1 : pollfd)
    : Z * snd_pcm_ioplug_t * pollfd * Z * Z * bool :=
  let reads :=
    match io_state io with
    | SND_PCM_STATE_PREPARED => false
    | _ => true
    end in
  (* Alsa lib does not check for POLLHUP *)
  let pfds1 :=
    if land_nonzero (pfd_revents pfds1) POLLHUP
    then {| pfd_fd := pfd_fd pfds1; pfd_events := pfd_events pfds1;
            pfd_revents := int16_t (Z.lor (pfd_revents pfds1) POLLERR) |}
    else pfds1 in
  let io :=
    if land_nonzero (pfd_revents pfds1) (Z.lor POLLERR (Z.lor POLLHUP POLLNVAL))
    then set_io_state SND_PCM_STATE_DISCONNECTED io
    else io in
  let revents0 := if land_nonzero (pfd_revents pfds0) POLLIN then POLLOUT else 0 in
  let revents1 :=
    uint16_t (Z.land (pfd_revents pfds1)
                (Z.lor POLLERR (Z.lor POLLHUP POLLNVAL))) in
  (0, io, pfds1, revents0, revents1, reads).

(** ** Words for the negotiation *)


(** The encoder's constant for a sampling rate. *)
Definition sbc_frequency_of_rate {C : sbc_h} (rate : Z) : Z :=
  if rate =? 16000 then SBC_FREQ_16000
  else if rate =? 32000 then SBC_FREQ_32000
  else if rate =? 44100 then SBC_FREQ_44100
  else SBC_FREQ_48000.

(** The four sampling-frequency constants of [ipc.h] are bits of a mask:
    none is zero and no two have a bit in common. *)
Definition frequency_bits_disjoint {K : ipc_h} : Prop :=
  BT_SBC_SAMPLING_FREQ_16000 <> 0 /\ BT_SBC_SAMPLING_FREQ_32000 <> 0
  /\ BT_SBC_SAMPLING_FREQ_44100 <> 0 /\ BT_SBC_SAMPLING_FREQ_48000 <> 0
  /\ Z.land BT_SBC_SAMPLING_FREQ_16000 BT_SBC_SAMPLING_FREQ_32000 = 0
  /\ Z.land BT_SBC_SAMPLING_FREQ_16000 BT_SBC_SAMPLING_FREQ_44100 = 0
  /\ Z.land BT_SBC_SAMPLING_FREQ_16000 BT_SBC_SAMPLING_FREQ_48000 = 0
  /\ Z.land BT_SBC_SAMPLING_FREQ_32000 BT_SBC_SAMPLING_FREQ_44100 = 0
  /\ Z.land BT_SBC_SAMPLING_FREQ_32000 BT_SBC_SAMPLING_FREQ_48000 = 0
  /\ Z.land BT_SBC_SAMPLING_FREQ_44100 BT_SBC_SAMPLING_FREQ_48000 = 0.

(** ** Hardware constraints *)

(** The parameters of [snd_pcm_ioplug_set_param_list] and
    [snd_pcm_ioplug_set_param_minmax] that the file uses. *)
Inductive ioplug_hw : Type :=
| SND_PCM_IOPLUG_HW_ACCESS
| SND_PCM_IOPLUG_HW_FORMAT
| SND_PCM_IOPLUG_HW_CHANNELS
| SND_PCM_IOPLUG_HW_RATE
| SND_PCM_IOPLUG_HW_PERIOD_BYTES
| SND_PCM_IOPLUG_HW_BUFFER_BYTES
| SND_PCM_IOPLUG_HW_PERIODS.

(** An entry of a parameter list: an access type, a sample format or a
    number. *)
Inductive param_value : Type :=
| SND_PCM_ACCESS_RW_INTERLEAVED
| SND_PCM_ACCESS_MMAP_INTERLEAVED
| SND_PCM_FORMAT_S16
| Value (v : Z).

(** One call that constrains the handle. *)
Inductive ioplug_call : Type :=
| snd_pcm_ioplug_set_param_list (type : ioplug_hw) (list : list param_value)
| snd_pcm_ioplug_set_param_minmax (type : ioplug_hw) (min max : Z).

(** The calls of a constraint function are made in order until one returns
    a negative value, which is then the result.  [alsa k] is what the k-th
    call returns; [made] holds the calls made so far. *)
Fixpoint set_params (alsa : nat -> Z) (k : nat) (calls made : list ioplug_call)
    : Z * list ioplug_call :=
  match calls with
  | [] => (0, made)
  | c :: calls =>
    let err := alsa k in
    if err <? 0 then (err, made ++ [c])
    else set_params alsa (S k) calls (made ++ [c])
  end.

Definition bluetooth_hsp_hw_constraint (alsa : nat -> Z)
    (data : bluetooth_data) : Z * list ioplug_call :=
  set_params alsa O
    [ (* access type *)
      snd_pcm_ioplug_set_param_list SND_PCM_IOPLUG_HW_ACCESS
        [SND_PCM_ACCESS_RW_INTERLEAVED; SND_PCM_ACCESS_MMAP_INTERLEAVED];
      (* supported formats *)
      snd_pcm_ioplug_set_param_list SND_PCM_IOPLUG_HW_FORMAT
        [SND_PCM_FORMAT_S16];
      (* supported channels *)
      snd_pcm_ioplug_set_param_minmax SND_PCM_IOPLUG_HW_CHANNELS 1 1;
      (* supported rate *)
      snd_pcm_ioplug_set_param_minmax SND_PCM_IOPLUG_HW_RATE 8000 8000;
      (* supported block size *)
      snd_pcm_ioplug_set_param_minmax SND_PCM_IOPLUG_HW_PERIOD_BYTES
        (link_mtu data) (link_mtu data);
      snd_pcm_ioplug_set_param_minmax SND_PCM_IOPLUG_HW_PERIODS 2 200 ]
    [].

Section Constraints.

Context {K : ipc_h}.

(** The list of supported rates (lines 1786-1815). *)
Definition rate_list (data : bluetooth_data) : list Z :=
  let cfg := alsa_config data in
  let frequency := cap_frequency (sbc_capabilities (a2dp data)) in
  if cfg_has_rate cfg then [cfg_rate cfg]
  else
    (if land_nonzero frequency BT_SBC_SAMPLING_FREQ_16000 then [16000] else [])
    ++ (if land_nonzero frequency BT_SBC_SAMPLING_FREQ_32000 then [32000] else [])
    ++ (if land_nonzero frequency BT_SBC_SAMPLING_FREQ_44100 then [44100] else [])
    ++ (if land_nonzero frequency BT_SBC_SAMPLING_FREQ_48000 then [48000] else []).

(** The channel mode is overwritten by the one of the resource file only
    when the calls for the access type and the formats have succeeded. *)
Definition bluetooth_a2dp_hw_constraint (alsa : nat -> Z)
    (data : bluetooth_data) : Z * bluetooth_data * list ioplug_call :=
  let cfg := alsa_config data in
  let '(err, made) :=
    set_params alsa O
      [ (* access type *)
        snd_pcm_ioplug_set_param_list SND_PCM_IOPLUG_HW_ACCESS
          [SND_PCM_ACCESS_RW_INTERLEAVED; SND_PCM_ACCESS_MMAP_INTERLEAVED];
        (* supported formats *)
        snd_pcm_ioplug_set_param_list SND_PCM_IOPLUG_HW_FORMAT
          [SND_PCM_FORMAT_S16] ]
      [] in
  if err <? 0 then (err, data, made)
  else
    (* supported channels *)
    let data :=
      if cfg_has_channel_mode cfg
      then set_a2dp
             (set_sbc_capabilities
                (set_cap_channel_mode (cfg_channel_mode cfg)
                   (sbc_capabilities (a2dp data))) (a2dp data)) data
      else data in
    let channel_mode := cap_channel_mode (sbc_capabilities (a2dp data)) in
    let min_channels :=
      if land_nonzero channel_mode BT_A2DP_CHANNEL_MODE_MONO then 1 else 2 in
    let max_channels :=
      if land_nonzero channel_mode (Z.lnot BT_A2DP_CHANNEL_MODE_MONO)
      then 2 else 1 in
    let '(err, made) :=
      set_params alsa 2%nat
        [ snd_pcm_ioplug_set_param_minmax SND_PCM_IOPLUG_HW_CHANNELS
            min_channels max_channels;
          (* supported buffer sizes
             (can be used as 3*8192, 6*4096, 12*2048, ...) *)
          snd_pcm_ioplug_set_param_minmax SND_PCM_IOPLUG_HW_BUFFER_BYTES
            (8192 * 3) (8192 * 3);
          (* supported block sizes: *)
          snd_pcm_ioplug_set_param_list SND_PCM_IOPLUG_HW_PERIOD_BYTES
            [Value 2048; Value 4096; Value 8192];
          (* supported rates *)
          snd_pcm_ioplug_set_param_list SND_PCM_IOPLUG_HW_RATE
            (map Value (rate_list data)) ]
        made in
    (err, data, made).

End Constraints.

(** ** The PCM bytes of a trace *)



(** ** The resource file *)

(** The further constants of [ipc.h] that the functions below use, and the
    sizes of two of its structures.  [bluez_ipc_ext] holds the values of
    the header as BlueZ 4 ships it. *)
Class ipc_h_ext : Type := {
  BT_CAPABILITIES_TRANSPORT_ANY : Z;
  BT_FLAG_AUTOCONNECT : Z;
  BT_A2DP_SBC_SINK : Z;
  (** [sizeof(struct bt_get_capabilities_rsp)] and
      [sizeof(sbc_capabilities_t)] *)
  sizeof_bt_get_capabilities_rsp : Z;
  sizeof_sbc_capabilities_t : Z
}.

Definition bluez_ipc_ext : ipc_h_ext := {|
  BT_CAPABILITIES_TRANSPORT_ANY := 2;
  BT_FLAG_AUTOCONNECT := 1;
  BT_A2DP_SBC_SINK := 1;
  sizeof_bt_get_capabilities_rsp := 168;
  sizeof_sbc_capabilities_t := 13
|}.

Delimit Scope string_scope with string.

(** [atoi] of the C library. *)
Class stdlib_h : Type := {
  atoi : String.string -> Z
}.

(** The characters of a C string, without the terminating zero. *)
Definition chars (s : String.string) : list Z :=
  map (fun a => Z.of_N (Ascii.N_of_ascii a)) (String.list_ascii_of_string s).

(** [strncpy(dst, src, n)] into an array of [n] characters: the first [n]
    characters of [src], padded with zeros. *)
Definition strncpy (src : String.string) (n : Z) : list Z :=
  memread (chars src) 0 n.

(** One node of the configuration tree [conf], seen through the three
    accessors the parser uses: [snd_config_get_id] and
    [snd_config_get_string] give [None] when they return a negative value, and
    [snd_config_get_bool] gives its result. *)
Record snd_config_t : Type := {
  snd_config_get_id : option String.string;
  snd_config_get_bool : Z;
  snd_config_get_string : option String.string
}.

(** [memset(bt_config, 0, sizeof(struct bluetooth_alsa_config))] *)
Definition zeroed_alsa_config : bluetooth_alsa_config :=
  {| cfg_device := repeat 0 18; cfg_has_device := false;
     cfg_transport := 0; cfg_has_transport := false;
     cfg_rate := 0; cfg_has_rate := false;
     cfg_channel_mode := 0; cfg_has_channel_mode := false;
     cfg_allocation_method := 0; cfg_has_allocation_method := false;
     cfg_subbands := 0; cfg_has_subbands := false;
     cfg_block_length := 0; cfg_has_block_length := false;
     cfg_bitpool := 0; cfg_has_bitpool := false;
     cfg_autoconnect := false |}.

Definition set_cfg_autoconnect (v : bool) (c : bluetooth_alsa_config) :=
  {| cfg_device := cfg_device c; cfg_has_device := cfg_has_device c;
     cfg_transport := cfg_transport c; cfg_has_transport := cfg_has_transport c;
     cfg_rate := cfg_rate c; cfg_has_rate := cfg_has_rate c;
     cfg_channel_mode := cfg_channel_mode c;
     cfg_has_channel_mode := cfg_has_channel_mode c;
     cfg_allocation_method := cfg_allocation_method c;
     cfg_has_allocation_method := cfg_has_allocation_method c;
     cfg_subbands := cfg_subbands c; cfg_has_subbands := cfg_has_subbands c;
     cfg_block_length := cfg_block_length c;
     cfg_has_block_length := cfg_has_block_length c;
     cfg_bitpool := cfg_bitpool c; cfg_has_bitpool := cfg_has_bitpool c;
     cfg_autoconnect := v |}.

(** The setters below store a value and set its [has_] flag. *)
Definition set_cfg_device (v : list Z) (c : bluetooth_alsa_config) :=
  {| cfg_device := v; cfg_has_device := true;
     cfg_transport := cfg_transport c; cfg_has_transport := cfg_has_transport c;
     cfg_rate := cfg_rate c; cfg_has_rate := cfg_has_rate c;
     cfg_channel_mode := cfg_channel_mode c;
     cfg_has_channel_mode := cfg_has_channel_mode c;
     cfg_allocation_method := cfg_allocation_method c;
     cfg_has_allocation_method := cfg_has_allocation_method c;
     cfg_subbands := cfg_subbands c; cfg_has_subbands := cfg_has_subbands c;
     cfg_block_length := cfg_block_length c;
     cfg_has_block_length := cfg_has_block_length c;
     cfg_bitpool := cfg_bitpool c; cfg_has_bitpool := cfg_has_bitpool c;
     cfg_autoconnect := cfg_autoconnect c |}.

Definition set_cfg_transport (v : Z) (c : bluetooth_alsa_config) :=
  {| cfg_device := cfg_device c; cfg_has_device := cfg_has_device c;
     cfg_transport := v; cfg_has_transport := true;
     cfg_rate := cfg_rate c; cfg_has_rate := cfg_has_rate c;
     cfg_channel_mode := cfg_channel_mode c;
     cfg_has_channel_mode := cfg_has_channel_mode c;
     cfg_allocation_method := cfg_allocation_method c;
     cfg_has_allocation_method := cfg_has_allocation_method c;
     cfg_subbands := cfg_subbands c; cfg_has_subbands := cfg_has_subbands c;
     cfg_block_length := cfg_block_length c;
     cfg_has_block_length := cfg_has_block_length c;
     cfg_bitpool := cfg_bitpool c; cfg_has_bitpool := cfg_has_bitpool c;
     cfg_autoconnect := cfg_autoconnect c |}.

Definition set_cfg_rate (v : Z) (c : bluetooth_alsa_config) :=
  {| cfg_device := cfg_device c; cfg_has_device := cfg_has_device c;
     cfg_transport := cfg_transport c; cfg_has_transport := cfg_has_transport c;
     cfg_rate := v; cfg_has_rate := true;
     cfg_channel_mode := cfg_channel_mode c;
     cfg_has_channel_mode := cfg_has_channel_mode c;
     cfg_allocation_method := cfg_allocation_method c;
     cfg_has_allocation_method := cfg_has_allocation_method c;
     cfg_subbands := cfg_subbands c; cfg_has_subbands := cfg_has_subbands c;
     cfg_block_length := cfg_block_length c;
     cfg_has_block_length := cfg_has_block_length c;
     cfg_bitpool := cfg_bitpool c; cfg_has_bitpool := cfg_has_bitpool c;
     cfg_autoconnect := cfg_autoconnect c |}.

Definition set_cfg_channel_mode (v : Z) (c : bluetooth_alsa_config) :=
  {| cfg_device := cfg_device c; cfg_has_device := cfg_has_device c;
     cfg_transport := cfg_transport c; cfg_has_transport := cfg_has_transport c;
     cfg_rate := cfg_rate c; cfg_has_rate := cfg_has_rate c;
     cfg_channel_mode := v; cfg_has_channel_mode := true;
     cfg_allocation_method := cfg_allocation_method c;
     cfg_has_allocation_method := cfg_has_allocation_method c;
     cfg_subbands := cfg_subbands c; cfg_has_subbands := cfg_has_subbands c;
     cfg_block_length := cfg_block_length c;
     cfg_has_block_length := cfg_has_block_length c;
     cfg_bitpool := cfg_bitpool c; cfg_has_bitpool := cfg_has_bitpool c;
     cfg_autoconnect := cfg_autoconnect c |}.

Definition set_cfg_allocation_method (v : Z) (c : bluetooth_alsa_config) :=
  {| cfg_device := cfg_device c; cfg_has_device := cfg_has_device c;
     cfg_transport := cfg_transport c; cfg_has_transport := cfg_has_transport c;
     cfg_rate := cfg_rate c; cfg_has_rate := cfg_has_rate c;
     cfg_channel_mode := cfg_channel_mode c;
     cfg_has_channel_mode := cfg_has_channel_mode c;
     cfg_allocation_method := v; cfg_has_allocation_method := true;
     cfg_subbands := cfg_subbands c; cfg_has_subbands := cfg_has_subbands c;
     cfg_block_length := cfg_block_length c;
     cfg_has_block_length := cfg_has_block_length c;
     cfg_bitpool := cfg_bitpool c; cfg_has_bitpool := cfg_has_bitpool c;
     cfg_autoconnect := cfg_autoconnect c |}.

Definition set_cfg_subbands (v : Z) (c : bluetooth_alsa_config) :=
  {| cfg_device := cfg_device c; cfg_has_device := cfg_has_device c;
     cfg_transport := cfg_transport c; cfg_has_transport := cfg_has_transport c;
     cfg_rate := cfg_rate c; cfg_has_rate := cfg_has_rate c;
     cfg_channel_mode := cfg_channel_mode c;
     cfg_has_channel_mode := cfg_has_channel_mode c;
     cfg_allocation_method := cfg_allocation_method c;
     cfg_has_allocation_method := cfg_has_allocation_method c;
     cfg_subbands := v; cfg_has_subbands := true;
     cfg_block_length := cfg_block_length c;
     cfg_has_block_length := cfg_has_block_length c;
     cfg_bitpool := cfg_bitpool c; cfg_has_bitpool := cfg_has_bitpool c;
     cfg_autoconnect := cfg_autoconnect c |}.

Definition set_cfg_block_length (v : Z) (c : bluetooth_alsa_config) :=
  {| cfg_device := cfg_device c; cfg_has_device := cfg_has_device c;
     cfg_transport := cfg_transport c; cfg_has_transport := cfg_has_transport c;
     cfg_rate := cfg_rate c; cfg_has_rate := cfg_has_rate c;
     cfg_channel_mode := cfg_channel_mode c;
     cfg_has_channel_mode := cfg_has_channel_mode c;
     cfg_allocation_method := cfg_allocation_method c;
     cfg_has_allocation_method := cfg_has_allocation_method c;
     cfg_subbands := cfg_subbands c; cfg_has_subbands := cfg_has_subbands c;
     cfg_block_length := v; cfg_has_block_length := true;
     cfg_bitpool := cfg_bitpool c; cfg_has_bitpool := cfg_has_bitpool c;
     cfg_autoconnect := cfg_autoconnect c |}.

Definition set_cfg_bitpool (v : Z) (c : bluetooth_alsa_config) :=
  {| cfg_device := cfg_device c; cfg_has_device := cfg_has_device c;
     cfg_transport := cfg_transport c; cfg_has_transport := cfg_has_transport c;
     cfg_rate := cfg_rate c; cfg_has_rate := cfg_has_rate c;
     cfg_channel_mode := cfg_channel_mode c;
     cfg_has_channel_mode := cfg_has_channel_mode c;
     cfg_allocation_method := cfg_allocation_method c;
     cfg_has_allocation_method := cfg_has_allocation_method c;
     cfg_subbands := cfg_subbands c; cfg_has_subbands := cfg_has_subbands c;
     cfg_block_length := cfg_block_length c;
     cfg_has_block_length := cfg_has_block_length c;
     cfg_bitpool := v; cfg_has_bitpool := true;
     cfg_autoconnect := cfg_autoconnect c |}.

Section ParseConfig.

Context {K : ipc_h} {X : ipc_h_ext} {L : stdlib_h}.

(** [strcmp(a, b) == 0] *)
Definition streq (a b : String.string) : bool := String.eqb a b.

Arguments streq (a b)%_string.

(** A node whose value must be a string: [k] is what is done with it. *)
Definition with_string (n : snd_config_t)
    (k : String.string -> bluetooth_alsa_config)
    : bluetooth_alsa_config + Z :=
  match snd_config_get_string n with
  | None => inr (- EINVAL)
  | Some value => inl (k value)
  end.

(** One turn of [snd_config_for_each]: [inl] is [continue], [inr] is
    [return]. *)
Definition parse_node (n : snd_config_t) (bt_config : bluetooth_alsa_config)
    : bluetooth_alsa_config + Z :=
  match snd_config_get_id n with
  | None => inl bt_config
  | Some id =>
    if streq id "comment" || streq id "type" then inl bt_config
    else if streq id "autoconnect" then
      let b := snd_config_get_bool n in
      if b <? 0 then inr (- EINVAL)
      else inl (set_cfg_autoconnect (negb (b =? 0)) bt_config)
    else if streq id "device" || streq id "bdaddr" then
      with_string n (fun value =>
        set_cfg_device (strncpy value 18) bt_config)
    else if streq id "profile" then
      with_string n (fun value =>
        if streq value "auto" then
          set_cfg_transport (uint8_t BT_CAPABILITIES_TRANSPORT_ANY) bt_config
        else if streq value "voice" || streq value "hfp" then
          set_cfg_transport (uint8_t BT_CAPABILITIES_TRANSPORT_SCO) bt_config
        else if streq value "hifi" || streq value "a2dp" then
          set_cfg_transport (uint8_t BT_CAPABILITIES_TRANSPORT_A2DP) bt_config
        else bt_config)
    else if streq id "rate" then
      with_string n (fun value =>
        set_cfg_rate (uint16_t (atoi value)) bt_config)
    else if streq id "mode" then
      with_string n (fun value =>
        if streq value "mono" then
          set_cfg_channel_mode (uint8_t BT_A2DP_CHANNEL_MODE_MONO) bt_config
        else if streq value "dual" then
          set_cfg_channel_mode (uint8_t BT_A2DP_CHANNEL_MODE_DUAL_CHANNEL)
            bt_config
        else if streq value "stereo" then
          set_cfg_channel_mode (uint8_t BT_A2DP_CHANNEL_MODE_STEREO) bt_config
        else if streq value "joint" then
          set_cfg_channel_mode (uint8_t BT_A2DP_CHANNEL_MODE_JOINT_STEREO)
            bt_config
        else bt_config)
    else if streq id "allocation" then
      with_string n (fun value =>
        if streq value "loudness" then
          set_cfg_allocation_method (uint8_t BT_A2DP_ALLOCATION_LOUDNESS)
            bt_config
        else if streq value "snr" then
          set_cfg_allocation_method (uint8_t BT_A2DP_ALLOCATION_SNR) bt_config
        else bt_config)
    else if streq id "subbands" then
      with_string n (fun value =>
        set_cfg_subbands (uint8_t (atoi value)) bt_config)
    else if streq id "blocks" then
      with_string n (fun value =>
        set_cfg_block_length (uint8_t (atoi value)) bt_config)
    else if streq id "bitpool" then
      with_string n (fun value =>
        set_cfg_bitpool (uint8_t (atoi value)) bt_config)
    else inr (- EINVAL)
  end.

(** [snd_config_for_each] over the nodes of [conf], in order. *)
Fixpoint parse_nodes (conf : list snd_config_t)
    (bt_config : bluetooth_alsa_config) : Z * bluetooth_alsa_config :=
  match conf with
  | [] => (0, bt_config)
  | n :: conf =>
    match parse_node n bt_config with
    | inl bt_config => parse_nodes conf bt_config
    | inr err => (err, bt_config)
    end
  end.

(** The result is the return value and [*bt_config] as it is left. *)
Definition bluetooth_parse_config (conf : list snd_config_t)
    : Z * bluetooth_alsa_config :=
  (* Set defaults *)
  parse_nodes conf (set_cfg_autoconnect true zeroed_alsa_config).

End ParseConfig.

(** *** What the parser accepts *)

(** The field names whose value must be a string. *)
Definition string_fields : list String.string :=
  ["device"; "bdaddr"; "profile"; "rate"; "mode"; "allocation"; "subbands";
   "blocks"; "bitpool"]%string.

(** A node that does not make the parser return: it has no name, or it is
    a comment or a type, or it is [autoconnect] with a Boolean value, or it
    is one of the string fields with a string value. *)
Definition node_accepted (n : snd_config_t) : bool :=
  match snd_config_get_id n with
  | None => true
  | Some id =>
    if existsb (String.eqb id) ["comment"; "type"]%string then true
    else if String.eqb id "autoconnect" then 0 <=? snd_config_get_bool n
    else if existsb (String.eqb id) string_fields then
      match snd_config_get_string n with Some _ => true | None => false end
    else false
  end.

(** A node that names the remote device. *)
Definition names_device (n : snd_config_t) : bool :=
  match snd_config_get_id n with
  | Some id => existsb (String.eqb id) ["device"; "bdaddr"]%string
  | None => false
  end.

(** The values that a parsed resource file can hold. *)
Definition alsa_config_in_range {K : ipc_h} {X : ipc_h_ext}
    (c : bluetooth_alsa_config) : Prop :=
  length (cfg_device c) = 18%nat
  /\ (cfg_has_transport c = true ->
      In (cfg_transport c)
        [uint8_t BT_CAPABILITIES_TRANSPORT_ANY;
         uint8_t BT_CAPABILITIES_TRANSPORT_SCO;
         uint8_t BT_CAPABILITIES_TRANSPORT_A2DP])
  /\ (cfg_has_channel_mode c = true ->
      In (cfg_channel_mode c)
        [uint8_t BT_A2DP_CHANNEL_MODE_MONO;
         uint8_t BT_A2DP_CHANNEL_MODE_DUAL_CHANNEL;
         uint8_t BT_A2DP_CHANNEL_MODE_STEREO;
         uint8_t BT_A2DP_CHANNEL_MODE_JOINT_STEREO])
  /\ (cfg_has_allocation_method c = true ->
      In (cfg_allocation_method c)
        [uint8_t BT_A2DP_ALLOCATION_LOUDNESS;
         uint8_t BT_A2DP_ALLOCATION_SNR])
  /\ 0 <= cfg_rate c < 2 ^ 16
  /\ 0 <= cfg_subbands c < 2 ^ 8
  /\ 0 <= cfg_block_length c < 2 ^ 8
  /\ 0 <= cfg_bitpool c < 2 ^ 8.

(** The channel modes of [ipc.h] are one bit each in eight bits, and mono
    shares no bit with the others. *)
Definition channel_mode_bits_disjoint {K : ipc_h} : Prop :=
  0 < BT_A2DP_CHANNEL_MODE_MONO < 2 ^ 8
  /\ forall m,
       In m [BT_A2DP_CHANNEL_MODE_DUAL_CHANNEL; BT_A2DP_CHANNEL_MODE_STEREO;
             BT_A2DP_CHANNEL_MODE_JOINT_STEREO] ->
       0 < m < 2 ^ 8 /\ Z.land m BT_A2DP_CHANNEL_MODE_MONO = 0.

(** ** The capabilities of the remote device *)

(** [codec_capabilities_t], the head of each entry of the capabilities:
    the fields that [bluetooth_parse_capabilities] reads.  All are
    [uint8_t]. *)
Record codec_capabilities_t : Type := {
  codec_transport : Z;
  codec_type : Z;
  codec_length : Z;
  codec_lock : Z
}.

(** The response to [BT_GET_CAPABILITIES] as the parser reads it:
    [h.length], and what stands at an offset of [rsp->data], read as the head
    of an entry and read as an [sbc_capabilities_t]. *)
Record bt_get_capabilities_rsp : Type := {
  rsp_length : Z;
  rsp_codec : Z -> codec_capabilities_t;
  rsp_sbc : Z -> sbc_capabilities_t
}.

Section ParseCapabilities.

Context {K : ipc_h} {X : ipc_h_ext}.

(** The test that ends the search: an SBC sink that is not locked for
    writing. *)
Definition free_sbc_sink (c : codec_capabilities_t) : bool :=
  (codec_type c =? BT_A2DP_SBC_SINK)
  && negb (land_nonzero (codec_lock c) BT_WRITE_LOCK).

(** The [while (bytes_left > 0)] loop: [codec] is the offset of the entry
    in [rsp->data].  The result is [bytes_left] and [codec] behind the loop;
    [None] means that [fuel] turns did not end it. *)
Fixpoint find_sbc_sink (fuel : nat) (rsp : bt_get_capabilities_rsp)
    (bytes_left codec : Z) : option (Z * Z) :=
  if bytes_left >? 0 then
    if free_sbc_sink (rsp_codec rsp codec) then Some (bytes_left, codec)
    else
      match fuel with
      | O => None
      | S fuel =>
        find_sbc_sink fuel rsp
          (int32_t (bytes_left - codec_length (rsp_codec rsp codec)))
          (codec + codec_length (rsp_codec rsp codec))
      end
  else Some (bytes_left, codec).

(** [bytes_left] before the loop. *)
Definition capabilities_bytes (rsp : bt_get_capabilities_rsp) : Z :=
  int32_t (uint32_t (rsp_length rsp - sizeof_bt_get_capabilities_rsp)).

Definition parse_capabilities_fuel (fuel : nat) (data : bluetooth_data)
    (rsp : bt_get_capabilities_rsp) : option (Z * bluetooth_data) :=
  let bytes_left := capabilities_bytes rsp in
  let codec := 0 in
  let data := set_transport (codec_transport (rsp_codec rsp codec)) data in
  if negb (codec_transport (rsp_codec rsp codec)
           =? BT_CAPABILITIES_TRANSPORT_A2DP)
  then Some (0, data)
  else
    match find_sbc_sink fuel rsp bytes_left codec with
    | None => None
    | Some (bytes_left, codec) =>
      if (bytes_left <=? 0)
         || negb (codec_length (rsp_codec rsp codec)
                  =? sizeof_sbc_capabilities_t)
      then Some (- EINVAL, data)
      else
        Some (0, set_a2dp (set_sbc_capabilities (rsp_sbc rsp codec)
                             (a2dp data)) data)
    end.

(** A turn that skips an entry of at least one byte takes at least one
    byte off [bytes_left], so [bytes_left] turns are enough then. *)
Definition bluetooth_parse_capabilities (data : bluetooth_data)
    (rsp : bt_get_capabilities_rsp) : option (Z * bluetooth_data) :=
  parse_capabilities_fuel (Z.to_nat (capabilities_bytes rsp)) data rsp.

(** The offset of the [n]-th entry: each entry starts where the one before
    it ends. *)
Fixpoint entry_offset (rsp : bt_get_capabilities_rsp) (n : nat) : Z :=
  match n with
  | O => 0
  | S n =>
    entry_offset rsp n + codec_length (rsp_codec rsp (entry_offset rsp n))
  end.

Definition entry (rsp : bt_get_capabilities_rsp) (n : nat)
    : codec_capabilities_t :=
  rsp_codec rsp (entry_offset rsp n).

End ParseCapabilities.

(** ** Sessions that outlive their handle

    [bluetooth_close] keeps a session for a while in the list
    [outstanding_data], in case the plugin is opened again for the same
    device.  A session is known by its address; [heap] gives what stands at
    an address. *)

Definition ptr : Type := nat.

(** The callback tables of the file. *)
Inductive snd_pcm_ioplug_callback_t : Type :=
| bluetooth_hsp_playback
| bluetooth_hsp_capture
| bluetooth_a2dp_playback
| bluetooth_a2dp_capture.

(** [struct bluetooth_data] with the fields that the functions below use
    on top of those of [bluetooth_data]: [pipefd], [watcher] (a
    [pthread_t], which is a [long] on Bionic), [kill_watcher] and
    [io.callback]. *)
Record plugin_data : Type := {
  pd_data : bluetooth_data;
  pipefd : Z * Z;
  watcher : Z;
  kill_watcher : Z;
  io_callback : option snd_pcm_ioplug_callback_t
}.

Definition set_pd_data (v : bluetooth_data) (d : plugin_data) :=
  {| pd_data := v; pipefd := pipefd d; watcher := watcher d;
     kill_watcher := kill_watcher d; io_callback := io_callback d |}.

Definition set_pipefd (v : Z * Z) (d : plugin_data) :=
  {| pd_data := pd_data d; pipefd := v; watcher := watcher d;
     kill_watcher := kill_watcher d; io_callback := io_callback d |}.

Definition set_watcher (v : Z) (d : plugin_data) :=
  {| pd_data := pd_data d; pipefd := pipefd d; watcher := v;
     kill_watcher := kill_watcher d; io_callback := io_callback d |}.

Definition set_kill_watcher (v : Z) (d : plugin_data) :=
  {| pd_data := pd_data d; pipefd := pipefd d; watcher := watcher d;
     kill_watcher := v; io_callback := io_callback d |}.

Definition set_io_callback (v : option snd_pcm_ioplug_callback_t)
    (d : plugin_data) :=
  {| pd_data := pd_data d; pipefd := pipefd d; watcher := watcher d;
     kill_watcher := kill_watcher d; io_callback := v |}.

Definition heap : Type := ptr -> plugin_data.

(** [*data = d] *)
Definition store (h : heap) (data : ptr) (d : plugin_data) : heap :=
  fun p => if Nat.eqb p data then d else h p.

(** What the functions below do to the outside world, in order. *)
Inductive life_event : Type :=
| bt_audio_service_close (fd : Z)
| close (fd : Z)
| pthread_join                    (* the clock thread is ended and joined *)
| sbc_finish
| free_buffer                     (* free(data->buffer) *)
| free_a2dp_buffer                (* free(a2dp->buffer) *)
| free_data (data : ptr)          (* free(data) *)
| pthread_cond_signal (data : ptr)
| snd_pcm_ioplug_create (data : ptr)
| snd_pcm_ioplug_delete (data : ptr)
| ctl_send_get_capabilities (flags : Z) (destination : list Z) (transport : Z)
| ctl_recv (expected_name : Z).

Definition bluetooth_exit (data : ptr) (d : plugin_data) : list life_event :=
  (if server_fd (pd_data d) >=? 0
   then [bt_audio_service_close (server_fd (pd_data d))] else [])
  ++ (if stream_fd (pd_data d) >=? 0
      then [close (stream_fd (pd_data d))] else [])
  ++ (if hw_thread (pd_data d) then [pthread_join] else [])
  ++ (if sbc_initialized (a2dp (pd_data d)) then [sbc_finish] else [])
  ++ (if fst (pipefd d) >? 0 then [close (fst (pipefd d))] else [])
  ++ (if snd (pipefd d) >? 0 then [close (snd (pipefd d))] else [])
  ++ [free_buffer; free_a2dp_buffer; free_data data].

(** [malloc_ok] says whether the list element can be allocated.  The
    element goes to the start of the list. *)
Definition add_outstanding_data (malloc_ok : bool) (data : ptr)
    (outstanding_data : list ptr) : Z * list ptr :=
  if malloc_ok then (0, data :: outstanding_data) else (-1, outstanding_data).

(** The first element that holds [data] is unlinked and freed. *)
Fixpoint remove_outstanding_data (data : ptr) (outstanding_data : list ptr)
    : list ptr :=
  match outstanding_data with
  | [] => []
  | elem :: next =>
    if Nat.eqb elem data then next
    else elem :: remove_outstanding_data data next
  end.

Definition bluetooth_kill_watcher (data : ptr) (h : heap)
    : heap * list life_event :=
  (store h data (set_kill_watcher 1 (h data)), [pthread_cond_signal data]).

(** The loop of [bluetooth_watcher].  Each [pthread_cond_timedwait] is
    given by whether it returns [ETIMEDOUT] and by [data->kill_watcher] as it
    stands when the call returns.  The result is [data->kill_watcher] behind
    the loop; [None] means that the thread is still waiting. *)
Fixpoint watcher_wait (waits : list (bool * Z)) (kill : Z) : option Z :=
  if negb (kill =? 0) then Some kill
  else
    match waits with
    | [] => None
    | (timed_out, kill) :: waits =>
      if timed_out then Some kill else watcher_wait waits kill
    end.

Definition bluetooth_watcher (waits : list (bool * Z)) (data : ptr)
    (h : heap) (outstanding_data : list ptr)
    : option (heap * list ptr * list life_event) :=
  match watcher_wait waits (kill_watcher (h data)) with
  | None => None
  | Some kill =>
    if kill =? 0 then
      (* Timeout. Clean old data. *)
      Some (h, remove_outstanding_data data outstanding_data,
            bluetooth_exit data (h data))
    else
      Some (store h data (set_watcher 0 (set_kill_watcher 0 (h data))),
            outstanding_data, [])
  end.

(** What [bluetooth_close] reads from outside: whether [malloc] succeeds,
    what [pthread_create] returns and leaves in [data->watcher], and what
    [pthread_detach] returns. *)
Record close_env : Type := {
  ce_malloc : bool;
  ce_pthread_create : Z * Z;
  ce_pthread_detach : Z
}.

Definition bluetooth_close (E : close_env) (data : ptr) (h : heap)
    (outstanding_data : list ptr)
    : Z * heap * list ptr * list life_event :=
  if watcher (h data) <? 0 then
    (0, h, outstanding_data, bluetooth_exit data (h data))
  else
    (* Keep data in outstanding_data for reference. *)
    let '(r, outstanding_data) :=
      add_outstanding_data (ce_malloc E) data outstanding_data in
    if r <? 0 then (0, h, outstanding_data, bluetooth_exit data (h data))
    else
      let err := fst (ce_pthread_create E) in
      let h := store h data (set_watcher (snd (ce_pthread_create E)) (h data)) in
      if negb (err =? 0) then
        (0, h, remove_outstanding_data data outstanding_data,
         bluetooth_exit data (h data))
      else
        let err := ce_pthread_detach E in
        if negb (err =? 0) then
          let '(h, ev) := bluetooth_kill_watcher data h in
          (0, h, remove_outstanding_data data outstanding_data,
           ev ++ bluetooth_exit data (h data))
        else
          (* Watcher thread succesfully run. *)
          (0, h, outstanding_data, []).

(** The characters of a C string held in an array: those before the first
    zero.  An array without a zero is read to its end. *)
Fixpoint c_string (a : list Z) : list Z :=
  match a with
  | [] => []
  | c :: a => if c =? 0 then [] else c :: c_string a
  end.

(** [strcmp(a, b) == 0] on two arrays *)
Definition strcmp_eq (a b : list Z) : bool :=
  if list_eq_dec Z.eq_dec (c_string a) (c_string b) then true else false.

Section FindOutstanding.

Context {K : ipc_h} {X : ipc_h_ext} {L : stdlib_h}.

(** The test of [bluetooth_find_outstanding_data]: the session is for the
    same remote device and the same transport as the resource file. *)
Definition same_device (alsa_conf new_alsa_conf : bluetooth_alsa_config)
    : bool :=
  strcmp_eq (cfg_device alsa_conf) (cfg_device new_alsa_conf)
  && (cfg_transport new_alsa_conf =? cfg_transport alsa_conf).

(** The [do ... while (elem)] loop, from the element [elem] on. *)
Fixpoint find_outstanding (conf : list snd_config_t) (h : heap)
    (elem : list ptr) : option ptr :=
  match elem with
  | [] => None
  | data :: next =>
    let '(err, new_alsa_conf) := bluetooth_parse_config conf in
    if err <? 0 then None
    else if same_device (alsa_config (pd_data (h data))) new_alsa_conf
    then Some data
    else find_outstanding conf h next
  end.

Definition bluetooth_find_outstanding_data (conf : list snd_config_t)
    (h : heap) (outstanding_data : list ptr)
    : option ptr * heap * list ptr * list life_event :=
  match find_outstanding conf h outstanding_data with
  | None => (None, h, outstanding_data, [])
  | Some data =>
    let '(h, ev) := bluetooth_kill_watcher data h in
    (Some data, h, remove_outstanding_data data outstanding_data, ev)
  end.

End FindOutstanding.

(** ** Opening the plugin *)

(** [memset(data, 0, sizeof(struct bluetooth_data))] *)
Definition zeroed_data : plugin_data :=
  {| pd_data :=
       {| io := {| io_stream := SND_PCM_STREAM_PLAYBACK;
                   io_state := SND_PCM_STATE_OPEN; io_appl_ptr := 0;
                   io_hw_ptr := 0; io_rate := 0; io_period_size := 0;
                   io_buffer_size := 0; io_nonblock := false |};
          alsa_config := zeroed_alsa_config; hw_ptr := 0; transport := 0;
          link_mtu := 0; stream_fd := 0; server_fd := 0; buffer := None;
          count := 0;
          a2dp := {| sbc_capabilities :=
                       {| cap_seid := 0; cap_transport := 0;
                          cap_channel_mode := 0; cap_frequency := 0;
                          cap_allocation_method := 0; cap_subbands := 0;
                          cap_block_length := 0; cap_min_bitpool := 0;
                          cap_max_bitpool := 0 |};
                     sbc := fresh_sbc; sbc_initialized := false;
                     codesize := 0; samples := 0; a2dp_buffer := None;
                     a2dp_count := 0; nsamples := 0; seq_num := 0;
                     frame_count := 0 |};
          hw_thread := false; stopped := 0; reset := 0;
          a2dp_stream_state := STREAM_CLOSED; sink_delay := 0 |};
     pipefd := (0, 0); watcher := 0; kill_watcher := 0;
     io_callback := None |}.

(** What [bluetooth_init] reads from outside: the answers of
    [bt_audio_service_open], [setsockopt], [pipe] (with the two descriptors
    it gives), the two [fcntl], [pthread_cond_init], [pthread_mutex_init],
    the [send] of the request, and the answer expected as
    BT_GET_CAPABILITIES with the capabilities it carries. *)
Record init_env : Type := {
  ie_open : syscall;
  ie_setsockopt : syscall;
  ie_pipe : syscall;
  ie_pipefd : Z * Z;
  ie_fcntl0 : syscall;
  ie_fcntl1 : syscall;
  ie_cond_init : Z;
  ie_mutex_init : Z;
  ie_send : syscall;
  ie_rsp : ipc_packet;
  ie_caps : bt_get_capabilities_rsp
}.

Section Open.

Context {K : ipc_h} {X : ipc_h_ext} {L : stdlib_h}.

(** Label [failed] of [bluetooth_init]. *)
Definition init_failed (sk err : Z) (d : plugin_data) (ev : list life_event)
    : option (Z * plugin_data * list life_event) :=
  Some (err, d, ev ++ (if sk >=? 0 then [bt_audio_service_close sk] else [])).

(** The result is the return value, [*data] as it is left, and what was
    done; [None] when [bluetooth_parse_capabilities] does not return. *)
Definition bluetooth_init (E : init_env) (conf : list snd_config_t)
    : option (Z * plugin_data * list life_event) :=
  let d := zeroed_data in
  let '(err, alsa_conf) := bluetooth_parse_config conf in
  let d := set_pd_data (set_alsa_config alsa_conf (pd_data d)) d in
  if err <? 0 then Some (err, d, [])
  else
    let d := set_pd_data (set_stream_fd (-1) (set_server_fd (-1) (pd_data d)))
               d in
    let sk := sys_ret (ie_open E) in
    if sk <=? 0 then init_failed sk (- sys_errno (ie_open E)) d []
    else if sys_ret (ie_setsockopt E) <? 0
    then init_failed sk (- sys_errno (ie_setsockopt E)) d []
    else
      let d := set_pd_data (set_server_fd sk (pd_data d)) d in
      let d := set_pipefd (-1, -1) d in
      if sys_ret (ie_pipe E) <? 0
      then init_failed sk (- sys_errno (ie_pipe E)) d []
      else
        let d := set_pipefd (ie_pipefd E) d in
        if sys_ret (ie_fcntl0 E) <? 0
        then init_failed sk (- sys_errno (ie_fcntl0 E)) d []
        else if sys_ret (ie_fcntl1 E) <? 0
        then init_failed sk (- sys_errno (ie_fcntl1 E)) d []
        else
          (* Needed for Watcher *)
          let d := if ie_cond_init E <? 0 then set_watcher (-1) d else d in
          let d := if ie_mutex_init E <? 0 then set_watcher (-1) d else d in
          let d := set_pd_data
                     (set_a2dp_stream_state STREAM_CLOSED (pd_data d)) d in
          let ev :=
            [ctl_send_get_capabilities
               (if cfg_autoconnect alsa_conf then BT_FLAG_AUTOCONNECT else 0)
               (memread (c_string (cfg_device alsa_conf)) 0 18)
               (if cfg_has_transport alsa_conf then cfg_transport alsa_conf
                else uint8_t BT_CAPABILITIES_TRANSPORT_ANY)] in
          let err := audioservice_send (ie_send E) in
          if err <? 0 then init_failed sk err d ev
          else
            let ev := ev ++ [ctl_recv BT_GET_CAPABILITIES] in
            let err := audioservice_expect (ie_rsp E) BT_GET_CAPABILITIES in
            if err <? 0 then init_failed sk err d ev
            else
              match bluetooth_parse_capabilities (pd_data d) (ie_caps E) with
              | None => None
              | Some (_, data) => Some (0, set_pd_data data d, ev)
              end.

(** What the function defined by [SND_PCM_PLUGIN_DEFINE_FUNC(bluetooth)]
    reads from outside: the address [malloc] gives (or NULL), the answers
    to [bluetooth_init], what [snd_pcm_ioplug_create] returns, and what the
    calls of the constraint function return. *)
Record open_env : Type := {
  oe_malloc : option ptr;
  oe_init : init_env;
  oe_create : Z;
  oe_alsa : nat -> Z
}.

(** Label [error]: [data] is not NULL here. *)
Definition open_error (err : Z) (data : ptr) (h : heap) (l : list ptr)
    (ev : list life_event)
    : option (Z * option ptr * heap * list ptr * list life_event) :=
  Some (err, None, h, l, ev ++ bluetooth_exit data (h data)).

(** Label [create_plugin]. *)
Definition create_plugin (E : open_env) (data : ptr) (h : heap)
    (l : list ptr) (ev : list life_event)
    : option (Z * option ptr * heap * list ptr * list life_event) :=
  let ev := ev ++ [snd_pcm_ioplug_create data] in
  let err := oe_create E in
  if err <? 0 then open_error err data h l ev
  else
    let '(err, h) :=
      if transport (pd_data (h data)) =? BT_CAPABILITIES_TRANSPORT_A2DP
      then
        let '(err, d, _) :=
          bluetooth_a2dp_hw_constraint (oe_alsa E) (pd_data (h data)) in
        (err, store h data (set_pd_data d (h data)))
      else
        (fst (bluetooth_hsp_hw_constraint (oe_alsa E) (pd_data (h data))), h)
    in
    if err <? 0
    then open_error err data h l (ev ++ [snd_pcm_ioplug_delete data])
    else Some (0, Some data, h, l, ev).

(** The function that [SND_PCM_PLUGIN_DEFINE_FUNC(bluetooth)] defines.  The
    result is the return value, [*pcmp] when it is set, the heap, the list
    of outstanding sessions, and what was done. *)
Definition snd_pcm_bluetooth_open (E : open_env) (stream : snd_pcm_stream_t)
    (conf : list snd_config_t) (h : heap) (outstanding_data : list ptr)
    : option (Z * option ptr * heap * list ptr * list life_event) :=
  (* Check if stream is already opened. *)
  let '(found, h, l, ev) :=
    bluetooth_find_outstanding_data conf h outstanding_data in
  match found with
  | Some data => create_plugin E data h l ev
  | None =>
    match oe_malloc E with
    | None => Some (- ENOMEM, None, h, l, ev)
    | Some data =>
      match bluetooth_init (oe_init E) conf with
      | None => None
      | Some (err, d, ev) =>
        let h := store h data d in
        if err <? 0 then open_error err data h l ev
        else
          let callback :=
            if transport (pd_data d) =? BT_CAPABILITIES_TRANSPORT_A2DP
            then match stream with
                 | SND_PCM_STREAM_PLAYBACK => bluetooth_a2dp_playback
                 | SND_PCM_STREAM_CAPTURE => bluetooth_a2dp_capture
                 end
            else match stream with
                 | SND_PCM_STREAM_PLAYBACK => bluetooth_hsp_playback
                 | SND_PCM_STREAM_CAPTURE => bluetooth_hsp_capture
                 end in
          let h := store h data (set_io_callback (Some callback) d) in
          create_plugin E data h l ev
      end
    end
  end.

End Open.

(** ** Concrete inputs for the rest of the plugin *)

(** The session after [bluetooth_hsp_hw_params] on a stream of direction
    [dir], the audio service having reported packets of [mtu] bytes. *)
Definition sco_session (dir : snd_pcm_stream_t) (mtu : Z) : bluetooth_data :=
  snd (fst (@bluetooth_hsp_hw_params bluez_ipc
              (accepting mtu true true) mono_16000
              (fresh_session (sample_io dir SND_PCM_STATE_RUNNING 0 0)
                 (remote_sink 2 53)))).

(** A [recv] that delivers the [n] bytes 1, 2, ..., n. *)
Definition packet_of (n : nat) : rx_outcome :=
  {| rx_recv := ok_syscall (Z.of_nat n);
     rx_bytes := map Z.of_nat (seq 1 n) |}.

(** A [recv] that fails with [errno]. *)
Definition failed_recv (errno : Z) : rx_outcome :=
  {| rx_recv := {| sys_ret := -1; sys_errno := errno |}; rx_bytes := [] |}.

(** The audio service starts the stream and hands over descriptor 7;
    [sockopt] is what the [setsockopt] calls return. *)
Definition starting (sockopt : Z) : prepare_env :=
  {| pe_start_send := ok_syscall 4;
     pe_start_rsp := answer 4 0 0;
     pe_new_stream := answer 3 0 0;
     pe_data_fd := ok_syscall 7;
     pe_setsockopt1 := {| sys_ret := sockopt; sys_errno := EINVAL |};
     pe_setsockopt2 := {| sys_ret := sockopt; sys_errno := EINVAL |};
     pe_pipe_write := 1 |}.

(** A playback session just initialised, before any configuration. *)
Definition new_playback_session : bluetooth_data :=
  fresh_session (sample_io SND_PCM_STREAM_PLAYBACK SND_PCM_STATE_SETUP 0 0)
    (remote_sink 2 53).

(** A stand-in for [atoi]: the number that the leading decimal digits of
    the string spell. *)
Fixpoint leading_digits (acc : Z) (s : String.string) : Z :=
  match s with
  | String.EmptyString => acc
  | String.String a s =>
    let d := Z.of_N (Ascii.N_of_ascii a) - 48 in
    if (0 <=? d) && (d <=? 9) then leading_digits (10 * acc + d) s else acc
  end.

Definition decimal_atoi : stdlib_h := {| atoi := leading_digits 0 |}.

(** A node [id value] of the resource file. *)
Definition string_node (id value : String.string) : snd_config_t :=
  {| snd_config_get_id := Some id;
     snd_config_get_bool := - EINVAL;
     snd_config_get_string := Some value |}.

Arguments string_node (id value)%_string.

(** The session that [bluetooth_init] leaves for the resource file [conf]
    when the remote device is [remote_sink 2 53]. *)
Definition session_of (conf : list snd_config_t) : bluetooth_data :=
  set_alsa_config
    (snd (@bluetooth_parse_config bluez_ipc bluez_ipc_ext decimal_atoi conf))
    new_playback_session.

(** Entries of a capabilities response: an SBC sink of the length of
    [sbc_capabilities_t] with the given lock, an MPEG sink, and an entry of
    length zero. *)
Definition sbc_sink_entry (lock : Z) : codec_capabilities_t :=
  {| codec_transport := 0; codec_type := 1; codec_length := 13;
     codec_lock := lock |}.

Definition mpeg_sink_entry : codec_capabilities_t :=
  {| codec_transport := 0; codec_type := 3; codec_length := 10;
     codec_lock := 0 |}.

Definition empty_entry : codec_capabilities_t :=
  {| codec_transport := 0; codec_type := 0; codec_length := 0;
     codec_lock := 0 |}.

(** The entry of [l] that starts at offset [off], the entries standing one
    behind the other. *)
Fixpoint codec_at (l : list codec_capabilities_t) (off : Z)
    : codec_capabilities_t :=
  match l with
  | [] => empty_entry
  | c :: l => if off <=? 0 then c else codec_at l (off - codec_length c)
  end.

(** A response that holds the entries [l]; every SBC entry reads as
    [cap]. *)
Definition response_of (l : list codec_capabilities_t)
    (cap : sbc_capabilities_t) : bt_get_capabilities_rsp :=
  {| rsp_length := 168 + fold_right (fun c n => codec_length c + n) 0 l;
     rsp_codec := codec_at l;
     rsp_sbc := fun _ => cap |}.

(** A session opened for the resource file [conf], with its pipe and no
    watcher yet; a heap that holds it at every address; and a system in
    which the watcher thread can be started. *)
Definition opened_for (conf : list snd_config_t) : plugin_data :=
  {| pd_data := session_of conf; pipefd := (5, 6); watcher := 0;
     kill_watcher := 0; io_callback := Some bluetooth_a2dp_playback |}.

Definition heap_of (conf : list snd_config_t) : heap :=
  fun _ => opened_for conf.

Definition threads_start : close_env :=
  {| ce_malloc := true; ce_pthread_create := (0, 77);
     ce_pthread_detach := 0 |}.

(** The audio service is reached on descriptor 4 and answers the request
    with the capabilities [caps]; [pipe] is what the call of [pipe]
    returns, with the descriptors 5 and 6 when it succeeds. *)
Definition service_answers (pipe : syscall) (caps : bt_get_capabilities_rsp)
    : init_env :=
  {| ie_open := ok_syscall 4; ie_setsockopt := ok_syscall 0;
     ie_pipe := pipe; ie_pipefd := (5, 6);
     ie_fcntl0 := ok_syscall 0; ie_fcntl1 := ok_syscall 0;
     ie_cond_init := 0; ie_mutex_init := 0;
     ie_send := ok_syscall 28; ie_rsp := answer 0 0 0; ie_caps := caps |}.

(** Memory is there at address 1, and the handle is created and accepts
    every constraint. *)
Definition handle_accepts (I : init_env) : open_env :=
  {| oe_malloc := Some 1%nat; oe_init := I; oe_create := 0;
     oe_alsa := fun _ => 0 |}.

(** * Verification *)

Section Verification.

Context {K : ipc_h} {C : sbc_h} {R : rtp_h}.

(** ** Integer facts *)

Lemma uint32_t_id x : 0 <= x < 2 ^ 32 -> uint32_t x = x.
Proof. intros H. unfold uint32_t. apply Z.mod_small. exact H. Qed.

Lemma uint16_t_id x : 0 <= x < 2 ^ 16 -> uint16_t x = x.
Proof. intros H. unfold uint16_t. apply Z.mod_small. exact H. Qed.

Lemma uint8_t_id x : 0 <= x < 2 ^ 8 -> uint8_t x = x.
Proof. intros H. unfold uint8_t. apply Z.mod_small. exact H. Qed.

Lemma int32_t_id x : - 2 ^ 31 <= x < 2 ^ 31 -> int32_t x = x.
Proof.
  intros H. unfold int32_t. rewrite Z.mod_small; lia.
Qed.

Lemma uint32_t_range x : 0 <= uint32_t x < 2 ^ 32.
Proof. unfold uint32_t. apply Z.mod_pos_bound. lia. Qed.

Lemma uint16_t_range x : 0 <= uint16_t x < 2 ^ 16.
Proof. unfold uint16_t. apply Z.mod_pos_bound. lia. Qed.

Lemma int32_t_zero x : 0 <= x < 2 ^ 32 -> int32_t x = 0 -> x = 0.
Proof.
  unfold int32_t. intros Hx H.
  destruct (Z_lt_le_dec x (2 ^ 31)) as [Hlt | Hge].
  - rewrite Z.mod_small in H; lia.
  - replace (x + 2 ^ 31) with (x - 2 ^ 31 + 1 * 2 ^ 32) in H by lia.
    rewrite Z.mod_add in H by lia.
    rewrite Z.mod_small in H; lia.
Qed.

(** ** The packet header, read back *)

Lemma htons_read x :
  let b := htons_bytes x in
  nth 0 b 0 * 256 + nth 1 b 0 = uint16_t x.
Proof.
  cbn [htons_bytes nth].
  pose proof (uint16_t_range x) as Hr.
  rewrite Z.shiftr_div_pow2 by lia.
  change 255 with (Z.ones 8). rewrite Z.land_ones by lia.
  change (2 ^ 8) with 256.
  pose proof (Z.div_mod (uint16_t x) 256). lia.
Qed.

Lemma htonl_read x :
  let b := htonl_bytes x in
  ((nth 0 b 0 * 256 + nth 1 b 0) * 256 + nth 2 b 0) * 256 + nth 3 b 0
  = uint32_t x.
Proof.
  cbn [htonl_bytes nth].
  pose proof (uint32_t_range x) as Hr.
  set (u := uint32_t x) in *.
  rewrite !Z.shiftr_div_pow2 by lia.
  change 255 with (Z.ones 8). rewrite !Z.land_ones by lia.
  change (2 ^ 8) with 256. change (2 ^ 16) with 65536.
  change (2 ^ 24) with 16777216.
  assert (H24 : 0 <= u / 16777216 < 256).
  { split; [apply Z.div_pos; lia | apply Z.div_lt_upper_bound; lia]. }
  pose proof (Z.div_mod u 256 ltac:(lia)) as H0.
  pose proof (Z.div_mod (u / 256) 256 ltac:(lia)) as H1.
  pose proof (Z.div_mod (u / 256 / 256) 256 ltac:(lia)) as H2.
  rewrite !Z.div_div in H1, H2 by lia.
  change (256 * 256) with 65536 in *.
  rewrite Z.div_div in H2 by lia.
  change (65536 * 256) with 16777216 in *.
  lia.
Qed.

(** ** Memory facts *)

Lemma memread_length buf off n : length (memread buf off n) = Z.to_nat n.
Proof.
  unfold memread. rewrite firstn_length_le; [reflexivity|].
  rewrite length_app, repeat_length. lia.
Qed.

Lemma firstn_repeat_le (x : Z) (k n : nat) :
  (k <= n)%nat -> firstn k (repeat x n) = repeat x k.
Proof.
  revert n. induction k as [|k IH]; intros [|n] H; cbn; try reflexivity; try lia.
  f_equal. apply IH. lia.
Qed.

Lemma firstn_pad (b : list Z) (c : nat) :
  firstn c (b ++ repeat 0 c) = firstn c b ++ repeat 0 (c - length b).
Proof.
  rewrite firstn_app. f_equal.
  apply firstn_repeat_le. lia.
Qed.

Lemma memread_0 buf n :
  memread buf 0 n
  = firstn (Z.to_nat n) buf ++ repeat 0 (Z.to_nat n - length buf).
Proof. unfold memread. cbn [Z.to_nat skipn]. apply firstn_pad. Qed.

(** Storing [src] right after the first [c] bytes: the first
    [c + length src] bytes are the old first [c] bytes, then [src]. *)
Lemma memread_memcpy_append buf c src :
  0 <= c ->
  memread (memcpy buf c src) 0 (c + Z.of_nat (length src))
  = memread buf 0 c ++ src.
Proof.
  intros Hc. rewrite (memread_0 buf c). unfold memcpy.
  set (p := firstn (Z.to_nat c) buf ++ repeat 0 (Z.to_nat c - length buf)).
  assert (Hp : length p = Z.to_nat c).
  { unfold p. rewrite length_app, length_firstn, repeat_length. lia. }
  unfold memread. cbn [Z.to_nat skipn].
  replace (firstn (Z.to_nat c) buf ++ repeat 0 (Z.to_nat c - length buf)
           ++ src ++ skipn (Z.to_nat c + length src) buf)
    with ((p ++ src) ++ skipn (Z.to_nat c + length src) buf)
    by (unfold p; rewrite <- !app_assoc; reflexivity).
  rewrite <- app_assoc.
  rewrite firstn_app.
  replace (Z.to_nat (c + Z.of_nat (length src))) with (length (p ++ src))
    by (rewrite length_app, Hp; lia).
  rewrite firstn_all, Nat.sub_diag. cbn [firstn]. apply app_nil_r.
Qed.

(** Storing at the start: the stored bytes are read back. *)
Lemma memread_memcpy_0 buf src :
  memread (memcpy buf 0 src) 0 (Z.of_nat (length src)) = src.
Proof.
  pose proof (memread_memcpy_append buf 0 src ltac:(lia)) as H.
  cbn [Z.add] in H. rewrite H. unfold memread. reflexivity.
Qed.

(** ** [avdtp_write] *)

(** A store that ends within the buffer leaves its length as it is. *)
Lemma memcpy_length dst off src :
  0 <= off ->
  (Z.to_nat off + length src <= length dst)%nat ->
  length (memcpy dst off src) = length dst.
Proof.
  intros Hoff H. unfold memcpy.
  rewrite !length_app, length_firstn, repeat_length, length_skipn. lia.
Qed.

Lemma rtp_header_bytes_length a :
  length (rtp_header_bytes a) = 13%nat.
Proof. reflexivity. Qed.

(** The state [avdtp_write] leaves, whatever the data socket answers. *)
Lemma avdtp_write_state tx data :
  let '(_, data', _) := avdtp_write tx data in
  a2dp_count (a2dp data') = header_size
  /\ frame_count (a2dp data') = 0
  /\ samples (a2dp data') = 0
  /\ seq_num (a2dp data') = uint16_t (seq_num (a2dp data) + 1)
  /\ a2dp_buffer (a2dp data')
     = Some (memcpy (NULL_bytes (a2dp_buffer (a2dp data))) 0
               (rtp_header_bytes (a2dp data)))
  /\ nsamples (a2dp data') = nsamples (a2dp data)
  /\ codesize (a2dp data') = codesize (a2dp data)
  /\ sbc (a2dp data') = sbc (a2dp data)
  /\ link_mtu data' = link_mtu data
  /\ count data' = count data
  /\ buffer data' = buffer data
  /\ io data' = io data
  /\ stopped data' = stopped data
  /\ reset data' = reset data.
Proof.
  unfold avdtp_write.
  destruct (land_nonzero (tx_revents tx) POLLOUT);
    [| destruct (sys_ret (tx_poll tx) <? 0)];
    cbn; repeat split; reflexivity.
Qed.

(** What [avdtp_write] hands to the data socket. *)
Lemma avdtp_write_events tx data :
  let '(_, _, tr) := avdtp_write tx data in
  tr = (if land_nonzero (tx_revents tx) POLLOUT
        then [DataSend
                {| pkt_len := a2dp_count (a2dp data);
                   pkt_bytes :=
                     memread (memcpy (NULL_bytes (a2dp_buffer (a2dp data))) 0
                                (rtp_header_bytes (a2dp data)))
                       0 (a2dp_count (a2dp data));
                   pkt_ret := sys_ret (tx_send tx) |}]
        else []).
Proof.
  unfold avdtp_write.
  destruct (land_nonzero (tx_revents tx) POLLOUT);
    [| destruct (sys_ret (tx_poll tx) <? 0)]; reflexivity.
Qed.

(** C9.  Every call of the packet transmit routine [avdtp_write]
    increments the sequence number (a [uint16_t], so modulo 65536) and
    resets the wire-buffer fill to the header size and the frame and sample
    counters to zero, whatever happened to the packet: when the socket is
    not writable nothing is sent and the result is 0 (or [-errno] when
    [poll] itself failed), when [send] fails the result is [-errno]; in
    both cases the sequence number is consumed all the same. *)
Theorem avdtp_write_always_resets tx data :
  let '(ret, data', tr) := avdtp_write tx data in
  (seq_num (a2dp data') = (seq_num (a2dp data) + 1) mod 65536
   /\ a2dp_count (a2dp data') = sizeof_rtp_header + sizeof_rtp_payload
   /\ frame_count (a2dp data') = 0
   /\ samples (a2dp data') = 0)
  /\ (land_nonzero (tx_revents tx) POLLOUT = false ->
      tr = []
      /\ ret = (if sys_ret (tx_poll tx) <? 0 then - sys_errno (tx_poll tx)
                else 0))
  /\ (land_nonzero (tx_revents tx) POLLOUT = true ->
      sys_ret (tx_send tx) < 0 ->
      ret = - sys_errno (tx_send tx)
      /\ exists p, tr = [DataSend p] /\ pkt_ret p = sys_ret (tx_send tx)).
Proof.
  unfold avdtp_write.
  destruct (land_nonzero (tx_revents tx) POLLOUT) eqn:Hw.
  - cbn. split; [repeat split; reflexivity|]. split; [discriminate|].
    intros _ Hs. apply Z.ltb_lt in Hs. rewrite Hs. split; [reflexivity|].
    eexists. split; reflexivity.
  - destruct (sys_ret (tx_poll tx) <? 0); cbn;
      (split; [repeat split; reflexivity|]); (split; [|discriminate]);
      intros _; split; reflexivity.
Qed.

(** ** The header round trip *)

Lemma rtp_header_read a :
  0 <= frame_count_bits <= 8 ->
  let hdr := rtp_header_bytes a in
  rtp_sequence_number hdr = seq_num a mod 65536
  /\ rtp_timestamp hdr = nsamples a mod 2 ^ 32
  /\ rtp_frame_count hdr = frame_count a mod 2 ^ frame_count_bits.
Proof.
  intros HW. cbn zeta. split; [|split].
  - unfold rtp_sequence_number, rtp_header_bytes.
    exact (htons_read (seq_num a)).
  - unfold rtp_timestamp, rtp_header_bytes.
    exact (htonl_read (nsamples a)).
  - unfold rtp_frame_count, rtp_header_bytes.
    change (nth 12 _ 0)
      with (uint8_t (Z.land (frame_count a) (Z.ones frame_count_bits))).
    rewrite !Z.land_ones by lia.
    assert (Hp : 0 < 2 ^ frame_count_bits <= 2 ^ 8).
    { split; [apply Z.pow_pos_nonneg; lia | apply Z.pow_le_mono_r; lia]. }
    pose proof (Z.mod_pos_bound (frame_count a) (2 ^ frame_count_bits)
                  (proj1 Hp)) as Hm.
    rewrite uint8_t_id.
    + apply Z.mod_mod. intros E. rewrite E in Hp. destruct Hp as [Hp _].
      exact (Z.lt_irrefl 0 Hp).
    + split; [exact (proj1 Hm)|].
      eapply Z.lt_le_trans; [exact (proj2 Hm) | exact (proj2 Hp)].
Qed.

(** X18.  The header of a packet read back.  On a session whose wire
    buffer is allocated and holds the bytes filled so far, the header that
    [avdtp_write] builds is stored within the buffer, and in the buffer as
    in the bytes handed to [send] it reads back as the sequence number
    modulo 65536, the sample count modulo 2^32, and the frame count modulo
    2^w, where w is the width of the frame-count bit-field of the payload
    header (at most the 8 bits of that one-byte header): the frame count
    itself only when it is below 2^w. *)
Theorem header_round_trip tx data buf :
  0 <= frame_count_bits <= 8 ->
  a2dp_buffer (a2dp data) = Some buf ->
  header_size <= a2dp_count (a2dp data) <= Z.of_nat (length buf) ->
  let '(_, data', tr) := avdtp_write tx data in
  let a := a2dp data in
  let reads_back (hdr : list Z) :=
    rtp_sequence_number hdr = seq_num a mod 65536
    /\ rtp_timestamp hdr = nsamples a mod 2 ^ 32
    /\ rtp_frame_count hdr = frame_count a mod 2 ^ frame_count_bits
    /\ (0 <= frame_count a < 2 ^ frame_count_bits ->
        rtp_frame_count hdr = frame_count a) in
  (exists buf',
     a2dp_buffer (a2dp data') = Some buf'
     /\ length buf' = length buf
     /\ reads_back (memread buf' 0 header_size))
  /\ forall p, In (DataSend p) tr ->
       pkt_len p = a2dp_count a /\ reads_back (firstn 13 (pkt_bytes p)).
Proof.
  intros HW Hb Hcnt.
  pose proof (avdtp_write_state tx data) as Hs.
  pose proof (avdtp_write_events tx data) as He.
  destruct (avdtp_write tx data) as [[ret data'] tr].
  destruct Hs as (_ & _ & _ & _ & Hbuf & _).
  rewrite Hb in Hbuf, He. cbn [NULL_bytes] in Hbuf, He.
  cbn zeta.
  pose proof (rtp_header_read (a2dp data) HW) as (Hseq & Hts & Hfc).
  assert (Hall : forall hdr, hdr = rtp_header_bytes (a2dp data) ->
    rtp_sequence_number hdr = seq_num (a2dp data) mod 65536
    /\ rtp_timestamp hdr = nsamples (a2dp data) mod 2 ^ 32
    /\ rtp_frame_count hdr = frame_count (a2dp data) mod 2 ^ frame_count_bits
    /\ (0 <= frame_count (a2dp data) < 2 ^ frame_count_bits ->
        rtp_frame_count hdr = frame_count (a2dp data))).
  { intros hdr ->. repeat split; try assumption.
    intros Hr. rewrite Hfc. apply Z.mod_small. exact Hr. }
  unfold header_size, sizeof_rtp_header, sizeof_rtp_payload in Hcnt.
  split.
  - eexists. split; [exact Hbuf|]. split.
    + apply memcpy_length; [lia|]. rewrite rtp_header_bytes_length. lia.
    + apply Hall.
      exact (memread_memcpy_0 _ (rtp_header_bytes (a2dp data))).
  - intros p Hin. rewrite He in Hin.
    destruct (land_nonzero (tx_revents tx) POLLOUT); [|destruct Hin].
    destruct Hin as [Hp | []]. injection Hp as <-.
    cbn [pkt_bytes pkt_len] in *.
    split; [reflexivity|]. apply Hall.
    set (b := memcpy _ 0 _).
    rewrite <- (memread_memcpy_0 buf (rtp_header_bytes (a2dp data))).
    fold b. unfold memread. cbn [Z.to_nat skipn].
    rewrite firstn_firstn.
    replace (Init.Nat.min 13 (Z.to_nat (a2dp_count (a2dp data)))) with 13%nat
      by lia.
    rewrite rtp_header_bytes_length.
    change (Z.to_nat (Z.of_nat 13)) with 13%nat.
    rewrite !firstn_app.
    apply f_equal.
    rewrite !firstn_repeat_le by lia. reflexivity.
Qed.

(** ** Underrun *)

(** The encode path: stop, pipe-broken failure, clock reset flagged. *)
Lemma a2dp_write_underrun fuel E areas offset size data :
  io_hw_ptr (io data) > io_appl_ptr (io data) ->
  a2dp_write_fuel fuel E areas offset size data
  = Some (- EPIPE, set_reset 1 (set_stopped 1 data), []).
Proof.
  intros H. unfold a2dp_write_fuel.
  apply Z.gtb_gt in H. rewrite H. reflexivity.
Qed.

(** The low-latency path: stop and pipe-broken failure, and nothing else:
    [data->reset] keeps its value. *)
Lemma hsp_write_underrun snd areas offset size data :
  io_hw_ptr (io data) > io_appl_ptr (io data) ->
  bluetooth_hsp_write snd areas offset size data
  = (- EPIPE, set_stopped 1 data, []).
Proof.
  intros H. unfold bluetooth_hsp_write.
  apply Z.gtb_gt in H. rewrite H. reflexivity.
Qed.

(** C4.  A low-latency (HSP) playback transfer entered with the
    application pointer (0) behind the hardware pointer (1024), on a
    session whose reset flag is clear: the call stops the stream and returns
    [-EPIPE], but the session is not flagged for a clock reset; the same
    call on the encode path does flag it. *)
Theorem hsp_underrun_does_not_flag_reset :
  let data := fresh_session
    (sample_io SND_PCM_STREAM_PLAYBACK SND_PCM_STATE_RUNNING 0 1024)
    (remote_sink 2 53) in
  (exists data',
     bluetooth_hsp_write (ok_syscall 48) (pcm_area 1 96) 0 24 data
     = (- EPIPE, data', [])
     /\ stopped data' = 1 /\ reset data' = 0)
  /\ (exists data',
     @bluetooth_a2dp_write stand_in_sbc bluez_rtp (running_env (writable 13))
       (pcm_area 1 96) 0 24 data
     = Some (- EPIPE, data', [])
     /\ stopped data' = 1 /\ reset data' = 1).
Proof.
  split; eexists; (split; [reflexivity | split; reflexivity]).
Qed.

(** ** [bluetooth_prepare] *)

Lemma bluetooth_prepare_total E data :
  io_period_size (io data) <> 0 ->
  exists r, bluetooth_prepare E data = Some r.
Proof.
  intros H. unfold bluetooth_prepare.
  apply Z.eqb_neq in H. rewrite H. eexists. reflexivity.
Qed.

(** The pointer that [bluetooth_prepare] leaves, on every path. *)
Lemma bluetooth_prepare_hw_ptr E data ret data' tr :
  bluetooth_prepare E data = Some (ret, data', tr) ->
  hw_ptr data'
  = match io_stream (io data) with
    | SND_PCM_STREAM_PLAYBACK => 0
    | SND_PCM_STREAM_CAPTURE => int32_t (io_period_size (io data))
    end.
Proof.
  unfold bluetooth_prepare, prepare_done.
  destruct (io_period_size (io data) =? 0); [discriminate|].
  intros H. injection H as H.
  destruct (hw_thread data); cbn [io set_hw_thread set_reset] in H;
  destruct (io_stream (io data));
    repeat match type of H with
           | context [if ?b then _ else _] => destruct b
           end;
    injection H as <- <- <-; reflexivity.
Qed.

(** C10.  Every prepare call ([io->period_size] is a [snd_pcm_uframes_t]
    and not zero, the call divides by it) returns, and leaves the hardware
    pointer at zero for a playback stream and at one period size for a
    capture stream, whether or not the rest of the call succeeds; the
    pointer callback then reports a nonzero pointer for capture. *)
Theorem prepare_initial_pointer E data :
  0 < io_period_size (io data) < 2 ^ 32 ->
  exists ret data' tr,
    bluetooth_prepare E data = Some (ret, data', tr)
    /\ match io_stream (io data) with
       | SND_PCM_STREAM_PLAYBACK => bluetooth_pointer data' = 0
       | SND_PCM_STREAM_CAPTURE =>
         bluetooth_pointer data' = int32_t (io_period_size (io data))
         /\ bluetooth_pointer data' <> 0
         /\ (io_period_size (io data) < 2 ^ 31 ->
             bluetooth_pointer data' = io_period_size (io data))
       end.
Proof.
  intros Hp.
  destruct (bluetooth_prepare_total E data ltac:(lia)) as [[[ret data'] tr] H].
  exists ret, data', tr. split; [exact H|].
  apply bluetooth_prepare_hw_ptr in H. unfold bluetooth_pointer. rewrite H.
  destruct (io_stream (io data)); [reflexivity|].
  split; [reflexivity|]. split.
  - intros E0. apply int32_t_zero in E0; lia.
  - intros Hlt. apply int32_t_id. lia.
Qed.

Ltac finish_cases :=
  repeat split; intros; try lia; try contradiction;
  split; try reflexivity; try lia; try congruence.

Lemma stream_state_eqb_neq a b : stream_state_eqb a b = false <-> a <> b.
Proof.
  destruct a, b; cbn; split; intros H; try reflexivity; try discriminate;
    try (intros E0; discriminate); exfalso; apply H; reflexivity.
Qed.

(** C7.  A prepare call on a session that is not Started attempts START.
    When the answer to START_STREAM fails with [-EAGAIN], the stream state
    is Closed when the error is returned.  Every other failure of the
    attempt (the request cannot be sent, the answer to START_STREAM fails
    with another error, the new-stream indication fails, no data descriptor
    is obtained, the socket option of the encoded transport cannot be set)
    leaves the stream state as it was and returns that error. *)
Theorem start_failure_resets_only_on_eagain E data :
  io_period_size (io data) <> 0 ->
  a2dp_stream_state data <> STREAM_STARTED ->
  exists ret data' tr,
    bluetooth_prepare E data = Some (ret, data', tr)
    /\ let send_err := audioservice_send (pe_start_send E) in
       let start_err := audioservice_expect (pe_start_rsp E) BT_START_STREAM in
       let ind_err := audioservice_expect (pe_new_stream E) BT_NEW_STREAM in
       (0 <= send_err -> start_err = - EAGAIN ->
        ret = - EAGAIN /\ a2dp_stream_state data' = STREAM_CLOSED)
       /\ (send_err < 0 ->
           ret = send_err /\ a2dp_stream_state data' = a2dp_stream_state data)
       /\ (0 <= send_err -> start_err < 0 -> start_err <> - EAGAIN ->
           ret = start_err /\ a2dp_stream_state data' = a2dp_stream_state data)
       /\ (0 <= send_err -> 0 <= start_err -> ind_err < 0 ->
           ret = ind_err /\ a2dp_stream_state data' = a2dp_stream_state data)
       /\ (0 <= send_err -> 0 <= start_err -> 0 <= ind_err ->
           sys_ret (pe_data_fd E) < 0 ->
           ret = - sys_errno (pe_data_fd E)
           /\ a2dp_stream_state data' = a2dp_stream_state data)
       /\ (0 <= send_err -> 0 <= start_err -> 0 <= ind_err ->
           0 <= sys_ret (pe_data_fd E) ->
           transport data = BT_CAPABILITIES_TRANSPORT_A2DP ->
           sys_ret (pe_setsockopt1 E) < 0 ->
           ret = - sys_errno (pe_setsockopt1 E)
           /\ a2dp_stream_state data' = a2dp_stream_state data).
Proof.
  intros Hp Hst.
  destruct (bluetooth_prepare_total E data Hp) as [[[ret data'] tr] H].
  exists ret, data', tr. split; [exact H|].
  unfold bluetooth_prepare in H.
  apply Z.eqb_neq in Hp. rewrite Hp in H. injection H as H.
  apply stream_state_eqb_neq in Hst.
  cbv zeta in H. cbv zeta.
  match type of H with
  | context [prepare_done E ?d []] => remember d as data1 eqn:Hd1
  end.
  assert (Hst1 : a2dp_stream_state data1 = a2dp_stream_state data).
  { rewrite Hd1. destruct (hw_thread _); destruct (io_stream _); reflexivity. }
  assert (Htr1 : transport data1 = transport data).
  { rewrite Hd1. destruct (hw_thread _); destruct (io_stream _); reflexivity. }
  clear Hd1.
  rewrite Hst1, Hst in H.
  cbn [stream_fd set_stream_fd transport] in H. rewrite Htr1 in H.
  rewrite <- Hst1.
  destruct (Z.ltb_spec (audioservice_send (pe_start_send E)) 0) as [Hs | Hs].
  { injection H as <- <- <-. finish_cases. }
  destruct (Z.ltb_spec (audioservice_expect (pe_start_rsp E) BT_START_STREAM) 0)
    as [Hr | Hr].
  { change (-11) with (- EAGAIN) in H.
    destruct (Z.eqb_spec (audioservice_expect (pe_start_rsp E) BT_START_STREAM)
                (- EAGAIN)) as [He | He];
      injection H as <- <- <-; finish_cases. }
  assert (Hne : audioservice_expect (pe_start_rsp E) BT_START_STREAM <> - EAGAIN)
    by (unfold EAGAIN; lia).
  destruct (Z.ltb_spec (audioservice_expect (pe_new_stream E) BT_NEW_STREAM) 0)
    as [Hi | Hi].
  { injection H as <- <- <-. finish_cases. }
  destruct (Z.ltb_spec (sys_ret (pe_data_fd E)) 0) as [Hf | Hf].
  { injection H as <- <- <-. finish_cases. }
  destruct (Z.eqb_spec (transport data) BT_CAPABILITIES_TRANSPORT_A2DP)
    as [Ht | Ht].
  - destruct (Z.ltb_spec (sys_ret (pe_setsockopt1 E)) 0) as [Ho | Ho].
    + injection H as <- <- <-. finish_cases.
    + unfold prepare_done in H. destruct (pe_pipe_write E <? 0);
        injection H as <- <- <-; finish_cases.
  - destruct (sys_ret (pe_setsockopt1 E) =? 0);
      [| destruct (sys_ret (pe_setsockopt2 E) =? 0);
         [| unfold prepare_done in H; destruct (pe_pipe_write E <? 0)]];
      injection H as <- <- <-; finish_cases.
Qed.

(** ** Hardware parameters: buffers *)

Lemma memread_length_Z buf off n :
  0 <= n -> Z.of_nat (length (memread buf off n)) = n.
Proof. intros H. rewrite memread_length. apply Z2Nat.id. exact H. Qed.

Ltac in_false Hin :=
  cbn in Hin;
  repeat (destruct Hin as [Hin | Hin]; [discriminate Hin|]);
  destruct Hin.

Ltac buffers_leaf :=
  cbv beta iota zeta; unfold buffers_consistent; split;
  [ let n := fresh "n" in
    let Hin := fresh "Hin" in
    intros [n Hin];
    first [ solve [repeat split; reflexivity] | in_false Hin ]
  | let n := fresh "n" in
    let ok := fresh "ok" in
    let Hin := fresh "Hin" in
    intros (n & ok & Hin);
    first [ solve [left; split; reflexivity]
          | solve [right; do 2 eexists; cbn;
                   (split; [reflexivity|]); (split; [reflexivity|]);
                   split; apply memread_length_Z; apply uint16_t_range]
          | in_false Hin ] ].

Lemma hsp_hw_params_buffers E params data :
  let '(ret, data', tr) := bluetooth_hsp_hw_params E params data in
  buffers_consistent ret data' tr.
Proof.
  unfold bluetooth_hsp_hw_params, resize_buffers, realloc.
  destruct (audioservice_send (he_open_send E) <? 0); [buffers_leaf|].
  destruct (audioservice_expect (he_open_rsp E) BT_OPEN <? 0); [buffers_leaf|].
  destruct (audioservice_send (he_conf_send E) <? 0); [buffers_leaf|].
  destruct (audioservice_expect (he_conf_rsp E) BT_SET_CONFIGURATION <? 0);
    [buffers_leaf|].
  destruct (he_realloc_data E), (he_realloc_a2dp E); cbn;
    try buffers_leaf.
  destruct (audioservice_expect (he_delay_ind E) BT_DELAY_REPORT <? 0);
    buffers_leaf.
Qed.

Lemma a2dp_configure_buffers E data tr0 :
  tr0 = [] \/ (exists m, tr0 = [CtlSend m; CtlRecv BT_OPEN]) ->
  let '(ret, data', tr) := a2dp_configure E data tr0 in
  buffers_consistent ret data' tr.
Proof.
  intros Htr0.
  unfold a2dp_configure, resize_buffers, realloc.
  destruct Htr0 as [-> | [m ->]];
    (destruct (audioservice_send (he_conf_send E) <? 0); [buffers_leaf|]);
    (destruct (audioservice_expect (he_conf_rsp E) BT_SET_CONFIGURATION <? 0);
     [buffers_leaf|]);
    destruct (he_realloc_data E), (he_realloc_a2dp E); cbn;
    try buffers_leaf;
    destruct (audioservice_expect (he_delay_ind E) BT_DELAY_REPORT <? 0);
    buffers_leaf.
Qed.

Lemma a2dp_hw_params_buffers E params data :
  let '(ret, data', tr) := bluetooth_a2dp_hw_params E params data in
  buffers_consistent ret data' tr.
Proof.
  unfold bluetooth_a2dp_hw_params.
  destruct (negb (stream_state_eqb (a2dp_stream_state data) STREAM_CLOSED)).
  - destruct (negb (bluetooth_configuration_cmp data params =? 0)).
    + apply a2dp_configure_buffers. left. reflexivity.
    + buffers_leaf.
  - unfold stream_open. cbv beta zeta.
    destruct (audioservice_send (he_open_send E) <? 0) eqn:Hs;
      cbv beta iota zeta; [rewrite Hs; buffers_leaf|].
    destruct (audioservice_expect (he_open_rsp E) BT_OPEN <? 0);
      [buffers_leaf|].
    destruct (bluetooth_a2dp_init _ _ _) as [err cap].
    destruct (err <? 0); [buffers_leaf|].
    apply a2dp_configure_buffers. right. eexists. reflexivity.
Qed.

(** C8.  In every configuration operation, for the voice transport and
    for A2DP: when one of the two [realloc] calls that resize the wire
    buffer and the codec buffer to the transfer unit fails, the operation
    returns [-ENOMEM] and leaves both buffers NULL; and whenever the
    operation made the two calls, it leaves the buffers both NULL or both
    of the size of the transfer unit, never one resized and the other
    not. *)
Theorem resize_failure_leaves_both_buffers_null E params data :
  (let '(ret, data', tr) := bluetooth_hsp_hw_params E params data in
   buffers_consistent ret data' tr)
  /\ (let '(ret, data', tr) := bluetooth_a2dp_hw_params E params data in
      buffers_consistent ret data' tr).
Proof.
  split; [apply hsp_hw_params_buffers | apply a2dp_hw_params_buffers].
Qed.

(** ** Hardware parameters: reconfiguration *)







(** ** The default bitpool *)

Lemma MIN_le_r x y : MIN x y <= y.
Proof. unfold MIN. destruct (Z.ltb_spec x y); lia. Qed.

Lemma MIN_le_l x y : MIN x y <= x.
Proof. unfold MIN. destruct (Z.ltb_spec x y); lia. Qed.

Lemma MIN_glb x y z : z <= x -> z <= y -> z <= MIN x y.
Proof. unfold MIN. destruct (Z.ltb_spec x y); lia. Qed.

Lemma MAX_ge_r x y : y <= MAX x y.
Proof. unfold MAX. destruct (Z.gtb_spec x y); lia. Qed.

Lemma MAX_ge_l x y : x <= MAX x y.
Proof. unfold MAX. destruct (Z.gtb_spec x y); lia. Qed.

(** The table holds four values. *)
Lemma default_bitpool_values freq mode :
  In (default_bitpool freq mode) [29; 31; 51; 53].
Proof.
  unfold default_bitpool.
  repeat match goal with
         | |- context [if ?b then _ else _] => destruct b
         end; cbn; auto 6.
Qed.

(** What [bluetooth_a2dp_init] stores as the bitpool range when the
    resource file does not force a bitpool. *)
Lemma bluetooth_a2dp_init_bitpool cfg params cap cap' :
  cfg_has_bitpool cfg = false ->
  bluetooth_a2dp_init cfg params cap = (0, cap') ->
  cap_min_bitpool cap' = MAX MIN_BITPOOL (cap_min_bitpool cap)
  /\ cap_max_bitpool cap'
     = MIN (default_bitpool (cap_frequency cap') (cap_channel_mode cap'))
           (cap_max_bitpool cap).
Proof.
  intros Hb. unfold bluetooth_a2dp_init. rewrite Hb.
  destruct (bluetooth_convert_rate_to_a2dp (hw_rate params)) as [r [f|]];
    [|discriminate].
  cbv zeta.
  repeat match goal with
         | |- context [if ?b then _ else _] => destruct b
         end;
    intros H; try discriminate H; injection H as <-; split; reflexivity.
Qed.

(** C2 (as amended).  For every negotiated sample rate in 16000, 32000,
    44100, 48000 and every remote capability set, when no bitpool is
    forced and [bluetooth_a2dp_init] succeeds, the maximum bitpool it
    derives is the smaller of the table value and the remote maximum, so it
    never exceeds the remote maximum, and it is at least the remote minimum
    whenever the remote minimum exceeds neither the table value nor the
    remote maximum; the minimum bitpool it derives is the larger of 2 and
    the remote minimum. *)
Theorem default_bitpool_clamped_to_remote_maximum cfg params cap cap' :
  In (hw_rate params) [16000; 32000; 44100; 48000] ->
  cfg_has_bitpool cfg = false ->
  bluetooth_a2dp_init cfg params cap = (0, cap') ->
  let table := default_bitpool (cap_frequency cap') (cap_channel_mode cap') in
  cap_max_bitpool cap' = MIN table (cap_max_bitpool cap)
  /\ cap_max_bitpool cap' <= cap_max_bitpool cap
  /\ cap_max_bitpool cap' <= table
  /\ (cap_min_bitpool cap <= table ->
      cap_min_bitpool cap <= cap_max_bitpool cap ->
      cap_min_bitpool cap <= cap_max_bitpool cap' <= cap_max_bitpool cap)
  /\ cap_min_bitpool cap' = MAX MIN_BITPOOL (cap_min_bitpool cap)
  /\ cap_min_bitpool cap <= cap_min_bitpool cap'.
Proof.
  intros _ Hb Hinit. cbv zeta.
  destruct (bluetooth_a2dp_init_bitpool cfg params cap cap' Hb Hinit)
    as [Hmin Hmax].
  rewrite Hmin, Hmax.
  repeat split; try apply MIN_le_r; try apply MIN_le_l; try apply MAX_ge_r.
  intros. apply MIN_glb; assumption.
Qed.

(** C2 is false as stated: a remote sink that advertises the bitpool
    range 60..64, asked for 44100 Hz stereo with no bitpool forced.  The
    table gives 53, [bluetooth_a2dp_init] succeeds and stores 53 as the
    maximum bitpool, and 53 lies outside the advertised range. *)
Lemma default_bitpool_below_remote_minimum :
  let remote := remote_sink 60 64 in
  exists negotiated,
    @bluetooth_a2dp_init bluez_ipc plain_config stereo_44100 remote
    = (0, negotiated)
    /\ @default_bitpool bluez_ipc (cap_frequency negotiated)
         (cap_channel_mode negotiated) = 53
    /\ cap_max_bitpool negotiated = 53
    /\ ~ (cap_min_bitpool remote
          <= @default_bitpool bluez_ipc (cap_frequency negotiated)
               (cap_channel_mode negotiated)
          <= cap_max_bitpool remote)
    /\ ~ (cap_min_bitpool remote <= cap_max_bitpool negotiated
          <= cap_max_bitpool remote).
Proof.
  eexists. split; [vm_compute; reflexivity|].
  split; [reflexivity|]. split; [reflexivity|].
  split; cbn; lia.
Qed.

(** ** The audio clock *)

(** The notification loop writes one byte per turn until it is
    cancelled. *)
Lemma notify_loop_spec cancel n : forall k tr,
  let '(exited, _, tr') := notify_loop cancel k n tr in
  exists m, (m <= n)%nat
            /\ tr' = tr ++ repeat Notify m
            /\ (exited = false -> m = n).
Proof.
  induction n as [|n IH]; intros k tr; cbn [notify_loop].
  - exists O. rewrite app_nil_r. repeat split; reflexivity || lia.
  - destruct (cancel k).
    + exists O. rewrite app_nil_r. repeat split; lia || discriminate.
    + destruct (cancel (S k)).
      * exists 1%nat. repeat split; lia || discriminate.
      * specialize (IH (S (S k)) (tr ++ [Notify])).
        destruct (notify_loop cancel (S (S k)) n (tr ++ [Notify]))
          as [[ex k'] tr'].
        destruct IH as (m & Hm & Htr & Hex).
        exists (S m). split; [lia|]. split.
        -- rewrite Htr, <- app_assoc. reflexivity.
        -- intros E0. f_equal. apply Hex. exact E0.
Qed.

Lemma notify_loop_not_cancelled cancel n : forall k tr,
  (forall j, cancel j = false) ->
  fst (fst (notify_loop cancel k n tr)) = false.
Proof.
  induction n as [|n IH]; intros k tr Hc; cbn [notify_loop];
    [reflexivity|].
  rewrite !Hc. apply IH. exact Hc.
Qed.

(** The microseconds that the code computes from the difference of two
    instants are the microseconds between them, and the seconds of the
    difference are the whole seconds between them. *)
Lemma dtime_is_usec_between t0 t1 :
  normalised t0 -> normalised t1 ->
  let delta := priv_timespecsub t1 t0 in
  tv_sec delta * 1000000 + Z.quot (tv_nsec delta) 1000 = usec_between t0 t1
  /\ tv_sec delta = usec_between t0 t1 / 1000000.
Proof.
  unfold normalised, usec_between, priv_timespecsub. intros H0 H1.
  cbv zeta.
  set (s := tv_sec t1 - tv_sec t0). set (n := tv_nsec t1 - tv_nsec t0).
  assert (Hgen : forall a m, 0 <= m < 1000000000 ->
            a * 1000000 + Z.quot m 1000 = (a * 1000000000 + m) / 1000
            /\ a = (a * 1000000000 + m) / 1000 / 1000000).
  { intros a m Hm.
    replace (a * 1000000000 + m) with (a * 1000000 * 1000 + m) by lia.
    rewrite Z.div_add_l by lia.
    rewrite Z.quot_div_nonneg by lia.
    split; [reflexivity|].
    rewrite Z.div_add_l by lia.
    rewrite (Z.div_small (m / 1000)); [lia|].
    split; [apply Z.div_pos; lia | apply Z.div_lt_upper_bound; lia]. }
  destruct (Z.ltb_spec n 0) as [Hneg | Hpos]; cbn [tv_sec tv_nsec].
  - replace (s * 1000000000 + n)
      with ((s - 1) * 1000000000 + (n + 1000000000)) by lia.
    apply Hgen. lia.
  - apply Hgen. lia.
Qed.

(** C5.  One turn of the clock loop on a running session (not stopped,
    no reset flagged).  [usec] is the time in microseconds from the time
    origin to the instant read at this turn, [periods] the number of whole
    periods in it (the floating-point division of the code, an argument),
    and [elapsed] the periods newly elapsed: those beyond the
    [prev_periods] already counted.  The sizes are in the range where the C
    arithmetic does not wrap.  When [elapsed] is zero the hardware pointer,
    the origin and the count are unchanged and nothing is written;
    otherwise the pointer is the old pointer advanced by [elapsed] whole
    periods, modulo the buffer size; [elapsed] is never negative, so the
    pointer never moves backwards.  One notification is written per newly
    elapsed period: exactly [elapsed] of them if the thread is not
    cancelled in the turn, and never more.  The periods notified are then
    counted: the count kept for the next turn is [periods] with the same
    origin, or zero with the origin moved to the present when the origin is
    [UINT_SECS_MAX] seconds old. *)
Theorem hw_pointer_advances_by_whole_periods periods_of clk l data :
  let period_size := io_period_size (io data) in
  let buffer_size := io_buffer_size (io data) in
  let usec := usec_between (start l) (clk_cur clk) in
  let periods := uint32_t (periods_of usec) in
  let elapsed :=
    if periods >? prev_periods l then periods - prev_periods l else 0 in
  stopped data = 0 -> reset data = 0 ->
  normalised (start l) -> normalised (clk_cur clk) ->
  0 <= usec < 2 ^ 32 ->
  0 < period_size -> 0 < buffer_size ->
  0 <= prev_periods l -> 0 <= hw_ptr data ->
  hw_ptr data + elapsed * period_size < 2 ^ 31 ->
  let '(exited, _, l', data', tr) := hw_thread_advance periods_of clk l data in
  0 <= elapsed
  /\ (elapsed = 0 ->
      bluetooth_pointer data' = bluetooth_pointer data /\ l' = l /\ tr = [])
  /\ (0 < elapsed ->
      bluetooth_pointer data'
      = (bluetooth_pointer data + elapsed * period_size) mod buffer_size)
  /\ (exists m, (m <= Z.to_nat elapsed)%nat /\ tr = repeat Notify m
                /\ (exited = false -> m = Z.to_nat elapsed))
  /\ (exited = false -> 0 < elapsed ->
      if usec / 1000000 <? UINT_SECS_MAX
      then start l' = start l /\ prev_periods l' = periods
      else start l' = clk_rebase clk /\ prev_periods l' = 0)
  /\ ((forall j, clk_cancel clk j = false) -> exited = false).
Proof.
  cbv zeta. intros Hstop Hreset Hn0 Hn1 Husec Hps Hbs Hprev Hhw Hfit.
  unfold hw_thread_advance. rewrite Hstop, Hreset. cbn [Z.eqb negb].
  destruct (dtime_is_usec_between (start l) (clk_cur clk) Hn0 Hn1)
    as [Hd Hsec].
  cbv zeta in Hd, Hsec. rewrite Hd, Hsec.
  rewrite (uint32_t_id (usec_between (start l) (clk_cur clk))) by lia.
  set (usec := usec_between (start l) (clk_cur clk)) in *.
  set (periods := uint32_t (periods_of usec)) in *.
  assert (Hsecs : 0 <= usec / 1000000 < 2 ^ 32).
  { split; [apply Z.div_pos; lia|].
    apply Z.div_lt_upper_bound; lia. }
  rewrite (uint32_t_id (usec / 1000000)) by lia.
  destruct (Z.gtb_spec periods (prev_periods l)) as [Hgt | Hle].
  - set (e := periods - prev_periods l) in *.
    pose proof (uint32_t_range (periods_of usec)) as Hpr. fold periods in Hpr.
    assert (He : 0 < e < 2 ^ 31) by nia.
    rewrite (int32_t_id e) by lia.
    rewrite (uint32_t_id (e * io_period_size (io data))) by nia.
    rewrite (int32_t_id (hw_ptr data + _)) by nia.
    assert (Hmod : 0 <= (hw_ptr data + e * io_period_size (io data))
                        mod io_buffer_size (io data)
                   <= hw_ptr data + e * io_period_size (io data)).
    { split; [apply Z.mod_pos_bound; lia | apply Z.mod_le; nia]. }
    rewrite (uint32_t_id (hw_ptr data + _)) by nia.
    rewrite int32_t_id by lia.
    pose proof (notify_loop_spec (clk_cancel clk) (Z.to_nat e) O []) as Hn.
    pose proof (notify_loop_not_cancelled (clk_cancel clk) (Z.to_nat e) O [])
      as Hnc.
    destruct (notify_loop (clk_cancel clk) O (Z.to_nat e) [])
      as [[ex k] tr].
    cbn [fst] in Hnc.
    destruct Hn as (m & Hm & Htr & Hex). cbn [app] in Htr.
    destruct ex; unfold bluetooth_pointer; cbn [hw_ptr set_hw_ptr];
      (split; [lia|]); (split; [lia|]); (split; [reflexivity|]);
      (split; [exists m; repeat split; assumption|]);
      (split; [|exact Hnc]).
    + discriminate.
    + intros _ _.
      destruct (usec / 1000000 <? UINT_SECS_MAX); split; reflexivity.
  - unfold bluetooth_pointer.
    split; [lia|]. split; [repeat split|]. split; [lia|].
    split; [exists O; repeat split; reflexivity || lia|].
    split; [intros _ H; lia | reflexivity].
Qed.

(** ** The encode path: packets and the transfer unit *)

Lemma header_size_eq : header_size = 13.
Proof. reflexivity. Qed.

Lemma packets_within_nil mtu : packets_within mtu [].
Proof. intros p []. Qed.

Lemma packets_within_app mtu tr1 tr2 :
  packets_within mtu tr1 -> packets_within mtu tr2 ->
  packets_within mtu (tr1 ++ tr2).
Proof.
  intros H1 H2 p Hin. apply in_app_or in Hin as [Hin | Hin]; auto.
Qed.

Lemma packets_within_encode mtu input : packets_within mtu [Encode input].
Proof. intros p [H | []]. discriminate H. Qed.

(** One encoded block: the fill stays within the transfer unit, and a
    packet that is sent is no longer than the transfer unit. *)
Lemma encode_block_inv E frame_size input data k tr :
  encoder_respects_output_len ->
  wire_fill_ok data ->
  packets_within (link_mtu data) tr ->
  let '(_, data', _, tr') := encode_block E frame_size input data k tr in
  wire_fill_ok data' /\ same_frame data data'
  /\ packets_within (link_mtu data) tr'.
Proof.
  intros Henc [Hfill Hmtu] Htr. unfold encode_block.
  specialize (Henc (sbc (a2dp data)) input (codesize (a2dp data))
                (uint32_t (link_mtu data - a2dp_count (a2dp data)))).
  destruct (sbc_encode _ _ _ _) as [[[encoded out] written] s].
  rewrite header_size_eq in Hfill.
  rewrite uint32_t_id in Henc by lia.
  destruct (Z.leb_spec encoded 0) as [Hle | Hgt].
  - split; [unfold wire_fill_ok; cbn; change header_size with 13; lia|].
    split; [repeat split|].
    apply packets_within_app; [exact Htr | apply packets_within_encode].
  - specialize (Henc Hgt).
    cbn [a2dp_count set_a2dp_buffer set_sbc set_a2dp_count set_frame_count
         set_samples set_nsamples].
    rewrite (uint32_t_id (a2dp_count (a2dp data) + written)) by lia.
    match goal with
    | |- context [if ?b then _ else _] => destruct b
    end.
    + match goal with
      | |- context [avdtp_write ?tx ?d] =>
        pose proof (avdtp_write_state tx d) as Hs;
        pose proof (avdtp_write_events tx d) as He;
        destruct (avdtp_write tx d) as [[r d'] tr']
      end.
      destruct Hs as (Hc & _ & _ & _ & _ & _ & Hcs & _ & Hl & Hcnt & Hbuf & _).
      cbn in Hcs, Hl, Hcnt, Hbuf.
      split; [unfold wire_fill_ok; rewrite Hc, Hl;
              change header_size with 13; lia|].
      split; [unfold same_frame; rewrite Hl, Hcs, Hcnt, Hbuf; repeat split|].
      apply packets_within_app;
        [apply packets_within_app;
         [exact Htr | apply packets_within_encode]|].
      rewrite He. destruct (land_nonzero _ _); [|apply packets_within_nil].
      intros p [Hp | []]. injection Hp as <-.
      cbn. change header_size with 13. lia.
    + split; [unfold wire_fill_ok; cbn; change header_size with 13; lia|].
      split; [repeat split|].
      apply packets_within_app; [exact Htr | apply packets_within_encode].
Qed.

Ltac inv_split :=
  unfold transfer_inv; cbn [w_data w_tr w_bytes_left w_buff w_k];
  split; [| split; [| split; [| split]]].

Lemma transfer_inv_encode_block E frame_size input d0 st bl buff :
  encoder_respects_output_len ->
  transfer_inv d0 st ->
  0 <= bl < 2 ^ 32 ->
  let '(_, data', k', tr') :=
    encode_block E frame_size input (w_data st) (w_k st) (w_tr st) in
  transfer_inv d0 {| w_data := data'; w_buff := buff; w_bytes_left := bl;
                     w_k := k'; w_tr := tr' |}
  /\ same_frame (w_data st) data'.
Proof.
  intros Henc (Hfill & Hl & Hcs & Htr & Hbl) Hbl'.
  rewrite <- Hl in Htr.
  pose proof (encode_block_inv E frame_size input (w_data st) (w_k st)
                (w_tr st) Henc Hfill Htr) as H.
  destruct (encode_block _ _ _ _ _ _) as [[[ok data'] k'] tr'].
  destruct H as (Hfill' & Hsame & Htr').
  split; [|exact Hsame].
  destruct Hsame as (Hl' & Hcs' & _).
  rewrite Hl in Htr'.
  inv_split; [exact Hfill' | congruence | congruence | exact Htr' | lia].
Qed.

(** The loop ends within [bytes_left] turns and keeps the invariant. *)
Lemma write_loop_inv E areas frame_size d0 :
  encoder_respects_output_len ->
  0 < codesize (a2dp d0) ->
  forall fuel st,
    transfer_inv d0 st ->
    (Z.to_nat (w_bytes_left st) <= fuel)%nat ->
    exists b st',
      write_loop fuel E areas frame_size st = Some (b, st')
      /\ transfer_inv d0 st'.
Proof.
  intros Henc Hcs0.
  induction fuel as [|fuel IH]; intros st Hinv Hfuel.
  - cbn [write_loop].
    destruct Hinv as (Hfill & Hl & Hcs & Htr & Hbl).
    destruct (Z.geb_spec (w_bytes_left st) (codesize (a2dp (w_data st))))
      as [Hge | Hlt]; [lia|].
    exists true, st. split; [reflexivity|].
    inv_split; assumption.
  - cbn [write_loop].
    destruct (Z.geb_spec (w_bytes_left st) (codesize (a2dp (w_data st))))
      as [Hge | Hlt].
    + pose proof Hinv as (Hfill & Hl & Hcs & Htr & Hbl).
      set (input := memread _ _ _).
      set (bl' := uint32_t (w_bytes_left st - codesize (a2dp (w_data st)))).
      assert (Hbl' : bl' = w_bytes_left st - codesize (a2dp (w_data st))).
      { unfold bl'. apply uint32_t_id. lia. }
      pose proof (transfer_inv_encode_block E frame_size input d0 st
                    (w_bytes_left st) (w_buff st) Henc Hinv Hbl) as Hfail.
      pose proof (transfer_inv_encode_block E frame_size input d0 st
                    bl' (w_buff st + codesize (a2dp (w_data st)))
                    Henc Hinv ltac:(lia)) as Hok.
      destruct (encode_block _ _ _ _ _ _) as [[[ok data'] k'] tr'].
      destruct ok; cbn [negb].
      * apply IH; [apply Hok|]. cbn [w_bytes_left]. lia.
      * eexists _, _. split; [reflexivity | apply Hfail].
    + exists true, st. split; [reflexivity | exact Hinv].
Qed.

Lemma transfer_inv_write_out areas d0 st :
  transfer_inv d0 st -> transfer_inv d0 (write_out areas st).
Proof.
  intros (Hfill & Hl & Hcs & Htr & Hbl). unfold write_out.
  destruct (w_bytes_left st >? 0); [|inv_split; assumption].
  inv_split; [exact Hfill | exact Hl | exact Hcs | exact Htr | lia].
Qed.

Lemma transfer_inv_write_leftover E areas frame_size d0 st :
  encoder_respects_output_len ->
  transfer_inv d0 st ->
  match write_leftover E areas frame_size st with
  | inl (_, st') => transfer_inv d0 st'
  | inr st' => transfer_inv d0 st' /\ w_bytes_left st' <= w_bytes_left st
  end.
Proof.
  intros Henc Hinv. unfold write_leftover.
  destruct (count (w_data st) >? 0); [|split; [exact Hinv | lia]].
  set (add := uint32_t (codesize (a2dp (w_data st)) - count (w_data st))).
  pose proof (uint32_t_range (codesize (a2dp (w_data st)) - count (w_data st)))
    as Hadd. fold add in Hadd.
  destruct (Z.gtb_spec add (w_bytes_left st)) as [Hgt | Hle];
    [exact Hinv|].
  pose proof Hinv as (Hfill & Hl & Hcs & Htr & Hbl).
  set (src := memread _ _ add).
  set (d1 := set_buffer _ (w_data st)).
  set (input := memread _ 0 _).
  assert (Hinv1 : transfer_inv d0
            {| w_data := d1; w_buff := w_buff st;
               w_bytes_left := w_bytes_left st; w_k := w_k st;
               w_tr := w_tr st |}).
  { inv_split; assumption. }
  set (bl' := uint32_t (w_bytes_left st - add)).
  assert (Hbl' : bl' = w_bytes_left st - add).
  { unfold bl'. apply uint32_t_id. lia. }
  pose proof (transfer_inv_encode_block E frame_size input d0 _
                (w_bytes_left st) (w_buff st) Henc Hinv1 Hbl) as Hfail.
  pose proof (transfer_inv_encode_block E frame_size input d0 _
                bl' (w_buff st + add) Henc Hinv1 ltac:(lia)) as Hok.
  cbn [w_data w_k w_tr] in Hfail, Hok.
  destruct (encode_block _ _ _ _ _ _) as [[[ok data'] k'] tr'].
  destruct ok; cbn [negb].
  - split; [|cbn [w_bytes_left]; lia].
    destruct Hok as [(Hf & Hl' & Hcs' & Htr' & Hb') _].
    cbn [w_data w_tr w_bytes_left] in *.
    inv_split; assumption.
  - apply Hfail.
Qed.

Lemma autostart_frame E data :
  let '(_, data') := autostart E data in
  a2dp data' = a2dp data /\ link_mtu data' = link_mtu data
  /\ count data' = count data /\ buffer data' = buffer data.
Proof.
  unfold autostart, snd_pcm_start, bluetooth_playback_start.
  destruct (io_state (io data)); try (repeat split; reflexivity).
  destruct (_ && _); [|repeat split; reflexivity].
  cbn [hw_thread set_stopped].
  destruct (hw_thread data); cbn [Z.ltb Z.compare].
  - repeat split; reflexivity.
  - destruct (- we_pthread_create E <? 0);
      destruct (we_pthread_create E =? 0); repeat split; reflexivity.
Qed.

(** One transfer call returns and keeps the wire fill within the
    transfer unit; every packet it sends fits the transfer unit. *)
Lemma a2dp_write_inv E areas offset size data :
  encoder_respects_output_len ->
  wire_fill_ok data ->
  0 < codesize (a2dp data) ->
  int32_t (ar_step areas / 8) <> 0 ->
  exists ret data' tr,
    bluetooth_a2dp_write E areas offset size data = Some (ret, data', tr)
    /\ wire_fill_ok data'
    /\ link_mtu data' = link_mtu data
    /\ codesize (a2dp data') = codesize (a2dp data)
    /\ packets_within (link_mtu data) tr.
Proof.
  intros Henc Hfill Hcs Hfs.
  unfold bluetooth_a2dp_write, a2dp_write_fuel.
  destruct (io_hw_ptr (io data) >? io_appl_ptr (io data)).
  { cbn. eexists _, _, _. split; [reflexivity|].
    split; [exact Hfill|]. split; [reflexivity|]. split; [reflexivity|].
    apply packets_within_nil. }
  pose proof (autostart_frame E data) as Ha.
  destruct (autostart E data) as [ret d1].
  destruct Ha as (Ha & Hl & _).
  assert (Hfill1 : wire_fill_ok d1).
  { unfold wire_fill_ok. rewrite Ha, Hl. exact Hfill. }
  destruct (negb (ret =? 0)).
  { eexists _, _, _. split; [reflexivity|].
    split; [exact Hfill1|]. split; [exact Hl|].
    split; [rewrite Ha; reflexivity|]. apply packets_within_nil. }
  apply Z.eqb_neq in Hfs. rewrite Hfs.
  set (fs := int32_t (ar_step areas / 8)).
  set (bl := uint32_t (size * fs)).
  set (st0 := {| w_data := d1; w_buff := area_offset areas offset;
                 w_bytes_left := bl; w_k := O; w_tr := [] |}).
  assert (Hinv0 : transfer_inv data st0).
  { unfold st0. inv_split;
      [exact Hfill1 | exact Hl | rewrite Ha; reflexivity
      | apply packets_within_nil | apply uint32_t_range]. }
  assert (Hdone : forall st, transfer_inv data st ->
     exists ret data' tr,
       Some (write_done size fs st) = Some (ret, data', tr)
       /\ wire_fill_ok data' /\ link_mtu data' = link_mtu data
       /\ codesize (a2dp data') = codesize (a2dp data)
       /\ packets_within (link_mtu data) tr).
  { intros st (Hf & Hl' & Hcs' & Htr' & _). unfold write_done.
    eexists _, _, _. split; [reflexivity|].
    split; [exact Hf|]. split; [exact Hl'|]. split; [exact Hcs'|].
    exact Htr'. }
  pose proof (transfer_inv_write_leftover E areas fs data st0 Henc Hinv0)
    as Hlo.
  destruct (write_leftover E areas fs st0) as [[[|] st1] | st1].
  - apply Hdone. apply transfer_inv_write_out. exact Hlo.
  - apply Hdone. exact Hlo.
  - destruct Hlo as [Hinv1 Hle].
    destruct (write_loop_inv E areas fs data Henc Hcs (Z.to_nat bl) st1 Hinv1)
      as (b & st2 & Hloop & Hinv2).
    { unfold st0 in Hle. cbn [w_bytes_left] in Hle.
      destruct Hinv1 as (_ & _ & _ & _ & Hb). lia. }
    rewrite Hloop. destruct b.
    + apply Hdone. apply transfer_inv_write_out. exact Hinv2.
    + apply Hdone. exact Hinv2.
Qed.

Lemma wire_fill_ok_set_io io0 data :
  wire_fill_ok data -> wire_fill_ok (set_io io0 data).
Proof. intros H. exact H. Qed.

(** A sequence of transfer calls: every call returns, and no packet sent
    along the way is longer than the transfer unit. *)
Lemma a2dp_writes_inv calls : forall data,
  encoder_respects_output_len ->
  wire_fill_ok data ->
  0 < codesize (a2dp data) ->
  Forall (fun c => int32_t (ar_step (wc_areas c) / 8) <> 0) calls ->
  exists rets data' tr,
    a2dp_writes calls data = Some (rets, data', tr)
    /\ wire_fill_ok data'
    /\ link_mtu data' = link_mtu data
    /\ packets_within (link_mtu data) tr.
Proof.
  induction calls as [|c calls IH]; intros data Henc Hfill Hcs Hfs.
  - exists [], data, []. split; [reflexivity|]. split; [exact Hfill|].
    split; [reflexivity | apply packets_within_nil].
  - inversion Hfs as [|c' calls' Hc Hrest]; subst.
    cbn [a2dp_writes].
    destruct (a2dp_write_inv (wc_env c) (wc_areas c) (wc_offset c) (wc_size c)
                (set_io (wc_io c) data) Henc
                (wire_fill_ok_set_io _ _ Hfill) Hcs Hc)
      as (ret & d1 & tr1 & Hw & Hfill1 & Hl1 & Hcs1 & Htr1).
    rewrite Hw.
    destruct (IH d1 Henc Hfill1 ltac:(rewrite Hcs1; exact Hcs) Hrest)
      as (rets & d2 & tr2 & Hws & Hfill2 & Hl2 & Htr2).
    rewrite Hws. exists (ret :: rets), d2, (tr1 ++ tr2).
    split; [reflexivity|]. split; [exact Hfill2|].
    cbn [link_mtu set_io] in Hl1, Htr1.
    split; [congruence|].
    apply packets_within_app; [exact Htr1|]. rewrite <- Hl1. exact Htr2.
Qed.

(** ** The encode path: the carry buffer *)

Lemma autostart_proceeds E data :
  we_pthread_create E = 0 -> fst (autostart E data) = 0.
Proof.
  intros Hp. unfold autostart, snd_pcm_start, bluetooth_playback_start.
  rewrite Hp.
  destruct (io_state (io data)); try reflexivity.
  destruct (_ && _); [|reflexivity].
  cbn [hw_thread set_stopped]. destruct (hw_thread data); reflexivity.
Qed.

Lemma write_loop_short fuel E areas frame_size st :
  w_bytes_left st < codesize (a2dp (w_data st)) ->
  write_loop fuel E areas frame_size st = Some (true, st).
Proof.
  intros H.
  assert (Hb : (w_bytes_left st >=? codesize (a2dp (w_data st))) = false).
  { destruct (Z.geb_spec (w_bytes_left st) (codesize (a2dp (w_data st))));
      [lia | reflexivity]. }
  destruct fuel; cbn [write_loop]; rewrite Hb; reflexivity.
Qed.

(** A call that brings fewer bytes than the block still lacks: the bytes
    are appended to the carry, nothing is encoded or sent, and every frame
    is reported as taken. *)
Lemma a2dp_write_sub_block c data :
  call_proceeds c ->
  0 <= count data ->
  codesize (a2dp data) < 2 ^ 32 ->
  count data + Z.of_nat (length (pcm_of_call c)) < codesize (a2dp data) ->
  exists data',
    bluetooth_a2dp_write (wc_env c) (wc_areas c) (wc_offset c) (wc_size c)
      (set_io (wc_io c) data)
    = Some (int32_t (wc_size c), data', [])
    /\ carry data' = carry data ++ pcm_of_call c
    /\ count data' = count data + Z.of_nat (length (pcm_of_call c))
    /\ a2dp data' = a2dp data.
Proof.
  intros (Hrun & Hthr & Hfs) Hcnt Hcs Hsum.
  unfold pcm_of_call in *.
  unfold bluetooth_a2dp_write, a2dp_write_fuel.
  set (fs := int32_t (ar_step (wc_areas c) / 8)) in *.
  set (bl := uint32_t (wc_size c * fs)) in *.
  set (pcm := memread _ _ bl) in *.
  pose proof (uint32_t_range (wc_size c * fs)) as Hbl. fold bl in Hbl.
  assert (Hlen : Z.of_nat (length pcm) = bl)
    by (apply memread_length_Z; lia).
  rewrite Hlen in Hsum.
  clearbody bl.
  cbn [io set_io].
  destruct (Z.gtb_spec (io_hw_ptr (wc_io c)) (io_appl_ptr (wc_io c)));
    [lia|].
  pose proof (autostart_frame (wc_env c) (set_io (wc_io c) data)) as Ha.
  pose proof (autostart_proceeds (wc_env c) (set_io (wc_io c) data) Hthr)
    as Hr.
  destruct (autostart _ _) as [ret d1].
  cbn [fst] in Hr. subst ret. cbn [Z.eqb negb].
  destruct Ha as (Ha & Hl & Hc & Hb).
  cbn [a2dp link_mtu count buffer set_io] in Ha, Hl, Hc, Hb.
  apply Z.eqb_neq in Hfs. rewrite Hfs.
  set (st0 := {| w_data := d1; w_buff := _; w_bytes_left := bl;
                 w_k := O; w_tr := [] |}).
  assert (Hshort : w_bytes_left st0 < codesize (a2dp (w_data st0))).
  { unfold st0. cbn [w_bytes_left w_data]. rewrite Ha. lia. }
  assert (Hleft : write_leftover (wc_env c) (wc_areas c) fs st0
                  = inl (true, st0)
                  \/ write_leftover (wc_env c) (wc_areas c) fs st0 = inr st0).
  { unfold write_leftover. cbn [w_data st0 w_bytes_left].
    destruct (count d1 >? 0); [|right; reflexivity].
    rewrite uint32_t_id by (rewrite Ha, Hc; lia).
    destruct (Z.gtb_spec (codesize (a2dp d1) - count d1) bl);
      [left; reflexivity | rewrite Ha, Hc in *; lia]. }
  assert (Hout : exists data',
    write_done (wc_size c) fs (write_out (wc_areas c) st0)
    = (int32_t (wc_size c), data', [])
    /\ carry data' = carry data ++ pcm
    /\ count data' = count data + bl /\ a2dp data' = a2dp data).
  { unfold write_done, write_out. cbn [w_bytes_left st0 w_data w_buff w_tr].
    destruct (Z.gtb_spec bl 0) as [Hpos | Hzero].
    - cbn [w_bytes_left w_data w_tr]. rewrite Zdiv_0_l, Z.sub_0_r.
      eexists. split; [reflexivity|].
      unfold carry. cbn [buffer count set_count set_buffer NULL_bytes a2dp].
      rewrite Hc, Hb, Ha.
      rewrite (uint32_t_id (count data + bl)) by lia.
      split; [|split; reflexivity].
      pose proof (memread_memcpy_append (NULL_bytes (buffer data))
                    (count data) pcm Hcnt) as Hm.
      rewrite Hlen in Hm. exact Hm.
    - unfold st0. cbn [w_bytes_left w_data w_tr].
      assert (bl = 0) as Hbl0 by lia.
      exists d1.
      split; [rewrite Hbl0, Zdiv_0_l, Z.sub_0_r; reflexivity|].
      unfold carry. rewrite Hc, Hb, Ha.
      assert (pcm = []) as ->.
      { apply length_zero_iff_nil. lia. }
      rewrite app_nil_r. repeat split; lia. }
  destruct Hout as (data' & Hd & Hcarry & Hcount & Ha2dp).
  exists data'. rewrite Hlen.
  split; [|repeat split; assumption].
  destruct Hleft as [-> | ->].
  - rewrite Hd. reflexivity.
  - rewrite write_loop_short by exact Hshort. rewrite Hd. reflexivity.
Qed.

(** Calls that together bring fewer bytes than the block still lacks:
    the carry grows by the bytes of the calls, in order. *)
Lemma a2dp_writes_accumulate calls : forall data,
  Forall call_proceeds calls ->
  0 <= count data ->
  codesize (a2dp data) < 2 ^ 32 ->
  count data + Z.of_nat (length (concat (map pcm_of_call calls)))
  < codesize (a2dp data) ->
  exists data',
    a2dp_writes calls data
    = Some (map (fun c => int32_t (wc_size c)) calls, data', [])
    /\ carry data' = carry data ++ concat (map pcm_of_call calls)
    /\ count data'
       = count data + Z.of_nat (length (concat (map pcm_of_call calls)))
    /\ a2dp data' = a2dp data.
Proof.
  induction calls as [|c calls IH]; intros data Hall Hcnt Hcs Hsum.
  - exists data. cbn. rewrite app_nil_r. repeat split; lia.
  - inversion Hall as [|c' calls' Hc Hrest]; subst.
    cbn [map concat] in *. rewrite length_app, Nat2Z.inj_add in Hsum.
    destruct (a2dp_write_sub_block c data Hc Hcnt Hcs ltac:(lia))
      as (d1 & Hw & Hcarry1 & Hcount1 & Ha1).
    destruct (IH d1 Hrest ltac:(lia) ltac:(rewrite Ha1; exact Hcs)
                ltac:(rewrite Ha1, Hcount1; lia))
      as (d2 & Hws & Hcarry2 & Hcount2 & Ha2).
    exists d2. cbn [a2dp_writes]. rewrite Hw, Hws.
    split; [reflexivity|].
    rewrite Hcarry2, Hcarry1, Hcount2, Hcount1, Ha2, Ha1.
    rewrite length_app, Nat2Z.inj_add, <- app_assoc.
    repeat split; lia.
Qed.

Lemma firstn_memread buf off n m :
  0 <= n <= m -> firstn (Z.to_nat n) (memread buf off m) = memread buf off n.
Proof.
  intros H. unfold memread. rewrite firstn_firstn.
  replace (Init.Nat.min (Z.to_nat n) (Z.to_nat m)) with (Z.to_nat n) by lia.
  rewrite !firstn_app. f_equal.
  rewrite !firstn_repeat_le by lia. reflexivity.
Qed.

Lemma encode_block_trace E frame_size input data k tr :
  exists evs,
    snd (encode_block E frame_size input data k tr)
    = tr ++ Encode input :: evs.
Proof.
  unfold encode_block.
  destruct (sbc_encode _ _ _ _) as [[[encoded out] written] s].
  destruct (encoded <=? 0); [exists []; reflexivity|].
  match goal with
  | |- context [if ?b then _ else _] => destruct b
  end; [|exists []; reflexivity].
  destruct (avdtp_write _ _) as [[r d'] tr'].
  exists tr'. cbn [snd]. rewrite <- app_assoc. reflexivity.
Qed.

Lemma write_loop_trace E areas frame_size : forall fuel st b st',
  write_loop fuel E areas frame_size st = Some (b, st') ->
  exists evs, w_tr st' = w_tr st ++ evs.
Proof.
  induction fuel as [|fuel IH]; intros st b st' H; cbn [write_loop] in H.
  - destruct (_ >=? _); [discriminate|]. injection H as _ <-.
    exists []. rewrite app_nil_r. reflexivity.
  - destruct (_ >=? _).
    + match type of H with
      | context [encode_block ?E ?f ?i ?d ?k ?t] =>
        destruct (encode_block_trace E f i d k t) as [evs Hevs];
        destruct (encode_block E f i d k t) as [[[ok data'] k'] tr']
      end.
      cbn [snd] in Hevs. subst tr'.
      destruct ok; cbn [negb] in H.
      * apply IH in H as [evs' H]. cbn [w_tr] in H.
        exists (Encode (memread (ar_addr areas) (w_buff st)
                          (codesize (a2dp (w_data st)))) :: evs ++ evs').
        rewrite H, <- app_assoc. reflexivity.
      * injection H as _ <-. eexists. reflexivity.
    + injection H as _ <-. exists []. rewrite app_nil_r. reflexivity.
Qed.

(** The call that completes a block: the first thing it does is encode
    the carry followed by the first bytes of the call, as many as the block
    still lacked. *)
Lemma a2dp_write_completes_block c data ret data' tr :
  call_proceeds c ->
  0 < count data < codesize (a2dp data) ->
  codesize (a2dp data) < 2 ^ 32 ->
  codesize (a2dp data) - count data <= Z.of_nat (length (pcm_of_call c)) ->
  bluetooth_a2dp_write (wc_env c) (wc_areas c) (wc_offset c) (wc_size c)
    (set_io (wc_io c) data) = Some (ret, data', tr) ->
  exists evs,
    tr = Encode (carry data
                 ++ firstn (Z.to_nat (codesize (a2dp data) - count data))
                      (pcm_of_call c)) :: evs.
Proof.
  intros (Hrun & Hthr & Hfs) Hcnt Hcs Hsum.
  unfold pcm_of_call in *.
  unfold bluetooth_a2dp_write, a2dp_write_fuel.
  set (fs := int32_t (ar_step (wc_areas c) / 8)) in *.
  set (bl := uint32_t (wc_size c * fs)) in *.
  pose proof (uint32_t_range (wc_size c * fs)) as Hbl. fold bl in Hbl.
  rewrite memread_length_Z in Hsum by lia.
  rewrite firstn_memread by lia.
  clearbody bl.
  cbn [io set_io].
  destruct (Z.gtb_spec (io_hw_ptr (wc_io c)) (io_appl_ptr (wc_io c)));
    [lia|].
  pose proof (autostart_frame (wc_env c) (set_io (wc_io c) data)) as Ha.
  pose proof (autostart_proceeds (wc_env c) (set_io (wc_io c) data) Hthr)
    as Hr.
  destruct (autostart _ _) as [r d1].
  cbn [fst] in Hr. subst r. cbn [Z.eqb negb].
  destruct Ha as (Ha & Hl & Hc & Hb).
  cbn [a2dp link_mtu count buffer set_io] in Ha, Hl, Hc, Hb.
  apply Z.eqb_neq in Hfs. rewrite Hfs.
  unfold write_leftover. cbn [w_data w_bytes_left w_buff w_k w_tr].
  rewrite Hc, Ha, Hb.
  destruct (Z.gtb_spec (count data) 0); [|lia].
  rewrite (uint32_t_id (codesize (a2dp data) - count data)) by lia.
  destruct (Z.gtb_spec (codesize (a2dp data) - count data) bl); [lia|].
  set (src := memread _ _ (codesize (a2dp data) - count data)).
  cbn [buffer set_buffer NULL_bytes a2dp].
  rewrite Ha.
  assert (Hinput :
    memread (memcpy (NULL_bytes (buffer data)) (count data) src) 0
      (codesize (a2dp data))
    = carry data ++ src).
  { pose proof (memread_memcpy_append (NULL_bytes (buffer data))
                  (count data) src ltac:(lia)) as Hm.
    unfold src in Hm at 2. rewrite memread_length_Z in Hm by lia.
    replace (count data + (codesize (a2dp data) - count data))
      with (codesize (a2dp data)) in Hm by lia.
    exact Hm. }
  rewrite Hinput.
  match goal with
  | |- context [encode_block ?E ?f ?i ?d ?k ?t] =>
    destruct (encode_block_trace E f i d k t) as [evs Hevs];
    destruct (encode_block E f i d k t) as [[[ok d2] k2] tr2]
  end.
  cbn [snd app] in Hevs. subst tr2.
  destruct ok; cbn [negb].
  - destruct (write_loop _ _ _ _ _) as [[[|] st2]|] eqn:Hloop;
      [| |discriminate];
      apply write_loop_trace in Hloop as [evs' Hloop];
      cbn [w_tr] in Hloop;
      unfold write_done, write_out; intros Hres;
      [destruct (w_bytes_left st2 >? 0)|];
      injection Hres as _ _ <-; cbn [w_tr]; rewrite Hloop;
      eexists; reflexivity.
  - unfold write_done. intros Hres. injection Hres as _ _ <-.
    eexists. reflexivity.
Qed.

(** [bluetooth_a2dp_setup] leaves the wire fill at the header size, so a
    configuration that succeeds with a transfer unit of at least 13 bytes
    leaves the session in a state where [wire_fill_ok] holds. *)
Lemma a2dp_configure_wire_fill E data tr0 data' tr :
  a2dp_configure E data tr0 = (0, data', tr) ->
  header_size <= uint16_t (pk_link_mtu (he_conf_rsp E)) ->
  wire_fill_ok data'
  /\ 0 <= codesize (a2dp data') < 2 ^ 32.
Proof.
  unfold a2dp_configure.
  destruct (Z.ltb_spec (audioservice_send (he_conf_send E)) 0);
    [intros Hret; injection Hret as Hret _ _; lia|].
  destruct (Z.ltb_spec (audioservice_expect (he_conf_rsp E)
                          BT_SET_CONFIGURATION) 0);
    [intros Hret; injection Hret as Hret _ _; lia|].
  destruct (resize_buffers E _) as [[ok d] tr'] eqn:Hres.
  assert (Hd : link_mtu d = uint16_t (pk_link_mtu (he_conf_rsp E))).
  { unfold resize_buffers in Hres. cbn in Hres.
    destruct (realloc _ _ _), (realloc _ _ _);
      injection Hres as _ <- _; reflexivity. }
  destruct ok; cbn [negb]; [|intros Hret; injection Hret as Hret _ _; discriminate Hret].
  destruct (Z.ltb_spec (audioservice_expect (he_delay_ind E) BT_DELAY_REPORT) 0);
    [intros Hret; injection Hret as Hret _ _; lia|].
  intros Hret Hmtu. injection Hret as <- _.
  pose proof (uint16_t_range (pk_link_mtu (he_conf_rsp E))) as Hr.
  unfold wire_fill_ok. cbn. rewrite Hd.
  change header_size with 13 in *.
  pose proof (uint32_t_range
    (sbc_get_codesize (sbc (bluetooth_a2dp_setup (a2dp d))))) as Hc.
  split; [lia|]. exact (uint32_t_range _).
Qed.

Lemma a2dp_hw_params_wire_fill E params data data' tr :
  bluetooth_a2dp_hw_params E params data = (0, data', tr) ->
  tr <> [] ->
  header_size <= uint16_t (pk_link_mtu (he_conf_rsp E)) ->
  wire_fill_ok data' /\ 0 <= codesize (a2dp data') < 2 ^ 32.
Proof.
  unfold bluetooth_a2dp_hw_params.
  destruct (negb (stream_state_eqb (a2dp_stream_state data) STREAM_CLOSED)).
  - destruct (negb (bluetooth_configuration_cmp data params =? 0)).
    + intros Hc _. apply (a2dp_configure_wire_fill _ _ _ _ _ Hc).
    + intros Hres Htr. injection Hres as _ <-. contradiction.
  - destruct (stream_open E data) as [err tr0].
    destruct (Z.ltb_spec err 0);
      [intros Hret; injection Hret as Hret _ _; lia|].
    destruct (bluetooth_a2dp_init _ _ _) as [err' cap].
    destruct (Z.ltb_spec err' 0);
      [intros Hret; injection Hret as Hret _ _; lia|].
    intros Hc _. apply (a2dp_configure_wire_fill _ _ _ _ _ Hc).
Qed.


(** ** The encode path: no store past the end of a buffer

    In the model a store past the end of a buffer makes the list longer.
    Under the conditions below no function of the encode path makes such a
    store: the two buffers keep their lengths. *)

Lemma avdtp_write_in_bounds lb la tx data :
  in_bounds lb la data ->
  in_bounds lb la (snd (fst (avdtp_write tx data))).
Proof.
  intros (Hb & Ha & Hcs & Hl & Hc & Hcsr & Hfill & Hmtu).
  pose proof (avdtp_write_state tx data) as Hs.
  destruct (avdtp_write tx data) as [[r d'] tr]. cbn [fst snd].
  destruct Hs as (Hc' & _ & _ & _ & Hbuf' & _ & Hcs' & _ & Hl' & Hcnt' & Hb'
                  & _).
  change header_size with 13 in *.
  unfold in_bounds, wire_fill_ok.
  rewrite Hbuf', Hcs', Hl', Hcnt', Hb', Hc'. cbn [NULL_bytes].
  change header_size with 13.
  rewrite memcpy_length by (rewrite ?rtp_header_bytes_length; cbn; lia).
  repeat split; try assumption; lia.
Qed.

Lemma encode_block_in_bounds lb la E frame_size input data k tr :
  encoder_respects_output_len ->
  encoder_stores_within_output_len ->
  in_bounds lb la data ->
  let '(_, data', _, _) := encode_block E frame_size input data k tr in
  in_bounds lb la data' /\ count data' = count data.
Proof.
  intros Henc Hsto Hin.
  pose proof Hin as (Hb & Ha & Hcs & Hl & Hc & Hcsr & Hfill & Hmtu).
  unfold encode_block.
  specialize (Henc (sbc (a2dp data)) input (codesize (a2dp data))
                (uint32_t (link_mtu data - a2dp_count (a2dp data)))).
  specialize (Hsto (sbc (a2dp data)) input (codesize (a2dp data))
                (uint32_t (link_mtu data - a2dp_count (a2dp data)))
                (proj1 (uint32_t_range _))).
  destruct (sbc_encode _ _ _ _) as [[[encoded out] written] s].
  change header_size with 13 in Hfill.
  rewrite uint32_t_id in Henc, Hsto by lia.
  assert (Hin0 : in_bounds lb la
            (set_a2dp
               (set_a2dp_buffer
                  (Some (memcpy (NULL_bytes (a2dp_buffer (a2dp data)))
                           (a2dp_count (a2dp data)) out))
                  (set_sbc s (a2dp data))) data)).
  { unfold in_bounds, wire_fill_ok. cbn.
    rewrite memcpy_length by lia.
    change header_size with 13. repeat split; try assumption; lia. }
  destruct (Z.leb_spec encoded 0) as [Hle | Hgt].
  - split; [exact Hin0 | reflexivity].
  - specialize (Henc Hgt).
    cbn [a2dp_count set_a2dp_buffer set_sbc set_a2dp_count set_frame_count
         set_samples set_nsamples].
    rewrite (uint32_t_id (a2dp_count (a2dp data) + written)) by lia.
    set (d1 := set_a2dp _ data).
    assert (Hin1 : in_bounds lb la d1).
    { unfold in_bounds, wire_fill_ok, d1. cbn.
      rewrite memcpy_length by lia.
      change header_size with 13. repeat split; try assumption; lia. }
    match goal with
    | |- context [if ?b then _ else _] => destruct b
    end; [|split; [exact Hin1 | reflexivity]].
    pose proof (avdtp_write_in_bounds lb la (we_tx E k) d1 Hin1) as Hw.
    pose proof (avdtp_write_state (we_tx E k) d1) as Hs.
    destruct (avdtp_write (we_tx E k) d1) as [[r d'] tr'].
    cbn [fst snd] in Hw. split; [exact Hw|].
    destruct Hs as (_ & _ & _ & _ & _ & _ & _ & _ & _ & Hcnt & _).
    exact Hcnt.
Qed.

Lemma write_loop_in_bounds lb la E areas frame_size :
  encoder_respects_output_len ->
  encoder_stores_within_output_len ->
  forall fuel st b st',
    in_bounds lb la (w_data st) ->
    0 <= w_bytes_left st ->
    write_loop fuel E areas frame_size st = Some (b, st') ->
    in_bounds lb la (w_data st')
    /\ count (w_data st') = count (w_data st)
    /\ 0 <= w_bytes_left st'
    /\ (b = true -> w_bytes_left st' < codesize (a2dp (w_data st'))).
Proof.
  intros Henc Hsto.
  induction fuel as [|fuel IH]; intros st b st' Hin Hbl H;
    cbn [write_loop] in H.
  - destruct (Z.geb_spec (w_bytes_left st) (codesize (a2dp (w_data st))));
      [discriminate|].
    injection H as <- <-.
    split; [exact Hin | split; [reflexivity | split; [exact Hbl | lia]]].
  - destruct (Z.geb_spec (w_bytes_left st) (codesize (a2dp (w_data st)))).
    + match type of H with
      | context [encode_block ?E ?f ?i ?d ?k ?t] =>
        pose proof (encode_block_in_bounds lb la E f i d k t Henc Hsto Hin)
          as Hb;
        destruct (encode_block E f i d k t) as [[[ok data'] k'] tr']
      end.
      destruct Hb as [Hin' Hcnt].
      destruct ok; cbn [negb] in H.
      * apply IH in H;
          [|exact Hin'|cbn [w_bytes_left]; apply uint32_t_range].
        cbn [w_data] in H. destruct H as (H1 & H2 & H3 & H4).
        split; [exact H1 | split; [congruence | split; [exact H3 | exact H4]]].
      * injection H as <- <-. cbn [w_data w_bytes_left].
        split; [exact Hin' | split; [exact Hcnt | split; [exact Hbl|]]].
        discriminate.
    + injection H as <- <-.
      split; [exact Hin | split; [reflexivity | split; [exact Hbl | lia]]].
Qed.

Lemma write_out_in_bounds lb la areas st :
  in_bounds lb la (w_data st) ->
  0 <= w_bytes_left st ->
  count (w_data st) + w_bytes_left st < codesize (a2dp (w_data st)) ->
  in_bounds lb la (w_data (write_out areas st)).
Proof.
  intros (Hb & Ha & Hcs & Hl & Hc & Hcsr & Hfill) Hbl Hsum. unfold write_out.
  destruct (w_bytes_left st >? 0);
    [|repeat split; try assumption; apply Hfill || lia].
  unfold in_bounds. cbn.
  rewrite memcpy_length by (rewrite ?memread_length; lia).
  rewrite uint32_t_id by lia.
  repeat split; try assumption; try apply Hfill; lia.
Qed.

(** One transfer call: [data->buffer] and [a2dp->buffer] keep their
    lengths. *)
Lemma a2dp_write_in_bounds lb la E areas offset size data ret data' tr :
  encoder_respects_output_len ->
  encoder_stores_within_output_len ->
  in_bounds lb la data ->
  bluetooth_a2dp_write E areas offset size data = Some (ret, data', tr) ->
  in_bounds lb la data'.
Proof.
  intros Henc Hsto Hin.
  unfold bluetooth_a2dp_write, a2dp_write_fuel.
  destruct (io_hw_ptr (io data) >? io_appl_ptr (io data)).
  { cbn. intros H. injection H as _ <- _. exact Hin. }
  pose proof (autostart_frame E data) as Ha.
  destruct (autostart E data) as [r d1].
  destruct Ha as (Ha & Hl & Hc & Hb).
  assert (Hin1 : in_bounds lb la d1).
  { unfold in_bounds, wire_fill_ok. rewrite Ha, Hl, Hc, Hb. exact Hin. }
  destruct (negb (r =? 0)); [intros H; injection H as _ <- _; exact Hin1|].
  destruct (_ =? 0); [discriminate|].
  set (fs := int32_t (ar_step areas / 8)).
  set (bl := uint32_t (size * fs)).
  pose proof (uint32_t_range (size * fs)) as Hbl. fold bl in Hbl.
  clearbody bl.
  pose proof Hin1 as (Hb1 & Ha1 & Hcs1 & Hl1 & Hc1 & Hcsr1 & Hfill1).
  unfold write_leftover. cbn [w_data w_bytes_left w_buff w_k w_tr].
  destruct (Z.gtb_spec (count d1) 0) as [Hpos | Hzero].
  - rewrite (uint32_t_id (codesize (a2dp d1) - count d1)) by lia.
    destruct (Z.gtb_spec (codesize (a2dp d1) - count d1) bl) as [Hshort | Hfull].
    + unfold write_done. intros H. injection H as _ <- _.
      apply write_out_in_bounds; cbn [w_data w_bytes_left]; [exact Hin1|lia|lia].
    + set (src := memread _ _ (codesize (a2dp d1) - count d1)).
      set (d2 := set_buffer _ d1).
      assert (Hin2 : in_bounds lb la d2).
      { unfold in_bounds, d2.
        cbn [buffer a2dp count link_mtu set_buffer NULL_bytes].
        rewrite memcpy_length
          by (unfold src; rewrite ?memread_length; lia).
        repeat split; try assumption; apply Hfill1 || lia. }
      match goal with
      | |- context [encode_block ?E ?f ?i ?d ?k ?t] =>
        pose proof (encode_block_in_bounds lb la E f i d k t Henc Hsto Hin2)
          as Hblk;
        destruct (encode_block E f i d k t) as [[[ok d3] k3] tr3]
      end.
      destruct Hblk as [Hin3 Hcnt3].
      destruct ok; cbn [negb].
      * set (st := {| w_data := set_count 0 d3 |}).
        assert (Hin4 : in_bounds lb la (w_data st)).
        { destruct Hin3 as (H1 & H2 & H3 & H4 & H5 & H6 & H7).
          unfold st. cbn [w_data].
          repeat split; try assumption; try apply H7; cbn; lia. }
        destruct (write_loop _ _ _ _ st) as [[b st']|] eqn:Hloop;
          [|discriminate].
        assert (Hbl4 : 0 <= w_bytes_left st)
          by (unfold st; cbn [w_bytes_left]; apply uint32_t_range).
        destruct (write_loop_in_bounds lb la _ _ _ Henc Hsto _ _ _ _
                    Hin4 Hbl4 Hloop) as (Hin5 & Hcnt5 & Hbl5 & Hlt).
        destruct b; unfold write_done; intros H; injection H as _ <- _;
          [|exact Hin5].
        apply write_out_in_bounds; [exact Hin5| |].
        -- exact Hbl5.
        -- unfold st in Hcnt5. cbn [w_data count set_count] in Hcnt5.
           specialize (Hlt eq_refl). lia.
      * unfold write_done. intros H. injection H as _ <- _. exact Hin3.
  - set (st := {| w_data := d1 |}).
    destruct (write_loop _ _ _ _ st) as [[b st']|] eqn:Hloop; [|discriminate].
    assert (Hbl4 : 0 <= w_bytes_left st)
      by (unfold st; cbn [w_bytes_left]; lia).
    destruct (write_loop_in_bounds lb la _ _ _ Henc Hsto _ st _ _
                Hin1 Hbl4 Hloop) as (Hin5 & Hcnt5 & Hbl5 & Hlt).
    destruct b; unfold write_done; intros H; injection H as _ <- _;
      [|exact Hin5].
    apply write_out_in_bounds; [exact Hin5| |].
    + exact Hbl5.
    + unfold st in Hcnt5. cbn [w_data] in Hcnt5.
      specialize (Hlt eq_refl). lia.
Qed.

(** A sequence of transfer calls: the same. *)
Lemma a2dp_writes_in_bounds lb la calls : forall data rets data' tr,
  encoder_respects_output_len ->
  encoder_stores_within_output_len ->
  in_bounds lb la data ->
  a2dp_writes calls data = Some (rets, data', tr) ->
  in_bounds lb la data'.
Proof.
  induction calls as [|c calls IH]; intros data rets data' tr Henc Hsto Hin H;
    cbn [a2dp_writes] in H.
  - injection H as _ <- _. exact Hin.
  - destruct (bluetooth_a2dp_write _ _ _ _ _) as [[[ret d1] tr1]|] eqn:Hw;
      [|discriminate].
    destruct (a2dp_writes calls d1) as [[[rets2 d2] tr2]|] eqn:Hws;
      [|discriminate].
    injection H as _ <- _.
    apply (IH d1 rets2 d2 tr2 Henc Hsto); [|exact Hws].
    apply (a2dp_write_in_bounds lb la _ _ _ _ _ _ _ _ Henc Hsto) in Hw;
      [exact Hw|].
    exact Hin.
Qed.

(** ** Transfers within the buffers *)

(** X17.  On a session whose buffers are allocated, [data->buffer] with
    room for one block and [a2dp->buffer] with room for one transfer unit,
    whose
    carry is shorter than a block and whose wire-buffer fill lies between
    the header size and the transfer unit, with an encoder that keeps to the
    output space it is given, and with frames of at least one byte: every
    sequence of A2DP playback transfers returns; every packet handed to
    [send] has at least the headers and at most the transfer unit; no store
    goes past the end of a buffer (both keep their lengths) and the session
    stays as described.  PCM bytes accumulate across calls: as long as the
    calls (none of them in underrun) bring fewer bytes than the block still
    lacks, nothing is encoded or sent, every frame is reported as taken and
    the carry is the old carry followed by the bytes of the calls in order;
    and the call that then completes the block first encodes exactly that
    carry followed by the bytes that were missing. *)
Theorem packets_fit_transfer_unit lb la calls data :
  encoder_respects_output_len ->
  encoder_stores_within_output_len ->
  in_bounds lb la data ->
  Forall (fun c => int32_t (ar_step (wc_areas c) / 8) <> 0) calls ->
  exists rets data' tr,
    a2dp_writes calls data = Some (rets, data', tr)
    /\ (forall p, In (DataSend p) tr ->
          header_size <= pkt_len p <= link_mtu data)
    /\ in_bounds lb la data'
    /\ link_mtu data' = link_mtu data
    /\ (Forall call_proceeds calls ->
        count data + Z.of_nat (length (concat (map pcm_of_call calls)))
        < codesize (a2dp data) ->
        tr = []
        /\ rets = map (fun c => int32_t (wc_size c)) calls
        /\ carry data' = carry data ++ concat (map pcm_of_call calls)
        /\ count data'
           = count data + Z.of_nat (length (concat (map pcm_of_call calls)))
        /\ forall c ret2 data2 tr2,
             call_proceeds c ->
             0 < count data' ->
             codesize (a2dp data) - count data'
             <= Z.of_nat (length (pcm_of_call c)) ->
             bluetooth_a2dp_write (wc_env c) (wc_areas c) (wc_offset c)
               (wc_size c) (set_io (wc_io c) data')
             = Some (ret2, data2, tr2) ->
             exists evs,
               tr2 = Encode
                       (carry data ++ concat (map pcm_of_call calls)
                        ++ firstn (Z.to_nat (codesize (a2dp data) - count data'))
                             (pcm_of_call c)) :: evs).
Proof.
  intros Henc Hsto Hin Hfs.
  pose proof Hin as (_ & _ & _ & _ & Hcnt & Hcs & Hfill).
  destruct (a2dp_writes_inv calls data Henc Hfill ltac:(lia) Hfs)
    as (rets & data' & tr & Hw & Hfill' & Hl & Htr).
  exists rets, data', tr.
  split; [exact Hw|].
  split; [exact Htr|].
  split; [exact (a2dp_writes_in_bounds lb la calls data rets data' tr
                   Henc Hsto Hin Hw)|].
  split; [exact Hl|].
  intros Hall Hsum.
  destruct (a2dp_writes_accumulate calls data Hall ltac:(lia) ltac:(lia) Hsum)
    as (d2 & Hw2 & Hcarry & Hcount & Ha).
  rewrite Hw in Hw2. injection Hw2 as -> -> ->.
  split; [reflexivity|]. split; [reflexivity|].
  split; [exact Hcarry|]. split; [exact Hcount|].
  intros c ret2 data2 tr2 Hc Hpos Hlack Hw2.
  rewrite <- Ha in Hlack.
  destruct (a2dp_write_completes_block c d2 ret2 data2 tr2 Hc
              ltac:(rewrite Ha; lia) ltac:(rewrite Ha; lia) Hlack Hw2)
    as [evs Hevs].
  exists evs. rewrite Hevs, Hcarry, Ha, <- app_assoc. reflexivity.
Qed.

(** ** More integer facts *)

Lemma int32_t_uint32_t x : int32_t (uint32_t x) = int32_t x.
Proof.
  unfold int32_t, uint32_t.
  rewrite Zplus_mod_idemp_l. reflexivity.
Qed.

Lemma int32_t_plus_l x y : int32_t (int32_t x + y) = int32_t (x + y).
Proof.
  unfold int32_t.
  replace ((x + 2 ^ 31) mod 2 ^ 32 - 2 ^ 31 + y + 2 ^ 31)
    with ((x + 2 ^ 31) mod 2 ^ 32 + y) by lia.
  rewrite Zplus_mod_idemp_l.
  replace (x + 2 ^ 31 + y) with (x + y + 2 ^ 31) by lia. reflexivity.
Qed.

Lemma testbit_true_nonzero x n : Z.testbit x n = true -> x <> 0.
Proof. intros H ->. rewrite Z.bits_0 in H. discriminate H. Qed.

(** ** Capture over SCO *)

(** What label [proceed] does when no arithmetic wraps. *)
Lemma hsp_read_proceed_spec areas offset size data :
  let frame_size := ar_step areas / 8 in
  let frames :=
    if count data + size * frame_size <=? link_mtu data then size
    else (link_mtu data - count data) / frame_size in
  0 < frame_size < 2 ^ 32 ->
  0 < link_mtu data < 2 ^ 32 ->
  0 <= count data < link_mtu data ->
  0 <= size < 2 ^ 31 -> count data + size * frame_size < 2 ^ 32 ->
  0 <= frames <= size
  /\ count data + frames * frame_size <= link_mtu data
  /\ hsp_read_proceed areas offset size data
     = Some (frames,
             set_count ((count data + frames * frame_size) mod link_mtu data)
               (set_count (count data + frames * frame_size) data),
             set_ar_addr
               (memcpy (ar_addr areas) (area_offset areas offset)
                  (memread (NULL_bytes (buffer data)) (count data)
                     (frames * frame_size))) areas).
Proof.
  intros frame_size frames Hfs Hmtu Hcnt Hsize Hbytes.
  assert (Hprod : 0 <= size * frame_size) by nia.
  assert (Hfr : 0 <= frames <= size
                /\ count data + frames * frame_size <= link_mtu data).
  { unfold frames.
    destruct (Z.leb_spec (count data + size * frame_size) (link_mtu data))
      as [Hle | Hgt].
    - split; [lia | exact Hle].
    - assert (Hq : 0 <= (link_mtu data - count data) / frame_size)
        by (apply Z.div_pos; lia).
      assert (Hm : frame_size * ((link_mtu data - count data) / frame_size)
                   <= link_mtu data - count data)
        by (apply Z.mul_div_le; lia).
      split; [|lia].
      split; [exact Hq|].
      destruct (Z_lt_le_dec size ((link_mtu data - count data) / frame_size))
        as [Hlt | Hge]; [|exact Hge].
      exfalso. nia. }
  destruct Hfr as [Hfr Hsum].
  split; [exact Hfr|]. split; [exact Hsum|].
  unfold hsp_read_proceed. fold frame_size.
  rewrite (uint32_t_id frame_size) by lia.
  rewrite (uint32_t_id (size * frame_size)) by lia.
  rewrite (uint32_t_id (count data + size * frame_size)) by lia.
  replace (frame_size =? 0) with false by (symmetry; apply Z.eqb_neq; lia).
  rewrite andb_false_r.
  replace (link_mtu data =? 0) with false by (symmetry; apply Z.eqb_neq; lia).
  rewrite (uint32_t_id (link_mtu data - count data)) by lia.
  fold frames.
  replace (frame_size * frames) with (frames * frame_size) by lia.
  assert (Hn : 0 <= frames * frame_size) by nia.
  rewrite (uint32_t_id (frames * frame_size)) by lia.
  rewrite (int32_t_id frames) by lia.
  cbn [count set_count link_mtu].
  rewrite (uint32_t_id (count data + frames * frame_size)) by lia.
  reflexivity.
Qed.

Lemma memread_memcpy_0_le buf src n :
  0 <= n <= Z.of_nat (length src) ->
  memread (memcpy buf 0 src) 0 n = memread src 0 n.
Proof.
  intros Hn. unfold memcpy, memread. cbn [Z.to_nat firstn skipn Nat.sub repeat app].
  rewrite <- app_assoc.
  rewrite !firstn_app.
  replace (Z.to_nat n - length src)%nat with O by lia.
  cbn [firstn]. reflexivity.
Qed.

Lemma memread_memread buf n m :
  0 <= n <= m -> memread (memread buf 0 m) 0 n = memread buf 0 n.
Proof.
  intros Hn. rewrite (memread_0 (memread buf 0 m)), memread_length.
  replace (Z.to_nat n - Z.to_nat m)%nat with O by lia.
  cbn [repeat]. rewrite app_nil_r.
  unfold memread. cbn [Z.to_nat skipn].
  rewrite firstn_firstn.
  replace (Nat.min (Z.to_nat n) (Z.to_nat m)) with (Z.to_nat n) by lia.
  rewrite !firstn_app. f_equal.
  rewrite !firstn_repeat_le by lia. reflexivity.
Qed.

(** X1.  Capture over SCO with bytes of the last packet still in
    the buffer ([0 < count < link_mtu], sizes in the range where the C
    arithmetic does not wrap): the call returns, does not read the socket,
    and hands the application [frames] frames taken from the buffer at
    [count], where [frames] is [size] if that many fit before the end of
    the packet and otherwise the number of whole frames left in it; [count]
    advances by the bytes handed over, modulo the packet size; the buffer
    and the hardware pointer are unchanged. *)
Theorem hsp_read_serves_buffered_packet rx areas offset size data :
  let frame_size := ar_step areas / 8 in
  let frames :=
    if count data + size * frame_size <=? link_mtu data then size
    else (link_mtu data - count data) / frame_size in
  0 < frame_size < 2 ^ 32 ->
  0 < link_mtu data < 2 ^ 32 ->
  0 < count data < link_mtu data ->
  0 <= size < 2 ^ 31 -> count data + size * frame_size < 2 ^ 32 ->
  exists data' areas',
    bluetooth_hsp_read rx areas offset size data = Some (frames, data', areas')
    /\ (forall rx', bluetooth_hsp_read rx' areas offset size data
                    = Some (frames, data', areas'))
    /\ 0 <= frames <= size
    /\ count data + frames * frame_size <= link_mtu data
    /\ count data' = (count data + frames * frame_size) mod link_mtu data
    /\ 0 <= count data' < link_mtu data
    /\ buffer data' = buffer data
    /\ hw_ptr data' = hw_ptr data
    /\ ar_addr areas'
       = memcpy (ar_addr areas) (area_offset areas offset)
           (memread (NULL_bytes (buffer data)) (count data)
              (frames * frame_size)).
Proof.
  intros frame_size frames Hfs Hmtu Hcnt Hsize Hbytes.
  destruct (hsp_read_proceed_spec areas offset size data Hfs Hmtu
              ltac:(lia) Hsize Hbytes) as (Hfr & Hsum & Hp).
  fold frame_size in Hp, Hsum. fold frames in Hp, Hsum, Hfr.
  assert (Hread : forall r, bluetooth_hsp_read r areas offset size data
                            = hsp_read_proceed areas offset size data).
  { intros r. unfold bluetooth_hsp_read.
    replace (count data >? 0) with true
      by (symmetry; apply Z.gtb_lt; lia).
    reflexivity. }
  eexists _, _. split; [rewrite Hread; exact Hp|].
  split; [intros rx'; rewrite Hread; exact Hp|].
  split; [exact Hfr|]. split; [exact Hsum|].
  cbn [count set_count buffer hw_ptr ar_addr set_ar_addr].
  split; [reflexivity|].
  split; [apply Z.mod_pos_bound; lia|].
  repeat split; reflexivity.
Qed.

(** X2.  Capture over SCO with an empty buffer ([count = 0]): when
    [recv] delivers exactly [link_mtu] bytes, they are stored in
    [data->buffer], the hardware pointer advances by the frames of one
    packet modulo the ring size, and the application gets the first
    [frames] frames of the packet, [frames] being [size] if that many fit in
    one packet and the whole frames of a packet otherwise. *)
Theorem hsp_read_receives_one_packet rx areas offset size data :
  let frame_size := ar_step areas / 8 in
  let frames :=
    if size * frame_size <=? link_mtu data then size
    else link_mtu data / frame_size in
  0 < frame_size < 2 ^ 32 ->
  0 < link_mtu data < 2 ^ 31 ->
  count data = 0 ->
  sys_ret (rx_recv rx) = link_mtu data ->
  0 < io_buffer_size (io data) <= 2 ^ 31 ->
  0 <= hw_ptr data -> hw_ptr data + link_mtu data / frame_size < 2 ^ 32 ->
  0 <= size < 2 ^ 31 -> size * frame_size < 2 ^ 32 ->
  exists data' areas',
    bluetooth_hsp_read rx areas offset size data = Some (frames, data', areas')
    /\ 0 <= frames <= size
    /\ buffer data'
       = Some (memcpy (NULL_bytes (buffer data)) 0
                 (memread (rx_bytes rx) 0 (link_mtu data)))
    /\ hw_ptr data'
       = (hw_ptr data + link_mtu data / frame_size) mod io_buffer_size (io data)
    /\ count data' = (frames * frame_size) mod link_mtu data
    /\ ar_addr areas'
       = memcpy (ar_addr areas) (area_offset areas offset)
           (memread (rx_bytes rx) 0 (frames * frame_size)).
Proof.
  intros frame_size frames Hfs Hmtu Hcnt Hrecv Hbuf Hhw Hhw' Hsize Hbytes.
  unfold bluetooth_hsp_read. rewrite Hcnt, Hrecv. cbn [Z.gtb Z.compare].
  rewrite (int32_t_id (link_mtu data)) by lia.
  replace (link_mtu data >? 0) with true by (symmetry; apply Z.gtb_lt; lia).
  replace (link_mtu data <? 0) with false by (symmetry; apply Z.ltb_ge; lia).
  rewrite (uint32_t_id (link_mtu data)) by lia.
  rewrite Z.eqb_refl. cbn [negb].
  fold frame_size. rewrite (uint32_t_id frame_size) by lia.
  replace (frame_size =? 0) with false by (symmetry; apply Z.eqb_neq; lia).
  cbn [io set_buffer orb].
  replace (io_buffer_size (io data) =? 0) with false
    by (symmetry; apply Z.eqb_neq; lia).
  cbn [hw_ptr set_buffer link_mtu].
  set (d1 := set_hw_ptr _ _).
  assert (Hq : 0 <= link_mtu data / frame_size) by (apply Z.div_pos; lia).
  assert (Hd1 : count d1 = 0 /\ link_mtu d1 = link_mtu data
                /\ buffer d1
                   = Some (memcpy (NULL_bytes (buffer data)) 0
                             (memread (rx_bytes rx) 0 (link_mtu data)))
                /\ hw_ptr d1
                   = (hw_ptr data + link_mtu data / frame_size)
                     mod io_buffer_size (io data)).
  { unfold d1. cbn. rewrite Hcnt.
    rewrite (uint32_t_id (hw_ptr data + link_mtu data / frame_size)) by lia.
    pose proof (Z.mod_pos_bound (hw_ptr data + link_mtu data / frame_size)
                  (io_buffer_size (io data)) ltac:(lia)) as Hm.
    rewrite int32_t_id by lia. repeat split; reflexivity. }
  destruct Hd1 as (Hc1 & Hl1 & Hb1 & Hh1).
  destruct (hsp_read_proceed_spec areas offset size d1) as (Hfr & Hsum & Hp);
    try (rewrite ?Hc1, ?Hl1; fold frame_size; lia).
  fold frame_size in Hp, Hsum, Hfr.
  rewrite Hc1, Hl1 in Hp, Hsum, Hfr. cbn [Z.add Z.sub] in Hp, Hsum, Hfr.
  rewrite Z.sub_0_r in Hp, Hsum, Hfr.
  fold frames in Hp, Hsum, Hfr.
  eexists _, _. split; [exact Hp|].
  split; [exact Hfr|].
  cbn [count set_count buffer hw_ptr ar_addr set_ar_addr link_mtu].
  split; [exact Hb1|]. split; [exact Hh1|]. split; [reflexivity|].
  rewrite Hb1. cbn [NULL_bytes].
  assert (Hn : 0 <= frames * frame_size) by nia.
  rewrite memread_memcpy_0_le
    by (rewrite memread_length; lia).
  rewrite memread_memread by lia. reflexivity.
Qed.

(** X3.  Capture over SCO with an empty buffer: a [recv] that
    fails, or that delivers another number of bytes than [link_mtu], hands
    nothing to the application and moves neither [count] nor the hardware
    pointer.  The result is [-EIO] for a short packet and for [EPIPE], and
    [-errno] for any other error. *)
Theorem hsp_read_rejects_short_packet rx areas offset size data :
  count data = 0 ->
  - 2 ^ 31 <= sys_ret (rx_recv rx) < 2 ^ 31 ->
  0 < sys_errno (rx_recv rx) < 2 ^ 31 ->
  0 <= link_mtu data < 2 ^ 32 ->
  sys_ret (rx_recv rx) <> link_mtu data ->
  exists ret data',
    bluetooth_hsp_read rx areas offset size data = Some (ret, data', areas)
    /\ ret < 0
    /\ (0 <= sys_ret (rx_recv rx) -> ret = - EIO)
    /\ (sys_ret (rx_recv rx) < 0 ->
        ret = if sys_errno (rx_recv rx) =? EPIPE then - EIO
              else - sys_errno (rx_recv rx))
    /\ count data' = 0
    /\ hw_ptr data' = hw_ptr data.
Proof.
  intros Hcnt Hret Herrno Hmtu Hne.
  unfold bluetooth_hsp_read. rewrite Hcnt. cbn [Z.gtb Z.compare].
  rewrite (int32_t_id (sys_ret (rx_recv rx))) by lia.
  rewrite !int32_t_uint32_t.
  destruct (Z.ltb_spec (sys_ret (rx_recv rx)) 0) as [Hneg | Hpos].
  - replace (sys_ret (rx_recv rx) >? 0) with false
      by (symmetry; rewrite Z.gtb_ltb; apply Z.ltb_ge; lia).
    eexists _, _. split; [reflexivity|].
    assert (Hv : int32_t (if sys_errno (rx_recv rx) =? EPIPE then - EIO
                          else - sys_errno (rx_recv rx))
                 = if sys_errno (rx_recv rx) =? EPIPE then - EIO
                   else - sys_errno (rx_recv rx)).
    { apply int32_t_id. destruct (_ =? _); unfold EIO; lia. }
    rewrite Hv.
    split; [destruct (_ =? _); unfold EIO; lia|].
    split; [lia|]. split; [reflexivity|]. split; [exact Hcnt | reflexivity].
  - rewrite (uint32_t_id (sys_ret (rx_recv rx))) by lia.
    rewrite (int32_t_id (- EIO)) by (unfold EIO; lia).
    destruct (sys_ret (rx_recv rx) >? 0); cbn [link_mtu set_buffer];
      replace (sys_ret (rx_recv rx) =? link_mtu data) with false
        by (symmetry; apply Z.eqb_neq; exact Hne);
      cbn [negb];
      (eexists _, _; split; [reflexivity|];
       split; [unfold EIO; lia|]; split; [reflexivity|]; split; [lia|];
       split; [exact Hcnt | reflexivity]).
Qed.

(** X4.  Capture over SCO when fewer bytes than one frame are left
    in the buffered packet (which happens when [link_mtu] is not a multiple
    of the frame size): a request for at least one frame returns 0 frames
    and leaves [count], the buffer and the hardware pointer as they are, so
    the next call is in the same situation and no packet is received
    again. *)
Theorem hsp_read_stalls_on_partial_frame rx areas offset size data :
  let frame_size := ar_step areas / 8 in
  0 < frame_size < 2 ^ 32 ->
  0 < link_mtu data < 2 ^ 32 ->
  0 < count data < link_mtu data ->
  link_mtu data - count data < frame_size ->
  0 < size < 2 ^ 31 -> count data + size * frame_size < 2 ^ 32 ->
  exists data' areas',
    bluetooth_hsp_read rx areas offset size data = Some (0, data', areas')
    /\ count data' = count data
    /\ buffer data' = buffer data
    /\ hw_ptr data' = hw_ptr data
    /\ link_mtu data' = link_mtu data.
Proof.
  intros frame_size Hfs Hmtu Hcnt Hshort Hsize Hbytes.
  destruct (hsp_read_proceed_spec areas offset size data Hfs Hmtu
              ltac:(lia) ltac:(lia) Hbytes) as (Hfr & Hsum & Hp).
  fold frame_size in Hp.
  assert (Hz : (if count data + size * frame_size <=? link_mtu data
                then size
                else (link_mtu data - count data) / frame_size) = 0).
  { destruct (Z.leb_spec (count data + size * frame_size) (link_mtu data))
      as [Hle | Hgt]; [nia|].
    apply Z.div_small. lia. }
  rewrite Hz in Hp.
  unfold bluetooth_hsp_read.
  replace (count data >? 0) with true by (symmetry; apply Z.gtb_lt; lia).
  eexists _, _. split; [exact Hp|].
  cbn [count set_count buffer hw_ptr link_mtu].
  rewrite Z.mul_0_l, Z.add_0_r.
  split; [apply Z.mod_small; lia|]. repeat split; reflexivity.
Qed.

(** ** The playback delay *)

(** X6.  [bluetooth_playback_delay] always returns 0.  With [d] the
    frames queued ([appl_ptr - hw_ptr] after [snd_pcm_hwsync]) plus the sink
    delay converted from tenths of a millisecond to frames
    ([sink_delay * rate / 10000]), in the range where the C arithmetic does
    not wrap: the delay reported is [d], and the session is unchanged,
    unless the stream is running and [d] is negative; then the stream is
    stopped, the state becomes XRUN and the delay reported is 0.  So the
    delay reported for a running stream is never negative. *)
Theorem playback_delay_is_queue_plus_sink_delay hwsync data :
  let io' := hwsync (io data) in
  let d := io_appl_ptr io' - io_hw_ptr io'
           + sink_delay data * io_rate io' / 10000 in
  0 <= sink_delay data * io_rate io' < 2 ^ 32 ->
  - 2 ^ 31 <= d < 2 ^ 31 ->
  let '(ret, delayp, data') := bluetooth_playback_delay hwsync data in
  ret = 0
  /\ (io_state io' = SND_PCM_STATE_RUNNING -> d < 0 ->
      delayp = 0 /\ stopped data' = 1
      /\ io_state (io data') = SND_PCM_STATE_XRUN)
  /\ (io_state io' <> SND_PCM_STATE_RUNNING \/ 0 <= d ->
      delayp = d /\ data' = set_io io' data)
  /\ (io_state io' = SND_PCM_STATE_RUNNING -> 0 <= delayp).
Proof.
  intros io' d Hsink Hd. unfold bluetooth_playback_delay.
  cbn [io set_io sink_delay]. fold io'.
  rewrite (uint32_t_id (sink_delay data * io_rate io')) by exact Hsink.
  rewrite !int32_t_uint32_t, int32_t_plus_l. fold d.
  rewrite (int32_t_id d) by exact Hd.
  destruct (io_state io') eqn:Hst;
    try (split; [reflexivity|];
         split; [intros Hr; discriminate Hr|];
         split; [intros _; split; reflexivity|];
         intros Hr; discriminate Hr).
  destruct (Z.ltb_spec d 0) as [Hneg | Hpos]; cbn.
  - split; [reflexivity|]. split; [intros _ _; repeat split; reflexivity|].
    split; [intros [Hr | Hr]; [contradiction Hr; reflexivity | lia]|].
    intros _. lia.
  - split; [reflexivity|]. split; [intros _ Hlt; lia|].
    split; [intros _; split; reflexivity|]. intros _. exact Hpos.
Qed.

(** ** The poll callbacks *)

Lemma land_error_mask x :
  Z.land x (Z.lor POLLERR (Z.lor POLLHUP POLLNVAL)) = 0 ->
  Z.testbit x 3 = false /\ Z.testbit x 4 = false /\ Z.testbit x 5 = false.
Proof.
  intros H.
  assert (Hb : forall n, Z.testbit (Z.land x 56) n = false)
    by (intros n; change 56 with (Z.lor POLLERR (Z.lor POLLHUP POLLNVAL));
        rewrite H; apply Z.bits_0).
  repeat split;
    [specialize (Hb 3) | specialize (Hb 4) | specialize (Hb 5)];
    rewrite Z.land_spec in Hb; cbn in Hb; rewrite andb_true_r in Hb;
    exact Hb.
Qed.

Lemma land_lt_pow2 x m n :
  0 <= x -> 0 <= m < 2 ^ n -> 0 <= Z.land x m < 2 ^ n.
Proof.
  intros Hx Hm.
  assert (H0 : 0 <= Z.land x m) by (apply Z.land_nonneg; left; exact Hx).
  split; [exact H0|].
  destruct (Z.eq_dec (Z.land x m) 0) as [-> | Hnz]; [lia|].
  assert (Hm0 : 0 < m).
  { destruct (Z.eq_dec m 0) as [-> | ?]; [|lia].
    rewrite Z.land_0_r in Hnz. contradiction. }
  apply Z.log2_lt_pow2; [lia|].
  pose proof (Z.log2_land x m Hx ltac:(lia)) as Hl.
  assert (Z.log2 m < n) by (apply Z.log2_lt_pow2; lia).
  lia.
Qed.

Lemma lor_lt_pow2 x m n :
  0 <= x < 2 ^ n -> 0 <= m < 2 ^ n -> 0 <= Z.lor x m < 2 ^ n.
Proof.
  intros Hx Hm.
  assert (H0 : 0 <= Z.lor x m) by (apply Z.lor_nonneg; lia).
  split; [exact H0|].
  destruct (Z.eq_dec (Z.lor x m) 0) as [-> | Hnz]; [lia|].
  assert (Hn : 0 < n).
  { destruct (Z_lt_le_dec 0 n) as [? | Hle]; [assumption|].
    exfalso. apply Hnz.
    assert (2 ^ n <= 1).
    { destruct (Z.eq_dec n 0) as [-> | ?]; [cbn; lia|].
      rewrite Z.pow_neg_r by lia. lia. }
    replace x with 0 by lia. replace m with 0 by lia. reflexivity. }
  apply Z.log2_lt_pow2; [lia|].
  rewrite Z.log2_lor by lia.
  apply Z.max_lub_lt.
  - destruct (Z.eq_dec x 0) as [-> | ?]; [cbn; lia|].
    apply Z.log2_lt_pow2; lia.
  - destruct (Z.eq_dec m 0) as [-> | ?]; [cbn; lia|].
    apply Z.log2_lt_pow2; lia.
Qed.

(** X7.  [bluetooth_playback_poll_revents], for [revents] of the data
    socket that are a mask of poll flags (a non-negative [short]), returns 0
    and: reports the pipe as [POLLOUT] exactly when it is readable, and
    nothing else for it; reports for the data socket only error flags, with
    POLLERR added whenever POLLHUP is set; moves the handle to
    DISCONNECTED when it reports an error flag, and leaves it alone
    otherwise; and takes one byte from the pipe unless the state is
    PREPARED. *)
Theorem playback_poll_revents_reports_hangup_as_error io0 pfds0 pfds1 :
  0 <= pfd_revents pfds1 < 2 ^ 15 ->
  let mask := Z.lor POLLERR (Z.lor POLLHUP POLLNVAL) in
  let '(ret, io', pfds1', revents0, revents1, reads) :=
    bluetooth_playback_poll_revents io0 pfds0 pfds1 in
  ret = 0
  /\ revents0 = (if Z.land (pfd_revents pfds0) POLLIN =? 0 then 0 else POLLOUT)
  /\ Z.land revents1 mask = revents1
  /\ (Z.land (pfd_revents pfds1) POLLHUP <> 0 -> Z.land revents1 POLLERR <> 0)
  /\ (Z.land (pfd_revents pfds1) mask <> 0 <-> revents1 <> 0)
  /\ (revents1 <> 0 -> io_state io' = SND_PCM_STATE_DISCONNECTED)
  /\ (revents1 = 0 -> io' = io0)
  /\ (reads = false <-> io_state io0 = SND_PCM_STATE_PREPARED).
Proof.
  intros Hr mask. unfold bluetooth_playback_poll_revents.
  assert (Hreads : (match io_state io0 with
                    | SND_PCM_STATE_PREPARED => false
                    | _ => true
                    end = false) <-> io_state io0 = SND_PCM_STATE_PREPARED).
  { destruct (io_state io0); split; intros H; try reflexivity;
      discriminate H. }
  set (r := pfd_revents pfds1) in *.
  assert (Hmask : forall x, 0 <= x ->
            uint16_t (Z.land x mask) = Z.land x mask).
  { intros x Hx. apply uint16_t_id.
    apply land_lt_pow2; [exact Hx | unfold mask; cbn; lia]. }
  assert (Hidem : forall x, Z.land (Z.land x mask) mask = Z.land x mask).
  { intros x. rewrite <- Z.land_assoc, Z.land_diag. reflexivity. }
  unfold land_nonzero.
  destruct (Z.eqb_spec (Z.land r POLLHUP) 0) as [Hhup | Hhup]; cbn [negb].
  - (* no hangup: [pfds[1].revents] is left alone *)
    fold r. fold mask. rewrite (Hmask r) by lia.
    destruct (Z.eqb_spec (Z.land r mask) 0) as [Hz | Hnz]; cbn [negb].
    + rewrite Hz.
      split; [reflexivity|]. split; [unfold land_nonzero;
        destruct (Z.land (pfd_revents pfds0) POLLIN =? 0); reflexivity|].
      split; [reflexivity|]. split; [intros H; contradiction|].
      split; [split; intros H; contradiction H; reflexivity|].
      split; [intros H; contradiction H; reflexivity|].
      split; [reflexivity | exact Hreads].
    + split; [reflexivity|]. split; [
        destruct (Z.land (pfd_revents pfds0) POLLIN =? 0); reflexivity|].
      split; [apply Hidem|]. split; [intros H; contradiction|].
      split; [split; intros _; exact Hnz|].
      split; [reflexivity|]. split; [intros H; contradiction | exact Hreads].
  - (* hangup: POLLERR is added *)
    cbn [pfd_revents].
    assert (Hlor : 0 <= Z.lor r POLLERR < 2 ^ 15)
      by (apply lor_lt_pow2; [exact Hr | unfold POLLERR; lia]).
    assert (Hi16 : int16_t (Z.lor r POLLERR) = Z.lor r POLLERR).
    { unfold int16_t. rewrite Z.mod_small; lia. }
    rewrite Hi16. fold mask. rewrite (Hmask (Z.lor r POLLERR)) by lia.
    assert (Herr : Z.testbit (Z.land (Z.lor r POLLERR) mask) 3 = true).
    { rewrite Z.land_spec, Z.lor_spec. unfold mask. cbn.
      rewrite orb_true_r. reflexivity. }
    assert (Hnz : Z.land (Z.lor r POLLERR) mask <> 0)
      by (apply (testbit_true_nonzero _ 3); exact Herr).
    replace (Z.land (Z.lor r POLLERR) mask =? 0) with false
      by (symmetry; apply Z.eqb_neq; exact Hnz).
    cbn [negb].
    split; [reflexivity|]. split; [
      destruct (Z.land (pfd_revents pfds0) POLLIN =? 0); reflexivity|].
    split; [apply Hidem|].
    split.
    { intros _. apply (testbit_true_nonzero _ 3).
      rewrite Z.land_spec, Herr. reflexivity. }
    split.
    { split; [intros _; exact Hnz|]. intros _ Hz.
      apply land_error_mask in Hz. destruct Hz as (_ & H4 & _).
      apply Hhup. apply Z.bits_inj'. intros n Hn.
      rewrite Z.land_spec, Z.bits_0.
      destruct (Z.eq_dec n 4) as [-> | Hn4]; [rewrite H4; reflexivity|].
      replace (Z.testbit POLLHUP n) with false;
        [apply andb_false_r|].
      symmetry. unfold POLLHUP.
      change 16 with (2 ^ 4). apply Z.pow2_bits_false. lia. }
    split; [reflexivity|]. split; [intros H; contradiction | exact Hreads].
Qed.

(** ** Time differences *)

(** [priv_timespecsub] on two instants with nanoseconds in
    [[0, 10^9)]: the result has its nanoseconds in the same range and stands
    for the difference of the two instants; when the first instant is not
    before the second, the seconds of the result are not negative. *)
Theorem priv_timespecsub_normalised a b :
  0 <= tv_nsec a < 1000000000 ->
  0 <= tv_nsec b < 1000000000 ->
  let r := priv_timespecsub a b in
  let ns (t : timespec) := tv_sec t * 1000000000 + tv_nsec t in
  0 <= tv_nsec r < 1000000000
  /\ ns r = ns a - ns b
  /\ (ns b <= ns a -> 0 <= tv_sec r).
Proof.
  intros Ha Hb. unfold priv_timespecsub. cbv zeta.
  destruct (Z.ltb_spec (tv_nsec a - tv_nsec b) 0) as [Hlt | Hge];
    cbn [tv_sec tv_nsec]; repeat split; try lia.
Qed.

(** ** The control channel *)

(** X8.  [audioservice_expect] (a failed [recv] leaving a positive
    [errno], and the error code of an error packet being non-negative, as
    they are) never returns a positive value.
    It returns 0 only for a packet that has at least a whole header and the
    expected name.  A well-formed packet that is not an error and has the
    expected name gives 0; an error packet of full size gives minus the
    error code it carries; a well-formed packet with another name gives
    [-EINVAL]. *)
Theorem audioservice_expect_zero_only_for_expected_name pk name :
  (sys_ret (pk_recv pk) < 0 -> 0 < sys_errno (pk_recv pk)) ->
  0 <= pk_posix_errno pk ->
  let ret := sys_ret (pk_recv pk) in
  let well_formed :=
    sizeof_bt_audio_msg_header_t <= ret /\ 0 <= ret
    /\ pk_type pk <> BT_ERROR
    /\ bt_audio_strtype (pk_type pk) = true
    /\ bt_audio_strname (pk_name pk) = true in
  audioservice_expect pk name <= 0
  /\ (audioservice_expect pk name = 0 ->
      pk_name pk = name /\ sizeof_bt_audio_msg_header_t <= ret)
  /\ (well_formed -> pk_name pk = name -> audioservice_expect pk name = 0)
  /\ (well_formed -> pk_name pk <> name ->
      audioservice_expect pk name = - EINVAL)
  /\ (sizeof_bt_audio_msg_header_t <= ret -> sizeof_bt_audio_error_t <= ret ->
      0 <= ret -> pk_type pk = BT_ERROR -> 0 < pk_posix_errno pk ->
      audioservice_expect pk name = - pk_posix_errno pk).
Proof.
  intros Herrno Hposix ret well_formed.
  unfold audioservice_expect, audioservice_recv. fold ret.
  unfold well_formed. clear well_formed.
  destruct (Z.ltb_spec ret 0);
    [|destruct (Z.ltb_spec ret sizeof_bt_audio_msg_header_t);
      [|destruct (Z.eqb_spec (pk_type pk) BT_ERROR);
        [destruct (Z.ltb_spec ret sizeof_bt_audio_error_t)
        |destruct (bt_audio_strtype (pk_type pk)),
                  (bt_audio_strname (pk_name pk))]]];
    cbn [andb];
    repeat match goal with
           | |- context [negb (?x =? ?y)] => destruct (Z.eqb_spec x y)
           end;
    cbn [negb]; unfold EINVAL in *;
    intuition (try lia; try congruence).
Qed.

(** ** More on [bluetooth_prepare] *)

Ltac prep_simpl :=
  cbn [hw_thread set_reset set_hw_thread io a2dp_stream_state set_hw_ptr
       transport set_stream_fd stream_fd].

Ltac prep_simpl_in H :=
  cbn [hw_thread set_reset set_hw_thread io a2dp_stream_state set_hw_ptr
       transport set_stream_fd stream_fd] in H.

Ltac prepare_cases H :=
  repeat match type of H with
         | context [if ?b then _ else _] => destruct b eqn:?
         end.

(** A prepare call on a stream that is already Started
    sends nothing on the control channel: its only effect outside the
    session is the one byte written to the pipe to wake the client.  The
    stream stays Started, the data socket is kept, the reset flag and the
    clock thread are cleared, and the result is 0 unless that write
    fails. *)
Theorem prepare_on_started_stream_is_silent E data :
  io_period_size (io data) <> 0 ->
  a2dp_stream_state data = STREAM_STARTED ->
  exists data',
    bluetooth_prepare E data
    = Some (if pe_pipe_write E <? 0 then pe_pipe_write E else 0,
            data', [Notify])
    /\ a2dp_stream_state data' = STREAM_STARTED
    /\ stream_fd data' = stream_fd data
    /\ reset data' = 0
    /\ hw_thread data' = false
    /\ a2dp data' = a2dp data.
Proof.
  intros Hp Hst. unfold bluetooth_prepare, prepare_done.
  apply Z.eqb_neq in Hp. rewrite Hp.
  destruct (hw_thread data) eqn:Hth;
    cbn [hw_thread set_reset]; rewrite ?Hth; prep_simpl;
    destruct (io_stream (io data)); prep_simpl;
    rewrite Hst; cbn [stream_state_eqb app];
    destruct (pe_pipe_write E <? 0);
    (eexists; split; [reflexivity|]; cbn; rewrite ?Hth;
     repeat split; try assumption; reflexivity).
Qed.

(** X9.  On the A2DP transport a prepare call that returns 0 leaves
    the stream Started and has written the wake-up byte last (a failed
    system call leaving a positive [errno]).  When the stream was not
    Started before, the control channel has carried exactly the
    START_STREAM request, its answer and the NEW_STREAM indication, and the
    data socket is the descriptor obtained from the audio service. *)
Theorem prepare_success_on_a2dp_leaves_started E data data' tr :
  transport data = BT_CAPABILITIES_TRANSPORT_A2DP ->
  (sys_ret (pe_data_fd E) < 0 -> 0 < sys_errno (pe_data_fd E)) ->
  (sys_ret (pe_setsockopt1 E) < 0 -> 0 < sys_errno (pe_setsockopt1 E)) ->
  bluetooth_prepare E data = Some (0, data', tr) ->
  a2dp_stream_state data' = STREAM_STARTED
  /\ (exists tr0, tr = tr0 ++ [Notify])
  /\ (a2dp_stream_state data <> STREAM_STARTED ->
      tr = [CtlSend bt_start_stream_msg; CtlRecv BT_START_STREAM;
            CtlRecv BT_NEW_STREAM; Notify]
      /\ stream_fd data' = sys_ret (pe_data_fd E)
      /\ 0 <= stream_fd data').
Proof.
  intros Htr Hfd Hso. unfold bluetooth_prepare, prepare_done.
  destruct (io_period_size (io data) =? 0); [discriminate|].
  intros H. injection H as H.
  assert (Hstate : forall d,
            stream_state_eqb (a2dp_stream_state d) STREAM_STARTED = true ->
            a2dp_stream_state d = STREAM_STARTED)
    by (intros d; destruct (a2dp_stream_state d); intros; try reflexivity;
        discriminate).
  destruct (hw_thread data) eqn:Hth;
    cbn [hw_thread set_reset] in H; rewrite ?Hth in H; prep_simpl_in H;
    destruct (io_stream (io data)); prep_simpl_in H;
    rewrite ?Htr, ?Z.eqb_refl in H;
    destruct (stream_state_eqb (a2dp_stream_state data) STREAM_STARTED)
      eqn:Hst;
    prepare_cases H; injection H; clear H; intros; subst data' tr;
    repeat match goal with
           | H : (_ <? _) = true |- _ => apply Z.ltb_lt in H
           | H : (_ <? _) = false |- _ => apply Z.ltb_ge in H
           | H : (_ =? _) = true |- _ => apply Z.eqb_eq in H
           | H : (_ =? _) = false |- _ => apply Z.eqb_neq in H
           end;
    try lia;
    try (specialize (Hfd ltac:(assumption)); lia);
    try (specialize (Hso ltac:(assumption)); lia);
    cbn [a2dp_stream_state set_a2dp_stream_state set_stream_fd stream_fd
         set_hw_ptr set_hw_thread set_reset app];
    (split; [first [reflexivity | apply Hstate; exact Hst]|];
     split; [first [exists []; reflexivity
                   | eexists; cbn [app]; reflexivity
                   | exists [CtlSend bt_start_stream_msg;
                             CtlRecv BT_START_STREAM;
                             CtlRecv BT_NEW_STREAM]; reflexivity]|];
     intros Hns;
     first [exfalso; apply Hns; apply Hstate; exact Hst
           | repeat split; first [reflexivity | assumption]]).
Qed.

(** X10.  On the SCO transport, once the control-channel exchange has
    succeeded and a data socket has been obtained: if either of the two
    [setsockopt] calls that size the socket buffers succeeds, the prepare
    call returns 0 at once, without marking the stream Started and without
    waking the client; only when both fail is the stream marked Started and
    the wake-up byte written. *)
Theorem prepare_on_sco_marks_started_only_after_setsockopt_failure E data :
  io_period_size (io data) <> 0 ->
  a2dp_stream_state data <> STREAM_STARTED ->
  transport data <> BT_CAPABILITIES_TRANSPORT_A2DP ->
  0 <= audioservice_send (pe_start_send E) ->
  0 <= audioservice_expect (pe_start_rsp E) BT_START_STREAM ->
  0 <= audioservice_expect (pe_new_stream E) BT_NEW_STREAM ->
  0 <= sys_ret (pe_data_fd E) ->
  exists ret data' tr,
    bluetooth_prepare E data = Some (ret, data', tr)
    /\ (sys_ret (pe_setsockopt1 E) = 0 \/ sys_ret (pe_setsockopt2 E) = 0 ->
        ret = 0
        /\ a2dp_stream_state data' = a2dp_stream_state data
        /\ ~ In Notify tr)
    /\ (sys_ret (pe_setsockopt1 E) <> 0 -> sys_ret (pe_setsockopt2 E) <> 0 ->
        a2dp_stream_state data' = STREAM_STARTED
        /\ In Notify tr).
Proof.
  intros Hp Hst Htr Hsend Hstart Hind Hfd.
  unfold bluetooth_prepare, prepare_done.
  apply Z.eqb_neq in Hp. rewrite Hp.
  apply stream_state_eqb_neq in Hst.
  apply Z.eqb_neq in Htr.
  apply Z.ltb_ge in Hsend, Hstart, Hind, Hfd.
  assert (Hnot : forall a b : Z,
            ~ In Notify [CtlSend bt_start_stream_msg; CtlRecv a; CtlRecv b]).
  { intros a b [H | [H | [H | []]]]; discriminate H. }
  destruct (hw_thread data) eqn:Hth;
    cbn [hw_thread set_reset]; rewrite ?Hth; prep_simpl;
    destruct (io_stream (io data)); prep_simpl;
    rewrite Hst, Hsend, Hstart, Hind, Hfd, Htr;
    destruct (Z.eqb_spec (sys_ret (pe_setsockopt1 E)) 0) as [H1 | H1];
    destruct (Z.eqb_spec (sys_ret (pe_setsockopt2 E)) 0) as [H2 | H2];
    try destruct (pe_pipe_write E <? 0);
    (eexists _, _, _; split; [reflexivity|];
     cbn [a2dp_stream_state set_a2dp_stream_state set_stream_fd
          set_hw_ptr set_hw_thread set_reset app]; split).
  all: try (intros [Hz | Hz];
            first [contradiction
                  | repeat split; try reflexivity; apply Hnot]).
  all: intros Hn1 Hn2;
    first [contradiction | split; [reflexivity | cbn; tauto]].
Qed.

(** ** More on the A2DP configuration *)

(** What [a2dp_configure] keeps and what state it leaves. *)
Lemma a2dp_configure_outcome E data tr0 :
  let '(ret, data', tr) := a2dp_configure E data tr0 in
  sbc_capabilities (a2dp data') = sbc_capabilities (a2dp data)
  /\ alsa_config data' = alsa_config data
  /\ seq_num (a2dp data') = seq_num (a2dp data)
  /\ nsamples (a2dp data') = nsamples (a2dp data)
  /\ frame_count (a2dp data') = frame_count (a2dp data)
  /\ (ret = 0 -> a2dp_stream_state data' = STREAM_CONFIGURED)
  /\ (ret <> 0 -> a2dp_stream_state data' = a2dp_stream_state data)
  /\ (exists tr', tr = tr0 ++ CtlSend (bt_set_configuration_msg data) :: tr').
Proof.
  unfold a2dp_configure, resize_buffers.
  destruct (Z.ltb_spec (audioservice_send (he_conf_send E)) 0) as [H1 | H1].
  { repeat split; try reflexivity; try (intros; lia).
    exists []. reflexivity. }
  destruct (Z.ltb_spec (audioservice_expect (he_conf_rsp E)
                          BT_SET_CONFIGURATION) 0) as [H2 | H2].
  { repeat split; try reflexivity; try (intros; lia).
    eexists. rewrite <- app_assoc. reflexivity. }
  cbn [buffer set_buffer a2dp set_a2dp a2dp_buffer set_a2dp_buffer link_mtu
       set_link_mtu set_transport].
  destruct (realloc (he_realloc_data E) _ _), (realloc (he_realloc_a2dp E) _ _);
    cbn [negb];
    try (repeat split; try reflexivity;
         try (intros H; unfold ENOMEM in H; lia);
         eexists; rewrite <- !app_assoc; reflexivity).
  destruct (Z.ltb_spec (audioservice_expect (he_delay_ind E) BT_DELAY_REPORT)
              0) as [H3 | H3].
  { repeat split; try reflexivity; try (intros; lia).
    eexists. rewrite <- !app_assoc. reflexivity. }
  repeat split; try reflexivity; try (intros H; contradiction H; reflexivity).
  eexists. rewrite <- !app_assoc. reflexivity.
Qed.

(** On a stream that is not Closed, a request that
    [bluetooth_configuration_cmp] finds changed goes straight to the
    SET_CONFIGURATION exchange: [bluetooth_a2dp_init] is not called, so the
    request carries the capabilities stored in the session, the stored
    capabilities are the same after the call, and the outcome does not
    depend on the rate and channels asked for.  On success the stream is
    Configured; on failure its state is unchanged. *)
Theorem reconfiguration_resends_stored_capabilities E params data :
  a2dp_stream_state data <> STREAM_CLOSED ->
  bluetooth_configuration_cmp data params <> 0 ->
  let '(ret, data', tr) := bluetooth_a2dp_hw_params E params data in
  (exists tr', tr = CtlSend (bt_set_configuration_msg data) :: tr')
  /\ sbc_capabilities (a2dp data') = sbc_capabilities (a2dp data)
  /\ (ret = 0 -> a2dp_stream_state data' = STREAM_CONFIGURED)
  /\ (ret <> 0 -> a2dp_stream_state data' = a2dp_stream_state data)
  /\ (forall params',
        bluetooth_configuration_cmp data params' <> 0 ->
        bluetooth_a2dp_hw_params E params' data = (ret, data', tr)).
Proof.
  intros Hst Hcmp.
  assert (Hgo : forall p, bluetooth_configuration_cmp data p <> 0 ->
                  bluetooth_a2dp_hw_params E p data = a2dp_configure E data []).
  { intros p Hp. unfold bluetooth_a2dp_hw_params.
    apply stream_state_eqb_neq in Hst. rewrite Hst. cbn [negb].
    apply Z.eqb_neq in Hp. rewrite Hp. reflexivity. }
  rewrite (Hgo params Hcmp).
  pose proof (a2dp_configure_outcome E data []) as H.
  destruct (a2dp_configure E data []) as [[ret data'] tr] eqn:Hc.
  destruct H as (Hcap & _ & _ & _ & _ & H0 & Hne & Htr).
  cbn [app] in Htr.
  split; [exact Htr|]. split; [exact Hcap|].
  split; [exact H0|]. split; [exact Hne|].
  intros p Hp. exact (Hgo p Hp).
Qed.

(** The stream state after [bluetooth_a2dp_hw_params]: a call
    that returns 0 after any exchange with the audio service leaves the
    stream Configured; a call that fails leaves the state as it was, or
    Opened when the stream was Closed and the OPEN exchange had succeeded;
    a call that exchanges nothing changes nothing.  So the call never marks
    a stream Started, and a failed OPEN leaves the stream Closed. *)
Theorem a2dp_hw_params_stream_state E params data :
  let '(ret, data', tr) := bluetooth_a2dp_hw_params E params data in
  (tr = [] -> ret = 0 /\ data' = data)
  /\ (ret = 0 -> tr <> [] -> a2dp_stream_state data' = STREAM_CONFIGURED)
  /\ (ret <> 0 ->
      a2dp_stream_state data' = a2dp_stream_state data
      \/ (a2dp_stream_state data = STREAM_CLOSED
          /\ 0 <= fst (stream_open E data)
          /\ a2dp_stream_state data' = STREAM_OPENED))
  /\ (a2dp_stream_state data = STREAM_CLOSED -> fst (stream_open E data) < 0 ->
      ret = fst (stream_open E data)
      /\ a2dp_stream_state data' = STREAM_CLOSED)
  /\ (a2dp_stream_state data' = STREAM_STARTED ->
      a2dp_stream_state data = STREAM_STARTED).
Proof.
  unfold bluetooth_a2dp_hw_params.
  destruct (stream_state_eqb (a2dp_stream_state data) STREAM_CLOSED) eqn:Hst;
    cbn [negb].
  - (* the stream is Closed *)
    assert (Hcl : a2dp_stream_state data = STREAM_CLOSED)
      by (destruct (a2dp_stream_state data); try discriminate; reflexivity).
    assert (Hopen_tr : snd (stream_open E data) <> []).
    { unfold stream_open. destruct (_ <? 0); cbn; discriminate. }
    destruct (stream_open E data) as [err tr0] eqn:Hopen.
    cbn [fst snd] in *.
    destruct (Z.ltb_spec err 0) as [Herr | Herr].
    { split; [intros Htr; contradiction|].
      split; [intros; lia|]. split; [intros _; left; reflexivity|].
      split; [intros _ _; split; [reflexivity | exact Hcl]|].
      intros H. rewrite Hcl in H. discriminate H. }
    destruct (bluetooth_a2dp_init _ _ _) as [err' cap].
    destruct (Z.ltb_spec err' 0) as [Herr' | Herr'].
    { split; [intros Htr; contradiction|].
      split; [intros; lia|].
      split; [intros _; right; repeat split; assumption|].
      split; [intros; lia|].
      cbn. intros H. discriminate H. }
    match goal with
    | |- context [a2dp_configure E ?d tr0] =>
      pose proof (a2dp_configure_outcome E d tr0) as H;
      destruct (a2dp_configure E d tr0) as [[ret data'] tr]
    end.
    destruct H as (_ & _ & _ & _ & _ & H0 & Hne & (tr' & Htr)).
    cbn [a2dp_stream_state set_a2dp set_a2dp_stream_state] in Hne.
    split; [intros Hnil; rewrite Hnil in Htr;
            destruct tr0; discriminate Htr|].
    split; [intros Hz _; exact (H0 Hz)|].
    split; [intros Hnz; right; repeat split;
            [exact Hcl | exact Herr | exact (Hne Hnz)]|].
    split; [intros; lia|].
    intros Hs. destruct (Z.eq_dec ret 0) as [Hz | Hnz].
    + rewrite (H0 Hz) in Hs. discriminate Hs.
    + rewrite (Hne Hnz) in Hs. discriminate Hs.
  - (* the stream is open *)
    assert (Hncl : a2dp_stream_state data <> STREAM_CLOSED)
      by (apply stream_state_eqb_neq; exact Hst).
    destruct (bluetooth_configuration_cmp data params =? 0); cbn [negb].
    + split; [intros _; split; reflexivity|].
      split; [intros _ H; contradiction H; reflexivity|].
      split; [intros H; contradiction H; reflexivity|].
      split; [intros H; contradiction|]. intros H; exact H.
    + pose proof (a2dp_configure_outcome E data []) as H.
      destruct (a2dp_configure E data []) as [[ret data'] tr].
      destruct H as (_ & _ & _ & _ & _ & H0 & Hne & (tr' & Htr)).
      split; [intros Hnil; rewrite Hnil in Htr; discriminate Htr|].
      split; [intros Hz _; exact (H0 Hz)|].
      split; [intros Hnz; left; exact (Hne Hnz)|].
      split; [intros H; contradiction|].
      intros Hs. destruct (Z.eq_dec ret 0) as [Hz | Hnz].
      * rewrite (H0 Hz) in Hs. discriminate Hs.
      * rewrite <- (Hne Hnz). exact Hs.
Qed.

(** X11.  On a Closed stream whose OPEN exchange succeeds, a request for
    a rate other than 48000, 44100, 32000 or 16000 Hz fails with -1 after
    that exchange: no SET_CONFIGURATION is sent, no buffer is resized, and
    the stream is left Opened with the capabilities, the transfer unit and
    the buffers it had. *)
Theorem hw_params_rejects_unsupported_rate E params data :
  a2dp_stream_state data = STREAM_CLOSED ->
  ~ In (hw_rate params) [48000; 44100; 32000; 16000] ->
  0 <= audioservice_send (he_open_send E) ->
  0 <= audioservice_expect (he_open_rsp E) BT_OPEN ->
  exists data',
    bluetooth_a2dp_hw_params E params data
    = (-1, data',
       [CtlSend {| h_type := BT_REQUEST; h_name := BT_OPEN;
                   h_body := bt_open_req (cfg_device (alsa_config data))
                               (cap_seid (sbc_capabilities (a2dp data)))
                               (stream_lock data) |};
        CtlRecv BT_OPEN])
    /\ a2dp_stream_state data' = STREAM_OPENED
    /\ sbc_capabilities (a2dp data') = sbc_capabilities (a2dp data)
    /\ link_mtu data' = link_mtu data
    /\ buffer data' = buffer data
    /\ a2dp_buffer (a2dp data') = a2dp_buffer (a2dp data).
Proof.
  intros Hst Hrate Hsend Hopen.
  unfold bluetooth_a2dp_hw_params, stream_open.
  rewrite Hst. cbn [stream_state_eqb negb].
  apply Z.ltb_ge in Hsend. rewrite Hsend.
  apply Z.ltb_ge in Hopen. rewrite Hopen.
  unfold bluetooth_a2dp_init, bluetooth_convert_rate_to_a2dp.
  cbn [alsa_config set_a2dp_stream_state].
  destruct (Z.eqb_spec (hw_rate params) 48000) as [e | _];
    [exfalso; apply Hrate; rewrite e; cbn; tauto|].
  destruct (Z.eqb_spec (hw_rate params) 44100) as [e | _];
    [exfalso; apply Hrate; rewrite e; cbn; tauto|].
  destruct (Z.eqb_spec (hw_rate params) 32000) as [e | _];
    [exfalso; apply Hrate; rewrite e; cbn; tauto|].
  destruct (Z.eqb_spec (hw_rate params) 16000) as [e | _];
    [exfalso; apply Hrate; rewrite e; cbn; tauto|].
  cbn [Z.ltb Z.compare app].
  eexists. split; [reflexivity|]. cbn. repeat split; reflexivity.
Qed.

(** The session that a successful [a2dp_configure] leaves. *)
Lemma a2dp_configure_success E data tr0 data' tr :
  a2dp_configure E data tr0 = (0, data', tr) ->
  let mtu := uint16_t (pk_link_mtu (he_conf_rsp E)) in
  exists b1 b2,
    link_mtu data' = mtu
    /\ transport data' = BT_CAPABILITIES_TRANSPORT_A2DP
    /\ buffer data' = Some b1 /\ Z.of_nat (length b1) = mtu
    /\ a2dp data' = bluetooth_a2dp_setup (set_a2dp_buffer (Some b2) (a2dp data))
    /\ Z.of_nat (length b2) = mtu
    /\ sink_delay data' = pk_delay (he_delay_ind E)
    /\ a2dp_stream_state data' = STREAM_CONFIGURED
    /\ count data' = count data
    /\ alsa_config data' = alsa_config data.
Proof.
  unfold a2dp_configure, resize_buffers, realloc.
  destruct (Z.ltb_spec (audioservice_send (he_conf_send E)) 0);
    [intros Hret; injection Hret as Hret _ _; lia|].
  destruct (Z.ltb_spec (audioservice_expect (he_conf_rsp E)
                          BT_SET_CONFIGURATION) 0);
    [intros Hret; injection Hret as Hret _ _; lia|].
  cbn [buffer set_buffer a2dp set_a2dp a2dp_buffer set_a2dp_buffer link_mtu
       set_link_mtu set_transport].
  destruct (he_realloc_data E), (he_realloc_a2dp E); cbn [negb];
    try (intros Hret; injection Hret as Hret _ _; discriminate Hret).
  destruct (Z.ltb_spec (audioservice_expect (he_delay_ind E) BT_DELAY_REPORT)
              0);
    [intros Hret; injection Hret as Hret _ _; lia|].
  intros Hret. injection Hret as <- _. cbv zeta.
  eexists _, _. cbn.
  split; [reflexivity|]. split; [reflexivity|]. split; [reflexivity|].
  split; [apply memread_length_Z; apply uint16_t_range|].
  split; [reflexivity|].
  split; [apply memread_length_Z; apply uint16_t_range|].
  repeat split; reflexivity.
Qed.

(** Floats the local definitions of the goal into the context, so that a
    value bound once is not copied into every branch that uses it. *)
Ltac float_lets :=
  repeat match goal with
         | |- context G [let x := ?e in @?b x] =>
           let y := fresh "v" in
           pose (y := e);
           let g := context G [b y] in
           change g; cbv beta
         end.

Lemma if_same {A : Type} (b : bool) (x : A) : (if b then x else x) = x.
Proof. destruct b; reflexivity. Qed.

Lemma sbc_frequency_if (b : bool) s1 s2 :
  sbc_frequency (if b then s1 else s2)
  = if b then sbc_frequency s1 else sbc_frequency s2.
Proof. destruct b; reflexivity. Qed.

Lemma sbc_bitpool_if (b : bool) s1 s2 :
  sbc_bitpool (if b then s1 else s2)
  = if b then sbc_bitpool s1 else sbc_bitpool s2.
Proof. destruct b; reflexivity. Qed.

(** What [bluetooth_a2dp_setup] leaves in the fields it does not derive
    from the capabilities. *)
Lemma bluetooth_a2dp_setup_fields a :
  let a' := bluetooth_a2dp_setup a in
  sbc_capabilities a' = sbc_capabilities a
  /\ sbc_initialized a' = true
  /\ sbc_bitpool (sbc a') = cap_max_bitpool (sbc_capabilities a)
  /\ codesize a' = uint32_t (sbc_get_codesize (sbc a'))
  /\ a2dp_count a' = header_size
  /\ a2dp_buffer a' = a2dp_buffer a
  /\ seq_num a' = seq_num a
  /\ nsamples a' = nsamples a
  /\ frame_count a' = frame_count a
  /\ samples a' = samples a.
Proof.
  cbv beta delta [bluetooth_a2dp_setup]. float_lets.
  repeat match goal with
         | x := _ : bluetooth_a2dp |- _ => subst x
         end.
  cbn. repeat split; reflexivity.
Qed.

(** The encoder frequency that [bluetooth_a2dp_setup] leaves: the tests
    are made in the order 16000, 32000, 44100, 48000 and the last one that
    holds decides. *)
Lemma bluetooth_a2dp_setup_frequency_tests a :
  sbc_frequency (sbc (bluetooth_a2dp_setup a))
  = let f := cap_frequency (sbc_capabilities a) in
    if land_nonzero f BT_SBC_SAMPLING_FREQ_48000 then SBC_FREQ_48000
    else if land_nonzero f BT_SBC_SAMPLING_FREQ_44100 then SBC_FREQ_44100
    else if land_nonzero f BT_SBC_SAMPLING_FREQ_32000 then SBC_FREQ_32000
    else if land_nonzero f BT_SBC_SAMPLING_FREQ_16000 then SBC_FREQ_16000
    else sbc_frequency (if sbc_initialized a then sbc_reinit (sbc a)
                        else sbc_init (sbc a)).
Proof.
  cbv beta delta [bluetooth_a2dp_setup]. float_lets.
  repeat match goal with
         | x := _ : bluetooth_a2dp |- _ => subst x
         end.
  cbn [sbc set_a2dp_count set_codesize set_sbc_initialized set_sbc].
  repeat match goal with
         | x := _ : sbc_t |- context [sbc_frequency ?y] =>
           is_var y; subst y;
           rewrite ?sbc_frequency_if;
           cbn [sbc_frequency set_sbc_bitpool set_sbc_blocks set_sbc_subbands
                set_sbc_allocation set_sbc_mode set_sbc_frequency];
           rewrite ?if_same
         end.
  repeat match goal with
         | x := _ |- _ => subst x
         end.
  reflexivity.
Qed.

(** X12.  What a configuration that succeeds after an exchange with
    the audio service establishes: the transfer unit is the one the audio
    service reported, both buffers have that many bytes, the wire fill is
    the 13 bytes of the headers (so it lies within a transfer unit of at
    least 13 bytes), the encoder is initialised with the negotiated maximum
    bitpool and the block size is the encoder's, and the sink delay is the
    one reported.  The carry count, the sequence number, the cumulative
    sample count and the frame and sample counters of the packet under
    construction are not reset. *)
Theorem configuration_establishes_transfer_state E params data data' tr :
  bluetooth_a2dp_hw_params E params data = (0, data', tr) ->
  tr <> [] ->
  let mtu := uint16_t (pk_link_mtu (he_conf_rsp E)) in
  link_mtu data' = mtu
  /\ (exists b1 b2,
        buffer data' = Some b1 /\ a2dp_buffer (a2dp data') = Some b2
        /\ Z.of_nat (length b1) = mtu /\ Z.of_nat (length b2) = mtu)
  /\ a2dp_count (a2dp data') = header_size
  /\ (header_size <= mtu -> wire_fill_ok data')
  /\ sbc_initialized (a2dp data') = true
  /\ sbc_bitpool (sbc (a2dp data'))
     = cap_max_bitpool (sbc_capabilities (a2dp data'))
  /\ codesize (a2dp data') = uint32_t (sbc_get_codesize (sbc (a2dp data')))
  /\ sink_delay data' = pk_delay (he_delay_ind E)
  /\ a2dp_stream_state data' = STREAM_CONFIGURED
  /\ count data' = count data
  /\ seq_num (a2dp data') = seq_num (a2dp data)
  /\ nsamples (a2dp data') = nsamples (a2dp data)
  /\ frame_count (a2dp data') = frame_count (a2dp data)
  /\ samples (a2dp data') = samples (a2dp data).
Proof.
  intros H Htr mtu.
  assert (Hc : exists d tr0,
             a2dp_configure E d tr0 = (0, data', tr)
             /\ count d = count data
             /\ seq_num (a2dp d) = seq_num (a2dp data)
             /\ nsamples (a2dp d) = nsamples (a2dp data)
             /\ frame_count (a2dp d) = frame_count (a2dp data)
             /\ samples (a2dp d) = samples (a2dp data)).
  { unfold bluetooth_a2dp_hw_params in H.
    destruct (negb (stream_state_eqb (a2dp_stream_state data) STREAM_CLOSED)).
    - destruct (negb (bluetooth_configuration_cmp data params =? 0)).
      + exists data, []. repeat split; try reflexivity. exact H.
      + injection H as _ <-. contradiction Htr. reflexivity.
    - destruct (stream_open E data) as [err tr0].
      destruct (Z.ltb_spec err 0) as [He | He]; [injection H as H _ _; lia|].
      destruct (bluetooth_a2dp_init _ _ _) as [err' cap].
      destruct (Z.ltb_spec err' 0) as [He' | He']; [injection H as H _ _; lia|].
      eexists _, _. split; [exact H|]. repeat split; reflexivity. }
  destruct Hc as (d & tr0 & Hc & Hcnt & Hseq & Hns & Hfc & Hsm).
  destruct (a2dp_configure_success E d tr0 data' tr Hc)
    as (b1 & b2 & Hl & _ & Hb1 & Hlen1 & Ha & Hlen2 & Hsd & Hst & Hcnt' & _).
  pose proof (bluetooth_a2dp_setup_fields (set_a2dp_buffer (Some b2) (a2dp d)))
    as Hs.
  cbv zeta in Hs. rewrite <- Ha in Hs.
  destruct Hs as (Hcap & Hinit & Hbp & Hcs & Hfill & Hbuf & Hseq' & Hns'
                  & Hfc' & Hsm').
  cbn in Hcap, Hbuf, Hseq', Hns', Hfc', Hsm'.
  split; [exact Hl|].
  split; [exists b1, b2; repeat split; assumption|].
  split; [exact Hfill|].
  split.
  { intros Hm. unfold wire_fill_ok. rewrite Hfill, Hl.
    pose proof (uint16_t_range (pk_link_mtu (he_conf_rsp E))) as Hr.
    fold mtu in Hr, Hm |- *. lia. }
  split; [exact Hinit|]. split; [rewrite Hbp, Hcap; reflexivity|].
  split; [exact Hcs|]. split; [exact Hsd|]. split; [exact Hst|].
  repeat split; congruence.
Qed.

(** [bluetooth_a2dp_init] fails with -1 or succeeds with 0, and on
    success the frequency it stores is the one of the rate. *)
Lemma bluetooth_a2dp_init_frequency cfg params cap :
  let '(ret, cap') := bluetooth_a2dp_init cfg params cap in
  (ret = -1
   \/ (ret = 0
       /\ exists f,
            bluetooth_convert_rate_to_a2dp (hw_rate params) = (0, Some f)
            /\ cap_frequency cap' = f)).
Proof.
  cbv beta delta [bluetooth_a2dp_init].
  assert (Hconv : bluetooth_convert_rate_to_a2dp (hw_rate params) = (-1, None)
                  \/ exists f, bluetooth_convert_rate_to_a2dp (hw_rate params)
                               = (0, Some f)).
  { unfold bluetooth_convert_rate_to_a2dp.
    repeat match goal with
           | |- context [if ?b then _ else _] => destruct b
           end; first [left; reflexivity | right; eexists; reflexivity]. }
  float_lets.
  repeat match goal with
         | x := _ |- _ => subst x
         end.
  destruct Hconv as [-> | [f ->]]; cbv beta iota; [left; reflexivity|].
  float_lets.
  match goal with
  | |- context [if (?a =? 0) then _ else _] => destruct (a =? 0)
  end; cbv beta iota; [left; reflexivity|].
  float_lets.
  match goal with
  | |- context [match ?o with Some _ => _ | None => _ end] =>
    destruct o as [b|]
  end; cbv beta iota; [|left; reflexivity].
  float_lets.
  match goal with
  | |- context [match ?o with Some _ => _ | None => _ end] =>
    destruct o as [sb|]
  end; cbv beta iota; [|left; reflexivity].
  float_lets.
  match goal with
  | |- context [if cfg_has_bitpool cfg then _ else _] =>
    destruct (cfg_has_bitpool cfg)
  end; cbv beta iota.
  all: right; split; [reflexivity|]; exists f; split; [reflexivity|];
    cbn [cap_frequency set_cap_bitpool];
    repeat match goal with
           | x := _ : sbc_capabilities_t |- context [cap_frequency ?y] =>
             is_var y; subst y;
             repeat match goal with
                    | |- context [cap_frequency (if ?c then _ else _)] =>
                      destruct c
                    end;
             cbn [cap_frequency set_cap_frequency set_cap_channel_mode
                  set_cap_block_length set_cap_subbands
                  set_cap_allocation_method]
           end; reflexivity.
Qed.

(** The encoder frequency that [bluetooth_a2dp_setup] derives from a
    capability set holding one frequency constant. *)
Lemma bluetooth_a2dp_setup_frequency a rate r :
  frequency_bits_disjoint ->
  bluetooth_convert_rate_to_a2dp rate
  = (r, Some (cap_frequency (sbc_capabilities a))) ->
  sbc_frequency (sbc (bluetooth_a2dp_setup a)) = sbc_frequency_of_rate rate.
Proof.
  intros (N16 & N32 & N44 & N48 & D1 & D2 & D3 & D4 & D5 & D6).
  rewrite bluetooth_a2dp_setup_frequency_tests. cbv zeta.
  unfold bluetooth_convert_rate_to_a2dp, sbc_frequency_of_rate.
  assert (Hself : forall x, x <> 0 -> land_nonzero x x = true).
  { intros x Hx. unfold land_nonzero. rewrite Z.land_diag.
    apply negb_true_iff, Z.eqb_neq. exact Hx. }
  assert (Hoff : forall x y, Z.land x y = 0 -> land_nonzero x y = false).
  { intros x y Hxy. unfold land_nonzero. rewrite Hxy. reflexivity. }
  assert (Hoff' : forall x y, Z.land x y = 0 -> land_nonzero y x = false).
  { intros x y Hxy. unfold land_nonzero. rewrite Z.land_comm, Hxy.
    reflexivity. }
  destruct (Z.eqb_spec rate 48000) as [-> | _];
    [|destruct (Z.eqb_spec rate 44100) as [-> | _];
      [|destruct (Z.eqb_spec rate 32000) as [-> | _];
        [|destruct (Z.eqb_spec rate 16000) as [-> | _]]]];
    intros H; try discriminate H; injection H as _ H; rewrite <- H;
    rewrite ?(Hself _ N16), ?(Hself _ N32), ?(Hself _ N44), ?(Hself _ N48),
            ?(Hoff _ _ D1), ?(Hoff _ _ D2), ?(Hoff _ _ D3), ?(Hoff _ _ D4),
            ?(Hoff _ _ D5), ?(Hoff _ _ D6),
            ?(Hoff' _ _ D1), ?(Hoff' _ _ D2), ?(Hoff' _ _ D3),
            ?(Hoff' _ _ D4), ?(Hoff' _ _ D5), ?(Hoff' _ _ D6);
    reflexivity.
Qed.

(** X13.  From the rate ALSA asks for to the encoder: when a Closed
    stream is opened and configured with success (the sampling-frequency
    constants of [ipc.h] being distinct bits), the rate is one of 16000,
    32000, 44100 and 48000 Hz, the frequency stored in the capabilities and
    sent in SET_CONFIGURATION is the constant of that rate, and the
    encoder is set to the encoder's constant for the same rate. *)
Theorem encoder_runs_at_requested_rate E params data data' tr :
  frequency_bits_disjoint ->
  a2dp_stream_state data = STREAM_CLOSED ->
  bluetooth_a2dp_hw_params E params data = (0, data', tr) ->
  In (hw_rate params) [48000; 44100; 32000; 16000]
  /\ bluetooth_convert_rate_to_a2dp (hw_rate params)
     = (0, Some (cap_frequency (sbc_capabilities (a2dp data'))))
  /\ In (CtlSend (bt_set_configuration_msg data')) tr
  /\ sbc_frequency (sbc (a2dp data')) = sbc_frequency_of_rate (hw_rate params).
Proof.
  intros Hbits Hst. unfold bluetooth_a2dp_hw_params.
  rewrite Hst. cbn [stream_state_eqb negb].
  destruct (stream_open E data) as [err tr0].
  destruct (Z.ltb_spec err 0); [intros Hret; injection Hret as Hret _ _; lia|].
  pose proof (bluetooth_a2dp_init_frequency (alsa_config
                (set_a2dp_stream_state STREAM_OPENED data)) params
                (sbc_capabilities (a2dp
                   (set_a2dp_stream_state STREAM_OPENED data)))) as Hinit.
  destruct (bluetooth_a2dp_init _ _ _) as [err' cap].
  destruct (Z.ltb_spec err' 0); [intros Hret; injection Hret as Hret _ _; lia|].
  intros Hc.
  destruct Hinit as [-> | (-> & f & Hconv & Hf)]; [lia|].
  assert (Hin : In (hw_rate params) [48000; 44100; 32000; 16000]).
  { unfold bluetooth_convert_rate_to_a2dp in Hconv. cbn [In].
    destruct (Z.eqb_spec (hw_rate params) 48000); [auto|].
    destruct (Z.eqb_spec (hw_rate params) 44100); [auto|].
    destruct (Z.eqb_spec (hw_rate params) 32000); [auto 6|].
    destruct (Z.eqb_spec (hw_rate params) 16000); [auto 6|].
    discriminate Hconv. }
  pose proof (a2dp_configure_outcome E
                (set_a2dp (set_sbc_capabilities cap (a2dp
                   (set_a2dp_stream_state STREAM_OPENED data)))
                   (set_a2dp_stream_state STREAM_OPENED data)) tr0) as Ho.
  rewrite Hc in Ho. destruct Ho as (Hcap & _ & _ & _ & _ & _ & _ & (tr' & Htr)).
  cbn in Hcap.
  destruct (a2dp_configure_success _ _ _ _ _ Hc)
    as (b1 & b2 & _ & _ & _ & _ & Ha & _).
  split; [exact Hin|].
  split; [rewrite Hcap, Hf; exact Hconv|].
  split.
  { rewrite Htr. apply in_or_app. right. left.
    unfold bt_set_configuration_msg. rewrite Hcap. reflexivity. }
  rewrite Ha.
  apply (bluetooth_a2dp_setup_frequency _ _ 0 Hbits).
  cbn. rewrite Hf. exact Hconv.
Qed.

Ltac subst_lets :=
  repeat match goal with
         | x := _ |- _ => subst x
         end.


(** ** Playback over SCO *)

(** X5.  Playback over SCO without underrun, in the range where the
    C arithmetic does not wrap.  The call takes [frames] frames, as many of
    the [size] offered as fit before the buffer holds one packet, copies
    them to the buffer at [count], and sends only when the buffer holds
    exactly [link_mtu] bytes: then one packet of [link_mtu] bytes, the whole
    buffer.  When [send] takes it the buffer is empty again; when [send]
    fails or takes nothing the result is negative and the buffer stays
    full, so the next call (which finds no room and takes 0 frames) sends
    the same bytes again. *)
Theorem hsp_write_sends_whole_packets snd areas offset size data :
  let frame_size := ar_step areas / 8 in
  let frames :=
    if count data + size * frame_size <=? link_mtu data then size
    else (link_mtu data - count data) / frame_size in
  io_hw_ptr (io data) <= io_appl_ptr (io data) ->
  0 < frame_size < 2 ^ 31 ->
  0 < link_mtu data < 2 ^ 32 ->
  0 <= count data <= link_mtu data ->
  0 <= size < 2 ^ 31 -> count data + size * frame_size < 2 ^ 32 ->
  (sys_ret snd < 0 -> 0 < sys_errno snd) ->
  let '(ret, data', tr) := bluetooth_hsp_write snd areas offset size data in
  0 <= frames <= size
  /\ (count data = link_mtu data -> frames = 0)
  /\ buffer data'
     = Some (memcpy (NULL_bytes (buffer data)) (count data)
               (memread (ar_addr areas) (area_offset areas offset)
                  (frames * frame_size)))
  /\ (count data + frames * frame_size < link_mtu data ->
      ret = frames /\ tr = []
      /\ count data' = count data + frames * frame_size)
  /\ (count data + frames * frame_size = link_mtu data ->
      tr = [DataSend {| pkt_len := link_mtu data;
                        pkt_bytes := memread (NULL_bytes (buffer data')) 0
                                       (link_mtu data);
                        pkt_ret := sys_ret snd |}]
      /\ (0 < sys_ret snd -> ret = frames /\ count data' = 0)
      /\ (sys_ret snd <= 0 -> ret < 0 /\ count data' = link_mtu data))
  /\ count data + frames * frame_size <= link_mtu data.
Proof.
  intros frame_size frames Hrun Hfs Hmtu Hcnt Hsize Hbytes Herrno.
  assert (Hprod : 0 <= size * frame_size) by nia.
  assert (Hfr : 0 <= frames <= size
                /\ count data + frames * frame_size <= link_mtu data
                /\ (count data = link_mtu data -> frames = 0)).
  { unfold frames.
    destruct (Z.leb_spec (count data + size * frame_size) (link_mtu data))
      as [Hle | Hgt].
    - split; [lia|]. split; [exact Hle|]. intros He. nia.
    - assert (Hq : 0 <= (link_mtu data - count data) / frame_size)
        by (apply Z.div_pos; lia).
      assert (Hm : frame_size * ((link_mtu data - count data) / frame_size)
                   <= link_mtu data - count data)
        by (apply Z.mul_div_le; lia).
      split; [|split; [lia|]].
      + split; [exact Hq|].
        destruct (Z_lt_le_dec size
                    ((link_mtu data - count data) / frame_size))
          as [Hlt | Hge]; [exfalso; nia | exact Hge].
      + intros He. rewrite He, Z.sub_diag. apply Z.div_0_l. lia. }
  destruct Hfr as (Hfr & Hsum & Hfull).
  assert (Hn : 0 <= frames * frame_size) by nia.
  unfold bluetooth_hsp_write.
  replace (io_hw_ptr (io data) >? io_appl_ptr (io data)) with false
    by (symmetry; rewrite Z.gtb_ltb; apply Z.ltb_ge; exact Hrun).
  fold frame_size.
  rewrite (int32_t_id frame_size) by lia.
  rewrite (uint32_t_id frame_size) by lia.
  rewrite (uint32_t_id (size * frame_size)) by lia.
  rewrite (uint32_t_id (count data + size * frame_size)) by lia.
  rewrite (uint32_t_id (link_mtu data - count data)) by lia.
  fold frames.
  replace (frame_size * frames) with (frames * frame_size) by lia.
  rewrite (uint32_t_id (frames * frame_size)) by lia.
  cbn [count set_count set_buffer link_mtu buffer].
  rewrite (uint32_t_id (count data + frames * frame_size)) by lia.
  rewrite (int32_t_id frames) by lia.
  destruct (Z.eqb_spec (count data + frames * frame_size) (link_mtu data))
    as [Heq | Hneq]; cbn [negb].
  - destruct (Z.gtb_spec (sys_ret snd) 0) as [Hpos | Hnpos].
    + cbn [count set_count buffer].
      split; [exact Hfr|]. split; [exact Hfull|]. split; [reflexivity|].
      split; [intros; lia|]. split; [|exact Hsum].
      intros _. split; [reflexivity|].
      split; [intros _; split; reflexivity | intros; lia].
    + destruct (Z.ltb_spec (sys_ret snd) 0) as [Hneg | Hzero];
        cbn [count set_count buffer];
        (split; [exact Hfr|]); (split; [exact Hfull|]);
        (split; [reflexivity|]); (split; [intros; lia|]);
        (split; [|exact Hsum]); intros _; (split; [reflexivity|]);
        (split; [intros; lia|]); intros _; (split; [|exact Heq]).
      * specialize (Herrno Hneg).
        destruct (sys_errno snd =? EPIPE); unfold EIO; lia.
      * unfold EIO. lia.
  - cbn [count set_count buffer].
    split; [exact Hfr|]. split; [exact Hfull|]. split; [reflexivity|].
    split; [intros _; repeat split; reflexivity|].
    split; [intros He; contradiction | exact Hsum].
Qed.

(** ** More on the audio clock *)

Lemma update_delay_keeps p data :
  let data' := update_delay p data in
  hw_ptr data' = hw_ptr data /\ reset data' = reset data
  /\ stopped data' = stopped data /\ hw_thread data' = hw_thread data.
Proof.
  unfold update_delay.
  destruct (_ || _); [repeat split; reflexivity|].
  destruct (_ <? _); repeat split; reflexivity.
Qed.

(** The notification loop reports an exit only when it read the
    cancellation flag set. *)
Lemma notify_loop_exit cancel n : forall k tr,
  fst (fst (notify_loop cancel k n tr)) = true ->
  exists j, cancel j = true.
Proof.
  induction n as [|n IH]; intros k tr; cbn [notify_loop].
  - cbn. discriminate.
  - destruct (cancel k) eqn:Hk; [intros _; exists k; exact Hk|].
    destruct (cancel (S k)) eqn:Hk'; [intros _; exists (S k); exact Hk'|].
    apply IH.
Qed.

(** While the session is stopped, a turn of the clock loop
    only sleeps: the hardware pointer does not move, nothing is written to
    the pipe, the reset flag is not consumed and the period count and time
    base of the loop are kept. *)
Theorem stopped_clock_does_not_advance periods_of clk p l data :
  stopped data <> 0 ->
  match playback_hw_thread_turn periods_of clk p l data with
  | Running l' data' tr =>
    l' = l /\ tr = [] /\ hw_ptr data' = hw_ptr data
    /\ reset data' = reset data /\ stopped data' = stopped data
  | Exited data' tr =>
    tr = [] /\ hw_ptr data' = hw_ptr data /\ reset data' = reset data
    /\ stopped data' = stopped data
  end.
Proof.
  intros Hs. unfold playback_hw_thread_turn, hw_thread_advance.
  apply Z.eqb_neq in Hs. rewrite Hs. cbn [negb].
  pose proof (update_delay_keeps p data) as (Hu1 & Hu2 & Hu3 & _).
  repeat match goal with
         | |- context [if ?b then _ else _] => destruct b
         end;
    cbn [hw_ptr reset stopped set_hw_thread];
    repeat split; try reflexivity; assumption.
Qed.

(** How a turn of the clock loop ends the thread.  Either
    the thread was cancelled (it read [hw_cancel] set), and then it leaves
    [hw_thread] as it is, for the canceller to clear after the join; or
    [poll] failed with an error other than [EINTR], or reported POLLERR,
    POLLHUP or POLLNVAL on the descriptor it examines (the control socket
    if it has events, the data socket otherwise), and then the thread
    clears [hw_thread] itself.  A turn in which none of this happens keeps
    the thread running. *)
Theorem clock_thread_exit_conditions periods_of clk p l data :
  let ret := sys_ret (poll_ret p) in
  let revents :=
    if poll_revents0 p =? 0 then poll_revents1 p else poll_revents0 p in
  let poll_broken :=
    (ret < 0 /\ sys_errno (poll_ret p) <> EINTR)
    \/ (0 < ret
        /\ Z.land revents (Z.lor POLLERR (Z.lor POLLHUP POLLNVAL)) <> 0) in
  match playback_hw_thread_turn periods_of clk p l data with
  | Exited data' tr =>
    (exists k, clk_cancel clk k = true /\ hw_thread data' = hw_thread data)
    \/ (poll_broken /\ hw_thread data' = false)
  | Running l' data' tr =>
    ~ poll_broken /\ hw_thread data' = hw_thread data
  end.
Proof.
  intros ret revents poll_broken.
  unfold playback_hw_thread_turn.
  assert (Hadv : let '(exited, k, l', d, tr) :=
                   hw_thread_advance periods_of clk l data in
                 hw_thread d = hw_thread data
                 /\ (exited = true -> exists k, clk_cancel clk k = true)).
  { unfold hw_thread_advance.
    destruct (negb (stopped data =? 0)); [split; [reflexivity | discriminate]|].
    destruct (negb (reset data =? 0));
      (match goal with
       | |- context [if ?b then _ else _] => destruct b
       end; [|split; [reflexivity | discriminate]]);
      match goal with
      | |- context [notify_loop ?c ?k ?n ?t] =>
        pose proof (notify_loop_exit c n k t) as Hn;
        destruct (notify_loop c k n t) as [[ex k'] tr']
      end;
      cbn [fst] in Hn;
      destruct ex; split; try reflexivity; try discriminate;
      intros _; apply Hn; reflexivity. }
  destruct (hw_thread_advance periods_of clk l data)
    as [[[[exited k] l'] d] tr].
  destruct Hadv as [Hth Hex].
  destruct exited.
  { left. destruct (Hex eq_refl) as [k0 Hk]. exists k0. split; assumption. }
  fold ret.
  pose proof (update_delay_keeps p d) as (_ & _ & _ & Hud).
  assert (Hrev : (if negb (poll_revents0 p =? 0) then poll_revents0 p
                  else poll_revents1 p) = revents).
  { unfold revents. destruct (poll_revents0 p =? 0); reflexivity. }
  rewrite Hrev. unfold land_nonzero.
  destruct (Z.ltb_spec ret 0) as [Hneg | Hnn].
  - destruct (Z.eqb_spec (sys_errno (poll_ret p)) EINTR) as [He | Hne];
      cbn [negb].
    + destruct (clk_cancel clk k) eqn:Hc.
      * left. exists k. split; assumption.
      * split; [|exact Hth]. unfold poll_broken. intros [[_ H] | [H _]];
          [contradiction | lia].
    + right. split; [left; split; assumption | reflexivity].
  - destruct (Z.gtb_spec ret 0) as [Hpos | Hzero].
    + destruct (Z.eqb_spec (Z.land revents
                              (Z.lor POLLERR (Z.lor POLLHUP POLLNVAL))) 0)
        as [Hz | Hnz]; cbn [negb].
      * destruct (negb (Z.land (poll_revents0 p) POLLIN =? 0));
          destruct (clk_cancel clk k) eqn:Hc;
          try (left; exists k; split; [exact Hc | congruence]);
          (split; [|congruence]); unfold poll_broken;
          intros [[H _] | [_ H]]; try lia; contradiction.
      * right. split; [right; split; assumption | reflexivity].
    + destruct (clk_cancel clk k) eqn:Hc.
      * left. exists k. split; assumption.
      * split; [|exact Hth]. unfold poll_broken.
        intros [[H _] | [H _]]; lia.
Qed.

(** ** The hardware constraints *)

Lemma land_split_zero x m :
  Z.land x m = 0 -> Z.land x (Z.lnot m) = 0 -> x = 0.
Proof.
  intros H1 H2.
  rewrite <- (Z.land_m1_r x), <- (Z.lor_lnot_diag m), Z.land_lor_distr_r.
  rewrite H1, H2. reflexivity.
Qed.

Lemma rate_list_spec data r :
  cfg_has_rate (alsa_config data) = false ->
  (In r (rate_list data) <->
   exists f, bluetooth_convert_rate_to_a2dp r = (0, Some f)
             /\ land_nonzero (cap_frequency (sbc_capabilities (a2dp data))) f
                = true).
Proof.
  intros Hr. unfold rate_list. rewrite Hr.
  unfold bluetooth_convert_rate_to_a2dp.
  set (fr := cap_frequency (sbc_capabilities (a2dp data))).
  rewrite !in_app_iff.
  split.
  - intros [H | [H | [H | H]]];
      match type of H with
      | In _ (if ?b then _ else _) => destruct b eqn:Hb
      end; cbn [In] in H; try contradiction;
      destruct H as [<- | []]; cbn [Z.eqb Pos.eqb];
      eexists; (split; [reflexivity | exact Hb]).
  - intros (f & Hc & Hf).
    destruct (Z.eqb_spec r 48000) as [-> | _];
      [injection Hc as <-; right; right; right; rewrite Hf; left;
       reflexivity|].
    destruct (Z.eqb_spec r 44100) as [-> | _];
      [injection Hc as <-; right; right; left; rewrite Hf; left;
       reflexivity|].
    destruct (Z.eqb_spec r 32000) as [-> | _];
      [injection Hc as <-; right; left; rewrite Hf; left; reflexivity|].
    destruct (Z.eqb_spec r 16000) as [-> | _];
      [injection Hc as <-; left; rewrite Hf; left; reflexivity|].
    discriminate Hc.
Qed.

(** X15.  What [bluetooth_a2dp_hw_constraint] offers to ALSA.  The
    channel range is taken from the channel-mode mask in force (the one of
    the resource file if it gives one, else the advertised one): the
    minimum is 1 exactly when mono is in the mask, the maximum is 2 exactly
    when another mode is; so the range is empty (minimum 2, maximum 1)
    exactly when the mask is zero.  When the resource file gives no rate,
    the rates offered are exactly those, among 16000, 32000, 44100 and
    48000 Hz, whose frequency bit is advertised, so each of them is
    accepted by the rate conversion of the configuration.  The result is 0
    exactly when none of the six calls fails, and otherwise the first
    negative value returned. *)
Theorem a2dp_hw_constraint_offers_what_is_advertised alsa data :
  let '(ret, data', made) := bluetooth_a2dp_hw_constraint alsa data in
  let mask := cap_channel_mode (sbc_capabilities (a2dp data')) in
  (forall mn mx,
     In (snd_pcm_ioplug_set_param_minmax SND_PCM_IOPLUG_HW_CHANNELS mn mx)
        made ->
     mask = (if cfg_has_channel_mode (alsa_config data)
             then cfg_channel_mode (alsa_config data)
             else cap_channel_mode (sbc_capabilities (a2dp data)))
     /\ (mn = 1 \/ mn = 2) /\ (mx = 1 \/ mx = 2)
     /\ (mn = 1 <-> Z.land mask BT_A2DP_CHANNEL_MODE_MONO <> 0)
     /\ (mx = 2 <-> Z.land mask (Z.lnot BT_A2DP_CHANNEL_MODE_MONO) <> 0)
     /\ (mn <= mx <-> mask <> 0))
  /\ (cfg_has_rate (alsa_config data) = false ->
      forall l,
        In (snd_pcm_ioplug_set_param_list SND_PCM_IOPLUG_HW_RATE l) made ->
        forall r,
          In (Value r) l <->
          exists f,
            bluetooth_convert_rate_to_a2dp r = (0, Some f)
            /\ land_nonzero (cap_frequency (sbc_capabilities (a2dp data))) f
               = true)
  /\ (ret = 0 <-> forall k, (k < 6)%nat -> 0 <= alsa k)
  /\ (ret <> 0 ->
      exists k, (k < 6)%nat /\ ret = alsa k /\ alsa k < 0
                /\ length made = S k
                /\ forall j, (j < k)%nat -> 0 <= alsa j).
Proof.
  unfold bluetooth_a2dp_hw_constraint. cbn [set_params app].
  assert (Hk : forall P : nat -> Prop,
            P 0%nat -> P 1%nat -> P 2%nat -> P 3%nat -> P 4%nat -> P 5%nat ->
            forall k, (k < 6)%nat -> P k).
  { intros P H0 H1 H2 H3 H4 H5 k Hlt.
    destruct k as [|[|[|[|[|[|k]]]]]]; try assumption; lia. }
  assert (Hj : forall (P : nat -> Prop) n,
            (forall j, (j < n)%nat -> P j) -> P n ->
            forall j, (j < S n)%nat -> P j).
  { intros P n Hlt Hn j Hj. destruct (Nat.eq_dec j n) as [-> | Hne];
      [exact Hn | apply Hlt; lia]. }
  destruct (Z.ltb_spec (alsa 0%nat) 0) as [H0 | H0].
  { cbn [Z.ltb]. replace (alsa 0%nat <? 0) with true
      by (symmetry; apply Z.ltb_lt; exact H0).
    split; [intros mn mx [H | []]; discriminate H|].
    split; [intros _ l [H | []]; discriminate H|].
    split; [split; [lia | intros H; specialize (H 0%nat ltac:(lia)); lia]|].
    intros _. exists 0%nat. repeat split; try lia. }
  destruct (Z.ltb_spec (alsa 1%nat) 0) as [H1 | H1].
  { replace (alsa 1%nat <? 0) with true
      by (symmetry; apply Z.ltb_lt; exact H1).
    split; [intros mn mx [H | [H | []]]; discriminate H|].
    split; [intros _ l [H | [H | []]]; discriminate H|].
    split; [split; [lia | intros H; specialize (H 1%nat ltac:(lia)); lia]|].
    intros _. exists 1%nat. repeat split; try lia.
    apply Hj; [intros j Hlt; lia | exact H0]. }
  cbn [Z.ltb Z.compare].
  set (data1 := if cfg_has_channel_mode (alsa_config data) then _ else data).
  assert (Hmask : cap_channel_mode (sbc_capabilities (a2dp data1))
                  = if cfg_has_channel_mode (alsa_config data)
                    then cfg_channel_mode (alsa_config data)
                    else cap_channel_mode (sbc_capabilities (a2dp data))).
  { unfold data1. destruct (cfg_has_channel_mode (alsa_config data));
      reflexivity. }
  assert (Hrl : cfg_has_rate (alsa_config data) = false ->
                forall r, In (Value r) (map Value (rate_list data1)) <->
                  exists f, bluetooth_convert_rate_to_a2dp r = (0, Some f)
                    /\ land_nonzero
                         (cap_frequency (sbc_capabilities (a2dp data))) f
                       = true).
  { intros Hr r.
    assert (Hd : rate_list data1 = rate_list data).
    { unfold data1, rate_list.
      destruct (cfg_has_channel_mode (alsa_config data)); reflexivity. }
    rewrite Hd, <- (rate_list_spec data r Hr).
    rewrite in_map_iff. split.
    - intros (x & Hx & Hin). injection Hx as ->. exact Hin.
    - intros Hin. exists r. split; [reflexivity | exact Hin]. }
  set (mask := cap_channel_mode (sbc_capabilities (a2dp data1))) in *.
  assert (Hch : forall mn mx,
            snd_pcm_ioplug_set_param_minmax SND_PCM_IOPLUG_HW_CHANNELS
              (if land_nonzero mask BT_A2DP_CHANNEL_MODE_MONO then 1 else 2)
              (if land_nonzero mask (Z.lnot BT_A2DP_CHANNEL_MODE_MONO)
               then 2 else 1)
            = snd_pcm_ioplug_set_param_minmax SND_PCM_IOPLUG_HW_CHANNELS mn mx
            -> mask = (if cfg_has_channel_mode (alsa_config data)
                       then cfg_channel_mode (alsa_config data)
                       else cap_channel_mode (sbc_capabilities (a2dp data)))
               /\ (mn = 1 \/ mn = 2) /\ (mx = 1 \/ mx = 2)
               /\ (mn = 1 <-> Z.land mask BT_A2DP_CHANNEL_MODE_MONO <> 0)
               /\ (mx = 2 <->
                   Z.land mask (Z.lnot BT_A2DP_CHANNEL_MODE_MONO) <> 0)
               /\ (mn <= mx <-> mask <> 0)).
  { intros mn mx H. injection H as <- <-.
    split; [exact Hmask|].
    unfold land_nonzero.
    destruct (Z.eqb_spec (Z.land mask BT_A2DP_CHANNEL_MODE_MONO) 0)
      as [Hm | Hm];
      destruct (Z.eqb_spec (Z.land mask (Z.lnot BT_A2DP_CHANNEL_MODE_MONO)) 0)
        as [Ho | Ho]; cbn [negb];
      (split; [auto|]); (split; [auto|]);
      (split; [split; intros; first [lia | congruence | assumption]|]);
      (split; [split; intros; first [lia | congruence | assumption]|]).
    - split; [lia|]. intros Hnz. exfalso. apply Hnz.
      exact (land_split_zero _ _ Hm Ho).
    - split; [intros _ Hz; rewrite Hz in Ho; apply Ho; apply Z.land_0_l
             | lia].
    - split; [intros _ Hz; rewrite Hz in Hm; apply Hm; apply Z.land_0_l
             | lia].
    - split; [intros _ Hz; rewrite Hz in Hm; apply Hm; apply Z.land_0_l
             | lia]. }
  destruct (Z.ltb_spec (alsa 2%nat) 0) as [H2 | H2].
  { split; [intros mn mx [H | [H | [H | []]]]; try discriminate H;
            apply Hch; exact H|].
    split; [intros _ l [H | [H | [H | []]]]; discriminate H|].
    split; [split; [lia | intros H; specialize (H 2%nat ltac:(lia)); lia]|].
    intros _. exists 2%nat. repeat split; try lia.
    apply Hj; [apply Hj; [intros j Hlt; lia | exact H0] | exact H1]. }
  destruct (Z.ltb_spec (alsa 3%nat) 0) as [H3 | H3].
  { split; [intros mn mx [H | [H | [H | [H | []]]]]; try discriminate H;
            apply Hch; exact H|].
    split; [intros _ l [H | [H | [H | [H | []]]]]; discriminate H|].
    split; [split; [lia | intros H; specialize (H 3%nat ltac:(lia)); lia]|].
    intros _. exists 3%nat. repeat split; try lia.
    apply Hj; [apply Hj; [apply Hj; [intros j Hlt; lia | exact H0]
                         | exact H1] | exact H2]. }
  destruct (Z.ltb_spec (alsa 4%nat) 0) as [H4 | H4].
  { split; [intros mn mx [H | [H | [H | [H | [H | []]]]]];
            try discriminate H; apply Hch; exact H|].
    split; [intros _ l [H | [H | [H | [H | [H | []]]]]]; discriminate H|].
    split; [split; [lia | intros H; specialize (H 4%nat ltac:(lia)); lia]|].
    intros _. exists 4%nat. repeat split; try lia.
    apply Hj; [apply Hj; [apply Hj; [apply Hj; [intros j Hlt; lia | exact H0]
                                    | exact H1] | exact H2] | exact H3]. }
  assert (Hrate : forall l,
            In (snd_pcm_ioplug_set_param_list SND_PCM_IOPLUG_HW_RATE l)
               [snd_pcm_ioplug_set_param_list SND_PCM_IOPLUG_HW_ACCESS
                  [SND_PCM_ACCESS_RW_INTERLEAVED;
                   SND_PCM_ACCESS_MMAP_INTERLEAVED];
                snd_pcm_ioplug_set_param_list SND_PCM_IOPLUG_HW_FORMAT
                  [SND_PCM_FORMAT_S16];
                snd_pcm_ioplug_set_param_minmax SND_PCM_IOPLUG_HW_CHANNELS
                  (if land_nonzero mask BT_A2DP_CHANNEL_MODE_MONO
                   then 1 else 2)
                  (if land_nonzero mask (Z.lnot BT_A2DP_CHANNEL_MODE_MONO)
                   then 2 else 1);
                snd_pcm_ioplug_set_param_minmax SND_PCM_IOPLUG_HW_BUFFER_BYTES
                  (8192 * 3) (8192 * 3);
                snd_pcm_ioplug_set_param_list SND_PCM_IOPLUG_HW_PERIOD_BYTES
                  [Value 2048; Value 4096; Value 8192];
                snd_pcm_ioplug_set_param_list SND_PCM_IOPLUG_HW_RATE
                  (map Value (rate_list data1))] ->
            l = map Value (rate_list data1)).
  { intros l [H | [H | [H | [H | [H | [H | []]]]]]]; try discriminate H.
    injection H as <-. reflexivity. }
  destruct (Z.ltb_spec (alsa 5%nat) 0) as [H5 | H5].
  { split; [intros mn mx [H | [H | [H | [H | [H | [H | []]]]]]];
            try discriminate H; apply Hch; exact H|].
    split; [intros Hr l Hin r; rewrite (Hrate l Hin); apply Hrl; exact Hr|].
    split; [split; [lia | intros H; specialize (H 5%nat ltac:(lia)); lia]|].
    intros _. exists 5%nat. repeat split; try lia.
    apply Hj; [apply Hj; [apply Hj; [apply Hj; [apply Hj;
      [intros j Hlt; lia | exact H0] | exact H1] | exact H2] | exact H3]
      | exact H4]. }
  split; [intros mn mx [H | [H | [H | [H | [H | [H | []]]]]]];
          try discriminate H; apply Hch; exact H|].
  split; [intros Hr l Hin r; rewrite (Hrate l Hin); apply Hrl; exact Hr|].
  split; [split; [intros _; apply Hk; assumption | reflexivity]|].
  intros H. contradiction H. reflexivity.
Qed.

(** ** No PCM byte is lost between the application and the encoder *)














(** ** The resource file *)

Section ResourceFile.

Context {X : ipc_h_ext} {L : stdlib_h}.

Lemma parse_node_accepted n c :
  match parse_node n c with
  | inl _ => node_accepted n = true
  | inr err => err = - EINVAL /\ node_accepted n = false
  end.
Proof.
  unfold node_accepted, string_fields. cbn [existsb].
  destruct (snd_config_get_id n) as [id|] eqn:Hid;
    [|unfold parse_node; rewrite Hid; reflexivity].
  unfold parse_node. rewrite Hid. unfold with_string, streq.
  repeat match goal with
         | |- context [String.eqb id ?b] =>
           destruct (String.eqb id b) eqn:?; cbn [orb]
         end;
    try reflexivity;
    try (destruct (snd_config_get_string n);
         [reflexivity | split; reflexivity]);
    try (split; reflexivity).
  destruct (Z.ltb_spec (snd_config_get_bool n) 0).
  - split; [reflexivity | apply Z.leb_gt; assumption].
  - apply Z.leb_le. assumption.
Qed.

Lemma parse_nodes_result conf : forall c,
  fst (parse_nodes conf c)
  = if forallb node_accepted conf then 0 else - EINVAL.
Proof.
  induction conf as [|n conf IH]; intros c; [reflexivity|].
  cbn [parse_nodes forallb].
  pose proof (parse_node_accepted n c) as Hn.
  destruct (parse_node n c) as [c' | err].
  - rewrite Hn. cbn [andb]. apply IH.
  - destruct Hn as [-> ->]. reflexivity.
Qed.

(** [bluetooth_parse_config] returns 0 or [-EINVAL], and
    [-EINVAL] exactly when some node has a field name it does not know, or
    [autoconnect] without a Boolean value, or a known field without a string
    value.  Nodes without a name, comments and types are passed over, and
    so is an unrecognised value of a known field. *)
Theorem parse_config_rejects_unknown_fields conf :
  fst (bluetooth_parse_config conf)
  = if forallb node_accepted conf then 0 else - EINVAL.
Proof. apply parse_nodes_result. Qed.

Lemma parse_node_in_range n c :
  alsa_config_in_range c ->
  match parse_node n c with
  | inl c' => alsa_config_in_range c'
  | inr _ => True
  end.
Proof.
  intros Hc. pose proof Hc as (Hd & Ht & Hm & Ha & Hr & Hs & Hb & Hp).
  unfold parse_node, with_string, streq.
  destruct (snd_config_get_id n) as [id|]; [|exact Hc].
  repeat match goal with
         | |- context [String.eqb id ?b] =>
           destruct (String.eqb id b) eqn:?; cbn [orb]
         end;
    try exact I;
    try exact Hc;
    try (destruct (snd_config_get_string n) as [value|]; [|exact I]);
    repeat match goal with
           | |- context [String.eqb ?a ?b] =>
             destruct (String.eqb a b) eqn:?; cbn [orb]
           end;
    try (destruct (snd_config_get_bool n <? 0); [exact I|]);
    try exact Hc;
    unfold alsa_config_in_range;
    cbn [cfg_device cfg_has_transport cfg_transport cfg_has_channel_mode
         cfg_channel_mode cfg_has_allocation_method cfg_allocation_method
         cfg_rate cfg_subbands cfg_block_length cfg_bitpool
         set_cfg_autoconnect set_cfg_device set_cfg_transport set_cfg_rate
         set_cfg_channel_mode set_cfg_allocation_method set_cfg_subbands
         set_cfg_block_length set_cfg_bitpool];
    repeat split;
    try assumption;
    try (intros _; cbn [In]; tauto);
    try (apply Hr); try (apply Hs); try (apply Hb); try (apply Hp);
    try (unfold strncpy; rewrite memread_length; reflexivity);
    try (apply Z.mod_pos_bound; reflexivity).
Qed.

Lemma parse_config_in_range conf :
  alsa_config_in_range (snd (bluetooth_parse_config conf)).
Proof.
  unfold bluetooth_parse_config.
  assert (H0 : alsa_config_in_range
                 (set_cfg_autoconnect true zeroed_alsa_config)).
  { unfold alsa_config_in_range. cbn.
    repeat split; try discriminate; try reflexivity. }
  revert H0. generalize (set_cfg_autoconnect true zeroed_alsa_config).
  induction conf as [|n conf IH]; intros c Hc; [exact Hc|].
  cbn [parse_nodes].
  pose proof (parse_node_in_range n c Hc) as Hn.
  destruct (parse_node n c) as [c' | err]; [apply IH; exact Hn | exact Hc].
Qed.

(** Whatever the resource file holds, and whether or not it
    is accepted, the configuration that [bluetooth_parse_config] leaves has
    a device of 18 characters, a transport, a channel mode and an allocation
    method that are, when set, one of the constants of [ipc.h], a rate
    that fits 16 bits and subbands, blocks and bitpool that fit 8 bits. *)
Theorem parse_config_values_in_range conf :
  alsa_config_in_range (snd (bluetooth_parse_config conf)).
Proof. apply parse_config_in_range. Qed.

(** The nodes behind accepted ones are parsed from what those leave. *)
Lemma parse_nodes_app l1 l2 : forall c,
  forallb node_accepted l1 = true ->
  parse_nodes (l1 ++ l2) c = parse_nodes l2 (snd (parse_nodes l1 c)).
Proof.
  induction l1 as [|n l1 IH]; intros c Hok; [reflexivity|].
  cbn [forallb] in Hok. apply andb_true_iff in Hok as [Hn Hok].
  cbn [app parse_nodes].
  pose proof (parse_node_accepted n c) as Ha.
  destruct (parse_node n c) as [c' | err]; [apply IH; exact Hok|].
  destruct Ha as [_ Ha]. congruence.
Qed.

Lemma parse_node_keeps_device n c :
  names_device n = false ->
  match parse_node n c with
  | inl c' =>
    cfg_device c' = cfg_device c /\ cfg_has_device c' = cfg_has_device c
  | inr _ => True
  end.
Proof.
  unfold names_device, parse_node, with_string, streq. cbn [existsb].
  destruct (snd_config_get_id n) as [id|]; [|split; reflexivity].
  intros Hn.
  destruct (String.eqb id "device"); [discriminate Hn|].
  destruct (String.eqb id "bdaddr"); [discriminate Hn|].
  cbn [orb].
  repeat match goal with
         | |- context [String.eqb id ?b] =>
           destruct (String.eqb id b) eqn:?; cbn [orb]
         end;
    try exact I;
    try (split; reflexivity);
    try (destruct (snd_config_get_string n) as [value|]; [|exact I]);
    repeat match goal with
           | |- context [String.eqb ?a ?b] =>
             destruct (String.eqb a b) eqn:?; cbn [orb]
           end;
    try (destruct (snd_config_get_bool n <? 0); [exact I|]);
    split; reflexivity.
Qed.

Lemma parse_nodes_keep_device l : forall c,
  forallb (fun m => negb (names_device m)) l = true ->
  cfg_device (snd (parse_nodes l c)) = cfg_device c
  /\ cfg_has_device (snd (parse_nodes l c)) = cfg_has_device c.
Proof.
  induction l as [|n l IH]; intros c Hl; [split; reflexivity|].
  cbn [forallb] in Hl. apply andb_true_iff in Hl as [Hn Hl].
  apply negb_true_iff in Hn.
  cbn [parse_nodes].
  pose proof (parse_node_keeps_device n c Hn) as Hk.
  destruct (parse_node n c) as [c' | err]; [|split; reflexivity].
  destruct Hk as [Hd Hh]. destruct (IH c' Hl) as [Hd' Hh'].
  split; congruence.
Qed.

(** X19.  The device of the resource file is the value of its
    last [device] or [bdaddr] node, cut or padded to 18 characters: the
    nodes before it have no effect on it, provided they are accepted, and
    the nodes behind it that name no device leave it alone. *)
Theorem parse_config_takes_last_device l1 n l2 value :
  forallb node_accepted l1 = true ->
  names_device n = true ->
  snd_config_get_string n = Some value ->
  forallb (fun m => negb (names_device m)) l2 = true ->
  let cfg := snd (bluetooth_parse_config (l1 ++ n :: l2)) in
  cfg_has_device cfg = true /\ cfg_device cfg = strncpy value 18.
Proof.
  intros H1 Hn Hv H2. unfold bluetooth_parse_config.
  rewrite parse_nodes_app by exact H1.
  set (c1 := snd (parse_nodes l1 _)).
  cbn [parse_nodes].
  assert (Hp : parse_node n c1
               = inl (set_cfg_device (strncpy value 18) c1)).
  { unfold names_device in Hn. unfold parse_node, with_string, streq.
    destruct (snd_config_get_id n) as [id|]; [|discriminate Hn].
    cbn [existsb] in Hn. rewrite Hv.
    destruct (String.eqb id "comment") eqn:Hc.
    { apply String.eqb_eq in Hc. subst id. discriminate Hn. }
    destruct (String.eqb id "type") eqn:Ht.
    { apply String.eqb_eq in Ht. subst id. discriminate Hn. }
    destruct (String.eqb id "autoconnect") eqn:Ha.
    { apply String.eqb_eq in Ha. subst id. discriminate Hn. }
    cbn [orb].
    destruct (String.eqb id "device"); [reflexivity|].
    destruct (String.eqb id "bdaddr"); [reflexivity|].
    discriminate Hn. }
  rewrite Hp.
  destruct (parse_nodes_keep_device l2
              (set_cfg_device (strncpy value 18) c1) H2) as [Hd Hh].
  cbv zeta. rewrite Hd, Hh. split; reflexivity.
Qed.

End ResourceFile.

(** ** The resource file and the negotiation *)

Lemma a2dp_hw_constraint_channel_call alsa data :
  let '(ret, data', made) := bluetooth_a2dp_hw_constraint alsa data in
  let mask := if cfg_has_channel_mode (alsa_config data)
              then cfg_channel_mode (alsa_config data)
              else cap_channel_mode (sbc_capabilities (a2dp data)) in
  forall mn mx,
    In (snd_pcm_ioplug_set_param_minmax SND_PCM_IOPLUG_HW_CHANNELS mn mx)
       made ->
    mn = (if land_nonzero mask BT_A2DP_CHANNEL_MODE_MONO then 1 else 2)
    /\ mx = (if land_nonzero mask (Z.lnot BT_A2DP_CHANNEL_MODE_MONO)
             then 2 else 1).
Proof.
  unfold bluetooth_a2dp_hw_constraint. cbn [set_params app].
  destruct (alsa 0%nat <? 0) eqn:H0.
  { rewrite H0. intros mn mx [H | []]; discriminate H. }
  destruct (alsa 1%nat <? 0) eqn:H1.
  { rewrite H1. intros mn mx [H | [H | []]]; discriminate H. }
  cbn [Z.ltb Z.compare].
  set (data1 := if cfg_has_channel_mode (alsa_config data) then _ else data).
  assert (Hmask : cap_channel_mode (sbc_capabilities (a2dp data1))
                  = if cfg_has_channel_mode (alsa_config data)
                    then cfg_channel_mode (alsa_config data)
                    else cap_channel_mode (sbc_capabilities (a2dp data))).
  { unfold data1. destruct (cfg_has_channel_mode (alsa_config data));
      reflexivity. }
  rewrite <- Hmask.
  repeat match goal with
         | |- context [alsa ?k <? 0] => destruct (alsa k <? 0)
         end;
    cbn [set_params app]; intros mn mx Hin; cbn [In app] in Hin;
    repeat match type of Hin with
           | _ \/ _ => destruct Hin as [Hin | Hin]
           | False => contradiction
           end;
    try discriminate Hin;
    injection Hin as <- <-; split; reflexivity.
Qed.

Section Negotiation.

Context {X : ipc_h_ext} {L : stdlib_h}.

(** X20.  A resource file that sets the mode pins the number of
    channels that [bluetooth_a2dp_hw_constraint] offers: one channel for
    mono and two for each of the other modes, whatever the remote device
    advertises. *)
Theorem resource_file_mode_pins_channels conf alsa data :
  channel_mode_bits_disjoint ->
  alsa_config data = snd (bluetooth_parse_config conf) ->
  cfg_has_channel_mode (alsa_config data) = true ->
  let '(ret, data', made) := bluetooth_a2dp_hw_constraint alsa data in
  forall mn mx,
    In (snd_pcm_ioplug_set_param_minmax SND_PCM_IOPLUG_HW_CHANNELS mn mx)
       made ->
    mn = mx
    /\ (mn = 1 <->
        cfg_channel_mode (alsa_config data) = BT_A2DP_CHANNEL_MODE_MONO).
Proof.
  intros [Hmono Hothers] Hcfg Hhas.
  pose proof (parse_config_in_range conf) as (_ & _ & Hm & _).
  rewrite <- Hcfg in Hm. specialize (Hm Hhas).
  pose proof (a2dp_hw_constraint_channel_call alsa data) as Hcall.
  destruct (bluetooth_a2dp_hw_constraint alsa data) as [[ret data'] made].
  rewrite Hhas in Hcall. cbv zeta in Hcall.
  intros mn mx Hin. destruct (Hcall mn mx Hin) as [-> ->].
  clear Hcall Hin.
  set (m := cfg_channel_mode (alsa_config data)) in *.
  unfold land_nonzero.
  assert (Hself : Z.land BT_A2DP_CHANNEL_MODE_MONO BT_A2DP_CHANNEL_MODE_MONO
                  = BT_A2DP_CHANNEL_MODE_MONO) by apply Z.land_diag.
  assert (Hcases : m = BT_A2DP_CHANNEL_MODE_MONO
                   \/ (0 < m /\ Z.land m BT_A2DP_CHANNEL_MODE_MONO = 0)).
  { cbn [In] in Hm.
    destruct Hm as [Hm | [Hm | [Hm | [Hm | []]]]]; rewrite <- Hm.
    - left. apply uint8_t_id. lia.
    - right. destruct (Hothers BT_A2DP_CHANNEL_MODE_DUAL_CHANNEL) as [Hr Hl];
        [cbn; tauto|]. rewrite uint8_t_id by lia. split; [lia | exact Hl].
    - right. destruct (Hothers BT_A2DP_CHANNEL_MODE_STEREO) as [Hr Hl];
        [cbn; tauto|]. rewrite uint8_t_id by lia. split; [lia | exact Hl].
    - right. destruct (Hothers BT_A2DP_CHANNEL_MODE_JOINT_STEREO) as [Hr Hl];
        [cbn; tauto|]. rewrite uint8_t_id by lia. split; [lia | exact Hl]. }
  destruct Hcases as [-> | [Hpos Hdis]].
  - rewrite Hself, Z.land_lnot_diag.
    destruct (Z.eqb_spec BT_A2DP_CHANNEL_MODE_MONO 0) as [Hz | _]; [lia|].
    cbn. split; [reflexivity | tauto].
  - rewrite Hdis.
    destruct (Z.eqb_spec (Z.land m (Z.lnot BT_A2DP_CHANNEL_MODE_MONO)) 0)
      as [Hz | _].
    + pose proof (land_split_zero _ _ Hdis Hz). lia.
    + cbn. split; [reflexivity|]. split; [discriminate|].
      intros ->. rewrite Hself in Hdis. lia.
Qed.

(** X21.  The number of subbands of the resource file is used
    as a bit mask of [ipc.h]: when it holds neither the bit of 8 subbands
    nor that of 4, [bluetooth_a2dp_init] fails, whatever the remote device
    advertises. *)
Theorem resource_file_subbands_is_a_bit_mask cfg params cap :
  cfg_has_subbands cfg = true ->
  Z.land (cfg_subbands cfg) BT_A2DP_SUBBANDS_8 = 0 ->
  Z.land (cfg_subbands cfg) BT_A2DP_SUBBANDS_4 = 0 ->
  fst (bluetooth_a2dp_init cfg params cap) = -1.
Proof.
  intros Hs H8 H4. unfold bluetooth_a2dp_init.
  destruct (bluetooth_convert_rate_to_a2dp _) as [r [f|]]; [|reflexivity].
  float_lets.
  match goal with
  | |- context [if ?b then (-1, _) else _] => destruct b
  end; [reflexivity|].
  match goal with
  | |- context [match ?b with Some _ => _ | None => _ end] =>
    destruct b as [blk|]
  end; [|reflexivity].
  rewrite Hs. cbn [cap_subbands set_cap_subbands].
  unfold land_nonzero at 1 2. rewrite H8, H4. reflexivity.
Qed.

End Negotiation.

(** ** The capabilities of the remote device *)

Section Capabilities.

Context {X : ipc_h_ext}.

Lemma capabilities_bytes_range rsp :
  - 2 ^ 31 <= capabilities_bytes rsp < 2 ^ 31.
Proof.
  unfold capabilities_bytes, int32_t.
  pose proof (Z.mod_pos_bound
                (uint32_t (rsp_length rsp - sizeof_bt_get_capabilities_rsp)
                 + 2 ^ 31) (2 ^ 32) ltac:(reflexivity)).
  lia.
Qed.

Lemma entry_offset_grows rsp n : forall k,
  (forall m, (k <= m < k + n)%nat -> 0 < codec_length (entry rsp m)) ->
  entry_offset rsp k + Z.of_nat n <= entry_offset rsp (k + n).
Proof.
  induction n as [|n IH]; intros k Hlen.
  - rewrite Nat.add_0_r. lia.
  - replace (k + S n)%nat with (S (k + n)) by lia.
    cbn [entry_offset].
    specialize (IH k ltac:(intros m Hm; apply Hlen; lia)).
    specialize (Hlen (k + n)%nat ltac:(lia)). unfold entry in Hlen. lia.
Qed.

(** The loop passes over entries that are not free SBC sinks and stops at
    the first that is. *)
Lemma find_sbc_sink_first rsp n : forall fuel k,
  0 <= entry_offset rsp k ->
  (forall m, (k <= m < k + n)%nat ->
     free_sbc_sink (entry rsp m) = false /\ 0 < codec_length (entry rsp m)) ->
  entry_offset rsp (k + n) < capabilities_bytes rsp ->
  free_sbc_sink (entry rsp (k + n)) = true ->
  (n <= fuel)%nat ->
  find_sbc_sink fuel rsp (capabilities_bytes rsp - entry_offset rsp k)
    (entry_offset rsp k)
  = Some (capabilities_bytes rsp - entry_offset rsp (k + n),
          entry_offset rsp (k + n)).
Proof.
  pose proof (capabilities_bytes_range rsp) as HB.
  induction n as [|n IH]; intros fuel k Hk Hskip Hin Hfree Hfuel.
  - rewrite Nat.add_0_r in *.
    destruct fuel; cbn [find_sbc_sink];
      (destruct (Z.gtb_spec (capabilities_bytes rsp - entry_offset rsp k) 0);
       [|lia]);
      unfold entry in Hfree; rewrite Hfree; reflexivity.
  - destruct fuel as [|fuel]; [lia|].
    pose proof (entry_offset_grows rsp (S n) k
                  ltac:(intros m Hm; apply Hskip; exact Hm)) as Hgrow.
    destruct (Hskip k ltac:(lia)) as [Hnot Hlen].
    unfold entry in Hnot, Hlen.
    cbn [find_sbc_sink].
    destruct (Z.gtb_spec (capabilities_bytes rsp - entry_offset rsp k) 0);
      [|lia].
    rewrite Hnot.
    replace (k + S n)%nat with (S k + n)%nat in * by lia.
    assert (Hk1 : entry_offset rsp (S k)
                  = entry_offset rsp k
                    + codec_length (rsp_codec rsp (entry_offset rsp k)))
      by reflexivity.
    pose proof (entry_offset_grows rsp n (S k)
                  ltac:(intros m Hm; apply Hskip; lia)) as Hgrow1.
    rewrite int32_t_id.
    + replace (capabilities_bytes rsp - entry_offset rsp k
               - codec_length (rsp_codec rsp (entry_offset rsp k)))
        with (capabilities_bytes rsp - entry_offset rsp (S k)) by lia.
      rewrite <- Hk1.
      apply IH; [lia | intros m Hm; apply Hskip; lia | exact Hin
                | exact Hfree | lia].
    + lia.
Qed.

(** X22.  For an A2DP device, [bluetooth_parse_capabilities] takes
    the first entry of the response that is an SBC sink not locked for
    writing: when its length is that of [sbc_capabilities_t] it becomes the
    capabilities of the session and the result is 0; otherwise the result
    is [-EINVAL] and the capabilities stay as they were, even if a later entry
    would do.  The transport of the session is that of the first entry. *)
Theorem parse_capabilities_takes_first_free_sink data rsp n :
  codec_transport (entry rsp 0) = BT_CAPABILITIES_TRANSPORT_A2DP ->
  (forall m, (m < n)%nat ->
     free_sbc_sink (entry rsp m) = false /\ 0 < codec_length (entry rsp m)) ->
  entry_offset rsp n < capabilities_bytes rsp ->
  free_sbc_sink (entry rsp n) = true ->
  bluetooth_parse_capabilities data rsp
  = Some (if codec_length (entry rsp n) =? sizeof_sbc_capabilities_t
          then (0, set_a2dp
                     (set_sbc_capabilities (rsp_sbc rsp (entry_offset rsp n))
                        (a2dp data))
                     (set_transport BT_CAPABILITIES_TRANSPORT_A2DP data))
          else (- EINVAL,
                set_transport BT_CAPABILITIES_TRANSPORT_A2DP data)).
Proof.
  intros Ht Hskip Hin Hfree.
  unfold bluetooth_parse_capabilities, parse_capabilities_fuel.
  unfold entry in Ht. cbn [entry_offset] in Ht. rewrite Ht, Z.eqb_refl.
  cbn [negb].
  pose proof (entry_offset_grows rsp n 0%nat
                ltac:(intros m Hm; apply Hskip; lia)) as Hgrow.
  cbn [entry_offset Nat.add] in Hgrow.
  pose proof (find_sbc_sink_first rsp n
                (Z.to_nat (capabilities_bytes rsp)) 0%nat
                ltac:(cbn; lia)
                ltac:(intros m Hm; apply Hskip; lia) Hin Hfree
                ltac:(lia)) as Hfind.
  cbn [entry_offset Nat.add] in Hfind. rewrite Z.sub_0_r in Hfind.
  rewrite Hfind.
  destruct (Z.leb_spec (capabilities_bytes rsp - entry_offset rsp n) 0);
    [lia|].
  cbn [orb]. unfold entry.
  destruct (codec_length (rsp_codec rsp (entry_offset rsp n))
            =? sizeof_sbc_capabilities_t); reflexivity.
Qed.

(** The loop runs to the end of the response when no entry is a free SBC
    sink. *)
Lemma find_sbc_sink_none rsp : forall fuel k,
  0 <= entry_offset rsp k ->
  (forall m, entry_offset rsp m < capabilities_bytes rsp ->
     free_sbc_sink (entry rsp m) = false
     /\ 0 < codec_length (entry rsp m) < 2 ^ 8) ->
  capabilities_bytes rsp - entry_offset rsp k <= Z.of_nat fuel ->
  exists bytes_left codec,
    find_sbc_sink fuel rsp (capabilities_bytes rsp - entry_offset rsp k)
      (entry_offset rsp k)
    = Some (bytes_left, codec)
    /\ bytes_left <= 0.
Proof.
  pose proof (capabilities_bytes_range rsp) as HB.
  induction fuel as [|fuel IH]; intros k Hk Hall Hfuel.
  - cbn [find_sbc_sink].
    destruct (Z.gtb_spec (capabilities_bytes rsp - entry_offset rsp k) 0);
      [lia|].
    eexists _, _. split; [reflexivity | lia].
  - cbn [find_sbc_sink].
    destruct (Z.gtb_spec (capabilities_bytes rsp - entry_offset rsp k) 0)
      as [Hpos | Hend];
      [|eexists _, _; split; [reflexivity | lia]].
    destruct (Hall k ltac:(lia)) as [Hnot Hlen].
    unfold entry in Hnot, Hlen. rewrite Hnot.
    rewrite int32_t_id by lia.
    replace (capabilities_bytes rsp - entry_offset rsp k
             - codec_length (rsp_codec rsp (entry_offset rsp k)))
      with (capabilities_bytes rsp - entry_offset rsp (S k))
      by (cbn [entry_offset]; lia).
    change (entry_offset rsp k
            + codec_length (rsp_codec rsp (entry_offset rsp k)))
      with (entry_offset rsp (S k)).
    apply IH; [cbn [entry_offset]; lia | exact Hall
              | cbn [entry_offset]; lia].
Qed.

(** For an A2DP device whose response holds no SBC sink free
    for writing, [bluetooth_parse_capabilities] returns [-EINVAL] and
    leaves the capabilities of the session as they were. *)
Theorem parse_capabilities_without_free_sink data rsp :
  codec_transport (entry rsp 0) = BT_CAPABILITIES_TRANSPORT_A2DP ->
  (forall m, entry_offset rsp m < capabilities_bytes rsp ->
     free_sbc_sink (entry rsp m) = false
     /\ 0 < codec_length (entry rsp m) < 2 ^ 8) ->
  bluetooth_parse_capabilities data rsp
  = Some (- EINVAL, set_transport BT_CAPABILITIES_TRANSPORT_A2DP data).
Proof.
  intros Ht Hall.
  unfold bluetooth_parse_capabilities, parse_capabilities_fuel.
  unfold entry in Ht. cbn [entry_offset] in Ht. rewrite Ht, Z.eqb_refl.
  cbn [negb].
  destruct (find_sbc_sink_none rsp (Z.to_nat (capabilities_bytes rsp)) 0%nat
              ltac:(cbn; lia) Hall ltac:(cbn [entry_offset]; lia))
    as (bl & codec & Hfind & Hbl).
  cbn [entry_offset] in Hfind. rewrite Z.sub_0_r in Hfind.
  rewrite Hfind.
  destruct (Z.leb_spec bl 0); [reflexivity | lia].
Qed.

(** An entry of length zero that is not a free SBC sink is never left. *)
Lemma find_sbc_sink_stuck rsp bytes_left codec : forall fuel,
  0 < bytes_left < 2 ^ 31 ->
  free_sbc_sink (rsp_codec rsp codec) = false ->
  codec_length (rsp_codec rsp codec) = 0 ->
  find_sbc_sink fuel rsp bytes_left codec = None.
Proof.
  intros fuel Hbl Hnot Hlen.
  induction fuel as [|fuel IH]; cbn [find_sbc_sink];
    (destruct (Z.gtb_spec bytes_left 0); [|lia]); rewrite Hnot;
    [reflexivity|].
  rewrite Hlen, Z.sub_0_r, Z.add_0_r, int32_t_id by lia. exact IH.
Qed.

(** X23.  An entry of length zero that is reached and is not a free
    SBC sink keeps the loop of [bluetooth_parse_capabilities] turning:
    no number of turns ends it. *)
Theorem parse_capabilities_never_leaves_empty_entry data rsp n fuel :
  codec_transport (entry rsp 0) = BT_CAPABILITIES_TRANSPORT_A2DP ->
  (forall m, (m < n)%nat ->
     free_sbc_sink (entry rsp m) = false /\ 0 < codec_length (entry rsp m)) ->
  entry_offset rsp n < capabilities_bytes rsp ->
  free_sbc_sink (entry rsp n) = false ->
  codec_length (entry rsp n) = 0 ->
  parse_capabilities_fuel fuel data rsp = None.
Proof.
  intros Ht Hskip Hin Hnot Hzero.
  unfold parse_capabilities_fuel.
  unfold entry in Ht. cbn [entry_offset] in Ht. rewrite Ht, Z.eqb_refl.
  cbn [negb].
  pose proof (capabilities_bytes_range rsp) as HB.
  assert (Hgen : forall j k fuel,
            (k + j = n)%nat ->
            0 <= entry_offset rsp k ->
            find_sbc_sink fuel rsp
              (capabilities_bytes rsp - entry_offset rsp k)
              (entry_offset rsp k) = None).
  { induction j as [|j IH]; intros k f Hkj Hk.
    - rewrite Nat.add_0_r in Hkj. subst k.
      apply find_sbc_sink_stuck; [lia | exact Hnot | exact Hzero].
    - destruct (Hskip k ltac:(lia)) as [Hnk Hlk].
      unfold entry in Hnk, Hlk.
      pose proof (entry_offset_grows rsp (S j) k
                    ltac:(intros m Hm; apply Hskip; lia)) as Hgrow.
      rewrite Hkj in Hgrow.
      pose proof (entry_offset_grows rsp j (S k)
                    ltac:(intros m Hm; apply Hskip; lia)) as Hgrow1.
      replace (S k + j)%nat with n in Hgrow1 by lia.
      cbn [entry_offset] in Hgrow1.
      destruct f as [|f]; cbn [find_sbc_sink];
        (destruct (Z.gtb_spec (capabilities_bytes rsp - entry_offset rsp k)
                     0); [|lia]);
        rewrite Hnk; [reflexivity|].
      rewrite int32_t_id by lia.
      replace (capabilities_bytes rsp - entry_offset rsp k
               - codec_length (rsp_codec rsp (entry_offset rsp k)))
        with (capabilities_bytes rsp - entry_offset rsp (S k))
        by (cbn [entry_offset]; lia).
      change (entry_offset rsp k
              + codec_length (rsp_codec rsp (entry_offset rsp k)))
        with (entry_offset rsp (S k)).
      apply IH; [lia | cbn [entry_offset]; lia]. }
  specialize (Hgen n 0%nat fuel ltac:(lia) ltac:(cbn; lia)).
  cbn [entry_offset] in Hgen. rewrite Z.sub_0_r in Hgen.
  rewrite Hgen. reflexivity.
Qed.

End Capabilities.

(** ** Sessions that outlive their handle *)

Lemma store_same h data d : store h data d data = d.
Proof. unfold store. rewrite Nat.eqb_refl. reflexivity. Qed.

Lemma remove_outstanding_data_absent data l :
  ~ In data l -> remove_outstanding_data data l = l.
Proof.
  induction l as [|e l IH]; intros Hnot; [reflexivity|].
  cbn [remove_outstanding_data].
  destruct (Nat.eqb_spec e data) as [-> | Hne];
    [exfalso; apply Hnot; left; reflexivity|].
  rewrite IH; [reflexivity | intros Hin; apply Hnot; right; exact Hin].
Qed.

Lemma remove_outstanding_data_first data l1 l2 :
  ~ In data l1 ->
  remove_outstanding_data data (l1 ++ data :: l2) = l1 ++ l2.
Proof.
  induction l1 as [|e l1 IH]; intros Hnot.
  - cbn. rewrite Nat.eqb_refl. reflexivity.
  - cbn [app remove_outstanding_data].
    destruct (Nat.eqb_spec e data) as [-> | Hne];
      [exfalso; apply Hnot; left; reflexivity|].
    f_equal. apply IH.
    intros Hin. apply Hnot. right. exact Hin.
Qed.

(** [remove_outstanding_data] unlinks the first element that
    holds the session and nothing else: the elements before and behind it
    stay, in order, and a list that does not hold the session is left as it
    is. *)
Theorem remove_outstanding_data_unlinks_first data l :
  (~ In data l -> remove_outstanding_data data l = l)
  /\ (forall l1 l2,
        l = l1 ++ data :: l2 -> ~ In data l1 ->
        remove_outstanding_data data l = l1 ++ l2).
Proof.
  split; [apply remove_outstanding_data_absent|].
  intros l1 l2 -> Hnot.
  apply remove_outstanding_data_first. exact Hnot.
Qed.

Section Reopen.

Context {X : ipc_h_ext} {L : stdlib_h}.

Lemma strcmp_eq_refl a : strcmp_eq a a = true.
Proof.
  unfold strcmp_eq.
  destruct (list_eq_dec Z.eq_dec (c_string a) (c_string a)) as [_ | Hne];
    [reflexivity | contradiction Hne; reflexivity].
Qed.

Lemma find_outstanding_spec conf h l :
  match find_outstanding conf h l with
  | Some data =>
    fst (bluetooth_parse_config conf) = 0
    /\ exists l1 l2,
         l = l1 ++ data :: l2
         /\ same_device (alsa_config (pd_data (h data)))
              (snd (bluetooth_parse_config conf)) = true
         /\ forall p, In p l1 ->
              same_device (alsa_config (pd_data (h p)))
                (snd (bluetooth_parse_config conf)) = false
  | None =>
    l = []
    \/ fst (bluetooth_parse_config conf) <> 0
    \/ forall p, In p l ->
         same_device (alsa_config (pd_data (h p)))
           (snd (bluetooth_parse_config conf)) = false
  end.
Proof.
  pose proof (parse_nodes_result conf
                (set_cfg_autoconnect true zeroed_alsa_config)) as Hres.
  fold (bluetooth_parse_config conf) in Hres.
  induction l as [|e l IH]; [left; reflexivity|].
  cbn [find_outstanding].
  destruct (bluetooth_parse_config conf) as [err new_alsa_conf] eqn:Hp.
  cbn [fst snd] in *.
  destruct (Z.ltb_spec err 0) as [Hneg | Hpos]; [right; left; lia|].
  assert (Herr : err = 0).
  { rewrite Hres in *. destruct (forallb node_accepted conf);
      [reflexivity | unfold EINVAL in Hpos; lia]. }
  destruct (same_device (alsa_config (pd_data (h e))) new_alsa_conf)
    eqn:Hsame.
  - split; [exact Herr|]. exists [], l.
    split; [reflexivity|]. split; [exact Hsame|]. intros p [].
  - destruct (find_outstanding conf h l) as [data|].
    + destruct IH as (_ & l1 & l2 & -> & Hd & Hbefore).
      split; [exact Herr|]. exists (e :: l1), l2.
      split; [reflexivity|]. split; [exact Hd|].
      intros p [<- | Hin]; [exact Hsame | apply Hbefore; exact Hin].
    + right. right.
      destruct IH as [-> | [Hne | Hall]];
        [intros p [<- | []]; exact Hsame | lia |].
      intros p [<- | Hin]; [exact Hsame | apply Hall; exact Hin].
Qed.

(** X24.  [bluetooth_find_outstanding_data] gives the first session of
    the list that is for the device and the transport of the resource
    file.  That session is unlinked, its watcher is told to stop, and the
    other sessions stay in the list, in order.  When the list is empty, the
    resource file is rejected or no session matches, the result is NULL and
    nothing changes. *)
Theorem find_outstanding_data_takes_first_match conf h l :
  let '(found, h', l', ev) := bluetooth_find_outstanding_data conf h l in
  match found with
  | Some data =>
    fst (bluetooth_parse_config conf) = 0
    /\ (exists l1 l2,
          l = l1 ++ data :: l2 /\ l' = l1 ++ l2
          /\ same_device (alsa_config (pd_data (h data)))
               (snd (bluetooth_parse_config conf)) = true
          /\ forall p, In p l1 ->
               same_device (alsa_config (pd_data (h p)))
                 (snd (bluetooth_parse_config conf)) = false)
    /\ ev = [pthread_cond_signal data]
    /\ kill_watcher (h' data) = 1
    /\ pd_data (h' data) = pd_data (h data)
    /\ forall p, p <> data -> h' p = h p
  | None =>
    h' = h /\ l' = l /\ ev = []
    /\ (l = []
        \/ fst (bluetooth_parse_config conf) <> 0
        \/ forall p, In p l ->
             same_device (alsa_config (pd_data (h p)))
               (snd (bluetooth_parse_config conf)) = false)
  end.
Proof.
  unfold bluetooth_find_outstanding_data.
  pose proof (find_outstanding_spec conf h l) as Hspec.
  destruct (find_outstanding conf h l) as [data|]; cbn.
  - destruct Hspec as (Herr & l1 & l2 & Hl & Hsame & Hbefore).
    split; [exact Herr|].
    split.
    + exists l1, l2. split; [exact Hl|].
      split; [|split; [exact Hsame | exact Hbefore]].
      subst l. apply remove_outstanding_data_first.
      intros Hin. apply Hbefore in Hin. congruence.
    + split; [reflexivity|].
      rewrite store_same. split; [reflexivity|]. split; [reflexivity|].
      intros p Hp. unfold store.
      destruct (Nat.eqb_spec p data); [contradiction | reflexivity].
  - repeat split; exact Hspec.
Qed.

(** The outcome of [bluetooth_close] when the session is kept. *)
Lemma bluetooth_close_parked E data h l :
  0 <= watcher (h data) ->
  ce_malloc E = true ->
  fst (ce_pthread_create E) = 0 ->
  ce_pthread_detach E = 0 ->
  bluetooth_close E data h l
  = (0, store h data (set_watcher (snd (ce_pthread_create E)) (h data)),
     data :: l, []).
Proof.
  intros Hw Hm Hc Hd. unfold bluetooth_close, add_outstanding_data.
  destruct (Z.ltb_spec (watcher (h data)) 0); [lia|].
  rewrite Hm, Hc, Hd. reflexivity.
Qed.

(** X25.  [bluetooth_close] always returns 0, and it either keeps the
    session or ends it: the session is put at the start of the list, and
    nothing is closed or freed, exactly when the watcher can be used, the
    list element can be allocated and the watcher thread is created and
    detached; in every other case [bluetooth_exit] frees the session and
    the list is left without it. *)
Theorem bluetooth_close_parks_or_exits E data h l :
  ~ In data l ->
  let '(ret, h', l', ev) := bluetooth_close E data h l in
  ret = 0
  /\ if (0 <=? watcher (h data)) && ce_malloc E
        && (fst (ce_pthread_create E) =? 0) && (ce_pthread_detach E =? 0)
     then l' = data :: l /\ ev = [] /\ pd_data (h' data) = pd_data (h data)
     else l' = l
          /\ (exists ev0, ev = ev0 ++ [free_data data]
                          /\ ~ In (free_data data) ev0).
Proof.
  intros Hnot. unfold bluetooth_close, add_outstanding_data.
  assert (Hexit : forall d,
            exists ev0, bluetooth_exit data d = ev0 ++ [free_data data]
                        /\ ~ In (free_data data) ev0).
  { intros d. unfold bluetooth_exit.
    destruct (server_fd (pd_data d) >=? 0), (stream_fd (pd_data d) >=? 0),
      (hw_thread (pd_data d)), (sbc_initialized (a2dp (pd_data d))),
      (fst (pipefd d) >? 0), (snd (pipefd d) >? 0); cbn [app];
      match goal with
      | |- exists ev0, ?L = _ /\ _ => exists (removelast L)
      end;
      (split; [reflexivity|]); cbn [removelast In];
      intros H;
      repeat match type of H with
             | _ \/ _ => destruct H as [H | H]
             | False => contradiction
             end; discriminate H. }
  destruct (Z.ltb_spec (watcher (h data)) 0) as [Hneg | Hpos].
  { replace (0 <=? watcher (h data)) with false
      by (symmetry; apply Z.leb_gt; exact Hneg).
    cbn [andb]. split; [reflexivity|]. split; [reflexivity | apply Hexit]. }
  replace (0 <=? watcher (h data)) with true
    by (symmetry; apply Z.leb_le; exact Hpos).
  destruct (ce_malloc E); cbn [andb Z.ltb Z.compare];
    [|split; [reflexivity|]; split; [reflexivity | apply Hexit]].
  destruct (fst (ce_pthread_create E) =? 0); cbn [negb andb].
  - destruct (ce_pthread_detach E =? 0); cbn [negb].
    + split; [reflexivity|]. rewrite store_same.
      split; [reflexivity|]. split; reflexivity.
    + split; [reflexivity|].
      cbn [remove_outstanding_data]. rewrite Nat.eqb_refl.
      split; [reflexivity|].
      destruct (Hexit (store
                         (store h data
                            (set_watcher (snd (ce_pthread_create E))
                               (h data)))
                         data
                         (set_kill_watcher 1
                            (store h data
                               (set_watcher (snd (ce_pthread_create E))
                                  (h data)) data)) data))
        as (ev0 & Hev & Hno).
      exists (pthread_cond_signal data :: ev0).
      split; [cbn [app]; rewrite Hev; reflexivity|].
      intros [H | H]; [discriminate H | exact (Hno H)].
  - split; [reflexivity|].
    cbn [remove_outstanding_data]. rewrite Nat.eqb_refl.
    split; [reflexivity | apply Hexit].
Qed.

(** X26.  A session that [bluetooth_close] has kept is found again by
    [bluetooth_find_outstanding_data] for the resource file it was opened
    with: the same session is returned with its state as it was, the list
    is as before the close, and the watcher, told to stop, ends without
    touching the session, however long it has waited. *)
Theorem closed_session_is_found_again E conf data h l waits :
  0 <= watcher (h data) ->
  ce_malloc E = true ->
  fst (ce_pthread_create E) = 0 ->
  ce_pthread_detach E = 0 ->
  bluetooth_parse_config conf = (0, alsa_config (pd_data (h data))) ->
  let '(ret, h1, l1, ev1) := bluetooth_close E data h l in
  let '(found, h2, l2, ev2) := bluetooth_find_outstanding_data conf h1 l1 in
  ret = 0 /\ ev1 = []
  /\ found = Some data /\ l2 = l /\ ev2 = [pthread_cond_signal data]
  /\ pd_data (h2 data) = pd_data (h data)
  /\ exists h3,
       bluetooth_watcher waits data h2 l2 = Some (h3, l, [])
       /\ pd_data (h3 data) = pd_data (h data)
       /\ kill_watcher (h3 data) = 0.
Proof.
  intros Hw Hm Hc Hd Hconf.
  rewrite (bluetooth_close_parked E data h l Hw Hm Hc Hd).
  unfold bluetooth_find_outstanding_data.
  cbn [find_outstanding]. rewrite Hconf. cbn [Z.ltb Z.compare].
  rewrite store_same. cbn [pd_data set_watcher].
  unfold same_device. rewrite strcmp_eq_refl, Z.eqb_refl. cbn [andb].
  unfold bluetooth_kill_watcher.
  cbn [remove_outstanding_data]. rewrite Nat.eqb_refl.
  rewrite !store_same.
  repeat (split; [reflexivity|]).
  unfold bluetooth_watcher. rewrite store_same.
  cbn [kill_watcher set_kill_watcher].
  assert (Hwait : watcher_wait waits 1 = Some 1)
    by (destruct waits; reflexivity).
  rewrite Hwait. cbn [Z.eqb].
  eexists. split; [reflexivity|].
  rewrite store_same. split; reflexivity.
Qed.

(** A session that [bluetooth_close] has kept and that nobody
    asks for is ended by its watcher when the wait times out: the list is
    as before the close and [bluetooth_exit] has freed the session. *)
Theorem parked_session_is_ended_on_timeout E data h l waits :
  ~ In data l ->
  0 <= watcher (h data) ->
  ce_malloc E = true ->
  fst (ce_pthread_create E) = 0 ->
  ce_pthread_detach E = 0 ->
  kill_watcher (h data) = 0 ->
  watcher_wait waits 0 = Some 0 ->
  let '(ret, h1, l1, ev1) := bluetooth_close E data h l in
  bluetooth_watcher waits data h1 l1
  = Some (h1, l, bluetooth_exit data (h1 data)).
Proof.
  intros Hnot Hw Hm Hc Hd Hk Hwait.
  rewrite (bluetooth_close_parked E data h l Hw Hm Hc Hd).
  unfold bluetooth_watcher. rewrite store_same.
  cbn [kill_watcher set_watcher]. rewrite Hk, Hwait. cbn [Z.eqb].
  cbn [remove_outstanding_data]. rewrite Nat.eqb_refl. reflexivity.
Qed.

End Reopen.

(** ** Opening the plugin *)

Lemma set_params_accepted alsa :
  (forall j, 0 <= alsa j) ->
  forall calls k made, fst (set_params alsa k calls made) = 0.
Proof.
  intros Hok. induction calls as [|c calls IH]; intros k made;
    cbn [set_params]; [reflexivity|].
  cbv zeta. destruct (Z.ltb_spec (alsa k) 0) as [Hneg | _].
  - specialize (Hok k). lia.
  - apply IH.
Qed.

(** When the handle accepts every constraint, the constraint function of
    A2DP returns 0 and changes the session only by the channel mode of the
    resource file. *)
Lemma a2dp_hw_constraint_accepted alsa data :
  (forall j, 0 <= alsa j) ->
  fst (bluetooth_a2dp_hw_constraint alsa data)
  = (0, if cfg_has_channel_mode (alsa_config data)
        then set_a2dp
               (set_sbc_capabilities
                  (set_cap_channel_mode (cfg_channel_mode (alsa_config data))
                     (sbc_capabilities (a2dp data))) (a2dp data)) data
        else data).
Proof.
  intros Hok. unfold bluetooth_a2dp_hw_constraint. cbv zeta.
  match goal with
  | |- context [set_params alsa O ?c ?m] =>
    pose proof (set_params_accepted alsa Hok c O m) as H1;
    destruct (set_params alsa O c m) as [err made]
  end.
  cbn [fst] in H1. subst err. cbn [Z.ltb Z.compare].
  match goal with
  | |- context [set_params alsa 2%nat ?c ?m] =>
    pose proof (set_params_accepted alsa Hok c 2%nat m) as H2;
    destruct (set_params alsa 2%nat c m) as [err made2]
  end.
  cbn [fst] in H2. subst err. reflexivity.
Qed.

Section OpenPlugin.

Context {X : ipc_h_ext} {L : stdlib_h}.

Lemma find_outstanding_rejected conf h l :
  fst (bluetooth_parse_config conf) < 0 -> find_outstanding conf h l = None.
Proof.
  intros H. destruct l as [|p l]; [reflexivity|]. cbn [find_outstanding].
  destruct (bluetooth_parse_config conf) as [err c]. cbn [fst] in H.
  apply Z.ltb_lt in H. rewrite H. reflexivity.
Qed.

(** X27.  A resource file with a field that is not accepted
    makes the plugin fail to open with -EINVAL, and the session that was
    just cleared to zeros is released as if it were open: descriptor 0 is
    closed as the service socket and as the stream socket, before the
    memory is freed. *)
Theorem open_with_rejected_resource_file E stream conf h l data :
  forallb node_accepted conf = false ->
  oe_malloc E = Some data ->
  snd_pcm_bluetooth_open E stream conf h l
  = Some (- EINVAL, None,
          store h data
            (set_pd_data
               (set_alsa_config (snd (bluetooth_parse_config conf))
                  (pd_data zeroed_data)) zeroed_data),
          l,
          [bt_audio_service_close 0; close 0;
           free_buffer; free_a2dp_buffer; free_data data]).
Proof.
  intros Hrej Hm.
  pose proof (parse_config_rejects_unknown_fields conf) as Hp.
  rewrite Hrej in Hp.
  unfold snd_pcm_bluetooth_open, bluetooth_find_outstanding_data.
  rewrite find_outstanding_rejected by (rewrite Hp; reflexivity).
  rewrite Hm. unfold bluetooth_init.
  destruct (bluetooth_parse_config conf) as [err c]. cbn [fst snd] in *.
  subst err. cbv zeta.
  change (- EINVAL <? 0) with true. cbv iota.
  unfold open_error. rewrite store_same. reflexivity.
Qed.

Ltac init_failed_here Hinit :=
  injection Hinit as <- <- <-; cbn;
  (split; [reflexivity|]); (split; [reflexivity|]);
  (split; [reflexivity|]); (split; [reflexivity|]);
  (split; [first [left; reflexivity | right; reflexivity]|]);
  (split; [reflexivity|]);
  let fd := fresh in
  let Hin := fresh in
  intros fd Hin;
  repeat (destruct Hin as [Hin | Hin]; [discriminate Hin|]);
  exact Hin.

(** A failure of [bluetooth_init] after the service socket was stored
    leaves the session with that socket, which [bluetooth_init] has just
    closed as its last action. *)
Lemma bluetooth_init_failed_late I conf err d ev :
  bluetooth_init I conf = Some (err, d, ev) ->
  fst (bluetooth_parse_config conf) = 0 ->
  0 < sys_ret (ie_open I) ->
  0 <= sys_ret (ie_setsockopt I) ->
  err <> 0 ->
  server_fd (pd_data d) = sys_ret (ie_open I)
  /\ stream_fd (pd_data d) = -1
  /\ hw_thread (pd_data d) = false
  /\ sbc_initialized (a2dp (pd_data d)) = false
  /\ (pipefd d = (-1, -1) \/ pipefd d = ie_pipefd I)
  /\ ev = removelast ev ++ [bt_audio_service_close (sys_ret (ie_open I))]
  /\ forall fd, ~ In (bt_audio_service_close fd) (removelast ev).
Proof.
  intros Hinit Hp Hsk Hso Herr. unfold bluetooth_init in Hinit.
  destruct (bluetooth_parse_config conf) as [err0 c]. cbn [fst] in Hp.
  subst err0. cbv zeta in Hinit. cbn [Z.ltb Z.compare] in Hinit.
  destruct (Z.leb_spec (sys_ret (ie_open I)) 0) as [Hle | _]; [lia|].
  destruct (Z.ltb_spec (sys_ret (ie_setsockopt I)) 0) as [Hlt | _]; [lia|].
  unfold init_failed in Hinit.
  destruct (Z.geb_spec (sys_ret (ie_open I)) 0) as [_ | Hlt]; [|lia].
  destruct (sys_ret (ie_pipe I) <? 0); [init_failed_here Hinit|].
  destruct (sys_ret (ie_fcntl0 I) <? 0); [init_failed_here Hinit|].
  destruct (sys_ret (ie_fcntl1 I) <? 0); [init_failed_here Hinit|].
  destruct (audioservice_send (ie_send I) <? 0);
    [destruct (ie_cond_init I <? 0), (ie_mutex_init I <? 0);
     init_failed_here Hinit|].
  destruct (audioservice_expect (ie_rsp I) BT_GET_CAPABILITIES <? 0).
  - destruct (ie_cond_init I <? 0), (ie_mutex_init I <? 0);
      init_failed_here Hinit.
  - destruct (bluetooth_parse_capabilities _ _) as [[r data']|];
      [|discriminate Hinit].
    injection Hinit as <- <- <-. contradiction Herr. reflexivity.
Qed.

(** X28.  When [bluetooth_init] fails after the service socket
    was opened and its timeout set (on the pipe, on a [fcntl], on the
    request or on the answer), the plugin fails to open with that error,
    and the service socket is closed twice in a row: once by
    [bluetooth_init] and once by [bluetooth_exit].  Then the ends of the
    pipe are closed if they were opened, and the memory is freed. *)
Theorem failed_init_closes_service_socket_twice
    E stream conf h l data err d ev :
  find_outstanding conf h l = None ->
  oe_malloc E = Some data ->
  bluetooth_init (oe_init E) conf = Some (err, d, ev) ->
  fst (bluetooth_parse_config conf) = 0 ->
  0 < sys_ret (ie_open (oe_init E)) ->
  0 <= sys_ret (ie_setsockopt (oe_init E)) ->
  err < 0 ->
  let sk := sys_ret (ie_open (oe_init E)) in
  snd_pcm_bluetooth_open E stream conf h l
  = Some (err, None, store h data d, l,
          removelast ev
          ++ [bt_audio_service_close sk; bt_audio_service_close sk]
          ++ (if fst (pipefd d) >? 0 then [close (fst (pipefd d))] else [])
          ++ (if snd (pipefd d) >? 0 then [close (snd (pipefd d))] else [])
          ++ [free_buffer; free_a2dp_buffer; free_data data])
  /\ forall fd, ~ In (bt_audio_service_close fd) (removelast ev).
Proof.
  intros Hfind Hm Hinit Hp Hsk Hso Herr. cbv zeta.
  destruct (bluetooth_init_failed_late _ _ _ _ _ Hinit Hp Hsk Hso
              ltac:(lia))
    as (Hs & Hst & Hth & Hsbc & _ & Hev & Hno).
  split; [|exact Hno].
  unfold snd_pcm_bluetooth_open, bluetooth_find_outstanding_data.
  rewrite Hfind, Hm, Hinit.
  apply Z.ltb_lt in Herr. rewrite Herr.
  unfold open_error, bluetooth_exit. rewrite store_same.
  rewrite Hs, Hst, Hth, Hsbc.
  destruct (Z.geb_spec (sys_ret (ie_open (oe_init E))) 0) as [_ | Hlt];
    [|lia].
  change (-1 >=? 0) with false. cbn [app].
  rewrite Hev at 1. rewrite <- app_assoc. reflexivity.
Qed.

(** Label [create_plugin] when the handle is created and accepts every
    constraint. *)
Lemma create_plugin_accepted E data h l ev :
  0 <= oe_create E ->
  (forall j, 0 <= oe_alsa E j) ->
  create_plugin E data h l ev
  = Some (0, Some data,
          (if transport (pd_data (h data)) =? BT_CAPABILITIES_TRANSPORT_A2DP
           then store h data
                  (set_pd_data
                     (snd (fst (bluetooth_a2dp_hw_constraint (oe_alsa E)
                                  (pd_data (h data))))) (h data))
           else h),
          l, ev ++ [snd_pcm_ioplug_create data]).
Proof.
  intros Hc Hok. unfold create_plugin. cbv zeta.
  destruct (Z.ltb_spec (oe_create E) 0) as [Hlt | _]; [lia|].
  destruct (transport (pd_data (h data)) =? BT_CAPABILITIES_TRANSPORT_A2DP).
  - pose proof (a2dp_hw_constraint_accepted (oe_alsa E) (pd_data (h data)) Hok)
      as Ha.
    destruct (bluetooth_a2dp_hw_constraint (oe_alsa E) (pd_data (h data)))
      as [[e d'] calls].
    cbn [fst snd] in *. injection Ha as -> _. reflexivity.
  - unfold bluetooth_hsp_hw_constraint.
    rewrite (set_params_accepted (oe_alsa E) Hok). reflexivity.
Qed.

(** X29.  When no parked session goes with the resource file, the
    memory is there, the service socket, its timeout, the pipe and both
    [fcntl] succeed, the request is sent and answered by
    BT_GET_CAPABILITIES, and the handle is created and accepts every
    constraint, the plugin opens with 0 whatever
    [bluetooth_parse_capabilities] returned: nothing is closed or freed,
    the new session holds the service socket and no stream socket, is in
    the state closed, and has the callbacks of its transport and of the
    direction asked for; the other sessions and the list are untouched. *)
Theorem open_new_session E stream conf h l data r data' :
  let I := oe_init E in
  let cfg := snd (bluetooth_parse_config conf) in
  let sk := sys_ret (ie_open I) in
  let opened :=
    set_a2dp_stream_state STREAM_CLOSED
      (set_server_fd sk
         (set_stream_fd (-1)
            (set_server_fd (-1)
               (set_alsa_config cfg (pd_data zeroed_data))))) in
  find_outstanding conf h l = None ->
  oe_malloc E = Some data ->
  forallb node_accepted conf = true ->
  0 < sk ->
  0 <= sys_ret (ie_setsockopt I) ->
  0 <= sys_ret (ie_pipe I) ->
  0 <= sys_ret (ie_fcntl0 I) ->
  0 <= sys_ret (ie_fcntl1 I) ->
  0 < sys_ret (ie_send I) ->
  audioservice_expect (ie_rsp I) BT_GET_CAPABILITIES = 0 ->
  bluetooth_parse_capabilities opened (ie_caps I) = Some (r, data') ->
  0 <= oe_create E ->
  (forall j, 0 <= oe_alsa E j) ->
  exists h',
    snd_pcm_bluetooth_open E stream conf h l
    = Some (0, Some data, h', l,
            [ctl_send_get_capabilities
               (if cfg_autoconnect cfg then BT_FLAG_AUTOCONNECT else 0)
               (memread (c_string (cfg_device cfg)) 0 18)
               (if cfg_has_transport cfg then cfg_transport cfg
                else uint8_t BT_CAPABILITIES_TRANSPORT_ANY);
             ctl_recv BT_GET_CAPABILITIES;
             snd_pcm_ioplug_create data])
    /\ (forall p, p <> data -> h' p = h p)
    /\ pd_data (h' data)
       = (if (transport data' =? BT_CAPABILITIES_TRANSPORT_A2DP)
             && cfg_has_channel_mode (alsa_config data')
          then set_a2dp
                 (set_sbc_capabilities
                    (set_cap_channel_mode
                       (cfg_channel_mode (alsa_config data'))
                       (sbc_capabilities (a2dp data'))) (a2dp data')) data'
          else data')
    /\ pipefd (h' data) = ie_pipefd I
    /\ watcher (h' data)
       = (if (ie_cond_init I <? 0) || (ie_mutex_init I <? 0) then -1 else 0)
    /\ kill_watcher (h' data) = 0
    /\ io_callback (h' data)
       = Some (if transport data' =? BT_CAPABILITIES_TRANSPORT_A2DP
               then match stream with
                    | SND_PCM_STREAM_PLAYBACK => bluetooth_a2dp_playback
                    | SND_PCM_STREAM_CAPTURE => bluetooth_a2dp_capture
                    end
               else match stream with
                    | SND_PCM_STREAM_PLAYBACK => bluetooth_hsp_playback
                    | SND_PCM_STREAM_CAPTURE => bluetooth_hsp_capture
                    end).
Proof.
  cbv zeta.
  intros Hfind Hm Hacc Hsk Hso Hpipe Hf0 Hf1 Hsend Hexp Hcaps Hc Hok.
  pose proof (parse_config_rejects_unknown_fields conf) as Hp.
  rewrite Hacc in Hp.
  unfold snd_pcm_bluetooth_open, bluetooth_find_outstanding_data.
  rewrite Hfind, Hm. unfold bluetooth_init.
  destruct (bluetooth_parse_config conf) as [err cfg].
  cbn [fst snd] in *. subst err. cbv zeta. cbn [Z.ltb Z.compare].
  destruct (Z.leb_spec (sys_ret (ie_open (oe_init E))) 0) as [Hle | _];
    [lia|].
  destruct (Z.ltb_spec (sys_ret (ie_setsockopt (oe_init E))) 0) as [Hlt | _];
    [lia|].
  destruct (Z.ltb_spec (sys_ret (ie_pipe (oe_init E))) 0) as [Hlt | _];
    [lia|].
  destruct (Z.ltb_spec (sys_ret (ie_fcntl0 (oe_init E))) 0) as [Hlt | _];
    [lia|].
  destruct (Z.ltb_spec (sys_ret (ie_fcntl1 (oe_init E))) 0) as [Hlt | _];
    [lia|].
  unfold audioservice_send.
  destruct (Z.gtb_spec (sys_ret (ie_send (oe_init E))) 0) as [_ | Hle];
    [|lia].
  cbn [Z.ltb Z.compare]. rewrite Hexp. cbn [Z.ltb Z.compare].
  assert (Hd : forall w,
            pd_data
              (set_pd_data
                 (set_a2dp_stream_state STREAM_CLOSED (pd_data w)) w)
            = set_a2dp_stream_state STREAM_CLOSED (pd_data w))
    by reflexivity.
  destruct (ie_cond_init (oe_init E) <? 0), (ie_mutex_init (oe_init E) <? 0);
    cbn [pd_data set_pd_data set_watcher set_pipefd pipefd watcher
         kill_watcher io_callback zeroed_data];
    cbn [pd_data set_pd_data set_watcher set_pipefd pipefd watcher
         kill_watcher io_callback zeroed_data] in Hcaps;
    rewrite Hcaps; cbn [Z.ltb Z.compare];
    rewrite create_plugin_accepted by assumption;
    rewrite !store_same;
    cbn [pd_data set_pd_data set_io_callback];
    (eexists; split; [reflexivity|]);
    (split; [intros p Hne; unfold store;
             destruct (transport data' =? BT_CAPABILITIES_TRANSPORT_A2DP);
             unfold store;
             destruct (Nat.eqb_spec p data); congruence|]);
    (destruct (transport data' =? BT_CAPABILITIES_TRANSPORT_A2DP);
     [rewrite store_same, a2dp_hw_constraint_accepted by assumption
     |rewrite store_same]);
    cbn [andb orb pd_data set_pd_data set_io_callback pipefd watcher
         kill_watcher io_callback snd];
    repeat split; reflexivity.
Qed.

(** X30.  A session parked by [bluetooth_close] is taken again when
    the plugin is opened with the resource file it was opened with: the
    handle is created on it and constrained, and the result is 0 and the
    same session.  No memory is asked for and nothing is sent to the audio
    service; the sockets, the state of the stream and the transfer unit
    are those of the session before it was closed, and so are the
    callbacks, whatever the direction asked for. *)
Theorem reopen_takes_parked_session E O stream conf data h l :
  0 <= watcher (h data) ->
  ce_malloc E = true ->
  fst (ce_pthread_create E) = 0 ->
  ce_pthread_detach E = 0 ->
  bluetooth_parse_config conf = (0, alsa_config (pd_data (h data))) ->
  0 <= oe_create O ->
  (forall j, 0 <= oe_alsa O j) ->
  let '(ret, h1, l1, ev1) := bluetooth_close E data h l in
  ret = 0 /\ ev1 = []
  /\ exists h2,
       snd_pcm_bluetooth_open O stream conf h1 l1
       = Some (0, Some data, h2, l,
               [pthread_cond_signal data; snd_pcm_ioplug_create data])
       /\ io_callback (h2 data) = io_callback (h data)
       /\ pipefd (h2 data) = pipefd (h data)
       /\ pd_data (h2 data)
          = (if (transport (pd_data (h data))
                 =? BT_CAPABILITIES_TRANSPORT_A2DP)
                && cfg_has_channel_mode (alsa_config (pd_data (h data)))
             then set_a2dp
                    (set_sbc_capabilities
                       (set_cap_channel_mode
                          (cfg_channel_mode (alsa_config (pd_data (h data))))
                          (sbc_capabilities (a2dp (pd_data (h data)))))
                       (a2dp (pd_data (h data)))) (pd_data (h data))
             else pd_data (h data)).
Proof.
  intros Hw Hmal Hcr Hdet Hconf Hc Hok.
  rewrite (bluetooth_close_parked E data h l Hw Hmal Hcr Hdet).
  split; [reflexivity|]. split; [reflexivity|].
  unfold snd_pcm_bluetooth_open, bluetooth_find_outstanding_data.
  cbn [find_outstanding]. rewrite Hconf. cbn [Z.ltb Z.compare].
  rewrite store_same.
  unfold same_device.
  cbn [pd_data set_watcher]. rewrite strcmp_eq_refl, Z.eqb_refl.
  cbn [andb]. unfold bluetooth_kill_watcher.
  rewrite create_plugin_accepted by assumption.
  rewrite !store_same. cbn [pd_data set_kill_watcher set_watcher app].
  cbn [remove_outstanding_data]. rewrite Nat.eqb_refl.
  eexists. split; [reflexivity|].
  destruct (transport (pd_data (h data)) =? BT_CAPABILITIES_TRANSPORT_A2DP);
    rewrite store_same;
    [rewrite a2dp_hw_constraint_accepted by assumption|];
    cbn [andb pd_data set_pd_data set_kill_watcher set_watcher io_callback
         pipefd snd];
    repeat split; reflexivity.
Qed.

End OpenPlugin.

End Verification.

(** * Concrete runs *)




(** A capture stream with periods of 1024 frames whose START is refused:
    the pointer is 1024 all the same. *)
Lemma prepare_initial_pointer_witness :
  let data := fresh_session
    (sample_io SND_PCM_STREAM_CAPTURE SND_PCM_STATE_SETUP 0 0)
    (remote_sink 2 53) in
  let E := {| pe_start_send := ok_syscall 4;
              pe_start_rsp := @error_answer 4 EAGAIN;
              pe_new_stream := answer 3 0 0;
              pe_data_fd := ok_syscall 7;
              pe_setsockopt1 := ok_syscall 0;
              pe_setsockopt2 := ok_syscall 0;
              pe_pipe_write := 1 |} in
  0 < io_period_size (io data) < 2 ^ 32
  /\ exists ret data' tr,
       @bluetooth_prepare bluez_ipc E data = Some (ret, data', tr)
       /\ bluetooth_pointer data' = 1024.
Proof.
  cbn zeta. split; [cbn; lia|].
  destruct (@prepare_initial_pointer bluez_ipc
    {| pe_start_send := ok_syscall 4;
       pe_start_rsp := @error_answer 4 EAGAIN;
       pe_new_stream := answer 3 0 0;
       pe_data_fd := ok_syscall 7;
       pe_setsockopt1 := ok_syscall 0;
       pe_setsockopt2 := ok_syscall 0;
       pe_pipe_write := 1 |}
    (fresh_session (sample_io SND_PCM_STREAM_CAPTURE SND_PCM_STATE_SETUP 0 0)
       (remote_sink 2 53)) ltac:(cbn; lia))
    as (ret & data' & tr & H & Hptr).
  exists ret, data', tr. split; [exact H|].
  cbn in Hptr. destruct Hptr as (_ & _ & Hptr). apply Hptr. lia.
Defined.

(** A remote sink that advertises bitpools 2..40: 44100 Hz joint stereo
    gives 53 in the table, and the maximum bitpool derived is 40. *)
Lemma default_bitpool_clamped_witness :
  In (hw_rate stereo_44100) [16000; 32000; 44100; 48000]
  /\ cfg_has_bitpool plain_config = false
  /\ exists cap',
       @bluetooth_a2dp_init bluez_ipc plain_config stereo_44100 (remote_sink 2 40)
       = (0, cap')
       /\ cap_max_bitpool cap' = 40
       /\ 2 <= cap_max_bitpool cap' <= 40.
Proof.
  split; [cbn; auto|]. split; [reflexivity|].
  eexists. split; [vm_compute; reflexivity|].
  pose proof (@default_bitpool_clamped_to_remote_maximum bluez_ipc
                plain_config stereo_44100 (remote_sink 2 40) _
                ltac:(cbn; auto) eq_refl eq_refl) as H.
  cbv zeta in H. destruct H as (H1 & _ & _ & H4 & _).
  split; [exact H1|]. apply H4; cbn; lia.
Defined.

Ltac by_computation :=
  vm_compute; first [reflexivity | (let H := fresh in intro H; discriminate H)].

(** The stand-in codec keeps to the output space it is given. *)
Lemma stand_in_respects_output_len : @encoder_respects_output_len stand_in_sbc.
Proof.
  intros s input il ol. cbn [sbc_encode stand_in_sbc]. unfold stand_in_encode.
  destruct (il <? stand_in_codesize s); [intros H; lia|].
  destruct (Z.ltb_spec ol (frame_length s)); cbn [orb];
    [intros H0; unfold ENOSPC in H0; lia|].
  destruct (Z.ltb_spec (frame_length s) 0);
    [intros H1; unfold ENOSPC in H1; lia|].
  intros _. lia.
Qed.

(** The stand-in codec stores no more than the output space. *)
Lemma stand_in_stores_within_output_len :
  @encoder_stores_within_output_len stand_in_sbc.
Proof.
  intros s input il ol Hol. cbn [sbc_encode stand_in_sbc].
  unfold stand_in_encode.
  destruct (il <? stand_in_codesize s); [exact Hol|].
  destruct (Z.ltb_spec ol (frame_length s)); cbn [orb]; [exact Hol|].
  destruct (Z.ltb_spec (frame_length s) 0); [exact Hol|].
  rewrite repeat_length. lia.
Qed.

(** The 4-bit frame-count field of the header BlueZ ships lies within
    the payload byte; on the configured session, a packet built with 7
    frames in the wire buffer reads back 7. *)
Lemma header_round_trip_witness :
  let data0 := configured_session 895 in
  let data := set_a2dp (set_frame_count 7 (a2dp data0)) data0 in
  0 <= @frame_count_bits bluez_rtp <= 8
  /\ (exists buf, a2dp_buffer (a2dp data) = Some buf
                  /\ header_size <= a2dp_count (a2dp data)
                     <= Z.of_nat (length buf))
  /\ let '(_, data', tr) := @avdtp_write bluez_rtp (writable 13) data in
     exists p, tr = [DataSend p]
               /\ @rtp_frame_count bluez_rtp (firstn 13 (pkt_bytes p)) = 7.
Proof.
  cbv zeta.
  assert (HW : 0 <= @frame_count_bits bluez_rtp <= 8)
    by (unfold frame_count_bits, bluez_rtp; lia).
  assert (Hb : exists buf,
             a2dp_buffer (a2dp (set_a2dp (set_frame_count 7
                                  (a2dp (configured_session 895)))
                                  (configured_session 895))) = Some buf
             /\ header_size
                <= a2dp_count (a2dp (set_a2dp (set_frame_count 7
                                     (a2dp (configured_session 895)))
                                     (configured_session 895)))
                <= Z.of_nat (length buf)).
  { eexists. split; [vm_compute; reflexivity|]. split; by_computation. }
  split; [exact HW|]. split; [exact Hb|].
  destruct Hb as (buf & Hbuf & Hcnt).
  pose proof (@header_round_trip bluez_rtp (writable 13) _ buf HW Hbuf Hcnt)
    as H.
  destruct (avdtp_write _ _) as [[ret data'] tr] eqn:Hw.
  cbv zeta in H. destruct H as [_ Hp].
  assert (Htr : exists p, tr = [DataSend p]).
  { assert (Ht : snd (@avdtp_write bluez_rtp (writable 13)
                        (set_a2dp (set_frame_count 7
                                     (a2dp (configured_session 895)))
                           (configured_session 895))) = tr)
      by (rewrite Hw; reflexivity).
    rewrite <- Ht. eexists. vm_compute. reflexivity. }
  destruct Htr as [p ->]. exists p. split; [reflexivity|].
  destruct (Hp p ltac:(left; reflexivity)) as (_ & _ & _ & Hfc & _).
  rewrite Hfc. reflexivity.
Defined.

(** The session configured with a transfer unit of 895 bytes: both
    buffers have 895 bytes, more than a block of 512, and three transfers
    of 100, 28 and 300 frames run within them. *)
Lemma packets_fit_transfer_unit_witness :
  @encoder_respects_output_len stand_in_sbc
  /\ @encoder_stores_within_output_len stand_in_sbc
  /\ in_bounds 895 895 (configured_session 895)
  /\ Forall (fun c => int32_t (ar_step (wc_areas c) / 8) <> 0)
       [stereo_write 100; stereo_write 28; stereo_write 300]
  /\ exists rets data' tr,
       @a2dp_writes stand_in_sbc bluez_rtp
         [stereo_write 100; stereo_write 28; stereo_write 300]
         (configured_session 895)
       = Some (rets, data', tr)
       /\ (forall p, In (DataSend p) tr -> pkt_len p <= 895)
       /\ in_bounds 895 895 data'.
Proof.
  assert (H1 : in_bounds 895 895 (configured_session 895)).
  { unfold in_bounds, wire_fill_ok. repeat split; by_computation. }
  assert (H3 : Forall (fun c => int32_t (ar_step (wc_areas c) / 8) <> 0)
                 [stereo_write 100; stereo_write 28; stereo_write 300]).
  { repeat constructor; by_computation. }
  split; [exact stand_in_respects_output_len|].
  split; [exact stand_in_stores_within_output_len|].
  split; [exact H1|]. split; [exact H3|].
  destruct (@packets_fit_transfer_unit stand_in_sbc bluez_rtp 895%nat 895%nat
              [stereo_write 100; stereo_write 28; stereo_write 300]
              (configured_session 895)
              stand_in_respects_output_len stand_in_stores_within_output_len
              H1 H3)
    as (rets & data' & tr & Hw & Hp & Hin & _).
  exists rets, data', tr. split; [exact Hw|].
  split; [intros p Hpin; apply Hp in Hpin; exact (proj2 Hpin) | exact Hin].
Defined.

(** The transfer unit is not checked against the size of the headers
    either: when the audio service reports 10 bytes, the configuration
    succeeds and leaves a wire buffer of 10 bytes with a fill of 13. *)
Example wire_buffer_shorter_than_headers :
  let '(ret, data, _) :=
    @bluetooth_a2dp_hw_params bluez_ipc stand_in_sbc
      (accepting 10 true true) stereo_44100
      (fresh_session
         (sample_io SND_PCM_STREAM_PLAYBACK SND_PCM_STATE_RUNNING 0 0)
         (remote_sink 2 53)) in
  ret = 0 /\ link_mtu data = 10
  /\ length (NULL_bytes (a2dp_buffer (a2dp data))) = 10%nat
  /\ a2dp_count (a2dp data) = 13.
Proof. vm_compute. repeat split. Qed.



(** The number of channels of a request is not compared: a request for one
    channel on a session negotiated for joint stereo is not the stored
    configuration, and is answered without any exchange. *)
Example mono_request_on_stereo_session_is_skipped :
  cap_channel_mode (sbc_capabilities (a2dp (configured_session 895)))
  = @BT_A2DP_CHANNEL_MODE_JOINT_STEREO bluez_ipc
  /\ ~ @identical_request bluez_ipc (configured_session 895) mono_44100
  /\ @bluetooth_a2dp_hw_params bluez_ipc stand_in_sbc
       (accepting 895 true true) mono_44100 (configured_session 895)
     = (0, configured_session 895, []).
Proof.
  split; [vm_compute; reflexivity|]. split.
  - intros (_ & _ & _ & _ & _ & H). vm_compute in H. discriminate H.
  - vm_compute. reflexivity.
Qed.

(** The configured session, when the audio service answers START_STREAM
    with the error EAGAIN: prepare returns [-EAGAIN] with the stream
    Closed. *)
Lemma start_failure_witness :
  let E := {| pe_start_send := ok_syscall 4;
              pe_start_rsp := error_answer 4 EAGAIN;
              pe_new_stream := answer 3 0 0;
              pe_data_fd := ok_syscall 7;
              pe_setsockopt1 := ok_syscall 0;
              pe_setsockopt2 := ok_syscall 0;
              pe_pipe_write := 1 |} in
  io_period_size (io (configured_session 895)) <> 0
  /\ a2dp_stream_state (configured_session 895) <> STREAM_STARTED
  /\ exists data' tr,
       @bluetooth_prepare bluez_ipc E (configured_session 895)
       = Some (- EAGAIN, data', tr)
       /\ a2dp_stream_state data' = STREAM_CLOSED.
Proof.
  cbv zeta.
  assert (H1 : io_period_size (io (configured_session 895)) <> 0)
    by by_computation.
  assert (H2 : a2dp_stream_state (configured_session 895) <> STREAM_STARTED)
    by by_computation.
  split; [exact H1|]. split; [exact H2|].
  destruct (@start_failure_resets_only_on_eagain bluez_ipc
              {| pe_start_send := ok_syscall 4;
                 pe_start_rsp := error_answer 4 EAGAIN;
                 pe_new_stream := answer 3 0 0;
                 pe_data_fd := ok_syscall 7;
                 pe_setsockopt1 := ok_syscall 0;
                 pe_setsockopt2 := ok_syscall 0;
                 pe_pipe_write := 1 |}
              (configured_session 895) H1 H2)
    as (ret & data' & tr & Hp & Hagain & _).
  destruct Hagain as [Hret Hstate]; [by_computation | reflexivity |].
  subst ret. exists data', tr. split; [exact Hp | exact Hstate].
Defined.

(** A running stream with periods of 1024 frames in a buffer of 3072:
    120 ms after the origin, with 3 periods already counted, 2 more have
    elapsed; the pointer goes from 2048 to 1024 (4096 modulo 3072) and two
    notifications are written. *)
Lemma hw_pointer_witness :
  let data := set_hw_ptr 2048 (configured_session 895) in
  let l := {| prev_periods := 3; start := {| tv_sec := 7; tv_nsec := 900000000 |} |} in
  let clk := {| clk_reset := {| tv_sec := 0; tv_nsec := 0 |};
                clk_cur := {| tv_sec := 8; tv_nsec := 20000000 |};
                clk_rebase := {| tv_sec := 0; tv_nsec := 0 |};
                clk_cancel := fun _ => false |} in
  let periods_of := fun dtime => dtime * 44150 / 1024000000 in
  (stopped data = 0 /\ reset data = 0
   /\ normalised (start l) /\ normalised (clk_cur clk)
   /\ usec_between (start l) (clk_cur clk) = 120000
   /\ 0 < io_period_size (io data) /\ 0 < io_buffer_size (io data)
   /\ 0 <= prev_periods l /\ 0 <= hw_ptr data
   /\ hw_ptr data + 2 * io_period_size (io data) < 2 ^ 31)
  /\ let '(exited, _, l', data', tr) :=
       hw_thread_advance periods_of clk l data in
     exited = false /\ bluetooth_pointer data' = 1024
     /\ tr = [Notify; Notify]
     /\ prev_periods l' = 5 /\ start l' = start l.
Proof.
  cbv zeta.
  split; [repeat split; by_computation|].
  pose proof (hw_pointer_advances_by_whole_periods
    (fun dtime => dtime * 44150 / 1024000000)
    {| clk_reset := {| tv_sec := 0; tv_nsec := 0 |};
       clk_cur := {| tv_sec := 8; tv_nsec := 20000000 |};
       clk_rebase := {| tv_sec := 0; tv_nsec := 0 |};
       clk_cancel := fun _ => false |}
    {| prev_periods := 3; start := {| tv_sec := 7; tv_nsec := 900000000 |} |}
    (set_hw_ptr 2048 (configured_session 895))
    ltac:(reflexivity) ltac:(reflexivity)
    ltac:(split; by_computation) ltac:(split; by_computation)
    ltac:(split; by_computation)
    ltac:(by_computation) ltac:(by_computation) ltac:(by_computation)
    ltac:(by_computation) ltac:(by_computation)) as H.
  destruct (hw_thread_advance _ _ _ _) as [[[[exited k] l'] data'] tr].
  destruct H as (_ & _ & Hptr & (m & _ & Htr & Hm) & Hloc & Hex).
  assert (He : exited = false) by (apply Hex; reflexivity).
  split; [exact He|]. split.
  - rewrite Hptr by by_computation. reflexivity.
  - split; [rewrite Htr, (Hm He); reflexivity|].
    specialize (Hloc He ltac:(by_computation)).
    change (usec_between {| tv_sec := 7; tv_nsec := 900000000 |}
              {| tv_sec := 8; tv_nsec := 20000000 |} / 1000000
            <? UINT_SECS_MAX) with true in Hloc.
    destruct Hloc as [Hs Hp]. split; [rewrite Hp; reflexivity | exact Hs].
Defined.

(** ** Further runs *)

(** The second [realloc] fails: [-ENOMEM], and both buffers are NULL. *)
Example second_realloc_fails :
  let '(ret, data', _) :=
    @bluetooth_a2dp_hw_params bluez_ipc stand_in_sbc
      (accepting 895 true false) stereo_44100
      (fresh_session
         (sample_io SND_PCM_STREAM_PLAYBACK SND_PCM_STATE_SETUP 0 0)
         (remote_sink 2 53)) in
  ret = - ENOMEM /\ buffer data' = None /\ a2dp_buffer (a2dp data') = None.
Proof. vm_compute. repeat split. Qed.

(** A packet dropped on a congested socket takes the sequence number
    65535; the next one is 0. *)
Example dropped_packet_takes_sequence_number :
  let data0 := configured_session 895 in
  let data := set_a2dp (set_seq_num 65535 (a2dp data0)) data0 in
  let '(ret, data', tr) := @avdtp_write bluez_rtp congested data in
  ret = 0 /\ tr = [] /\ seq_num (a2dp data') = 0
  /\ a2dp_count (a2dp data') = 13.
Proof. vm_compute. repeat split. Qed.

(** The scenario of the specification: 44100 Hz joint stereo, 8 subbands,
    16 blocks, bitpool 53 from the table, blocks of 512 bytes.  One block
    is encoded once and not yet sent; seven blocks fill one packet of 846
    bytes, sent once. *)
Example one_block_one_encode :
  cap_max_bitpool (sbc_capabilities (a2dp (configured_session 895))) = 53
  /\ codesize (a2dp (configured_session 895)) = 512
  /\ (exists data' input,
        @a2dp_writes stand_in_sbc bluez_rtp [stereo_write 128]
          (configured_session 895)
        = Some ([128], data', [Encode input])
        /\ frame_count (a2dp data') = 1)
  /\ (exists rets data' tr p,
        @a2dp_writes stand_in_sbc bluez_rtp [stereo_write 896]
          (configured_session 895)
        = Some (rets, data', tr)
        /\ filter (fun e => match e with DataSend _ => true | _ => false end) tr
           = [DataSend p]
        /\ pkt_len p = 846).
Proof.
  split; [reflexivity|]. split; [reflexivity|]. split.
  - eexists _, _. split; vm_compute; reflexivity.
  - eexists _, _, _, _. split; [vm_compute; reflexivity|].
    split; vm_compute; reflexivity.
Qed.

(** C6.  The failing input.  Nothing bounds the number of frames in a
    packet, and the frame-count field of the payload header has 4 bits.
    On the session configured for 44100 Hz joint stereo at bitpool 53
    (frames of 119 bytes) with a transfer unit of 2000 bytes, whose buffers
    hold a block and a transfer unit, a transfer of 2048 frames encodes 16
    blocks and sends them as one packet of 13 + 16 * 119 bytes, all within
    the buffers; the frame count of that packet reads back as 0. *)
Theorem sixteen_frames_read_back_as_zero :
  in_bounds 2000 2000 (configured_session 2000)
  /\ exists rets data' tr p,
       @a2dp_writes stand_in_sbc bluez_rtp [stereo_write 2048]
         (configured_session 2000)
       = Some (rets, data', tr)
       /\ in_bounds 2000 2000 data'
       /\ length (filter (fun e => match e with Encode _ => true | _ => false end)
                    tr) = 16%nat
       /\ filter (fun e => match e with DataSend _ => true | _ => false end) tr
          = [DataSend p]
       /\ pkt_len p = 13 + 16 * 119
       /\ length (pkt_bytes p) = Z.to_nat (pkt_len p)
       /\ @rtp_frame_count bluez_rtp (pkt_bytes p) = 0
       /\ @rtp_frame_count bluez_rtp (pkt_bytes p) <> 16.
Proof.
  assert (Hin : in_bounds 2000 2000 (configured_session 2000)).
  { unfold in_bounds, wire_fill_ok. repeat split; by_computation. }
  split; [exact Hin|].
  assert (Hw : exists r,
             @a2dp_writes stand_in_sbc bluez_rtp [stereo_write 2048]
               (configured_session 2000) = Some r)
    by (eexists; vm_compute; reflexivity).
  destruct Hw as [[[rets data'] tr] Hw].
  assert (Htr : snd (match @a2dp_writes stand_in_sbc bluez_rtp
                             [stereo_write 2048] (configured_session 2000)
                     with Some r => r | None => ([], data', []) end) = tr)
    by (rewrite Hw; reflexivity).
  assert (Hp : exists p,
             filter (fun e => match e with DataSend _ => true | _ => false end)
               tr = [DataSend p]
             /\ pkt_len p = 13 + 16 * 119
             /\ length (pkt_bytes p) = Z.to_nat (pkt_len p)
             /\ @rtp_frame_count bluez_rtp (pkt_bytes p) = 0).
  { rewrite <- Htr. eexists.
    split; [vm_compute; reflexivity|].
    split; [vm_compute; reflexivity|].
    split; vm_compute; reflexivity. }
  destruct Hp as (p & Hsend & Hlen & Hbytes & Hfc).
  exists rets, data', tr, p.
  split; [exact Hw|].
  split; [exact (@a2dp_writes_in_bounds stand_in_sbc bluez_rtp 2000 2000 _ _ _
                   _ _ stand_in_respects_output_len
                   stand_in_stores_within_output_len Hin Hw)|].
  split; [rewrite <- Htr; vm_compute; reflexivity|].
  split; [exact Hsend|]. split; [exact Hlen|]. split; [exact Hbytes|].
  split; [exact Hfc | rewrite Hfc; discriminate].
Qed.





(** C3.  The failing input.  The audio service reports a transfer unit
    of 300 bytes for 44100 Hz joint stereo, where a block has 512 bytes.
    The configuration succeeds and allocates [data->buffer] with the 300
    bytes of the transfer unit.  A transfer of 100 frames (400 bytes, less
    than a block) is then kept as carry: the call reports all 100 frames as
    taken and stores 400 bytes at the start of that buffer, 100 of them past
    its end (the list of the model is 400 long). *)
Theorem carry_outgrows_buffer_of_transfer_unit :
  let '(ret, data, _) :=
    @bluetooth_a2dp_hw_params bluez_ipc stand_in_sbc
      (accepting 300 true true) stereo_44100
      (fresh_session
         (sample_io SND_PCM_STREAM_PLAYBACK SND_PCM_STATE_RUNNING 0 0)
         (remote_sink 2 53)) in
  ret = 0 /\ data = configured_session 300
  /\ link_mtu data = 300
  /\ length (NULL_bytes (buffer data)) = 300%nat
  /\ codesize (a2dp data) = 512
  /\ count data = 0
  /\ exists data',
       @bluetooth_a2dp_write stand_in_sbc bluez_rtp
         (wc_env (stereo_write 100)) (wc_areas (stereo_write 100)) 0 100
         (set_io (wc_io (stereo_write 100)) data)
       = Some (100, data', [])
       /\ count data' = 400
       /\ length (NULL_bytes (buffer data')) = 400%nat
       /\ Z.of_nat (length (NULL_bytes (buffer data))) < count data'.
Proof.
  assert (Hrun : exists data',
             @bluetooth_a2dp_write stand_in_sbc bluez_rtp
               (wc_env (stereo_write 100)) (wc_areas (stereo_write 100)) 0 100
               (set_io (wc_io (stereo_write 100)) (configured_session 300))
             = Some (100, data', [])
             /\ count data' = 400
             /\ length (NULL_bytes (buffer data')) = 400%nat)
    by (eexists; split; [vm_compute; reflexivity
                        | split; vm_compute; reflexivity]).
  destruct Hrun as (data' & Hw & Hc & Hl).
  destruct (@bluetooth_a2dp_hw_params bluez_ipc stand_in_sbc
              (accepting 300 true true) stereo_44100
              (fresh_session
                 (sample_io SND_PCM_STREAM_PLAYBACK SND_PCM_STATE_RUNNING 0 0)
                 (remote_sink 2 53))) as [[ret data] tr] eqn:Hhw.
  assert (Hret : ret = 0).
  { change ret with (fst (fst (ret, data, tr))). rewrite <- Hhw.
    vm_compute. reflexivity. }
  assert (Hdata : data = configured_session 300).
  { unfold configured_session. rewrite Hhw. reflexivity. }
  subst data.
  split; [exact Hret|]. split; [reflexivity|].
  split; [vm_compute; reflexivity|]. split; [vm_compute; reflexivity|].
  split; [vm_compute; reflexivity|]. split; [vm_compute; reflexivity|].
  exists data'. split; [exact Hw|]. split; [exact Hc|].
  split; [exact Hl|]. rewrite Hc. vm_compute. reflexivity.
Qed.

(** ** Concrete runs of the rest of the plugin *)

(** SCO packets of 48 bytes, mono frames of 2 bytes, 16 bytes already
    handed over: a request for 8 frames is served from the buffer and moves
    [count] to 32. *)
Lemma hsp_read_serves_buffered_packet_witness :
  let data := set_count 16 (sco_session SND_PCM_STREAM_CAPTURE 48) in
  let areas := pcm_area 1 64 in
  (0 < ar_step areas / 8 < 2 ^ 32
   /\ 0 < link_mtu data < 2 ^ 32
   /\ 0 < count data < link_mtu data
   /\ 0 <= 8 < 2 ^ 31
   /\ count data + 8 * (ar_step areas / 8) < 2 ^ 32)
  /\ exists data' areas',
       bluetooth_hsp_read (failed_recv EIO) areas 0 8 data
       = Some (8, data', areas')
       /\ count data' = 32.
Proof.
  cbv zeta.
  split; [repeat split; by_computation|].
  destruct (hsp_read_serves_buffered_packet (failed_recv EIO)
              (pcm_area 1 64) 0 8
              (set_count 16 (sco_session SND_PCM_STREAM_CAPTURE 48))
              ltac:(split; by_computation) ltac:(split; by_computation)
              ltac:(split; by_computation) ltac:(split; by_computation)
              ltac:(by_computation))
    as (data' & areas' & Hr & _ & _ & _ & Hc & _).
  exists data', areas'. split; [exact Hr|].
  rewrite Hc. reflexivity.
Defined.

(** An empty buffer and a packet of 48 bytes: a request for 8 mono frames
    stores the packet, advances the hardware pointer by 24 frames and hands
    over the bytes 1 to 16. *)
Lemma hsp_read_receives_one_packet_witness :
  let data := sco_session SND_PCM_STREAM_CAPTURE 48 in
  let areas := pcm_area 1 64 in
  (0 < ar_step areas / 8 < 2 ^ 32
   /\ 0 < link_mtu data < 2 ^ 31
   /\ count data = 0
   /\ sys_ret (rx_recv (packet_of 48)) = link_mtu data
   /\ 0 < io_buffer_size (io data) <= 2 ^ 31
   /\ 0 <= hw_ptr data
   /\ hw_ptr data + link_mtu data / (ar_step areas / 8) < 2 ^ 32
   /\ 0 <= 8 < 2 ^ 31
   /\ 8 * (ar_step areas / 8) < 2 ^ 32)
  /\ exists data' areas',
       bluetooth_hsp_read (packet_of 48) areas 0 8 data
       = Some (8, data', areas')
       /\ hw_ptr data' = 24
       /\ count data' = 16
       /\ firstn 16 (ar_addr areas') = map Z.of_nat (seq 1 16).
Proof.
  cbv zeta.
  split; [repeat split; by_computation|].
  destruct (hsp_read_receives_one_packet (packet_of 48)
              (pcm_area 1 64) 0 8 (sco_session SND_PCM_STREAM_CAPTURE 48)
              ltac:(split; by_computation) ltac:(split; by_computation)
              ltac:(reflexivity) ltac:(reflexivity)
              ltac:(split; by_computation) ltac:(by_computation)
              ltac:(by_computation) ltac:(split; by_computation)
              ltac:(by_computation))
    as (data' & areas' & Hr & _ & _ & Hh & Hc & Ha).
  exists data', areas'. split; [exact Hr|].
  rewrite Hh, Hc, Ha. repeat split; reflexivity.
Defined.

(** An empty buffer and a packet of 24 bytes where 48 are expected: the
    result is [-EIO]. *)
Lemma hsp_read_rejects_short_packet_witness :
  let data := sco_session SND_PCM_STREAM_CAPTURE 48 in
  let rx := {| rx_recv := {| sys_ret := 24; sys_errno := EAGAIN |};
               rx_bytes := repeat 7 24 |} in
  (count data = 0
   /\ - 2 ^ 31 <= sys_ret (rx_recv rx) < 2 ^ 31
   /\ 0 < sys_errno (rx_recv rx) < 2 ^ 31
   /\ 0 <= link_mtu data < 2 ^ 32
   /\ sys_ret (rx_recv rx) <> link_mtu data)
  /\ exists data',
       bluetooth_hsp_read rx (pcm_area 1 64) 0 8 data
       = Some (- EIO, data', pcm_area 1 64).
Proof.
  cbv zeta.
  split; [repeat split; by_computation|].
  destruct (hsp_read_rejects_short_packet
              {| rx_recv := {| sys_ret := 24; sys_errno := EAGAIN |};
                 rx_bytes := repeat 7 24 |}
              (pcm_area 1 64) 0 8 (sco_session SND_PCM_STREAM_CAPTURE 48)
              ltac:(reflexivity) ltac:(split; by_computation)
              ltac:(split; by_computation) ltac:(split; by_computation)
              ltac:(by_computation))
    as (ret & data' & Hr & _ & Hio & _).
  exists data'. rewrite <- (Hio ltac:(by_computation)). exact Hr.
Defined.

(** Packets of 49 bytes and frames of 2: with 48 bytes handed over, one
    byte is left; a request for 8 frames returns 0 and changes nothing. *)
Lemma hsp_read_stalls_on_partial_frame_witness :
  let data := set_count 48 (sco_session SND_PCM_STREAM_CAPTURE 49) in
  let areas := pcm_area 1 64 in
  (0 < ar_step areas / 8 < 2 ^ 32
   /\ 0 < link_mtu data < 2 ^ 32
   /\ 0 < count data < link_mtu data
   /\ link_mtu data - count data < ar_step areas / 8
   /\ 0 < 8 < 2 ^ 31
   /\ count data + 8 * (ar_step areas / 8) < 2 ^ 32)
  /\ exists data' areas',
       bluetooth_hsp_read (packet_of 49) areas 0 8 data
       = Some (0, data', areas')
       /\ count data' = 48.
Proof.
  cbv zeta.
  split; [repeat split; by_computation|].
  destruct (hsp_read_stalls_on_partial_frame (packet_of 49)
              (pcm_area 1 64) 0 8
              (set_count 48 (sco_session SND_PCM_STREAM_CAPTURE 49))
              ltac:(split; by_computation) ltac:(split; by_computation)
              ltac:(split; by_computation) ltac:(by_computation)
              ltac:(split; by_computation) ltac:(by_computation))
    as (data' & areas' & Hr & Hc & _).
  exists data', areas'. split; [exact Hr | exact Hc].
Defined.

(** The example of the source: a sink delay of 250 ms (2500 tenths of a
    millisecond) at 48000 Hz is 12000 frames; with 4096 frames queued the
    delay reported is 16096. *)
Lemma playback_delay_is_queue_plus_sink_delay_witness :
  let io0 := {| io_stream := SND_PCM_STREAM_PLAYBACK;
                io_state := SND_PCM_STATE_RUNNING;
                io_appl_ptr := 4096; io_hw_ptr := 0; io_rate := 48000;
                io_period_size := 1024; io_buffer_size := 3072;
                io_nonblock := false |} in
  let data :=
    set_sink_delay 2500 (set_io io0 (fresh_session io0 (remote_sink 2 53))) in
  (0 <= sink_delay data * io_rate io0 < 2 ^ 32
   /\ - 2 ^ 31 <= io_appl_ptr io0 - io_hw_ptr io0
                  + sink_delay data * io_rate io0 / 10000 < 2 ^ 31)
  /\ bluetooth_playback_delay (fun i => i) data = (0, 16096, data).
Proof.
  cbv zeta.
  split; [repeat split; by_computation|].
  pose proof (playback_delay_is_queue_plus_sink_delay (fun i => i)
    (set_sink_delay 2500
       (set_io {| io_stream := SND_PCM_STREAM_PLAYBACK;
                  io_state := SND_PCM_STATE_RUNNING;
                  io_appl_ptr := 4096; io_hw_ptr := 0; io_rate := 48000;
                  io_period_size := 1024; io_buffer_size := 3072;
                  io_nonblock := false |}
          (fresh_session
             {| io_stream := SND_PCM_STREAM_PLAYBACK;
                io_state := SND_PCM_STATE_RUNNING;
                io_appl_ptr := 4096; io_hw_ptr := 0; io_rate := 48000;
                io_period_size := 1024; io_buffer_size := 3072;
                io_nonblock := false |} (remote_sink 2 53))))
    ltac:(split; by_computation) ltac:(split; by_computation)) as H.
  destruct (bluetooth_playback_delay _ _) as [[ret delayp] data'].
  destruct H as (Hret & _ & Hd & _).
  destruct (Hd ltac:(right; by_computation)) as [Hdel Hdata].
  rewrite Hret, Hdel, Hdata. vm_compute. reflexivity.
Defined.

(** The data socket hangs up (POLLHUP alone) while the pipe is readable:
    the socket is reported with POLLERR and POLLHUP, the pipe with POLLOUT,
    and the handle is disconnected. *)
Lemma playback_poll_revents_reports_hangup_as_error_witness :
  let io0 := sample_io SND_PCM_STREAM_PLAYBACK SND_PCM_STATE_RUNNING 0 0 in
  let pfds0 := {| pfd_fd := 5; pfd_events := POLLIN; pfd_revents := POLLIN |} in
  let pfds1 := {| pfd_fd := 7; pfd_events := 56; pfd_revents := POLLHUP |} in
  0 <= pfd_revents pfds1 < 2 ^ 15
  /\ let '(_, io', _, revents0, revents1, _) :=
       bluetooth_playback_poll_revents io0 pfds0 pfds1 in
     revents0 = POLLOUT /\ revents1 <> 0
     /\ io_state io' = SND_PCM_STATE_DISCONNECTED.
Proof.
  cbv zeta.
  split; [split; by_computation|].
  pose proof (playback_poll_revents_reports_hangup_as_error
    (sample_io SND_PCM_STREAM_PLAYBACK SND_PCM_STATE_RUNNING 0 0)
    {| pfd_fd := 5; pfd_events := POLLIN; pfd_revents := POLLIN |}
    {| pfd_fd := 7; pfd_events := 56; pfd_revents := POLLHUP |}
    ltac:(split; by_computation)) as H.
  cbv zeta in H.
  destruct (bluetooth_playback_poll_revents _ _ _)
    as [[[[[ret io'] pfds1'] revents0] revents1] reads].
  destruct H as (_ & H0 & _ & _ & Hnz & Hdis & _).
  assert (Hr1 : revents1 <> 0) by (apply Hnz; by_computation).
  split; [rewrite H0; reflexivity|]. split; [exact Hr1 | exact (Hdis Hr1)].
Defined.

(** 2.250000000 s minus 1.750000000 s is 0.500000000 s. *)
Lemma priv_timespecsub_normalised_witness :
  let a := {| tv_sec := 2; tv_nsec := 250000000 |} in
  let b := {| tv_sec := 1; tv_nsec := 750000000 |} in
  (0 <= tv_nsec a < 1000000000 /\ 0 <= tv_nsec b < 1000000000)
  /\ priv_timespecsub a b = {| tv_sec := 0; tv_nsec := 500000000 |}
  /\ 0 <= tv_nsec (priv_timespecsub a b) < 1000000000.
Proof.
  cbv zeta. split; [repeat split; by_computation|].
  split; [reflexivity|].
  exact (proj1 (priv_timespecsub_normalised
                  {| tv_sec := 2; tv_nsec := 250000000 |}
                  {| tv_sec := 1; tv_nsec := 750000000 |}
                  ltac:(split; by_computation) ltac:(split; by_computation))).
Defined.

(** An error packet carrying EAGAIN where START_STREAM is expected gives
    [-EAGAIN]. *)
Lemma audioservice_expect_zero_only_for_expected_name_witness :
  let pk := @error_answer 4 EAGAIN in
  ((sys_ret (pk_recv pk) < 0 -> 0 < sys_errno (pk_recv pk))
   /\ 0 <= pk_posix_errno pk)
  /\ @audioservice_expect bluez_ipc pk 4 = - EAGAIN.
Proof.
  cbv zeta. split; [split; [intros H; vm_compute in H; discriminate H
                           | by_computation]|].
  destruct (@audioservice_expect_zero_only_for_expected_name bluez_ipc
              (@error_answer 4 EAGAIN) 4
              ltac:(intros H; vm_compute in H; discriminate H)
              ltac:(by_computation)) as (_ & _ & _ & _ & Herr).
  apply Herr; by_computation.
Defined.

(** A stream already Started: the prepare call writes the wake-up byte
    and nothing else. *)
Lemma prepare_on_started_stream_is_silent_witness :
  let data := set_a2dp_stream_state STREAM_STARTED new_playback_session in
  (io_period_size (io data) <> 0
   /\ a2dp_stream_state data = STREAM_STARTED)
  /\ exists data',
       @bluetooth_prepare bluez_ipc (starting 0) data
       = Some (0, data', [Notify]).
Proof.
  cbv zeta. split; [split; [by_computation | reflexivity]|].
  destruct (@prepare_on_started_stream_is_silent bluez_ipc (starting 0)
              (set_a2dp_stream_state STREAM_STARTED new_playback_session)
              ltac:(by_computation) ltac:(reflexivity))
    as (data' & Hp & _).
  exists data'. exact Hp.
Defined.

(** The A2DP transport: the stream is started with the three control
    messages and the wake-up byte. *)
Lemma prepare_success_on_a2dp_leaves_started_witness :
  let data := new_playback_session in
  let E := starting 0 in
  (transport data = @BT_CAPABILITIES_TRANSPORT_A2DP bluez_ipc
   /\ (sys_ret (pe_data_fd E) < 0 -> 0 < sys_errno (pe_data_fd E))
   /\ (sys_ret (pe_setsockopt1 E) < 0 -> 0 < sys_errno (pe_setsockopt1 E)))
  /\ exists data' tr,
       @bluetooth_prepare bluez_ipc E data = Some (0, data', tr)
       /\ a2dp_stream_state data' = STREAM_STARTED
       /\ length tr = 4%nat.
Proof.
  cbv zeta.
  split; [split; [reflexivity|]; split; intros H; vm_compute in H;
          discriminate H|].
  assert (Hrun : exists data' tr,
             @bluetooth_prepare bluez_ipc (starting 0) new_playback_session
             = Some (0, data', tr))
    by (eexists _, _; vm_compute; reflexivity).
  destruct Hrun as (data' & tr & Hp).
  destruct (@prepare_success_on_a2dp_leaves_started bluez_ipc (starting 0)
              new_playback_session data' tr ltac:(reflexivity)
              ltac:(intros H; vm_compute in H; discriminate H)
              ltac:(intros H; vm_compute in H; discriminate H)
              Hp) as (Hst & _ & Htr).
  exists data', tr. split; [exact Hp|]. split; [exact Hst|].
  destruct (Htr ltac:(by_computation)) as (-> & _). reflexivity.
Defined.

(** The SCO transport with a socket that accepts the buffer count: the
    call returns 0 and the stream is not marked Started. *)
Lemma prepare_on_sco_marks_started_only_after_setsockopt_failure_witness :
  let data := set_transport 1 new_playback_session in
  let E := starting 0 in
  (io_period_size (io data) <> 0
   /\ a2dp_stream_state data <> STREAM_STARTED
   /\ transport data <> @BT_CAPABILITIES_TRANSPORT_A2DP bluez_ipc
   /\ 0 <= audioservice_send (pe_start_send E)
   /\ 0 <= @audioservice_expect bluez_ipc (pe_start_rsp E) 4
   /\ 0 <= @audioservice_expect bluez_ipc (pe_new_stream E) 3
   /\ 0 <= sys_ret (pe_data_fd E))
  /\ exists data' tr,
       @bluetooth_prepare bluez_ipc E data = Some (0, data', tr)
       /\ a2dp_stream_state data' = STREAM_CLOSED.
Proof.
  cbv zeta. split; [repeat split; by_computation|].
  destruct (@prepare_on_sco_marks_started_only_after_setsockopt_failure
              bluez_ipc (starting 0) (set_transport 1 new_playback_session)
              ltac:(by_computation) ltac:(by_computation)
              ltac:(by_computation) ltac:(by_computation)
              ltac:(by_computation) ltac:(by_computation)
              ltac:(by_computation))
    as (ret & data' & tr & Hp & Hok & _).
  destruct (Hok ltac:(left; reflexivity)) as (-> & Hst & _).
  exists data', tr. split; [exact Hp|]. rewrite Hst. reflexivity.
Defined.

(** A stream configured for 44100 Hz stereo is asked for 16000 Hz mono:
    the request sent carries the stored capabilities, and the stored
    frequency is still that of 44100 Hz. *)
Lemma reconfiguration_resends_stored_capabilities_witness :
  let data :=
    snd (fst (@bluetooth_a2dp_hw_params bluez_ipc stand_in_sbc
                (accepting 48 true true) stereo_44100 new_playback_session)) in
  (a2dp_stream_state data <> STREAM_CLOSED
   /\ @bluetooth_configuration_cmp bluez_ipc data mono_16000 <> 0)
  /\ let '(ret, data', tr) :=
       @bluetooth_a2dp_hw_params bluez_ipc stand_in_sbc
         (accepting 48 true true) mono_16000 data in
     ret = 0
     /\ cap_frequency (sbc_capabilities (a2dp data'))
        = @BT_SBC_SAMPLING_FREQ_44100 bluez_ipc.
Proof.
  cbv zeta. split; [split; by_computation|].
  pose proof (@reconfiguration_resends_stored_capabilities bluez_ipc
                stand_in_sbc (accepting 48 true true) mono_16000
                (snd (fst (@bluetooth_a2dp_hw_params bluez_ipc stand_in_sbc
                             (accepting 48 true true) stereo_44100
                             new_playback_session)))
                ltac:(by_computation) ltac:(by_computation)) as H.
  destruct (bluetooth_a2dp_hw_params _ mono_16000 _) as [[ret data'] tr]
    eqn:Hrun.
  destruct H as (_ & Hcap & _).
  split; [vm_compute in Hrun; injection Hrun as <- _ _; reflexivity|].
  rewrite Hcap. vm_compute. reflexivity.
Defined.

(** 8000 Hz is asked of an A2DP sink: -1 after the OPEN exchange. *)
Lemma hw_params_rejects_unsupported_rate_witness :
  let params := {| hw_rate := 8000; hw_channels := 1 |} in
  let E := accepting 895 true true in
  (a2dp_stream_state new_playback_session = STREAM_CLOSED
   /\ ~ In (hw_rate params) [48000; 44100; 32000; 16000]
   /\ 0 <= audioservice_send (he_open_send E)
   /\ 0 <= @audioservice_expect bluez_ipc (he_open_rsp E) 1)
  /\ exists data' tr,
       @bluetooth_a2dp_hw_params bluez_ipc stand_in_sbc E params
         new_playback_session = (-1, data', tr)
       /\ a2dp_stream_state data' = STREAM_OPENED.
Proof.
  cbv zeta.
  assert (Hrate : ~ In 8000 [48000; 44100; 32000; 16000])
    by (cbn; intros [H | [H | [H | [H | []]]]]; discriminate H).
  split; [split; [reflexivity|]; split; [exact Hrate|];
          split; by_computation|].
  destruct (@hw_params_rejects_unsupported_rate bluez_ipc stand_in_sbc
              (accepting 895 true true)
              {| hw_rate := 8000; hw_channels := 1 |} new_playback_session
              ltac:(reflexivity) Hrate ltac:(by_computation)
              ltac:(by_computation))
    as (data' & Hp & Hst & _).
  eexists _, _. split; [exact Hp | exact Hst].
Defined.

(** A first configuration with a transfer unit of 48 bytes. *)
Lemma configuration_establishes_transfer_state_witness :
  exists data' tr,
    @bluetooth_a2dp_hw_params bluez_ipc stand_in_sbc
      (accepting 48 true true) stereo_44100 new_playback_session
    = (0, data', tr)
    /\ tr <> []
    /\ link_mtu data' = 48
    /\ a2dp_count (a2dp data') = 13
    /\ a2dp_stream_state data' = STREAM_CONFIGURED.
Proof.
  assert (Hrun : exists data' tr,
             @bluetooth_a2dp_hw_params bluez_ipc stand_in_sbc
               (accepting 48 true true) stereo_44100 new_playback_session
             = (0, data', tr) /\ tr <> [])
    by (eexists _, _; split; [vm_compute; reflexivity | discriminate]).
  destruct Hrun as (data' & tr & Hp & Htr).
  destruct (@configuration_establishes_transfer_state bluez_ipc stand_in_sbc
              (accepting 48 true true) stereo_44100 new_playback_session
              data' tr Hp Htr)
    as (Hl & _ & Hc & _ & _ & _ & _ & _ & Hst & _).
  exists data', tr. split; [exact Hp|]. split; [exact Htr|].
  split; [rewrite Hl; reflexivity|]. split; [exact Hc | exact Hst].
Defined.

(** With the constants of BlueZ, 44100 Hz reaches the encoder as
    [SBC_FREQ_44100]. *)
Lemma encoder_runs_at_requested_rate_witness :
  @frequency_bits_disjoint bluez_ipc
  /\ a2dp_stream_state new_playback_session = STREAM_CLOSED
  /\ exists data' tr,
       @bluetooth_a2dp_hw_params bluez_ipc stand_in_sbc
         (accepting 48 true true) stereo_44100 new_playback_session
       = (0, data', tr)
       /\ sbc_frequency (sbc (a2dp data')) = @SBC_FREQ_44100 stand_in_sbc.
Proof.
  assert (Hbits : @frequency_bits_disjoint bluez_ipc)
    by (unfold frequency_bits_disjoint; repeat split; by_computation).
  split; [exact Hbits|]. split; [reflexivity|].
  assert (Hrun : exists data' tr,
             @bluetooth_a2dp_hw_params bluez_ipc stand_in_sbc
               (accepting 48 true true) stereo_44100 new_playback_session
             = (0, data', tr))
    by (eexists _, _; vm_compute; reflexivity).
  destruct Hrun as (data' & tr & Hp).
  destruct (@encoder_runs_at_requested_rate bluez_ipc stand_in_sbc
              (accepting 48 true true) stereo_44100 new_playback_session
              data' tr Hbits ltac:(reflexivity) Hp) as (_ & _ & _ & Hf).
  exists data', tr. split; [exact Hp|]. rewrite Hf. reflexivity.
Defined.


(** SCO packets of 48 bytes with 32 bytes buffered: 8 mono frames fill
    the packet, which is sent whole, and the buffer is empty again. *)
Lemma hsp_write_sends_whole_packets_witness :
  let data := set_count 32 (sco_session SND_PCM_STREAM_PLAYBACK 48) in
  let areas := pcm_area 1 64 in
  (io_hw_ptr (io data) <= io_appl_ptr (io data)
   /\ 0 < ar_step areas / 8 < 2 ^ 31
   /\ 0 < link_mtu data < 2 ^ 32
   /\ 0 <= count data <= link_mtu data
   /\ 0 <= 8 < 2 ^ 31
   /\ count data + 8 * (ar_step areas / 8) < 2 ^ 32
   /\ (sys_ret (ok_syscall 48) < 0 -> 0 < sys_errno (ok_syscall 48)))
  /\ let '(ret, data', tr) :=
       bluetooth_hsp_write (ok_syscall 48) areas 0 8 data in
     ret = 8 /\ count data' = 0 /\ length tr = 1%nat.
Proof.
  cbv zeta.
  split; [repeat split; try by_computation; intros H; vm_compute in H;
          discriminate H|].
  pose proof (hsp_write_sends_whole_packets (ok_syscall 48) (pcm_area 1 64)
                0 8 (set_count 32 (sco_session SND_PCM_STREAM_PLAYBACK 48))
                ltac:(by_computation) ltac:(split; by_computation)
                ltac:(split; by_computation) ltac:(split; by_computation)
                ltac:(split; by_computation) ltac:(by_computation)
                ltac:(intros H; vm_compute in H; discriminate H)) as H.
  cbv zeta in H.
  destruct (bluetooth_hsp_write _ _ _ _ _) as [[ret data'] tr].
  destruct H as (_ & _ & _ & _ & Hfull & _).
  destruct (Hfull ltac:(by_computation)) as (Htr & Hok & _).
  destruct (Hok ltac:(by_computation)) as (Hret & Hcnt).
  split; [rewrite Hret; by_computation|].
  split; [exact Hcnt|]. rewrite Htr. reflexivity.
Defined.

(** A stopped session, 120 ms after the origin: the pointer stays at
    2048. *)
Lemma stopped_clock_does_not_advance_witness :
  let data := set_stopped 1 (set_hw_ptr 2048 new_playback_session) in
  let l := {| prev_periods := 3; start := {| tv_sec := 0; tv_nsec := 0 |} |} in
  let clk := {| clk_reset := {| tv_sec := 0; tv_nsec := 0 |};
                clk_cur := {| tv_sec := 0; tv_nsec := 120000000 |};
                clk_rebase := {| tv_sec := 0; tv_nsec := 0 |};
                clk_cancel := fun _ => false |} in
  let p := {| poll_ret := ok_syscall 0; poll_revents0 := 0;
              poll_revents1 := 0; peek_ret := 0; peek_name := 0;
              delay_ret := 0; delay_value := 0 |} in
  stopped data <> 0
  /\ @playback_hw_thread_turn bluez_ipc
       (fun dtime => dtime * 44150 / 1024000000) clk p l data
     = Running l data [].
Proof.
  cbv zeta. split; [by_computation|].
  pose proof (@stopped_clock_does_not_advance bluez_ipc
    (fun dtime => dtime * 44150 / 1024000000)
    {| clk_reset := {| tv_sec := 0; tv_nsec := 0 |};
       clk_cur := {| tv_sec := 0; tv_nsec := 120000000 |};
       clk_rebase := {| tv_sec := 0; tv_nsec := 0 |};
       clk_cancel := fun _ => false |}
    {| poll_ret := ok_syscall 0; poll_revents0 := 0;
       poll_revents1 := 0; peek_ret := 0; peek_name := 0;
       delay_ret := 0; delay_value := 0 |}
    {| prev_periods := 3; start := {| tv_sec := 0; tv_nsec := 0 |} |}
    (set_stopped 1 (set_hw_ptr 2048 new_playback_session))
    ltac:(by_computation)) as H.
  destruct (playback_hw_thread_turn _ _ _ _ _) as [l' data' tr | data' tr]
    eqn:Hrun.
  - destruct H as (-> & -> & _). vm_compute in Hrun.
    injection Hrun as <-. reflexivity.
  - vm_compute in Hrun. discriminate Hrun.
Defined.


Lemma parse_config_takes_last_device_witness :
  forallb node_accepted
    [string_node "type" "bluetooth";
     string_node "device" "AA:BB:CC:DD:EE:FF"] = true
  /\ names_device (string_node "bdaddr" "00:11:22:33:44:55") = true
  /\ forallb (fun m => negb (names_device m))
       [string_node "profile" "hifi"] = true
  /\ cfg_device
       (snd (@bluetooth_parse_config bluez_ipc bluez_ipc_ext decimal_atoi
               ([string_node "type" "bluetooth";
                 string_node "device" "AA:BB:CC:DD:EE:FF"]
                ++ string_node "bdaddr" "00:11:22:33:44:55"
                   :: [string_node "profile" "hifi"])))
     = cfg_device plain_config.
Proof.
  split; [reflexivity|]. split; [reflexivity|]. split; [reflexivity|].
  destruct (@parse_config_takes_last_device bluez_ipc bluez_ipc_ext
              decimal_atoi
              [string_node "type" "bluetooth";
               string_node "device" "AA:BB:CC:DD:EE:FF"]
              (string_node "bdaddr" "00:11:22:33:44:55")
              [string_node "profile" "hifi"] "00:11:22:33:44:55"%string
              eq_refl eq_refl eq_refl eq_refl) as [_ Hd].
  rewrite Hd. vm_compute. reflexivity.
Defined.

Lemma resource_file_mode_pins_channels_witness :
  @channel_mode_bits_disjoint bluez_ipc
  /\ cfg_has_channel_mode (alsa_config (session_of [string_node "mode" "stereo"]))
     = true
  /\ let '(ret, data', made) :=
       @bluetooth_a2dp_hw_constraint bluez_ipc (fun _ => 0)
         (session_of [string_node "mode" "stereo"]) in
     forall mn mx,
       In (snd_pcm_ioplug_set_param_minmax SND_PCM_IOPLUG_HW_CHANNELS mn mx)
          made ->
       mn = mx
       /\ (mn = 1 <->
           cfg_channel_mode
             (alsa_config (session_of [string_node "mode" "stereo"]))
           = @BT_A2DP_CHANNEL_MODE_MONO bluez_ipc).
Proof.
  assert (H1 : @channel_mode_bits_disjoint bluez_ipc).
  { split; [split; by_computation|].
    intros m [<- | [<- | [<- | []]]]; (split; [split|]); by_computation. }
  split; [exact H1|]. split; [reflexivity|].
  exact (@resource_file_mode_pins_channels bluez_ipc bluez_ipc_ext
           decimal_atoi [string_node "mode" "stereo"] (fun _ => 0)
           (session_of [string_node "mode" "stereo"]) H1 eq_refl eq_refl).
Defined.

Lemma resource_file_subbands_is_a_bit_mask_witness :
  cfg_has_subbands (alsa_config (session_of [string_node "subbands" "8"]))
  = true
  /\ cfg_subbands (alsa_config (session_of [string_node "subbands" "8"])) = 8
  /\ fst (@bluetooth_a2dp_init bluez_ipc
            (alsa_config (session_of [string_node "subbands" "8"]))
            stereo_44100 (remote_sink 2 53)) = -1.
Proof.
  split; [reflexivity|]. split; [reflexivity|].
  exact (@resource_file_subbands_is_a_bit_mask bluez_ipc
           (alsa_config (session_of [string_node "subbands" "8"]))
           stereo_44100 (remote_sink 2 53) eq_refl eq_refl eq_refl).
Defined.

Lemma parse_capabilities_takes_first_free_sink_witness :
  let rsp :=
    response_of [mpeg_sink_entry; sbc_sink_entry 2; sbc_sink_entry 0]
      (remote_sink 2 53) in
  codec_transport (entry rsp 0) = @BT_CAPABILITIES_TRANSPORT_A2DP bluez_ipc
  /\ (forall m, (m < 2)%nat ->
        @free_sbc_sink bluez_ipc bluez_ipc_ext (entry rsp m) = false
        /\ 0 < codec_length (entry rsp m))
  /\ entry_offset rsp 2 < @capabilities_bytes bluez_ipc_ext rsp
  /\ @free_sbc_sink bluez_ipc bluez_ipc_ext (entry rsp 2) = true
  /\ @bluetooth_parse_capabilities bluez_ipc bluez_ipc_ext
       new_playback_session rsp
     = Some (0, set_a2dp
                  (set_sbc_capabilities (remote_sink 2 53)
                     (a2dp new_playback_session))
                  (set_transport 0 new_playback_session)).
Proof.
  intros rsp.
  assert (H2 : forall m, (m < 2)%nat ->
             @free_sbc_sink bluez_ipc bluez_ipc_ext (entry rsp m) = false
             /\ 0 < codec_length (entry rsp m)).
  { intros m Hm. destruct m as [|[|m]]; [split; by_computation ..|lia]. }
  split; [reflexivity|]. split; [exact H2|].
  split; [by_computation|]. split; [reflexivity|].
  exact (@parse_capabilities_takes_first_free_sink bluez_ipc bluez_ipc_ext
           new_playback_session rsp 2 eq_refl H2 eq_refl eq_refl).
Defined.

Lemma parse_capabilities_without_free_sink_witness :
  let rsp :=
    response_of [mpeg_sink_entry; sbc_sink_entry 2] (remote_sink 2 53) in
  codec_transport (entry rsp 0) = @BT_CAPABILITIES_TRANSPORT_A2DP bluez_ipc
  /\ (forall m, entry_offset rsp m < @capabilities_bytes bluez_ipc_ext rsp ->
        @free_sbc_sink bluez_ipc bluez_ipc_ext (entry rsp m) = false
        /\ 0 < codec_length (entry rsp m) < 2 ^ 8)
  /\ @bluetooth_parse_capabilities bluez_ipc bluez_ipc_ext
       new_playback_session rsp
     = Some (- EINVAL, set_transport 0 new_playback_session).
Proof.
  intros rsp.
  assert (H2 : forall m,
             entry_offset rsp m < @capabilities_bytes bluez_ipc_ext rsp ->
             @free_sbc_sink bluez_ipc bluez_ipc_ext (entry rsp m) = false
             /\ 0 < codec_length (entry rsp m) < 2 ^ 8).
  { intros m Hm. destruct m as [|[|m]];
      [repeat split; by_computation ..|].
    exfalso. revert Hm. clear.
    assert (Hfix : forall k, entry_offset rsp (S (S k)) = 23).
    { induction k as [|k IH]; [reflexivity|].
      change (entry_offset rsp (S (S (S k))))
        with (entry_offset rsp (S (S k))
              + codec_length (rsp_codec rsp (entry_offset rsp (S (S k))))).
      rewrite IH. reflexivity. }
    rewrite Hfix. by_computation. }
  split; [reflexivity|]. split; [exact H2|].
  exact (@parse_capabilities_without_free_sink bluez_ipc bluez_ipc_ext
           new_playback_session rsp eq_refl H2).
Defined.

Lemma parse_capabilities_never_leaves_empty_entry_witness :
  let rsp :=
    response_of [mpeg_sink_entry; empty_entry; sbc_sink_entry 0]
      (remote_sink 2 53) in
  codec_transport (entry rsp 0) = @BT_CAPABILITIES_TRANSPORT_A2DP bluez_ipc
  /\ (forall m, (m < 1)%nat ->
        @free_sbc_sink bluez_ipc bluez_ipc_ext (entry rsp m) = false
        /\ 0 < codec_length (entry rsp m))
  /\ entry_offset rsp 1 < @capabilities_bytes bluez_ipc_ext rsp
  /\ @free_sbc_sink bluez_ipc bluez_ipc_ext (entry rsp 1) = false
  /\ codec_length (entry rsp 1) = 0
  /\ @parse_capabilities_fuel bluez_ipc bluez_ipc_ext 1000
       new_playback_session rsp = None.
Proof.
  intros rsp.
  assert (H1 : forall m, (m < 1)%nat ->
             @free_sbc_sink bluez_ipc bluez_ipc_ext (entry rsp m) = false
             /\ 0 < codec_length (entry rsp m)).
  { intros m Hm. destruct m as [|m]; [split; by_computation | lia]. }
  split; [reflexivity|]. split; [exact H1|].
  split; [by_computation|]. split; [reflexivity|]. split; [reflexivity|].
  exact (@parse_capabilities_never_leaves_empty_entry bluez_ipc bluez_ipc_ext
           new_playback_session rsp 1 1000 eq_refl H1 eq_refl eq_refl
           eq_refl).
Defined.

Lemma bluetooth_close_parks_or_exits_witness :
  let conf := [string_node "device" "00:11:22:33:44:55"] in
  ~ In 1%nat [2%nat; 3%nat]
  /\ let '(ret, h', l', ev) :=
       bluetooth_close threads_start 1%nat (heap_of conf) [2%nat; 3%nat] in
     ret = 0 /\ l' = [1%nat; 2%nat; 3%nat] /\ ev = [].
Proof.
  cbv zeta.
  assert (Hnot : ~ In 1%nat [2%nat; 3%nat])
    by (intros [H | [H | []]]; discriminate H).
  split; [exact Hnot|].
  pose proof (bluetooth_close_parks_or_exits threads_start 1%nat
                (heap_of [string_node "device" "00:11:22:33:44:55"])
                [2%nat; 3%nat] Hnot) as H.
  destruct (bluetooth_close _ _ _ _) as [[[ret h'] l'] ev].
  destruct H as [Hret H].
  change ((0 <=? watcher (heap_of [string_node "device" "00:11:22:33:44:55"]
                            1%nat))
          && ce_malloc threads_start
          && (fst (ce_pthread_create threads_start) =? 0)
          && (ce_pthread_detach threads_start =? 0)) with true in H.
  destruct H as (Hl & Hev & _).
  split; [exact Hret|]. split; [exact Hl | exact Hev].
Defined.

Lemma closed_session_is_found_again_witness :
  let conf := [string_node "device" "00:11:22:33:44:55"] in
  (0 <= watcher (heap_of conf 1%nat)
   /\ ce_malloc threads_start = true
   /\ fst (ce_pthread_create threads_start) = 0
   /\ ce_pthread_detach threads_start = 0
   /\ @bluetooth_parse_config bluez_ipc bluez_ipc_ext decimal_atoi conf
      = (0, alsa_config (pd_data (heap_of conf 1%nat))))
  /\ let '(ret, h1, l1, ev1) :=
       bluetooth_close threads_start 1%nat (heap_of conf) [2%nat] in
     let '(found, h2, l2, ev2) :=
       @bluetooth_find_outstanding_data bluez_ipc bluez_ipc_ext decimal_atoi
         conf h1 l1 in
     found = Some 1%nat /\ l2 = [2%nat]
     /\ pd_data (h2 1%nat) = pd_data (heap_of conf 1%nat).
Proof.
  cbv zeta.
  assert (Hw : 0 <= watcher (heap_of [string_node "device" "00:11:22:33:44:55"]
                               1%nat)) by by_computation.
  assert (Hp : @bluetooth_parse_config bluez_ipc bluez_ipc_ext decimal_atoi
                 [string_node "device" "00:11:22:33:44:55"]
               = (0, alsa_config
                       (pd_data (heap_of
                                   [string_node "device" "00:11:22:33:44:55"]
                                   1%nat))))
    by (vm_compute; reflexivity).
  split; [split; [exact Hw|]; split; [reflexivity|]; split; [reflexivity|];
          split; [reflexivity | exact Hp]|].
  pose proof (@closed_session_is_found_again bluez_ipc bluez_ipc_ext
                decimal_atoi threads_start
                [string_node "device" "00:11:22:33:44:55"] 1%nat
                (heap_of [string_node "device" "00:11:22:33:44:55"])
                [2%nat] [] Hw eq_refl eq_refl eq_refl Hp) as H.
  destruct (bluetooth_close _ _ _ _) as [[[ret h1] l1] ev1].
  destruct (bluetooth_find_outstanding_data _ _ _) as [[[found h2] l2] ev2].
  destruct H as (_ & _ & Hf & Hl & _ & Hd & _).
  split; [exact Hf|]. split; [exact Hl | exact Hd].
Defined.

Lemma parked_session_is_ended_on_timeout_witness :
  let conf := [string_node "device" "00:11:22:33:44:55"] in
  (~ In 1%nat [2%nat]
   /\ 0 <= watcher (heap_of conf 1%nat)
   /\ ce_malloc threads_start = true
   /\ fst (ce_pthread_create threads_start) = 0
   /\ ce_pthread_detach threads_start = 0
   /\ kill_watcher (heap_of conf 1%nat) = 0
   /\ watcher_wait [(false, 0); (true, 0)] 0 = Some 0)
  /\ let '(ret, h1, l1, ev1) :=
       bluetooth_close threads_start 1%nat (heap_of conf) [2%nat] in
     bluetooth_watcher [(false, 0); (true, 0)] 1%nat h1 l1
     = Some (h1, [2%nat], bluetooth_exit 1%nat (h1 1%nat)).
Proof.
  cbv zeta.
  assert (Hnot : ~ In 1%nat [2%nat]) by (intros [H | []]; discriminate H).
  assert (Hw : 0 <= watcher (heap_of [string_node "device" "00:11:22:33:44:55"]
                               1%nat)) by by_computation.
  split; [split; [exact Hnot|]; split; [exact Hw|]; split; [reflexivity|];
          split; [reflexivity|]; split; [reflexivity|];
          split; reflexivity|].
  exact (parked_session_is_ended_on_timeout threads_start 1%nat
           (heap_of [string_node "device" "00:11:22:33:44:55"]) [2%nat]
           [(false, 0); (true, 0)] Hnot Hw eq_refl eq_refl eq_refl eq_refl
           eq_refl).
Defined.

Lemma open_with_rejected_resource_file_witness :
  let conf := [string_node "colour" "blue"] in
  let E := handle_accepts
             (service_answers (ok_syscall 0)
                (response_of [sbc_sink_entry 0] (remote_sink 2 53))) in
  (forallb node_accepted conf = false
   /\ oe_malloc E = Some 1%nat)
  /\ exists h',
       @snd_pcm_bluetooth_open bluez_ipc bluez_ipc_ext decimal_atoi E
         SND_PCM_STREAM_PLAYBACK conf (heap_of []) []
       = Some (-22, None, h', [],
               [bt_audio_service_close 0; close 0;
                free_buffer; free_a2dp_buffer; free_data 1%nat]).
Proof.
  cbv zeta. split; [split; reflexivity|].
  eexists.
  exact (@open_with_rejected_resource_file bluez_ipc bluez_ipc_ext
           decimal_atoi
           (handle_accepts
              (service_answers (ok_syscall 0)
                 (response_of [sbc_sink_entry 0] (remote_sink 2 53))))
           SND_PCM_STREAM_PLAYBACK [string_node "colour" "blue"]
           (heap_of []) [] 1%nat eq_refl eq_refl).
Defined.

Lemma failed_init_closes_service_socket_twice_witness :
  let conf := [string_node "device" "00:11:22:33:44:55"] in
  let E := handle_accepts
             (service_answers {| sys_ret := -1; sys_errno := 24 |}
                (response_of [sbc_sink_entry 0] (remote_sink 2 53))) in
  exists d,
    (@find_outstanding bluez_ipc bluez_ipc_ext decimal_atoi conf (heap_of []) [] = None
     /\ oe_malloc E = Some 1%nat
     /\ @bluetooth_init bluez_ipc bluez_ipc_ext decimal_atoi (oe_init E) conf
        = Some (-24, d, [bt_audio_service_close 4])
     /\ fst (@bluetooth_parse_config bluez_ipc bluez_ipc_ext decimal_atoi conf)
        = 0
     /\ 0 < sys_ret (ie_open (oe_init E))
     /\ 0 <= sys_ret (ie_setsockopt (oe_init E))
     /\ -24 < 0)
    /\ @snd_pcm_bluetooth_open bluez_ipc bluez_ipc_ext decimal_atoi E
         SND_PCM_STREAM_PLAYBACK conf (heap_of []) []
       = Some (-24, None, store (heap_of []) 1%nat d, [],
               [bt_audio_service_close 4; bt_audio_service_close 4;
                free_buffer; free_a2dp_buffer; free_data 1%nat]).
Proof.
  cbv zeta. eexists.
  assert (Hi : @bluetooth_init bluez_ipc bluez_ipc_ext decimal_atoi
                 (oe_init
                    (handle_accepts
                       (service_answers {| sys_ret := -1; sys_errno := 24 |}
                          (response_of [sbc_sink_entry 0]
                             (remote_sink 2 53)))))
                 [string_node "device" "00:11:22:33:44:55"]
               = Some (-24, _, [bt_audio_service_close 4]))
    by (lazy; reflexivity).
  split.
  - split; [reflexivity|]. split; [reflexivity|]. split; [exact Hi|].
    split; [by_computation|]. split; [by_computation|].
    split; by_computation.
  - pose proof (proj1
                  (@failed_init_closes_service_socket_twice bluez_ipc
                     bluez_ipc_ext decimal_atoi
                     (handle_accepts
                        (service_answers {| sys_ret := -1; sys_errno := 24 |}
                           (response_of [sbc_sink_entry 0]
                              (remote_sink 2 53))))
                     SND_PCM_STREAM_PLAYBACK
                     [string_node "device" "00:11:22:33:44:55"]
                     (heap_of []) [] 1%nat _ _ _ eq_refl eq_refl Hi
                     ltac:(by_computation) ltac:(by_computation)
                     ltac:(by_computation) ltac:(by_computation))) as H.
    exact H.
Defined.

Lemma open_new_session_witness :
  let conf := [string_node "device" "00:11:22:33:44:55"] in
  let E := handle_accepts
             (service_answers (ok_syscall 0)
                (response_of [mpeg_sink_entry; sbc_sink_entry 0]
                   (remote_sink 2 53))) in
  exists h',
    @snd_pcm_bluetooth_open bluez_ipc bluez_ipc_ext decimal_atoi E
      SND_PCM_STREAM_PLAYBACK conf (heap_of []) []
    = Some (0, Some 1%nat, h', [],
            [ctl_send_get_capabilities 1
               [48; 48; 58; 49; 49; 58; 50; 50; 58; 51; 51; 58; 52; 52; 58;
                53; 53; 0] 2;
             ctl_recv 0; snd_pcm_ioplug_create 1%nat])
    /\ sbc_capabilities (a2dp (pd_data (h' 1%nat))) = remote_sink 2 53
    /\ server_fd (pd_data (h' 1%nat)) = 4
    /\ stream_fd (pd_data (h' 1%nat)) = -1
    /\ pipefd (h' 1%nat) = (5, 6)
    /\ io_callback (h' 1%nat) = Some bluetooth_a2dp_playback.
Proof.
  cbv zeta.
  assert (Hok : forall j : nat, 0 <= 0) by (intros _; lia).
  destruct (@open_new_session bluez_ipc bluez_ipc_ext decimal_atoi
              (handle_accepts
                 (service_answers (ok_syscall 0)
                    (response_of [mpeg_sink_entry; sbc_sink_entry 0]
                       (remote_sink 2 53))))
              SND_PCM_STREAM_PLAYBACK
              [string_node "device" "00:11:22:33:44:55"]
              (heap_of []) [] 1%nat _ _
              eq_refl eq_refl eq_refl ltac:(by_computation)
              ltac:(by_computation) ltac:(by_computation)
              ltac:(by_computation) ltac:(by_computation)
              ltac:(by_computation) eq_refl
              ltac:(lazy; reflexivity) ltac:(by_computation) Hok)
    as (h' & Hopen & _ & Hd & Hp & _ & _ & Hcb).
  exists h'.
  split; [exact Hopen|].
  rewrite Hd.
  split; [reflexivity|]. split; [reflexivity|]. split; [reflexivity|].
  split; [exact Hp | exact Hcb].
Defined.

Lemma reopen_takes_parked_session_witness :
  let conf := [string_node "device" "00:11:22:33:44:55"] in
  let O := handle_accepts
             (service_answers (ok_syscall 0)
                (response_of [sbc_sink_entry 0] (remote_sink 2 53))) in
  (0 <= watcher (heap_of conf 1%nat)
   /\ ce_malloc threads_start = true
   /\ fst (ce_pthread_create threads_start) = 0
   /\ ce_pthread_detach threads_start = 0
   /\ @bluetooth_parse_config bluez_ipc bluez_ipc_ext decimal_atoi conf
      = (0, alsa_config (pd_data (heap_of conf 1%nat)))
   /\ 0 <= oe_create O
   /\ (forall j, 0 <= oe_alsa O j))
  /\ let '(ret, h1, l1, ev1) :=
       bluetooth_close threads_start 1%nat (heap_of conf) [2%nat] in
     ret = 0 /\ ev1 = []
     /\ exists h2,
          @snd_pcm_bluetooth_open bluez_ipc bluez_ipc_ext decimal_atoi O
            SND_PCM_STREAM_CAPTURE conf h1 l1
          = Some (0, Some 1%nat, h2, [2%nat],
                  [pthread_cond_signal 1%nat; snd_pcm_ioplug_create 1%nat])
          /\ io_callback (h2 1%nat) = Some bluetooth_a2dp_playback
          /\ pd_data (h2 1%nat) = pd_data (heap_of conf 1%nat).
Proof.
  cbv zeta.
  assert (Hw : 0 <= watcher (heap_of [string_node "device" "00:11:22:33:44:55"]
                               1%nat)) by by_computation.
  assert (Hp : @bluetooth_parse_config bluez_ipc bluez_ipc_ext decimal_atoi
                 [string_node "device" "00:11:22:33:44:55"]
               = (0, alsa_config
                       (pd_data (heap_of
                                   [string_node "device" "00:11:22:33:44:55"]
                                   1%nat))))
    by (vm_compute; reflexivity).
  assert (Hc : 0 <= 0) by lia.
  assert (Hok : forall j : nat, 0 <= 0) by (intros _; lia).
  split; [split; [exact Hw|]; split; [reflexivity|]; split; [reflexivity|];
          split; [reflexivity|]; split; [exact Hp|];
          split; [exact Hc | exact Hok]|].
  pose proof (@reopen_takes_parked_session bluez_ipc bluez_ipc_ext
                decimal_atoi threads_start
                (handle_accepts
                   (service_answers (ok_syscall 0)
                      (response_of [sbc_sink_entry 0] (remote_sink 2 53))))
                SND_PCM_STREAM_CAPTURE
                [string_node "device" "00:11:22:33:44:55"] 1%nat
                (heap_of [string_node "device" "00:11:22:33:44:55"])
                [2%nat] Hw eq_refl eq_refl eq_refl Hp Hc Hok) as H.
  destruct (bluetooth_close _ _ _ _) as [[[ret h1] l1] ev1].
  destruct H as (Hret & Hev & h2 & Hopen & Hcb & _ & Hd).
  split; [exact Hret|]. split; [exact Hev|].
  exists h2. split; [exact Hopen|]. split; [exact Hcb|].
  rewrite Hd. reflexivity.
Defined.
